(** * simcradarlib: the BUFR descriptor-table decoder and the ODIM polar-volume codec

    A shallow embedding of
      - [simcradarlib/io_utils/bufr_class.py]  (class [Bufr]),
      - [simcradarlib/io_utils/structure_class.py] (classes [StructBase],
        [StructVariable], [StructGrid], [StructProjection], [StructSource],
        [RadarProduct]),
      - [simcradarlib/odim/odim_utils.py]      (classes [OdimGroup], [OdimDset]),
      - [simcradarlib/odim/odim_operations.py] ([formatstr]),
      - [simcradarlib/odim/odim_pvol.py]       (class [OdimHierarchyPvol]),
    followed by the properties of these functions.

    Conventions of the embedding.
      - Python text is a [string] of 8-bit characters read as the code points
        0..255; [is_space] is [str.isspace] on that range.
      - Python floats and numpy float64 values are Rocq's primitive binary64
        floats; arithmetic on them is the IEEE arithmetic of the kernel.
      - A Python exception is a constructor of [exn]; a computation that may
        raise has a [result] type, and code that assigns variables inside
        [try] blocks runs in the state monad [M], whose state survives a
        raise exactly as Python's local variables do. *)

From Stdlib Require Import ZArith Floats String Ascii List Bool Lia.
From Stdlib Require OrderedTypeEx.
From stdpp Require Import base option list strings gmap pretty sorting.

Local Open Scope string_scope.
Local Open Scope Z_scope.

(* ===================================================================== *)
(** * Python primitives *)
(* ===================================================================== *)

Module Py.

(** The exceptions the modelled code can raise.  [PyException] is a bare
    [Exception(msg)]. *)
Inductive exn : Type :=
| IndexError | KeyError | ValueError | TypeError | AttributeError
| UnboundLocalError | OverflowError | AssertionError | UnicodeEncodeError
| UnicodeDecodeError | OSError
| PyException (msg : string).

Inductive result (A : Type) : Type :=
| Ok (a : A)
| Raise (e : exn).
Arguments Ok {A} a.
Arguments Raise {A} e.

Definition rbind {A B} (r : result A) (k : A -> result B) : result B :=
  match r with Ok a => k a | Raise e => Raise e end.

Definition is_raise {A} (r : result A) : Prop :=
  match r with Ok _ => False | Raise _ => True end.

Definition is_ok {A} (r : result A) : Prop :=
  match r with Ok _ => True | Raise _ => False end.

(** [except E1, E2, ...] clauses are predicates on exceptions. *)
Definition exn_eqb (a b : exn) : bool :=
  match a, b with
  | IndexError, IndexError | KeyError, KeyError | ValueError, ValueError
  | TypeError, TypeError | AttributeError, AttributeError
  | UnboundLocalError, UnboundLocalError | OverflowError, OverflowError
  | AssertionError, AssertionError
  | UnicodeEncodeError, UnicodeEncodeError => true
  | PyException m1, PyException m2 => String.eqb m1 m2
  | _, _ => false
  end.

(** The Unicode errors are subclasses of [ValueError]; [UnboundLocalError]
    is not a subclass of any exception the code names. *)
Definition isinstance (e cls : exn) : bool :=
  exn_eqb e cls ||
  match e, cls with
  | UnicodeEncodeError, ValueError | UnicodeDecodeError, ValueError => true
  | _, _ => false
  end.

(** [except (E1, E2, ...)]. *)
Definition catches (cls : list exn) (e : exn) : bool :=
  existsb (isinstance e) cls.

(** ** State that survives a raise *)

Definition M (S A : Type) : Type := S -> S * result A.

Definition ret {S A} (a : A) : M S A := fun s => (s, Ok a).
Definition raise {S A} (e : exn) : M S A := fun s => (s, Raise e).
Definition bind {S A B} (m : M S A) (k : A -> M S B) : M S B :=
  fun s => match m s with
           | (s', Ok a) => k a s'
           | (s', Raise e) => (s', Raise e)
           end.
Definition get {S} : M S S := fun s => (s, Ok s).
Definition put {S} (s : S) : M S unit := fun _ => (s, Ok tt).
Definition modify {S} (f : S -> S) : M S unit := fun s => (f s, Ok tt).
Definition lift {S A} (r : result A) : M S A := fun s => (s, r).

(** Reading a local variable or an attribute that may not have been
    assigned yet. *)
Definition read_var {S A} (proj : S -> option A) (e : exn) : M S A :=
  fun s => match proj s with Some a => (s, Ok a) | None => (s, Raise e) end.

(** The two monads use stdpp's notations [x ← m; k] and [m ;; k]. *)
#[global] Instance result_ret : MRet result := fun A a => Ok a.
#[global] Instance result_bind : MBind result := fun A B k r => rbind r k.
#[global] Instance M_ret {S} : MRet (M S) := fun A a => ret a.
#[global] Instance M_bind {S} : MBind (M S) := fun A B k m => bind m k.

(** [try: body except <handles>: handler]. *)
Definition try_except {S A} (body : M S A) (handles : exn -> bool)
           (handler : M S A) : M S A :=
  fun s => match body s with
           | (s', Raise e) => if handles e then handler s' else (s', Raise e)
           | r => r
           end.

(** [for x in xs: body x]. *)
Fixpoint for_each {S A} (xs : list A) (body : A -> M S unit) : M S unit :=
  match xs with
  | [] => ret tt
  | x :: xs' => bind (body x) (fun _ => for_each xs' body)
  end.

(** ** Sequences *)

(** [xs[i]] for a non-negative position. *)
Definition getitem {A} (xs : list A) (i : nat) : result A :=
  match xs !! i with Some x => Ok x | None => Raise IndexError end.

(** [enumerate(xs)]. *)
Definition enumerate {A} (xs : list A) : list (nat * A) :=
  combine (seq 0 (length xs)) xs.

(** [np.arange(1, n, 1)] and [range(n)] for an integer [n]. *)
Definition arange1 (n : Z) : list Z :=
  map (fun i => Z.of_nat i + 1) (seq 0 (Z.to_nat (n - 1))).
Definition range (n : Z) : list nat := seq 0 (Z.to_nat n).

(** ** Text *)

(** [str.isspace] on the code points 0..255: TAB, LF, VT, FF, CR, the four
    separators FS..US, SPACE, NEL and NBSP. *)
Definition is_space (c : ascii) : bool :=
  let n := nat_of_ascii c in
  ((9 <=? n) && (n <=? 13) || (28 <=? n) && (n <=? 32)
   || (n =? 133) || (n =? 160))%nat.

Fixpoint lstrip (s : string) : string :=
  match s with
  | String c s' => if is_space c then lstrip s' else s
  | EmptyString => EmptyString
  end.

Fixpoint rstrip (s : string) : string :=
  match s with
  | String c s' =>
      match rstrip s' with
      | EmptyString => if is_space c then EmptyString else String c EmptyString
      | r => String c r
      end
  | EmptyString => EmptyString
  end.

(** [s.strip()]. *)
Definition strip (s : string) : string := rstrip (lstrip s).

Fixpoint str_drop (n : nat) (s : string) : string :=
  match n, s with
  | O, _ => s
  | S n', String _ s' => str_drop n' s'
  | S _, EmptyString => EmptyString
  end.

Fixpoint str_take (n : nat) (s : string) : string :=
  match n, s with
  | S n', String c s' => String c (str_take n' s')
  | _, _ => EmptyString
  end.

(** [s[a:b]] and [s[a:]] for non-negative literal bounds; positions past
    the end are clamped, as Python does. *)
Definition slice (s : string) (a b : nat) : string :=
  str_take (b - a) (str_drop a s).
Definition slice_from (s : string) (a : nat) : string := str_drop a s.

(** ** Numbers *)

(** [int(x)] for a float [x]: truncation toward zero. *)
Definition py_int (x : float) : result Z :=
  match Prim2SF x with
  | S754_nan => Raise ValueError
  | S754_infinity _ => Raise OverflowError
  | S754_zero _ => Ok 0
  | S754_finite s m e =>
      let a := if 0 <=? e then Z.pos m * 2 ^ e else Z.pos m / 2 ^ (- e) in
      Ok (if s then - a else a)
  end.

(** [float(z)] for an integer: the nearest float, ties to even; an
    integer beyond the range gives an infinity, where Python raises
    [OverflowError]. *)
Definition float_of_Z (z : Z) : float :=
  SF2Prim (SpecFloat.binary_normalize 53 1024 z 0 false).

(** ** [float(s)] for a string

    The text is stripped of the white space [float] knows (TAB..CR, SPACE
    and, beyond ASCII, NEL and NBSP); an underscore may stand between two
    digits; what is left is a sign and [inf], [infinity] or [nan] in any
    case, or a decimal literal [digits[.digits]][e[+-]digits] with a digit
    in its mantissa.  The value is the float nearest to the decimal
    number, ties to even: an infinity beyond the range, a zero below
    it. *)
Definition digit_of (c : ascii) : option Z :=
  let n := nat_of_ascii c in
  if ((48 <=? n) && (n <=? 57))%nat then Some (Z.of_nat n - 48) else None.

Definition is_digit (c : ascii) : bool :=
  match digit_of c with Some _ => true | None => false end.

Definition is_float_space (c : ascii) : bool :=
  let n := nat_of_ascii c in
  ((9 <=? n) && (n <=? 13) || (n =? 32) || (n =? 133) || (n =? 160))%nat.

Fixpoint lstrip_float (s : list ascii) : list ascii :=
  match s with
  | c :: s' => if is_float_space c then lstrip_float s' else s
  | [] => []
  end.

Definition strip_float (s : list ascii) : list ascii :=
  rev (lstrip_float (rev (lstrip_float s))).

(** The text without its underscores; [None] when one of them does not
    stand between two digits.  [prev] is the character before. *)
Fixpoint drop_underscores (prev : option ascii) (s : list ascii)
  : option (list ascii) :=
  match s with
  | [] => match prev with
          | Some p => if Ascii.eqb p "_" then None else Some []
          | None => Some []
          end
  | c :: s' =>
      let after_digit := match prev with Some p => is_digit p | None => false end in
      let after_underscore :=
        match prev with Some p => Ascii.eqb p "_" | None => false end in
      if Ascii.eqb c "_" then
        if after_digit then drop_underscores (Some c) s' else None
      else if after_underscore && negb (is_digit c) then None
      else r ← drop_underscores (Some c) s'; Some (c :: r)
  end.

(** The leading digits of a text, and the rest. *)
Fixpoint take_digits (s : list ascii) : list Z * list ascii :=
  match s with
  | c :: s' =>
      match digit_of c with
      | Some d => let '(ds, r) := take_digits s' in (d :: ds, r)
      | None => ([], s)
      end
  | [] => ([], [])
  end.

Definition Z_of_digits (ds : list Z) : Z :=
  fold_left (fun acc d => 10 * acc + d) ds 0.

Definition lower (c : ascii) : ascii :=
  let n := nat_of_ascii c in
  if ((65 <=? n) && (n <=? 90))%nat then ascii_of_nat (n + 32) else c.

(** A decimal literal without sign: its digits as an integer [m] and the
    power of ten [e] that scales them. *)
Definition scan_number (s : list ascii) : option (Z * Z) :=
  let '(ip, r1) := take_digits s in
  let '(fp, r2) := match r1 with
                   | c :: r => if Ascii.eqb c "." then take_digits r else ([], r1)
                   | [] => ([], r1)
                   end in
  if (length ip + length fp =? 0)%nat then None
  else
    let m := Z_of_digits (ip ++ fp) in
    let scale := - Z.of_nat (length fp) in
    match r2 with
    | [] => Some (m, scale)
    | c :: r3 =>
        if Ascii.eqb (lower c) "e" then
          let '(neg, r4) :=
            match r3 with
            | c' :: r => if Ascii.eqb c' "-" then (true, r)
                         else if Ascii.eqb c' "+" then (false, r)
                         else (false, r3)
            | [] => (false, r3)
            end in
          match take_digits r4 with
          | (d :: ds, []) =>
              let e := Z_of_digits (d :: ds) in
              Some (m, scale + (if neg then - e else e))
          | _ => None
          end
        else None
    end.

(** The float nearest to [m * 10^e] for [0 < m].  A negative power of ten
    divides: the quotient is taken with some sixty-four bits, and one more
    bit records whether the division left a remainder, which is all that
    rounding to fifty-three bits needs of it. *)
Definition round_decimal (m e : Z) : float :=
  if 400 <? e then infinity
  else if e <? - 400 - (Z.log2 m + 1) then 0%float
  else if 0 <=? e then float_of_Z (m * 10 ^ e)
  else
    let den := 10 ^ (- e) in
    let s := Z.max 0 (64 + Z.log2 den - Z.log2 m) in
    let q := (m * 2 ^ s) / den in
    let sticky := if (m * 2 ^ s) mod den =? 0 then 0 else 1 in
    SF2Prim (SpecFloat.binary_normalize 53 1024 (2 * q + sticky) (- s - 1) false).

Definition parse_decimal (s : string) : option float :=
  text ← drop_underscores None (strip_float (list_ascii_of_string s));
  let '(neg, body) :=
    match text with
    | c :: r => if Ascii.eqb c "-" then (true, r)
                else if Ascii.eqb c "+" then (false, r) else (false, text)
    | [] => (false, text)
    end in
  let word := string_of_list_ascii (map lower body) in
  if String.eqb word "inf" || String.eqb word "infinity"
  then Some (if neg then neg_infinity else infinity)
  else if String.eqb word "nan" then Some nan
  else
    '(m, e) ← scan_number body;
    let x := if m =? 0 then 0%float else round_decimal m e in
    Some (if neg then PrimFloat.opp x else x).

(** ** Calendar: [datetime.datetime(year, month, day, hour, minute)] *)

Record datetime : Type := mk_datetime
  { dt_year : Z; dt_month : Z; dt_day : Z; dt_hour : Z; dt_minute : Z }.

Definition is_leap (y : Z) : bool :=
  (y mod 4 =? 0) && (negb (y mod 100 =? 0) || (y mod 400 =? 0)).

Definition days_in_month (y m : Z) : Z :=
  if m =? 2 then (if is_leap y then 29 else 28)
  else if (m =? 4) || (m =? 6) || (m =? 9) || (m =? 11) then 30 else 31.

Definition fits_c_int (z : Z) : bool := (- 2 ^ 31 <=? z) && (z <? 2 ^ 31).

(** The constructor raises [OverflowError] for an argument that is no C
    [int], and [ValueError] for a field out of range. *)
Definition datetime_new (y mo d h mi : Z) : result datetime :=
  if negb (forallb fits_c_int [y; mo; d; h; mi]) then Raise OverflowError
  else if (1 <=? y) && (y <=? 9999) && (1 <=? mo) && (mo <=? 12)
          && (1 <=? d) && (d <=? days_in_month y mo)
          && (0 <=? h) && (h <=? 23) && (0 <=? mi) && (mi <=? 59)
       then Ok (mk_datetime y mo d h mi)
       else Raise ValueError.

(** ** More text *)

(** [pat in s] for strings. *)
Fixpoint is_infix (pat s : string) : bool :=
  String.prefix pat s ||
  match s with
  | String _ s' => is_infix pat s'
  | EmptyString => false
  end.

(** [s.split(sep)] for a one-character separator. *)
Fixpoint split_on (sep : ascii) (s : string) : list string :=
  match s with
  | EmptyString => [EmptyString]
  | String c s' =>
      if Ascii.eqb c sep then EmptyString :: split_on sep s'
      else match split_on sep s' with
           | h :: t => String c h :: t
           | [] => [String c EmptyString]
           end
  end.

Definition is_ascii (s : string) : bool :=
  forallb (fun c => (nat_of_ascii c <? 128)%nat) (list_ascii_of_string s).

(** The bytes of a fixed-length string without the NUL bytes at its end,
    which are its padding: what numpy gives for such a string. *)
Fixpoint rstrip_nul (s : string) : string :=
  match s with
  | String c s' =>
      match rstrip_nul s' with
      | EmptyString => if Ascii.eqb c Ascii.zero then EmptyString
                       else String c EmptyString
      | r => String c r
      end
  | EmptyString => EmptyString
  end.

Definition has_nul (s : string) : bool :=
  existsb (fun c => Ascii.eqb c Ascii.zero) (list_ascii_of_string s).

(** ** numpy arrays of rank one and two; every row of a [D2] has the same
    length. *)
Inductive ndarray : Type :=
| D1 (xs : list float)
| D2 (xss : list (list float)).

Definition shape (a : ndarray) : list nat :=
  match a with
  | D1 xs => [length xs]
  | D2 xss => [length xss; length (List.hd [] xss)]
  end.

Definition nd_map (f : float -> float) (a : ndarray) : ndarray :=
  match a with
  | D1 xs => D1 (map f xs)
  | D2 xss => D2 (map (map f) xss)
  end.

(** The binary32 value nearest to a float (ties to even): what a store
    with [dtype=np.float32] keeps of it. *)
Definition to_f32 (x : float) : float :=
  match Prim2SF x with
  | S754_finite s m e => SF2Prim (SpecFloat.binary_round 24 128 s m e)
  | _ => x
  end.

(** ** Dynamically typed values: what an attribute of an instance, or of
    a group of the store, can hold. *)
Inductive pyval : Type :=
| PNone
| PStr (s : string)
| PBytes (itemsize : nat) (s : string)
| PInt (z : Z)
| PFloat (x : float)
| PArray (a : ndarray).

(** [np.bytes_(s)] on a [str]: the ASCII encoding. *)
Definition np_bytes (s : string) : result pyval :=
  if is_ascii s then Ok (PBytes (String.length s) s)
  else Raise UnicodeEncodeError.

(** [b.decode()]: UTF-8, which is the identity on ASCII.  Bytes beyond
    ASCII are not decoded by the model. *)
Definition decode (s : string) : result string :=
  if is_ascii s then Ok s else Raise UnicodeDecodeError.

(** The order of an integer and a float, exactly; [None] for NaN. *)
Definition compare_Z_float (z : Z) (x : float) : option comparison :=
  match Prim2SF x with
  | S754_nan => None
  | S754_infinity s => Some (if s then Gt else Lt)
  | S754_zero _ => Some (z ?= 0)
  | S754_finite s m e =>
      let v := if s then Z.neg m else Z.pos m in
      Some (if 0 <=? e then z ?= v * 2 ^ e else z * 2 ^ (- e) ?= v)
  end.

(** [a == b] and [a > b] as a truth value.  A comparison with an array
    yields an array, whose truth value Python refuses. *)
Definition py_eq (a b : pyval) : result bool :=
  match a, b with
  | PArray _, _ | _, PArray _ => Raise ValueError
  | PNone, PNone => Ok true
  | PStr s, PStr t => Ok (String.eqb s t)
  | PBytes _ s, PBytes _ t => Ok (String.eqb s t)
  | PInt y, PInt z => Ok (y =? z)
  | PFloat x, PFloat y => Ok (PrimFloat.eqb x y)
  | PInt z, PFloat x | PFloat x, PInt z =>
      Ok (bool_decide (compare_Z_float z x = Some Eq))
  | _, _ => Ok false
  end.

Definition py_gt (a b : pyval) : result bool :=
  match a, b with
  | PArray _, _ | _, PArray _ => Raise ValueError
  | PStr s, PStr t => Ok (String.ltb t s)
  | PBytes _ s, PBytes _ t => Ok (String.ltb t s)
  | PInt y, PInt z => Ok (z <? y)
  | PFloat x, PFloat y => Ok (PrimFloat.ltb y x)
  | PInt z, PFloat x => Ok (bool_decide (compare_Z_float z x = Some Gt))
  | PFloat x, PInt z => Ok (bool_decide (compare_Z_float z x = Some Lt))
  | _, _ => Raise TypeError
  end.

(** [max(xs)]. *)
Fixpoint max_from (m : pyval) (xs : list pyval) : result pyval :=
  match xs with
  | [] => Ok m
  | x :: xs' => py_gt x m ≫= λ b : bool, max_from (if b then x else m) xs'
  end.
Definition py_max (xs : list pyval) : result pyval :=
  match xs with
  | [] => Raise ValueError
  | x :: xs' => max_from x xs'
  end.

(** [x in xs], [xs.index(x)] and [xs.remove(x)]. *)
Fixpoint py_in (x : pyval) (xs : list pyval) : result bool :=
  match xs with
  | [] => Ok false
  | y :: xs' => py_eq y x ≫= λ b : bool, if b then Ok true else py_in x xs'
  end.

Fixpoint py_index (xs : list pyval) (x : pyval) : result nat :=
  match xs with
  | [] => Raise ValueError
  | y :: xs' =>
      py_eq y x ≫= λ b : bool, if b then Ok O else i ← py_index xs' x; Ok (S i)
  end.

Fixpoint py_remove (xs : list pyval) (x : pyval) : result (list pyval) :=
  match xs with
  | [] => Raise ValueError
  | y :: xs' =>
      py_eq y x ≫= λ b : bool,
        if b then Ok xs' else r ← py_remove xs' x; Ok (y :: r)
  end.

(** A number as the scalar operand of an array expression.  An array
    operand would broadcast; the coefficients modelled are scalars. *)
Definition as_scalar (v : pyval) : result float :=
  match v with
  | PFloat x => Ok x
  | PInt z => match Prim2SF (float_of_Z z) with
              | S754_infinity _ => Raise OverflowError
              | _ => Ok (float_of_Z z)
              end
  | _ => Raise TypeError
  end.

End Py.

Export Py.

(* ===================================================================== *)
(** * BUFR: one line of the metadata file                                *)
(* ===================================================================== *)

Module Bufr.

(** [Bufr._check_emptyfield]. *)
Definition _check_emptyfield (substring : string) : option string :=
  if String.eqb substring "" then None else Some substring.

(** [Bufr.get_octect]: the eight components
    [[f_, x_, y_, value, id5, id6, id7, descriptor]]. *)
Definition get_octect (line : string) : list (option string) :=
  let f_ := strip (slice line 0 2) in
  let x_ := strip (slice line 2 5) in
  let y_ := strip (slice line 5 9) in
  let '(value, id5, id6, id7, descriptor) :=
    if String.eqb f_ "3" && String.eqb x_ "21" && String.eqb y_ "193" then
      (strip (slice_from line 9), "", "", "", "namefile")
    else
      (strip (slice line 9 23), strip (slice line 23 27),
       strip (slice line 27 32), strip (slice line 32 35),
       strip (slice_from line 35)) in
  let octect := [f_; x_; y_; value; id5; id6; id7; descriptor] in
  map _check_emptyfield octect.

(** The layout of §4.4 of the specification, written from its words.
    [columns line a b c]: [c] is the text of the columns [a, b) of the
    line, character by character; a column past the end of the line holds
    nothing. *)
Definition columns (line : string) (a b : nat) (c : string) : Prop :=
  forall i, String.get i c
            = if (i <? b - a)%nat then String.get (a + i) line else None.

(** The columns from [a] to the end of the line. *)
Definition columns_from (line : string) (a : nat) (c : string) : Prop :=
  forall i, String.get i c = String.get (a + i) line.

Definition blank (s : string) : Prop :=
  forall i ch, String.get i s = Some ch -> is_space ch = true.

(** [t] is [c] trimmed of the white space around it: [c] is [t] between
    two runs of white space, and [t] neither starts nor ends with white
    space. *)
Definition trimmed (t c : string) : Prop :=
  (exists pre post, c = pre ++ t ++ post /\ blank pre /\ blank post)
  /\ (forall ch, String.get 0 t = Some ch -> is_space ch = false)
  /\ (forall ch, String.get (String.length t - 1) t = Some ch ->
                 is_space ch = false).

(** A text that trims to empty is unset. *)
Definition unset_if_empty (t : string) : option string :=
  if String.eqb t "" then None else Some t.

(** The trimmed text of the columns [a, b), and of the columns from [a]. *)
Definition cut (line : string) (a b : nat) (t : string) : Prop :=
  exists c, columns line a b c /\ trimmed t c.
Definition cut_from (line : string) (a : nat) (t : string) : Prop :=
  exists c, columns_from line a c /\ trimmed t c.

(** ** The descriptor table *)

(** A row of the [pandas.DataFrame] with columns
    [["F", "X", "Y", "value", "id5", "id6", "id7", "descriptor"]]. *)
Record row : Type := mk_row
  { F : option string; X : option string; Y : option string;
    value : option string;
    id5 : option string; id6 : option string; id7 : option string;
    descriptor : option string }.

(** [pd.DataFrame(dfb, columns=[...])]: every entry of [dfb] must have the
    eight columns. *)
Fixpoint DataFrame (dfb : list (list (option string))) : result (list row) :=
  match dfb with
  | [] => Ok []
  | [f; x; y; v; a; b; c; d] :: rest =>
      rows ← DataFrame rest; Ok (mk_row f x y v a b c d :: rows)
  | _ :: _ => Raise ValueError
  end.

(** [Bufr.read_meta]; [file] is the list of lines of the file named
    [fname_meta], or [None] when it cannot be opened. *)
Definition read_meta (file : option (list string)) : result (list row) :=
  match file with
  | None => Raise OSError
  | Some lines => DataFrame (map get_octect lines)
  end.

(** [(meta.F == f) & (meta.X == x) & (meta.Y == y)]. *)
Definition fxy (f x y : string) (r : row) : bool :=
  bool_decide (F r = Some f) && bool_decide (X r = Some x)
  && bool_decide (Y r = Some y).

(** [meta.loc[mask].index.values]: the positions of the rows selected. *)
Definition loc_index (mask : row -> bool) (meta : list row) : list nat :=
  map fst (filter (fun ir => mask (snd ir) = true) (enumerate meta)).

(** [meta.iloc[i]]. *)
Definition iloc (meta : list row) (i : nat) : result row := getitem meta i.

(** [subdf.F is None and subdf.X is None and subdf.Y is None]. *)
Definition no_fxy (r : row) : bool :=
  bool_decide (F r = None) && bool_decide (X r = None)
  && bool_decide (Y r = None).

(** The variable classes of [rad_var_class] that the decoder selects, with
    their [name] and [missing] attributes. *)
Inductive variable : Type := StructVariable | VarZ | VarPrmm | VarCumPrmm.

Definition var_name (v : variable) : option string :=
  match v with
  | StructVariable => None
  | VarZ => Some "Z"
  | VarPrmm => Some "pr_mm"
  | VarCumPrmm => Some "cum_pr_mm"
  end.

Definition var_missing (v : variable) : option float :=
  match v with
  | StructVariable => None
  | VarZ => Some (-70)%float
  | VarPrmm | VarCumPrmm => Some (-1)%float
  end.

(** [StructSource]: [emission_center] is a class attribute, [None] until
    [addparams] sets it. *)
Record StructSource : Type := mk_source
  { name_source : option string; name_file : option string;
    emission_center : option string }.

(** [StructTime]. *)
Record StructTime : Type := mk_time
  { date_time_validita : option datetime; acc_time : option Z;
    acc_time_unit : option string }.

(** [StructGrid], as far as [read_bufr] reads it: [nx] and [ny] are set by
    [addparams] and are absent when their marker rows are. *)
Record StructGrid : Type := mk_grid { nx : option Z; ny : option Z }.

Section Decoder.

(** [float(s)] on a string is the one part of Python taken as a parameter:
    [None] stands for the [ValueError] of a string that is no number. *)
Variable float_of_str : string -> option float.

(** [float(v)] for a cell of the table. *)
Definition py_float (v : option string) : result float :=
  match v with
  | None => Raise TypeError
  | Some s => match float_of_str s with
              | Some x => Ok x
              | None => Raise ValueError
              end
  end.

(** [int(float(v))]. *)
Definition int_float (v : option string) : result Z :=
  x ← py_float v; py_int x.

(** *** [Bufr.get_datetime_from_meta] *)

Record dt_locals : Type := mk_dt_locals
  { l_year : Z; l_month : Z; l_day : Z; l_hour : Z; l_minutes : Z;
    l_index_year : option nat; l_index_hour : option nat;
    l_dt : option (option datetime) }.

Definition dt_locals0 : dt_locals :=
  mk_dt_locals (-99) (-99) (-99) (-99) (-99) None None None.

Definition set_year (v : Z) (l : dt_locals) : dt_locals :=
  mk_dt_locals v (l_month l) (l_day l) (l_hour l) (l_minutes l)
               (l_index_year l) (l_index_hour l) (l_dt l).
Definition set_month (v : Z) (l : dt_locals) : dt_locals :=
  mk_dt_locals (l_year l) v (l_day l) (l_hour l) (l_minutes l)
               (l_index_year l) (l_index_hour l) (l_dt l).
Definition set_day (v : Z) (l : dt_locals) : dt_locals :=
  mk_dt_locals (l_year l) (l_month l) v (l_hour l) (l_minutes l)
               (l_index_year l) (l_index_hour l) (l_dt l).
Definition set_hour (v : Z) (l : dt_locals) : dt_locals :=
  mk_dt_locals (l_year l) (l_month l) (l_day l) v (l_minutes l)
               (l_index_year l) (l_index_hour l) (l_dt l).
Definition set_minutes (v : Z) (l : dt_locals) : dt_locals :=
  mk_dt_locals (l_year l) (l_month l) (l_day l) (l_hour l) v
               (l_index_year l) (l_index_hour l) (l_dt l).
Definition set_index_year (v : nat) (l : dt_locals) : dt_locals :=
  mk_dt_locals (l_year l) (l_month l) (l_day l) (l_hour l) (l_minutes l)
               (Some v) (l_index_hour l) (l_dt l).
Definition set_index_hour (v : nat) (l : dt_locals) : dt_locals :=
  mk_dt_locals (l_year l) (l_month l) (l_day l) (l_hour l) (l_minutes l)
               (l_index_year l) (Some v) (l_dt l).
Definition set_dt (v : option datetime) (l : dt_locals) : dt_locals :=
  mk_dt_locals (l_year l) (l_month l) (l_day l) (l_hour l) (l_minutes l)
               (l_index_year l) (l_index_hour l) (Some v).

(** [v if v != -99.0 else 0]. *)
Definition unless_99 (v : Z) : Z := if v =? -99 then 0 else v.

(** The four [try] blocks, in order. *)
Definition try_year (meta : list row) : M dt_locals unit :=
  try_except
    (index_year ← lift (getitem (loc_index (fxy "3" "1" "11") meta) 0);
     modify (set_index_year index_year);;
     r ← lift (iloc meta index_year);
     y ← lift (int_float (value r));
     modify (set_year y))
    (catches [IndexError]) (ret tt).

Definition try_month_day (meta : list row) : M dt_locals unit :=
  try_except
    (index_year ← read_var l_index_year UnboundLocalError;
     subdf ← lift (iloc meta (index_year + 1));
     (if no_fxy subdf
      then m ← lift (int_float (value subdf)); modify (set_month m)
      else ret tt);;
     index_year ← read_var l_index_year UnboundLocalError;
     subdf ← lift (iloc meta (index_year + 2));
     (if no_fxy subdf
      then d ← lift (int_float (value subdf)); modify (set_day d)
      else ret tt))
    (catches [IndexError]) (ret tt).

Definition try_hour_minutes (meta : list row) : M dt_locals unit :=
  try_except
    (index_hour ← lift (getitem (loc_index (fxy "3" "1" "12") meta) 0);
     modify (set_index_hour index_hour);;
     r ← lift (iloc meta index_hour);
     h ← lift (int_float (value r));
     modify (set_hour h);;
     subdf ← lift (iloc meta (index_hour + 1));
     (if no_fxy subdf
      then m ← lift (int_float (value subdf)); modify (set_minutes m)
      else ret tt))
    (catches [IndexError]) (ret tt).

Definition try_build (meta : list row) : M dt_locals unit :=
  try_except
    (modify (fun l => set_year (unless_99 (l_year l)) l);;
     modify (fun l => set_month (unless_99 (l_month l)) l);;
     modify (fun l => set_day (unless_99 (l_day l)) l);;
     modify (fun l => set_hour (unless_99 (l_hour l)) l);;
     modify (fun l => set_minutes (unless_99 (l_minutes l)) l);;
     l ← get;
     dt ← lift (datetime_new (l_year l) (l_month l) (l_day l)
                             (l_hour l) (l_minutes l));
     modify (set_dt (Some dt)))
    (catches [ValueError]) (modify (set_dt None)).

Definition get_datetime_from_meta (meta : list row)
  : result (option datetime) :=
  snd ((try_year meta;; try_month_day meta;; try_hour_minutes meta;;
        try_build meta;; read_var l_dt UnboundLocalError) dt_locals0).

(** *** [Bufr.get_acc_time_from_meta]; the state is the local [acc_time]. *)
Definition get_acc_time_from_meta (meta : list row) : result Z :=
  let index_timesignificance := loc_index (fxy "0" "8" "21") meta in
  let duration (y : string) (scale : float -> float) : M Z unit :=
    try_except
      (ind_t ← lift (getitem (loc_index (fxy "0" "4" y) meta) 0);
       r ← lift (iloc meta ind_t);
       x ← lift (py_float (value r));
       n ← lift (py_int (scale x));
       modify (fun acc_time => acc_time - n))
      (catches [IndexError; KeyError; TypeError]) (ret tt) in
  let body : M Z unit :=
    match index_timesignificance with
    | [] => ret tt
    | i :: _ =>
        r ← lift (iloc meta i);
        x ← lift (py_float (value r));
        if PrimFloat.eqb x 3
        then duration "23" (fun x => 24 * x)%float;;
             duration "24" (fun x => x)
        else ret tt
    end in
  match body 0 with
  | (acc_time, Ok _) => Ok acc_time
  | (_, Raise e) => Raise e
  end.

(** *** [Bufr.get_var_levs_from_meta] *)

(** The field-kind marker: the variable class and the position [index_]. *)
Definition select_variable (meta : list row) : result (variable * nat) :=
  let index_z := loc_index (fxy "3" "13" "9") meta in
  let index_rr := loc_index (fxy "3" "13" "10") meta in
  let index_cum := loc_index (fxy "3" "13" "11") meta in
  let index_cum2 := loc_index (fxy "0" "13" "11") meta in
  if (0 <? length index_z)%nat then
    index_ ← getitem index_z 0; Ok (VarZ, index_)
  else if (0 <? length index_rr)%nat then
    index_ ← getitem index_rr 0; Ok (VarPrmm, index_)
  else if (0 <? length index_cum)%nat || (0 <? length index_cum2)%nat then
    match getitem index_cum 0 with
    | Ok index_ => Ok (VarCumPrmm, index_)
    | Raise e =>
        if catches [IndexError] e
        then index_ ← getitem index_cum2 0; Ok (VarCumPrmm, index_)
        else Raise e
    end
  else Raise (PyException "Non ho capito cosa contiene il bufr. Esco").

(** [meta.iloc[ind_levs].value.values]: every position must exist. *)
Fixpoint iloc_values (meta : list row) (ind : list nat)
  : result (list (option string)) :=
  match ind with
  | [] => Ok []
  | i :: ind' => r ← iloc meta i; vs ← iloc_values meta ind'; Ok (value r :: vs)
  end.

(** [levels.astype(float)] on an object array: [None] becomes NaN, a string
    goes through [float]. *)
Fixpoint astype_float (levels : list (option string)) : result (list float) :=
  match levels with
  | [] => Ok []
  | None :: ls => xs ← astype_float ls; Ok (nan :: xs)
  | Some s :: ls =>
      match float_of_str s with
      | Some x => xs ← astype_float ls; Ok (x :: xs)
      | None => Raise ValueError
      end
  end.

(** [levels[1:] = np.array(vals)]: the shapes must agree, or [vals] has one
    element, which numpy broadcasts. *)
Definition assign_tail (levels vals : list float) : result (list float) :=
  let n1 := length (tail levels) in
  if (length vals =? n1)%nat then Ok (firstn 1 levels ++ vals)%list
  else match vals with
       | [v] => Ok (firstn 1 levels ++ repeat v n1)%list
       | _ => Raise ValueError
       end.

(** [levels[0] = v]. *)
Definition setitem0 (levels : list float) (v : float) : result (list float) :=
  match levels with
  | [] => Raise IndexError
  | _ :: t => Ok (v :: t)
  end.

(** [[np.mean(levels[i: i + 2]) for i in range(len(levels) - 1)]]. *)
Fixpoint midpoints (levels : list float) : list float :=
  match levels with
  | a :: (b :: _) as t => ((a + b) / 2)%float :: midpoints t
  | _ => []
  end.

(** Lines 839-852: the first level is forced to the lower bound, then the
    array is rebuilt according to [fill_method]. *)
Definition reconstruct_levels (levels : list float) (low_bounds : float)
           (fill_method : string) : result (list float) :=
  levels ← assign_tail levels (List.filter (fun l => low_bounds <? l)%float levels);
  levels ← setitem0 levels low_bounds;
  if String.eqb fill_method "min" then assign_tail levels (removelast levels)
  else if String.eqb fill_method "ave" then assign_tail levels (midpoints levels)
  else if String.eqb fill_method "max" then Ok levels
  else Raise (PyException "Parametro fill_method passato in modo scorretto. Esco").

(** Lines 821-837: the lower bound and the levels as read from the table. *)
Definition read_levels (meta : list row) (source : option StructSource)
           (struct_var : variable) (index_ : nat) : result (float * list float) :=
  r ← iloc meta index_;
  low_bounds ← py_float (value r);
  source ← match source with Some s => Ok s | None => Raise AttributeError end;
  let low_bounds :=
    if bool_decide (emission_center source = Some "DPC")
       && bool_decide (var_name struct_var = Some "Z")
       && PrimFloat.eqb low_bounds 0
    then (-31)%float else low_bounds in
  r1 ← iloc meta (index_ + 1);
  let index_ := if fxy "1" "1" "0" r1 then (index_ + 1)%nat else index_ in
  r2 ← iloc meta (index_ + 1);
  n ← int_float (value r2);
  let nlev := Z.max 0 n in
  let ind_levs := index_ :: seq (index_ + 2) (Z.to_nat nlev) in
  levels ← iloc_values meta ind_levs;
  let levels := List.filter (fun v => negb (bool_decide (v = Some "missing"))) levels in
  levels ← astype_float levels;
  Ok (low_bounds, levels).

Definition get_var_levs_from_meta (meta : option (list row))
           (source : option StructSource) (fill_method : string)
  : result (variable * list float) :=
  meta ← match meta with Some m => Ok m | None => Raise AttributeError end;
  '(struct_var, index_) ← select_variable meta;
  '(low_bounds, levels) ← read_levels meta source struct_var index_;
  levels ← reconstruct_levels levels low_bounds fill_method;
  Ok (struct_var, levels).

(** *** [Bufr.read_bufr] *)

(** The product and projection records, and the three extractors that
    build them and the grid, are not unfolded: [read_bufr] only stores and
    returns what they produce. *)
Variable RadarProduct : Type.
Variable StructProjection : Type.
Variable get_source_product_from_meta : list row -> StructSource * RadarProduct.
Variable get_projection_from_meta :
  list row -> StructSource -> result StructProjection.
Variable get_grid_from_meta :
  list row -> StructProjection -> result StructGrid.

(** The attributes of a [Bufr] instance; [None] is an attribute that was
    never assigned, and [levels = Some None] is Python's [None]. *)
Record bufr_self : Type := mk_self
  { meta : option (list row);
    time : option StructTime;
    source : option StructSource;
    product : option RadarProduct;
    projection : option StructProjection;
    grid : option StructGrid;
    variabile : option variable;
    levels : option (option (list float)) }.

Definition fresh_self : bufr_self :=
  mk_self None None None None None None None None.

(** The locals of [read_bufr] that are assigned inside [try] blocks or
    under a condition. *)
Record rb_locals : Type := mk_rb_locals
  { lines_rb : option (list Z);
    cont : option (list (list Z));
    out_field : option (list (list float)) }.

Definition rb_state : Type := bufr_self * rb_locals.

Definition upd_self (f : bufr_self -> bufr_self) : M rb_state unit :=
  modify (fun st => (f (fst st), snd st)).
Definition upd_locals (f : rb_locals -> rb_locals) : M rb_state unit :=
  modify (fun st => (fst st, f (snd st))).
Definition attr {A} (proj : bufr_self -> option A) : M rb_state A :=
  read_var (fun st => proj (fst st)) AttributeError.
Definition local {A} (proj : rb_locals -> option A) : M rb_state A :=
  read_var (fun st => proj (snd st)) UnboundLocalError.

Definition set_meta v (s : bufr_self) :=
  mk_self (Some v) (time s) (source s) (product s) (projection s) (grid s)
          (variabile s) (levels s).
Definition set_time v (s : bufr_self) :=
  mk_self (meta s) (Some v) (source s) (product s) (projection s) (grid s)
          (variabile s) (levels s).
Definition set_source v (s : bufr_self) :=
  mk_self (meta s) (time s) (Some v) (product s) (projection s) (grid s)
          (variabile s) (levels s).
Definition set_product v (s : bufr_self) :=
  mk_self (meta s) (time s) (source s) (Some v) (projection s) (grid s)
          (variabile s) (levels s).
Definition set_projection v (s : bufr_self) :=
  mk_self (meta s) (time s) (source s) (product s) (Some v) (grid s)
          (variabile s) (levels s).
Definition set_grid v (s : bufr_self) :=
  mk_self (meta s) (time s) (source s) (product s) (projection s) (Some v)
          (variabile s) (levels s).
Definition set_variabile v (s : bufr_self) :=
  mk_self (meta s) (time s) (source s) (product s) (projection s) (grid s)
          (Some v) (levels s).
Definition set_levels v (s : bufr_self) :=
  mk_self (meta s) (time s) (source s) (product s) (projection s) (grid s)
          (variabile s) (Some v).

(** [np.array(xs).reshape((ny, nx))]; one dimension may be [-1]. *)
Fixpoint chunks (rows width : nat) (xs : list Z) : list (list Z) :=
  match rows with
  | O => []
  | S k => firstn width xs :: chunks k width (skipn width xs)
  end.

Definition reshape (xs : list Z) (ny nx : Z) : result (list (list Z)) :=
  let n := Z.of_nat (length xs) in
  if (0 <=? ny) && (0 <=? nx) then
    if ny * nx =? n then Ok (chunks (Z.to_nat ny) (Z.to_nat nx) xs)
    else Raise ValueError
  else if (ny =? -1) && (0 <? nx) && (n mod nx =? 0) then
    Ok (chunks (Z.to_nat (n / nx)) (Z.to_nat nx) xs)
  else if (nx =? -1) && (0 <? ny) && (n mod ny =? 0) then
    Ok (chunks (Z.to_nat ny) (Z.to_nat (n / ny)) xs)
  else Raise ValueError.

(** [np.ones(shape=(ny, nx)) * missing]. *)
Definition ones_times (ny nx : Z) (missing : float) : result (list (list float)) :=
  if (0 <=? ny) && (0 <=? nx)
  then Ok (repeat (repeat (1 * missing)%float (Z.to_nat nx)) (Z.to_nat ny))
  else Raise ValueError.

(** [out_field[cont == idl] = lev]. *)
Definition fill_level (cont : list (list Z)) (idl : nat) (lev : float)
           (out_field : list (list float)) : list (list float) :=
  zip_with (zip_with (fun c o => if c =? Z.of_nat idl then lev else o))
           cont out_field.

(** The dictionary returned as [macro]. *)
Record macro : Type := mk_macro
  { TIME : StructTime; GRID : StructGrid; SOURCE : StructSource;
    PRODUCT : RadarProduct; VARIABILE : variable;
    PROJECTION : StructProjection }.

(** The block under [if self.meta.__len__() > 0]. *)
Definition read_metadata (fill_method : string) : M rb_state unit :=
  try_except
    (m ← attr meta;
     dt ← lift (get_datetime_from_meta m);
     t ← attr time;
     upd_self (set_time (mk_time dt (acc_time t) (acc_time_unit t)));;
     m ← attr meta;
     a ← lift (get_acc_time_from_meta m);
     t ← attr time;
     upd_self (set_time (mk_time (date_time_validita t) (Some a) (acc_time_unit t)));;
     t ← attr time;
     upd_self (set_time (mk_time (date_time_validita t) (acc_time t) (Some "hours"))))
    (fun _ => true) (ret tt);;
  m ← attr meta;
  upd_self (set_source (fst (get_source_product_from_meta m)));;
  upd_self (set_product (snd (get_source_product_from_meta m)));;
  m ← attr meta;
  src ← attr source;
  p ← lift (get_projection_from_meta m src);
  upd_self (set_projection p);;
  m ← attr meta;
  p ← attr projection;
  g ← lift (get_grid_from_meta m p);
  upd_self (set_grid g);;
  st ← get;
  vl ← lift (get_var_levs_from_meta (meta (fst st)) (source (fst st)) fill_method);
  upd_self (set_variabile (fst vl));;
  upd_self (set_levels (Some (snd vl))).

(** The block under [if self.levels is not None]. *)
Definition read_data (data_file : option (list Z)) (levs : list float)
  : M rb_state unit :=
  try_except
    (bytes ← lift (match data_file with
                   | Some b => Ok b
                   | None => Raise OSError
                   end);
     upd_locals (fun l => mk_rb_locals (Some bytes) (cont l) (out_field l)))
    (fun _ => true) (ret tt);;
  try_except
    (xs ← local lines_rb;
     g ← attr grid;
     gy ← lift (match ny g with Some v => Ok v | None => Raise AttributeError end);
     g ← attr grid;
     gx ← lift (match nx g with Some v => Ok v | None => Raise AttributeError end);
     c ← lift (reshape xs gy gx);
     upd_locals (fun l => mk_rb_locals (lines_rb l) (Some c) (out_field l)))
    (catches [ValueError; AttributeError]) (ret tt);;
  let ind_lev_idl := seq 0 (length levs) in
  g ← attr grid;
  gy ← lift (match ny g with Some v => Ok v | None => Raise AttributeError end);
  g ← attr grid;
  gx ← lift (match nx g with Some v => Ok v | None => Raise AttributeError end);
  v ← attr variabile;
  missing ← lift (match var_missing v with
                  | Some x => Ok x
                  | None => Raise TypeError
                  end);
  o ← lift (ones_times gy gx missing);
  upd_locals (fun l => mk_rb_locals (lines_rb l) (cont l) (Some o));;
  for_each ind_lev_idl
    (fun idl =>
       c ← local cont;
       ls ← attr levels;
       lev ← lift (match ls with
                   | Some ls => getitem ls idl
                   | None => Raise TypeError
                   end);
       upd_locals (fun l => mk_rb_locals (lines_rb l) (cont l)
                              (fill_level c idl lev <$> out_field l))).

Definition read_bufr (data_file : option (list Z))
           (meta_file : option (list string)) (fill_method : string)
  : M rb_state (macro * list (list float)) :=
  let df_meta := match read_meta meta_file with
                 | Ok df => df
                 | Raise _ => []
                 end in
  upd_self (set_meta df_meta);;
  upd_self (set_time (mk_time None None None));;
  m ← attr meta;
  (if (0 <? length m)%nat then read_metadata fill_method
   else upd_self (set_levels None));;
  ls ← attr levels;
  match ls with
  | Some levs => read_data data_file levs
  | None => ret tt
  end;;
  t ← attr time;
  g ← attr grid;
  s ← attr source;
  p ← attr product;
  v ← attr variabile;
  pr ← attr projection;
  o ← local out_field;
  ret (mk_macro t g s p v pr, o).

End Decoder.

End Bufr.

(* ===================================================================== *)
(** * The hierarchical store (h5py)                                      *)
(* ===================================================================== *)

Module H5.

(** A name such as ["dataset1/data1/what"] is the list of its components. *)
Definition path : Type := list string.

Definition split_path (name : string) : path :=
  List.filter (fun c => negb (String.eqb c "")) (split_on "/" name).

(** What an attribute of the store holds: a fixed-length byte string of a
    given width, a variable-length string, a number or an array. *)
Inductive h5attr : Type :=
| HBytes (width : nat) (s : string)
| HStr (s : string)
| HInt (z : Z)
| HFloat (x : float)
| HArr (a : ndarray).

(** The file is the journal of the writes made to it, the newest first;
    its groups, datasets and attributes are read off the journal. *)
Inductive h5op : Type :=
| MkGroup (p : path)
| MkDataset (p : path) (d : ndarray)
| SetAttr (p : path) (name : string) (v : h5attr).

Definition h5file : Type := list h5op.

Fixpoint is_prefix (p q : path) : bool :=
  match p, q with
  | [], _ => true
  | a :: p', b :: q' => String.eqb a b && is_prefix p' q'
  | _ :: _, [] => false
  end.

Definition path_eqb (p q : path) : bool :=
  is_prefix p q && (length p =? length q)%nat.

Definition is_dataset (f : h5file) (p : path) : bool :=
  existsb (fun op => match op with
                     | MkDataset q _ => path_eqb p q
                     | _ => false
                     end) f.

(** Creating an object creates the groups above it. *)
Definition is_group (f : h5file) (p : path) : bool :=
  match p with
  | [] => true
  | _ => existsb (fun op => match op with
                            | MkGroup q => is_prefix p q
                            | MkDataset q _ => is_prefix p q && negb (path_eqb p q)
                            | SetAttr _ _ _ => false
                            end) f
  end.

Definition contains (f : h5file) (p : path) : bool :=
  is_group f p || is_dataset f p.

(** A dataset stands where a group of [p] should. *)
Definition blocked (f : h5file) (p : path) : bool :=
  existsb (fun op => match op with
                     | MkDataset q _ => is_prefix q p && negb (path_eqb q p)
                     | _ => false
                     end) f.

(** [hf.create_group(name)]. *)
Definition create_group (name : string) : M h5file path :=
  fun f =>
    let p := split_path name in
    if bool_decide (p = []) || contains f p || blocked f p
    then (f, Raise ValueError)
    else (MkGroup p :: f, Ok p).

(** [hf.require_group(name)]: the empty name is no member of the file,
    and no group can be created under it. *)
Definition require_group (name : string) : M h5file path :=
  fun f =>
    let p := split_path name in
    if String.eqb name "" || negb (contains f p) then create_group name f
    else if is_group f p then (f, Ok p) else (f, Raise TypeError).

(** [hf.create_dataset(name, shape=data.shape, dtype=np.float32, data=data,
    compression="gzip")]: the values are kept as binary32. *)
Definition create_dataset (name : string) (data : ndarray) : M h5file path :=
  fun f =>
    let p := split_path name in
    if bool_decide (p = []) || contains f p || blocked f p
    then (f, Raise ValueError)
    else (MkDataset p (nd_map to_f32 data) :: f, Ok p).

(** A Python value as an attribute of the store.  A numpy byte string is a
    fixed-length string of its item size; a [str] is a variable-length
    string, which cannot hold a NUL; an integer is stored as [int64] or,
    from 2^63 on, as [uint64], and a larger one has no type in the
    store. *)
Definition h5_of_pyval (v : pyval) : result h5attr :=
  match v with
  | PNone => Raise TypeError
  | PStr s => if has_nul s then Raise ValueError else Ok (HStr s)
  | PBytes n s => Ok (HBytes (Nat.max 1 n) s)
  | PInt z => if (- 2 ^ 63 <=? z) && (z <? 2 ^ 64) then Ok (HInt z)
              else Raise TypeError
  | PFloat x => Ok (HFloat x)
  | PArray a => Ok (HArr a)
  end.

(** Reading drops the padding of a fixed-length string: the NUL bytes at
    its end, those of the content included. *)
Definition pyval_of_h5 (v : h5attr) : pyval :=
  match v with
  | HBytes _ s => PBytes (String.length (rstrip_nul s)) (rstrip_nul s)
  | HStr s => PStr s
  | HInt z => PInt z
  | HFloat x => PFloat x
  | HArr a => PArray a
  end.

(** [g.attrs.__setitem__(name, v)] on the object at [p]. *)
Definition attrs_setitem (p : path) (name : string) (v : pyval) : M h5file unit :=
  fun f => match h5_of_pyval v with
           | Ok a => (SetAttr p name a :: f, Ok tt)
           | Raise e => (f, Raise e)
           end.

Fixpoint find_attr (f : h5file) (p : path) (name : string) : option h5attr :=
  match f with
  | [] => None
  | SetAttr q n v :: f' =>
      if path_eqb p q && String.eqb n name then Some v else find_attr f' p name
  | _ :: f' => find_attr f' p name
  end.

(** [name in g.attrs.keys()] and [g.attrs[name]]. *)
Definition attrs_contains (f : h5file) (p : path) (name : string) : bool :=
  bool_decide (is_Some (find_attr f p name)).

Definition attrs_getitem (f : h5file) (p : path) (name : string) : result pyval :=
  match find_attr f p name with
  | Some v => Ok (pyval_of_h5 v)
  | None => Raise KeyError
  end.

(** The objects of the store. *)
Inductive h5obj : Type :=
| Group (p : path)
| Dataset (p : path) (d : ndarray).

Definition obj_path (o : h5obj) : path :=
  match o with Group p | Dataset p _ => p end.

Fixpoint find_dataset (f : h5file) (p : path) : option ndarray :=
  match f with
  | [] => None
  | MkDataset q d :: f' => if path_eqb p q then Some d else find_dataset f' p
  | _ :: f' => find_dataset f' p
  end.

(** [g[name]] for the group at [base]. *)
Definition getitem_h5 (f : h5file) (base : path) (name : string) : result h5obj :=
  let p := (base ++ split_path name)%list in
  match find_dataset f p with
  | Some d => Ok (Dataset p d)
  | None => if is_group f p then Ok (Group p) else Raise KeyError
  end.

(** [d[:]]. *)
Definition read_all (o : h5obj) : result ndarray :=
  match o with
  | Dataset _ d => Ok d
  | Group _ => Raise TypeError
  end.

Definition op_object (op : h5op) : option path :=
  match op with
  | MkGroup q | MkDataset q _ => Some q
  | SetAttr _ _ _ => None
  end.

Fixpoint insert_name (n : string) (names : list string) : list string :=
  match names with
  | [] => [n]
  | h :: t => match String.compare n h with
              | Lt => n :: names
              | Eq => names
              | Gt => h :: insert_name n t
              end
  end.

(** [g.keys()]: the names of the members, in increasing order of name. *)
Definition keys (f : h5file) (o : h5obj) : result (list string) :=
  match o with
  | Dataset _ _ => Raise AttributeError
  | Group p =>
      Ok (fold_right insert_name []
            (omap (fun op => q ← op_object op;
                             if is_prefix p q then q !! length p else None) f))
  end.

End H5.

Export H5.

(* ===================================================================== *)
(** * ODIM groups and the polar-volume hierarchy                         *)
(* ===================================================================== *)

Module Odim.

(** An instance of a [StructBase] subclass is its [__dict__]. *)
Abbreviation obj := (gmap string pyval).

(** [StructBase.struct_hasitem] and [StructBase.struct_getitem]. *)
Definition struct_hasitem (self : obj) (param : string) : bool :=
  bool_decide (is_Some (self !! param)).

Definition struct_getitem (self : obj) (param : string) : pyval :=
  match self !! param with Some v => v | None => PNone end.

(** [self.<name>] and [self.__setattr__(name, v)]. *)
Definition getattr (self : obj) (name : string) : result pyval :=
  match self !! name with Some v => Ok v | None => Raise AttributeError end.

Definition setattr (self : obj) (name : string) (v : pyval) : obj :=
  <[name := v]> self.

(** [self.hierarchy] as the name handed to h5py. *)
Definition hierarchy (self : obj) : result string :=
  v ← getattr self "hierarchy";
  match v with PStr s => Ok s | _ => Raise TypeError end.

(** [odim_operations.formatstr]: [np.array(mystring.encode('latin-1'),
    f'S{lenstr1}')]. *)
Definition formatstr (mystring : string) : pyval :=
  let lenstr1 := (String.length mystring + 1)%nat in
  PBytes lenstr1 mystring.

(** [OdimDset.odim_create] for [OdimDset(data, hierarchy)]. *)
Definition OdimDset_odim_create (data : ndarray) (hierarchy : string)
  : M h5file unit :=
  create_dataset hierarchy data;; mret tt.

(** [OdimGroup.odim_create]. *)
Definition odim_create (self : obj) : M h5file unit :=
  h ← lift (hierarchy self);
  create_group h;; mret tt.

(** [OdimGroup.odim_setattrs].  [g] is bound by the [try] only. *)
Definition odim_setattrs (self : obj) (attrslist : list string) : M h5file unit :=
  g ← try_except
        (h ← lift (hierarchy self); p ← require_group h; mret (Some p))
        (catches [ValueError])
        (odim_create self;; mret None);
  for_each attrslist
    (fun attr =>
       if struct_hasitem self attr then
         let attr_val := struct_getitem self attr in
         match attr_val with
         | PNone => mret tt
         | PStr s =>
             p ← lift (match g with
                       | Some p => Ok p
                       | None => Raise UnboundLocalError
                       end);
             b ← lift (np_bytes s);
             attrs_setitem p attr b
         | _ =>
             p ← lift (match g with
                       | Some p => Ok p
                       | None => Raise UnboundLocalError
                       end);
             attrs_setitem p attr attr_val
         end
       else mret tt).

(** The constructors of the group classes: the attributes they assign. *)
Definition OdimWhat (hierarchy : string) (object version date time source : pyval) : obj :=
  list_to_map [("hierarchy", PStr hierarchy); ("object", object);
               ("version", version); ("date", date); ("time", time);
               ("source", source)].

Definition OdimWherePolar (hierarchy : string) (lon lat height : pyval) : obj :=
  list_to_map [("hierarchy", PStr hierarchy); ("lon", lon); ("lat", lat);
               ("height", height)].

Definition all_none (hierarchy : string) (names : list string) : obj :=
  list_to_map (("hierarchy", PStr hierarchy) :: map (fun n => (n, PNone)) names).

Definition OdimHow (hierarchy : string) : obj :=
  all_none hierarchy ["task"; "startepochs"; "endepochs"; "system"; "software";
                      "sw_version"; "zr_a"; "zr_b"; "kr_a"; "kr_b"; "simulated"].

Definition OdimWherePolarDset (hierarchy : string)
           (elangle nbins rstart rscale nrays a1gate : pyval) : obj :=
  list_to_map [("hierarchy", PStr hierarchy); ("elangle", elangle);
               ("nbins", nbins); ("rstart", rstart); ("rscale", rscale);
               ("nrays", nrays); ("a1gate", a1gate)].

Definition attrs_how_radar : list string :=
  ["beamwidth"; "wavelength"; "rpm"; "pulsewidth"; "RXbandwidth"; "lowprf";
   "highprf"; "TXloss"; "RXloss"; "radomeloss"; "antgain"; "beamwH"; "beamwV";
   "gasattn"; "nomTXpower"; "NI"; "Vsamples"].

Definition OdimHowRadarDset (hierarchy : string) : obj :=
  all_none hierarchy (attrs_how_radar ++ ["radconstH"; "radconstV"; "TXpower"])%list.

Definition attrs_how_polar : list string :=
  ["elangles"; "startazA"; "stopazA"; "startazT"; "stopazT"].

Definition OdimHowPolarDset (hierarchy : string) : obj :=
  all_none hierarchy (["azmethod"; "binmethod"] ++ attrs_how_polar)%list.

(** [OdimWhatDset(hierarchy, quantity=..., gain=..., offset=..., nodata=...,
    undetect=...)]; the other attributes keep their default [None]. *)
Definition OdimWhatDset (hierarchy : string)
           (quantity gain offset nodata undetect : pyval) : obj :=
  list_to_map [("hierarchy", PStr hierarchy); ("product", PNone);
               ("prodpar", PNone); ("quantity", quantity);
               ("startdate", PNone); ("starttime", PNone);
               ("enddate", PNone); ("endtime", PNone);
               ("gain", gain); ("offset", offset);
               ("nodata", nodata); ("undetect", undetect)].

(** [OdimWhatDset(hierarchy=...)]: [gain=1.0] and [offset=0.0]. *)
Definition OdimWhatDset_default (hierarchy : string) : obj :=
  OdimWhatDset hierarchy PNone (PFloat 1) (PFloat 0) PNone PNone.

(** ** [OdimHierarchyPvol] *)

(** [datasets[n]] is an array of shape [(k, nrays, nbins)], kept as the
    list of its [k] planes.  [varsnames] is assigned by [read_odim] only. *)
Record OdimHierarchyPvol : Type := mk_pvol
  { root_what : obj;
    root_where : obj;
    root_how : obj;
    n_group_dataset : Z;
    n_datasets : Z;
    group_datasets_what : list obj;
    group_datasets_where : list obj;
    group_datasets_how_radar : list obj;
    group_datasets_how_polar : list obj;
    datasets : list (list ndarray);
    group_datasets_data_what : list (list obj);
    elangles : list pyval;
    varsnames : option (list pyval) }.

Fixpoint mapM {A B} (f : A -> result B) (xs : list A) : result (list B) :=
  match xs with
  | [] => Ok []
  | x :: xs' => y ← f x; ys ← mapM f xs'; Ok (y :: ys)
  end.

(** [OdimHierarchyPvol.setistance]; [old_varsnames] is the attribute
    [varsnames] of the instance before the call, which the method leaves
    alone. *)
Definition setistance (old_varsnames : option (list pyval))
           (root_what root_where root_how : obj)
           (n_group_dataset n_datasets : Z)
           (group_datasets_what group_datasets_where
            group_datasets_how_radar group_datasets_how_polar : list obj)
           (datasets : list (list ndarray))
           (group_datasets_data_what : list (list obj))
  : result OdimHierarchyPvol :=
  if negb (Z.of_nat (length datasets) =? n_group_dataset)
  then Raise AssertionError
  else if negb (Z.of_nat (length group_datasets_data_what) =? n_group_dataset)
  then Raise AssertionError
  else
    elangles ← mapM (fun i => w ← getitem group_datasets_where i;
                              getattr w "elangle")
                    (range n_group_dataset);
    Ok (mk_pvol root_what root_where root_how n_group_dataset n_datasets
                group_datasets_what group_datasets_where
                group_datasets_how_radar group_datasets_how_polar
                datasets group_datasets_data_what elangles old_varsnames).

(** [raw * gain + offset]. *)
Definition decode_array (raw : ndarray) (gain offset : float) : ndarray :=
  nd_map (fun x => x * gain + offset)%float raw.

(** The candidate names of [get_data_by_elangle]. *)
Definition varsnames_elangle (self : OdimHierarchyPvol) (elangle : float)
  : result (list pyval) :=
  vn ← match varsnames self with Some v => Ok v | None => Raise AttributeError end;
  m ← py_max (elangles self);
  py_eq (PFloat elangle) m ≫= λ is_max : bool,
  (if is_max then py_in (PStr "Z_VD") vn else Ok false) ≫= λ has : bool,
  if is_max && has then py_remove vn (PStr "Z_VD") else Ok vn.

(** [OdimHierarchyPvol.get_data_by_elangle]. *)
Definition get_data_by_elangle (self : OdimHierarchyPvol) (elangle : float)
           (quantity : string) : result ndarray :=
  names ← varsnames_elangle self elangle;
  indexq ← py_index names (PStr quantity);
  ie ← py_index (elangles self) (PFloat elangle);
  d ← getitem (datasets self) ie;
  raw ← getitem d indexq;
  ie ← py_index (elangles self) (PFloat elangle);
  ws ← getitem (group_datasets_data_what self) ie;
  w ← getitem ws indexq;
  offset ← getattr w "offset";
  ie ← py_index (elangles self) (PFloat elangle);
  ws ← getitem (group_datasets_data_what self) ie;
  w ← getitem ws indexq;
  gain ← getattr w "gain";
  g ← as_scalar gain;
  o ← as_scalar offset;
  Ok (decode_array raw g o).

(** ** [OdimHierarchyPvol.export_odim] *)

Definition attrs_root_what : list string :=
  ["object"; "version"; "date"; "time"; "source"].
Definition attrs_root_where : list string := ["lon"; "lat"; "height"].
Definition attrs_root_how : list string :=
  ["task"; "startepochs"; "system"; "software"; "sw_version"; "simulated"].
Definition attrs_dset_what : list string :=
  ["product"; "startdate"; "starttime"; "enddate"; "endtime"].
Definition attrs_dset_where : list string :=
  ["elangle"; "nbins"; "rstart"; "rscale"; "nrays"; "a1gate"].
Definition attrs_data_what : list string :=
  ["quantity"; "gain"; "nodata"; "offset"; "undetect"].

(** [f"dataset{num_group}/data{num_dset}/data"]. *)
Definition data_name (num_group num_dset : Z) : string :=
  "dataset" ++ pretty num_group ++ "/data" ++ pretty num_dset ++ "/data".

(** The body of the inner loop, for one pair of [enumerate]. *)
Definition export_quantity (self : OdimHierarchyPvol) (i_group : nat)
           (num_group : Z) (i_dset : nat) (num_dset : Z) : M h5file unit :=
  d ← lift (getitem (datasets self) i_group);
  if (i_dset <? length d)%nat then
    d ← lift (getitem (datasets self) i_group);
    a ← lift (getitem d i_dset);
    OdimDset_odim_create a (data_name num_group num_dset);;
    w ← lift (getitem (group_datasets_data_what self) i_group);
    if (i_dset <? length w)%nat then
      w ← lift (getitem (group_datasets_data_what self) i_group);
      dseti_what ← lift (getitem w i_dset);
      odim_create dseti_what;;
      odim_setattrs dseti_what attrs_data_what
    else mret tt
  else mret tt.

(** The body of the outer loop. *)
Definition export_elevation (self : OdimHierarchyPvol) (i_group : nat)
           (num_group : Z) : M h5file unit :=
  g_dset_what ← lift (getitem (group_datasets_what self) i_group);
  odim_create g_dset_what;;
  odim_setattrs g_dset_what attrs_dset_what;;
  g_dset_where ← lift (getitem (group_datasets_where self) i_group);
  odim_create g_dset_where;;
  odim_setattrs g_dset_where attrs_dset_where;;
  g_dset_how ← lift (getitem (group_datasets_how_polar self) i_group);
  odim_create g_dset_how;;
  odim_setattrs g_dset_how attrs_how_polar;;
  g_dset_how_radar ← lift (getitem (group_datasets_how_radar self) i_group);
  odim_setattrs g_dset_how_radar attrs_how_radar;;
  for_each (enumerate (arange1 (n_datasets self)))
           (fun p => export_quantity self i_group num_group (fst p) (snd p)).

Definition export_elevations (self : OdimHierarchyPvol) : M h5file unit :=
  for_each (enumerate (arange1 (n_group_dataset self)))
           (fun p => export_elevation self (fst p) (snd p)).

Definition export_root (self : OdimHierarchyPvol) : M h5file unit :=
  odim_create (root_what self);;
  odim_setattrs (root_what self) attrs_root_what;;
  odim_create (root_where self);;
  odim_setattrs (root_where self) attrs_root_where;;
  odim_create (root_how self);;
  odim_setattrs (root_how self) attrs_root_how.

(** [export_odim]: the file opened with mode ["w"] starts empty. *)
Definition export_odim (self : OdimHierarchyPvol) : h5file * result unit :=
  (export_root self;; export_elevations self) [].

(** ** [OdimHierarchyPvol.read_odim] *)

(** [self.varsnames = v]. *)
Definition set_varsnames (v : list pyval) (self : OdimHierarchyPvol)
  : OdimHierarchyPvol :=
  mk_pvol (root_what self) (root_where self) (root_how self)
          (n_group_dataset self) (n_datasets self)
          (group_datasets_what self) (group_datasets_where self)
          (group_datasets_how_radar self) (group_datasets_how_polar self)
          (datasets self) (group_datasets_data_what self)
          (elangles self) (Some v).

(** [v.decode()]: only byte strings have the method. *)
Definition decode_attr (v : pyval) : result pyval :=
  match v with
  | PBytes _ s => s' ← decode s; Ok (PStr s')
  | _ => Raise AttributeError
  end.

Fixpoint foldM {A B} (f : B -> A -> result B) (xs : list A) (acc : B) : result B :=
  match xs with
  | [] => Ok acc
  | x :: xs' => acc' ← f acc x; foldM f xs' acc'
  end.

(** [OdimHierarchyPvol.get_attrs_from_odimgroup]. *)
Definition get_attrs_from_odimgroup (attrs_list : list string) (hr : h5file)
           (hgroup : h5obj) (out_cont : obj) : result obj :=
  foldM (fun out att =>
           if attrs_contains hr (obj_path hgroup) att then
             val_att ← attrs_getitem hr (obj_path hgroup) att;
             match val_att with
             | PBytes _ s => s' ← decode s; Ok (setattr out att (PStr s'))
             | _ => Ok (setattr out att val_att)
             end
           else Ok out)
        attrs_list out_cont.

(** One attribute of ["dataset<n>/how"] of the polar view: an attribute of
    the group or, failing that, a dataset under it. *)
Definition read_how_polar (hr : h5file) (gdname : string) (out : obj)
           (att : string) : result obj :=
  match (g ← getitem_h5 hr [] (gdname ++ "/how");
         v ← attrs_getitem hr (obj_path g) att;
         Ok (setattr out att v)) with
  | Ok o => Ok o
  | Raise e =>
      if catches [KeyError] e then
        g ← getitem_h5 hr [] (gdname ++ "/how");
        ks ← keys hr g;
        if existsb (String.eqb att) ks then
          g ← getitem_h5 hr [] (gdname ++ "/how");
          c ← getitem_h5 hr (obj_path g) att;
          a ← read_all c;
          Ok (setattr out att (PArray a))
        else Ok out
      else Raise e
  end.

(** [np.vstack([[d] for d in ds])]: the planes must have one shape, and
    there must be one at least. *)
Definition vstack (ds : list ndarray) : result (list ndarray) :=
  match ds with
  | [] => Raise ValueError
  | d :: _ =>
      if forallb (fun d' => bool_decide (shape d' = shape d)) ds then Ok ds
      else Raise ValueError
  end.

(** The lists one quantity adds to: arrays, what-groups, all quantities. *)
Definition read_quantity (hr : h5file) (gdname : string)
           (acc : list ndarray * list obj * list pyval) (d : string)
  : result (list ndarray * list obj * list pyval) :=
  let '(gd_datadset_list, gd_data_what_list, allquantities) := acc in
  o ← getitem_h5 hr [] (gdname ++ "/" ++ d ++ "/data");
  a ← read_all o;
  whatd ← getitem_h5 hr [] (gdname ++ "/" ++ d ++ "/what");
  quantity ← attrs_getitem hr (obj_path whatd) "quantity";
  quantity ← match quantity with
             | PBytes _ s => s' ← decode s; Ok (PStr s')
             | _ => Ok quantity
             end;
  gain ← attrs_getitem hr (obj_path whatd) "gain";
  offset ← attrs_getitem hr (obj_path whatd) "offset";
  nodata ← attrs_getitem hr (obj_path whatd) "nodata";
  undetect ← attrs_getitem hr (obj_path whatd) "undetect";
  let d_what := OdimWhatDset (gdname ++ "/" ++ d ++ "/what")
                             quantity gain offset nodata undetect in
  py_in quantity allquantities ≫= λ seen : bool,
  Ok ((gd_datadset_list ++ [a])%list, (gd_data_what_list ++ [d_what])%list,
      if seen then allquantities else (allquantities ++ [quantity])%list).

(** What the loop over the dataset groups accumulates. *)
Record read_acc : Type := mk_read_acc
  { gd_what_list : list obj;
    gd_where_list : list obj;
    gd_how_polar_list : list obj;
    gd_how_radar_list : list obj;
    gd_datadset_list_total : list (list ndarray);
    gd_data_what_list_total : list (list obj);
    nmax_datasets : Z;
    allquantities : list pyval }.

Definition read_elevation (hr : h5file) (acc : read_acc) (gdname : string)
  : result read_acc :=
  g ← getitem_h5 hr [] (gdname ++ "/what");
  dg_what ← get_attrs_from_odimgroup attrs_dset_what hr g
              (OdimWhatDset_default (gdname ++ "/what"));
  g ← getitem_h5 hr [] (gdname ++ "/where");
  dg_where ← get_attrs_from_odimgroup attrs_dset_where hr g
               (OdimWherePolarDset (gdname ++ "/where")
                                   PNone PNone PNone PNone PNone PNone);
  g ← getitem_h5 hr [] (gdname ++ "/how");
  dg_how_radar ← get_attrs_from_odimgroup attrs_how_radar hr g
                   (OdimHowRadarDset (gdname ++ "/how"));
  dg_how_polar ← foldM (read_how_polar hr gdname) attrs_how_polar
                   (OdimHowPolarDset (gdname ++ "/how"));
  g ← getitem_h5 hr [] gdname;
  ks ← keys hr g;
  let dataset_names := List.filter (is_infix "data") ks in
  let nmax := Z.max (nmax_datasets acc) (Z.of_nat (length dataset_names)) in
  '(gd_datadset_list, gd_data_what_list, allq) ←
    foldM (read_quantity hr gdname) dataset_names ([], [], allquantities acc);
  stacked ← vstack gd_datadset_list;
  Ok (mk_read_acc (gd_what_list acc ++ [dg_what])
                  (gd_where_list acc ++ [dg_where])
                  (gd_how_polar_list acc ++ [dg_how_polar])
                  (gd_how_radar_list acc ++ [dg_how_radar])
                  (gd_datadset_list_total acc ++ [stacked])
                  (gd_data_what_list_total acc ++ [gd_data_what_list])
                  nmax allq)%list.

(** [read_odim] on the store [hr]; the result is the instance after the
    call. *)
Definition read_odim (hr : h5file) : result OdimHierarchyPvol :=
  what ← getitem_h5 hr [] "what";
  object ← attrs_getitem hr (obj_path what) "object" ≫= decode_attr;
  what ← getitem_h5 hr [] "what";
  version ← attrs_getitem hr (obj_path what) "version" ≫= decode_attr;
  what ← getitem_h5 hr [] "what";
  date ← attrs_getitem hr (obj_path what) "date" ≫= decode_attr;
  what ← getitem_h5 hr [] "what";
  time ← attrs_getitem hr (obj_path what) "time" ≫= decode_attr;
  what ← getitem_h5 hr [] "what";
  source ← attrs_getitem hr (obj_path what) "source" ≫= decode_attr;
  let what_root := OdimWhat "what" object version date time source in
  where_ ← getitem_h5 hr [] "where";
  lon ← attrs_getitem hr (obj_path where_) "lon";
  where_ ← getitem_h5 hr [] "where";
  lat ← attrs_getitem hr (obj_path where_) "lat";
  where_ ← getitem_h5 hr [] "where";
  height ← attrs_getitem hr (obj_path where_) "height";
  let where_root := OdimWherePolar "where" lon lat height in
  how ← getitem_h5 hr [] "how";
  how_root ← get_attrs_from_odimgroup attrs_root_how hr how (OdimHow "how");
  ks ← keys hr (Group []);
  let group_dataset_names := List.filter (is_infix "dataset") ks in
  acc ← foldM (read_elevation hr) group_dataset_names
              (mk_read_acc [] [] [] [] [] [] 0 []);
  self ← setistance None what_root where_root how_root
           (Z.of_nat (length group_dataset_names)) (nmax_datasets acc)
           (gd_what_list acc) (gd_where_list acc)
           (gd_how_radar_list acc) (gd_how_polar_list acc)
           (gd_datadset_list_total acc) (gd_data_what_list_total acc);
  Ok (set_varsnames (allquantities acc) self).

End Odim.

(* ===================================================================== *)
(** * The specification's vocabulary                                     *)
(* ===================================================================== *)

(** Definitions written from the words of the specification, against
    which the code above is compared. *)
Module Spec.

Import Bufr Odim.

(** ** Level reconstruction (§4.4): the contract of the caller *)

Definition no_field_kind_marker (meta : list row) : Prop :=
  loc_index (fxy "3" "13" "9") meta = []
  /\ loc_index (fxy "3" "13" "10") meta = []
  /\ loc_index (fxy "3" "13" "11") meta = []
  /\ loc_index (fxy "0" "13" "11") meta = [].

Definition unknown_fill_method (fill_method : string) : Prop :=
  fill_method <> "min" /\ fill_method <> "ave" /\ fill_method <> "max".

Definition contract_violated (meta : list row) (fill_method : string) : Prop :=
  no_field_kind_marker meta \/ unknown_fill_method fill_method.

(** ** Level reconstruction (§4.4): the three fill methods *)

(** The final arrays as §4.4 describes them, for the levels [read] with
    lower bound [l0]; [final] maps a fill method to what
    [get_var_levs_from_meta] returns.  "min" shifts the values down one
    slot, "max" leaves them as read, "ave" puts the midpoint of each
    adjacent pair at the upper slot, and the first element is the lower
    bound. *)
Definition reconstructed (final : string -> result (variable * list float))
           (v : variable) (l0 : float) (read : list float) : Prop :=
  (exists fmin, final "min" = Ok (v, fmin) /\ fmin !! 0%nat = Some l0
     /\ forall k, (S k < length read)%nat -> fmin !! S k = read !! k)
  /\ (final "max" = Ok (v, read) /\ read !! 0%nat = Some l0)
  /\ (exists fave, final "ave" = Ok (v, fave) /\ fave !! 0%nat = Some l0
     /\ forall k a b, read !! k = Some a -> read !! S k = Some b ->
                      fave !! S k = Some ((a + b) / 2)%float).

(** §4.4 as it is worded: the description holds of every level list that
    is read from the table. *)
Definition level_reconstruction_claim (float_of_str : string -> option float)
           (meta : list row) (src : option StructSource) : Prop :=
  forall v i l0 read,
    select_variable meta = Ok (v, i) ->
    read_levels float_of_str meta src v i = Ok (l0, read) ->
    reconstructed (get_var_levs_from_meta float_of_str (Some meta) src) v l0 read.

(** ** Lookup by elevation (§4.2) *)

(** A list of names without the first occurrence of [q]. *)
Fixpoint minus (q : string) (names : list string) : list string :=
  match names with
  | [] => []
  | n :: t => if String.eqb n q then t else n :: minus q t
  end.

Fixpoint index_of (q : string) (names : list string) : option nat :=
  match names with
  | [] => None
  | n :: t => if String.eqb n q then Some O else S <$> index_of q t
  end.

(** The candidate list: the full set, minus ["Z_VD"] at the maximum angle. *)
Definition candidate_names (angle_is_max : bool) (names : list string)
  : list string :=
  if angle_is_max then minus "Z_VD" names else names.

(** The maximum of the angles [m :: angles]. *)
Fixpoint max_angle (m : float) (angles : list float) : float :=
  match angles with
  | [] => m
  | x :: t => max_angle (if (m <? x)%float then x else m) t
  end.

(** The position of the first angle equal to [a]. *)
Fixpoint index_of_angle (a : float) (angles : list float) : option nat :=
  match angles with
  | [] => None
  | x :: t => if (x =? a)%float then Some O else S <$> index_of_angle a t
  end.

(** §4.2 as it is worded: in a volume whose quantity names include
    "Z_VD", the lookup of "Z_VD" succeeds at every angle of the volume
    that is not the maximum. *)
Definition z_vd_found_below_max (self : OdimHierarchyPvol) : Prop :=
  forall names a0 angles elangle,
    varsnames self = Some (map PStr names) ->
    elangles self = map PFloat (a0 :: angles) ->
    "Z_VD" ∈ names ->
    elangle ∈ a0 :: angles ->
    (elangle =? max_angle a0 angles)%float = false ->
    is_ok (get_data_by_elangle self elangle "Z_VD").

(** ** The elevation index (§3, §8) *)

Definition elevation_index_ok (self : OdimHierarchyPvol) : Prop :=
  Z.of_nat (length (elangles self)) = n_group_dataset self
  /\ (forall i, (i < length (elangles self))%nat ->
        exists w, group_datasets_where self !! i = Some w
                  /\ w !! "elangle" = elangles self !! i)
  /\ Z.of_nat (length (datasets self)) = n_group_dataset self
  /\ Z.of_nat (length (group_datasets_data_what self)) = n_group_dataset self.

(** The two ways an instance is populated. *)
Definition populated (self : OdimHierarchyPvol) : Prop :=
  (exists old rw rwh rh n m ws whs hrs hps ds dws,
      setistance old rw rwh rh n m ws whs hrs hps ds dws = Ok self)
  \/ (exists hr, read_odim hr = Ok self).

(** ** What the export writes (§4.2) *)

Definition is_MkDataset (op : h5op) : bool :=
  match op with MkDataset _ _ => true | _ => false end.

Definition count_datasets (ops : list h5op) : nat :=
  length (List.filter is_MkDataset ops).

(** What is stored for an attribute value that is not [None]. *)
Definition stored_value (v : pyval) : result h5attr :=
  match v with
  | PStr s => np_bytes s ≫= h5_of_pyval
  | _ => h5_of_pyval v
  end.

(** A write made for the group object [o]: its group, or one of its
    attributes that is set. *)
Definition from_obj (o : obj) (op : h5op) : Prop :=
  exists h, hierarchy o = Ok h
    /\ (op = MkGroup (split_path h)
        \/ exists name pv a, o !! name = Some pv /\ pv <> PNone
             /\ stored_value pv = Ok a /\ op = SetAttr (split_path h) name a).

(** A write of [export_odim]: for a root group, for a group of elevation
    [i], for the array of quantity [j] at elevation [i], or for its
    what-group; [i] and [j] count from zero. *)
Definition written_by_export (self : OdimHierarchyPvol) (op : h5op) : Prop :=
  let N := n_group_dataset self in
  let M := n_datasets self in
  (exists o, o ∈ [root_what self; root_where self; root_how self] /\ from_obj o op)
  \/ (exists i o, Z.of_nat i + 1 <= N - 1
        /\ (group_datasets_what self !! i = Some o
            \/ group_datasets_where self !! i = Some o
            \/ group_datasets_how_polar self !! i = Some o
            \/ group_datasets_how_radar self !! i = Some o)
        /\ from_obj o op)
  \/ (exists i j planes a, Z.of_nat i + 1 <= N - 1 /\ Z.of_nat j + 1 <= M - 1
        /\ datasets self !! i = Some planes /\ planes !! j = Some a
        /\ op = MkDataset (split_path (data_name (Z.of_nat i + 1) (Z.of_nat j + 1)))
                          (nd_map to_f32 a))
  \/ (exists i j planes ws o, Z.of_nat i + 1 <= N - 1 /\ Z.of_nat j + 1 <= M - 1
        /\ datasets self !! i = Some planes /\ (j < length planes)%nat
        /\ group_datasets_data_what self !! i = Some ws /\ ws !! j = Some o
        /\ from_obj o op).

(** ** Round trip (§1, §8) *)

(** §8 as it is worded, with the elevations and quantities that the
    write loops leave out set aside: what is read back has angles, names
    and decoded arrays of the instance. *)
Definition lossless_round_trip (self back : OdimHierarchyPvol) : Prop :=
  (forall i e, elangles back !! i = Some e -> elangles self !! i = Some e)
  /\ (forall vs q, varsnames back = Some vs -> q ∈ vs ->
        exists vs0, varsnames self = Some vs0 /\ q ∈ vs0)
  /\ (forall e q data,
        get_data_by_elangle back e q = Ok data ->
        get_data_by_elangle self e q = Ok data).

(** ** String attributes (§4.1, §6) *)

(** "A fixed-length ASCII byte array sized [len(content)+1]". *)
Definition sized_len_plus_one (content : string) (a : h5attr) : Prop :=
  a = HBytes (String.length content + 1) content.

End Spec.

(* ===================================================================== *)
(** * The exported file and the volume read back                         *)
(* ===================================================================== *)

(** The vocabulary of the statements on [export_odim] and on the round
    trip through [read_odim]. *)
Module Hierarchy.

Import Odim Spec.

(** ** Names *)

Definition no_slash (s : string) : bool :=
  forallb (fun c => negb (Ascii.eqb c "/")) (list_ascii_of_string s).

(** ["dataset<K>"] and ["data<J>"]. *)
Definition dataset_name (K : Z) : string := "dataset" ++ pretty K.
Definition quantity_name (J : Z) : string := "data" ++ pretty J.

(** The numbers 1..k. *)
Definition upto (k : nat) : list Z := map (fun i => Z.of_nat i + 1) (seq 0 k).

(** The order in which [keys] lists names. *)
Definition str_lt (a b : string) : Prop := String.compare a b = Lt.

#[global] Instance str_lt_dec (a b : string) : Decision (str_lt a b).
Proof.
  unfold str_lt.
  destruct (String.compare a b); (left; reflexivity) || (right; discriminate).
Defined.

Fixpoint sortedb (l : list string) : bool :=
  match l with
  | [] => true
  | a :: t => forallb (fun b => bool_decide (str_lt a b)) t && sortedb t
  end.

(** ** The file *)

(** [f'] is [f] with more writes. *)
Definition ext (f f' : h5file) : Prop := exists new, f' = (new ++ f)%list.

(** The members of the group at [p], as [keys] finds them. *)
Definition group_member (f : h5file) (p : path) (x : string) : Prop :=
  exists op q, op ∈ f /\ op_object op = Some q
               /\ is_prefix p q = true /\ q !! length p = Some x.

(** The group of [o] was created in [f]; its attributes named in [L] that
    are not [None] are in [f], stored as [stored_value] says. *)
Definition group_created (f : h5file) (o : obj) : Prop :=
  exists h, hierarchy o = Ok h /\ MkGroup (split_path h) ∈ f.

Definition attrs_written (f : h5file) (o : obj) (L : list string) : Prop :=
  exists h, hierarchy o = Ok h
    /\ forall att v, att ∈ L -> o !! att = Some v -> v <> PNone ->
         exists a, stored_value v = Ok a /\ SetAttr (split_path h) att a ∈ f.

(** What the export of quantity [j] of elevation [i] leaves: the array,
    rounded to binary32, at ["dataset<i+1>/data<j+1>/data"], and the
    what-group of the quantity when the what-list holds one. *)
Definition quantity_written (self : OdimHierarchyPvol) (f : h5file) (i j : nat)
  : Prop :=
  forall planes a,
    datasets self !! i = Some planes -> planes !! j = Some a ->
    MkDataset (split_path (data_name (Z.of_nat i + 1) (Z.of_nat j + 1)))
              (nd_map to_f32 a) ∈ f
    /\ forall ws o,
         group_datasets_data_what self !! i = Some ws -> ws !! j = Some o ->
         group_created f o /\ attrs_written f o attrs_data_what.

(** What the export of elevation [i] leaves: its four groups and the
    quantities that the inner loop reaches. *)
Definition elevation_written (self : OdimHierarchyPvol) (f : h5file) (i : nat)
  : Prop :=
  (exists o, group_datasets_what self !! i = Some o
     /\ group_created f o /\ attrs_written f o attrs_dset_what)
  /\ (exists o, group_datasets_where self !! i = Some o
     /\ group_created f o /\ attrs_written f o attrs_dset_where)
  /\ (exists o, group_datasets_how_polar self !! i = Some o
     /\ group_created f o /\ attrs_written f o attrs_how_polar)
  /\ (exists o, group_datasets_how_radar self !! i = Some o
     /\ attrs_written f o attrs_how_radar)
  /\ (forall j, Z.of_nat j + 1 <= n_datasets self - 1 -> quantity_written self f i j).

(** The arrays of elevation [i] that the export writes: those that the
    inner loop reaches. *)
Definition written_planes (self : OdimHierarchyPvol) (i : nat) : list ndarray :=
  take (Z.to_nat (n_datasets self - 1)) (default [] (datasets self !! i)).

(** ** The groups of a volume *)

(** The place of a group object in the instance. *)
Inductive role : Type :=
| RootWhat | RootWhere | RootHow
| SweepWhat (i : nat) | SweepWhere (i : nat)
| SweepHowPolar (i : nat) | SweepHowRadar (i : nat)
| QuantityWhat (i j : nat).

Definition role_obj (self : OdimHierarchyPvol) (r : role) : option obj :=
  match r with
  | RootWhat => Some (root_what self)
  | RootWhere => Some (root_where self)
  | RootHow => Some (root_how self)
  | SweepWhat i => group_datasets_what self !! i
  | SweepWhere i => group_datasets_where self !! i
  | SweepHowPolar i => group_datasets_how_polar self !! i
  | SweepHowRadar i => group_datasets_how_radar self !! i
  | QuantityWhat i j => ws ← group_datasets_data_what self !! i; ws !! j
  end.

(** The name that ODIM, and [read_odim], give to the group of a place. *)
Definition role_name (r : role) : string :=
  match r with
  | RootWhat => "what"
  | RootWhere => "where"
  | RootHow => "how"
  | SweepWhat i => dataset_name (Z.of_nat i + 1) ++ "/what"
  | SweepWhere i => dataset_name (Z.of_nat i + 1) ++ "/where"
  | SweepHowPolar i | SweepHowRadar i => dataset_name (Z.of_nat i + 1) ++ "/how"
  | QuantityWhat i j =>
      dataset_name (Z.of_nat i + 1) ++ "/" ++ quantity_name (Z.of_nat j + 1) ++ "/what"
  end.

Definition role_path (r : role) : path :=
  match r with
  | RootWhat => ["what"]
  | RootWhere => ["where"]
  | RootHow => ["how"]
  | SweepWhat i => [dataset_name (Z.of_nat i + 1); "what"]
  | SweepWhere i => [dataset_name (Z.of_nat i + 1); "where"]
  | SweepHowPolar i | SweepHowRadar i => [dataset_name (Z.of_nat i + 1); "how"]
  | QuantityWhat i j =>
      [dataset_name (Z.of_nat i + 1); quantity_name (Z.of_nat j + 1); "what"]
  end.

Definition is_how (r : role) : bool :=
  match r with SweepHowPolar _ | SweepHowRadar _ => true | _ => false end.

(** The groups that the loops of [export_odim] reach. *)
Definition role_exported (self : OdimHierarchyPvol) (r : role) : Prop :=
  match r with
  | RootWhat | RootWhere | RootHow => True
  | SweepWhat i | SweepWhere i | SweepHowPolar i | SweepHowRadar i =>
      Z.of_nat i + 1 <= n_group_dataset self - 1
  | QuantityWhat i j =>
      Z.of_nat i + 1 <= n_group_dataset self - 1
      /\ Z.of_nat j + 1 <= n_datasets self - 1
      /\ exists planes, datasets self !! i = Some planes /\ (j < length planes)%nat
  end.

(** Every group object that the export reaches carries, as its
    [hierarchy], the ODIM name of its place: the root groups are "what",
    "where" and "how", the groups of elevation [i] are
    "dataset<i+1>/what", "/where" and "/how", and the what-group of its
    quantity [j] is "dataset<i+1>/data<j+1>/what". *)
Definition canonical (self : OdimHierarchyPvol) : Prop :=
  forall r o, role_exported self r -> role_obj self r = Some o ->
              hierarchy o = Ok (role_name r).

(** ** What is read back *)

(** An attribute of the instance as [get_attrs_from_odimgroup] reads it
    back, and as [attrs[...]] does: text comes back without the NUL
    characters at its end, as text or as a byte string; a number or an
    array comes back as it is. *)
Definition read_back (pv : pyval) : pyval :=
  match pv with
  | PStr s | PBytes _ s => PStr (rstrip_nul s)
  | _ => pv
  end.

Definition read_raw (pv : pyval) : pyval :=
  match pv with
  | PStr s | PBytes _ s => PBytes (String.length (rstrip_nul s)) (rstrip_nul s)
  | _ => pv
  end.

(** The what-group of a quantity as [read_odim] rebuilds it from the
    attributes that [export_odim] stored for the group [o]. *)
Definition what_read_back (i j : nat) (o : obj) : obj :=
  OdimWhatDset (role_name (QuantityWhat i j))
               (read_back (struct_getitem o "quantity"))
               (read_raw (struct_getitem o "gain"))
               (read_raw (struct_getitem o "offset"))
               (read_raw (struct_getitem o "nodata"))
               (read_raw (struct_getitem o "undetect")).

(** The name of quantity [j] of elevation [i], as it is read back. *)
Definition quantity_read_back (self : OdimHierarchyPvol) (i j : nat) : pyval :=
  match role_obj self (QuantityWhat i j) with
  | Some o => read_back (struct_getitem o "quantity")
  | None => PNone
  end.

(** A list that grows by one element for each index, each element
    satisfying the property of its index. *)
Definition indexed {A} (P : nat -> A -> Prop) (k : nat) (l : list A) : Prop :=
  length l = k /\ forall i x, l !! i = Some x -> P i x.

(** The names that the quantities [j < m] of elevation [i] add to the
    list of all the quantities. *)
Definition names_added (self : OdimHierarchyPvol) (i m : nat)
           (allq0 allq' : list pyval) : Prop :=
  (forall q, q ∈ allq0 -> q ∈ allq')
  /\ (forall q, q ∈ allq' ->
        q ∈ allq0 \/ exists j, (j < m)%nat /\ q = quantity_read_back self i j)
  /\ (forall j, (j < m)%nat ->
        exists q', q' ∈ allq'
                   /\ (q' = quantity_read_back self i j
                       \/ py_eq q' (quantity_read_back self i j) = Ok true)).

(** The names of the quantities written for the elevations [i < k]: every
    name of the list is the name of one of them, and each of them has its
    name, or a name equal to it, in the list. *)
Definition all_names (self : OdimHierarchyPvol) (k : nat) (allq : list pyval)
  : Prop :=
  (forall q, q ∈ allq ->
     exists i j, (i < k)%nat /\ (j < length (written_planes self i))%nat
                 /\ q = quantity_read_back self i j)
  /\ (forall i j, (i < k)%nat -> (j < length (written_planes self i))%nat ->
        exists q', q' ∈ allq
                   /\ (q' = quantity_read_back self i j
                       \/ py_eq q' (quantity_read_back self i j) = Ok true)).

(** The groups of elevation [i] as they are read back. *)
Definition what_group_read (self : OdimHierarchyPvol) (i j : nat) (w' : obj) : Prop :=
  exists o, role_obj self (QuantityWhat i j) = Some o /\ w' = what_read_back i j o.

Definition where_group_read (self : OdimHierarchyPvol) (i : nat) (w' : obj) : Prop :=
  exists o, group_datasets_where self !! i = Some o
            /\ w' !! "elangle" = Some (read_back (struct_getitem o "elangle")).

Definition planes_read (self : OdimHierarchyPvol) (i : nat) (d : list ndarray)
  : Prop :=
  d = map (nd_map to_f32) (written_planes self i).

Definition what_groups_read (self : OdimHierarchyPvol) (i : nat) (ws' : list obj)
  : Prop :=
  indexed (what_group_read self i) (length (written_planes self i)) ws'.

(** ** What the reader needs *)

(** What [read_odim] needs of a volume to read the file of its export:
    the five attributes of the root what-group are text; the three of the
    root where-group are set; the byte strings among the attributes are
    ASCII; every array written has a what-group whose quantity is text and
    whose gain, offset, nodata and undetect are set; and every elevation
    written has an array, its arrays being of one shape. *)
Definition readable (self : OdimHierarchyPvol) : Prop :=
  (forall a, a ∈ attrs_root_what -> exists s, root_what self !! a = Some (PStr s))
  /\ (forall a, a ∈ attrs_root_where -> struct_getitem (root_where self) a <> PNone)
  /\ (forall r o a n s, role_exported self r -> role_obj self r = Some o ->
        o !! a = Some (PBytes n s) -> is_ascii s = true)
  /\ (forall i j a, Z.of_nat i + 1 <= n_group_dataset self - 1 ->
        written_planes self i !! j = Some a ->
        exists o, role_obj self (QuantityWhat i j) = Some o
          /\ (exists s, o !! "quantity" = Some (PStr s))
          /\ forall att, att ∈ ["gain"; "offset"; "nodata"; "undetect"] ->
               struct_getitem o att <> PNone)
  /\ (forall i, Z.of_nat i + 1 <= n_group_dataset self - 1 ->
        written_planes self i <> []
        /\ forall a b, a ∈ written_planes self i -> b ∈ written_planes self i ->
             shape a = shape b).

(** A value that is a text string. *)
Definition is_text (v : pyval) : Prop := exists s, v = PStr s.

(** No attribute of [o] is a byte string. *)
Definition no_bytes (o : obj) : bool :=
  forallb (fun kv : string * pyval =>
             match kv.2 with PBytes _ _ => false | _ => true end)
          (map_to_list o).

End Hierarchy.

(* ===================================================================== *)
(** * The writes of a computation on the store                           *)
(* ===================================================================== *)

(** [writes P n R m]: whatever its outcome, [m] only adds to the file
    writes that satisfy [P], at most [n] datasets among them, and a value
    it returns satisfies [R]. *)
Definition writes {A} (P : h5op -> Prop) (n : nat) (R : A -> Prop)
           (m : M h5file A) : Prop :=
  forall f, exists new,
    fst (m f) = (new ++ f)%list /\ Forall P new
    /\ (Spec.count_datasets new <= n)%nat
    /\ forall a, snd (m f) = Ok a -> R a.

(* ===================================================================== *)
(** * Concrete inputs                                                    *)
(* ===================================================================== *)

Module Examples.

Import Bufr Odim.

Definition cell (f x y v : option string) : row :=
  mk_row f x y v None None None None.

(** A reflectivity table: the marker row with the lower bound, the number
    of levels, and three levels. *)
Definition z_table : list row :=
  [cell (Some "3") (Some "13") (Some "9") (Some "0");
   cell (Some "0") (Some "31") (Some "1") (Some "3");
   cell None None None (Some "1");
   cell None None None (Some "2");
   cell None None None (Some "3")].

(** A table cut after the marker row. *)
Definition cut_table : list row :=
  [cell (Some "3") (Some "13") (Some "9") (Some "0")].

(** A table with grid metadata only: no date marker, no field marker. *)
Definition grid_table : list row :=
  [cell (Some "0") (Some "30") (Some "21") (Some "256")].

Definition arpae : StructSource :=
  mk_source (Some "GAT") None (Some "Arpae Emilia-Romagna").

(** The root groups of a polar volume. *)
Definition what_root : obj :=
  OdimWhat "what" (PStr "PVOL") (PStr "H5rad 2.1") (PStr "20200922")
           (PStr "103500") (PStr "WMO:16144,RAD:IY46,PLC:itspc").
Definition where_root : obj :=
  OdimWherePolar "where" (PFloat 11.5) (PFloat 44.5) (PFloat 31).
Definition how_root : obj := OdimHow "how".

Definition dset (n : Z) (group : string) : string :=
  "dataset" ++ pretty n ++ "/" ++ group.

Definition sweep_where (n : Z) (elangle : float) : obj :=
  OdimWherePolarDset (dset n "where") (PFloat elangle) (PInt 2) (PFloat 0)
                     (PFloat 250) (PInt 2) (PInt 0).

Definition quantity_what (n m : Z) (quantity : string) : obj :=
  OdimWhatDset (dset n ("data" ++ pretty m ++ "/what")) (PStr quantity)
               (PFloat 0.5) (PFloat (-32)) (PFloat 255) (PFloat 0).

Definition plane (x : float) : ndarray := D2 [[x; 1]; [2; 3]]%float.

(** One elevation, one quantity. *)
Definition one_sweep : OdimHierarchyPvol :=
  mk_pvol what_root where_root how_root 1 1
          [OdimWhatDset_default (dset 1 "what")] [sweep_where 1 0.5]
          [OdimHowRadarDset (dset 1 "how")] [OdimHowPolarDset (dset 1 "how")]
          [[plane 0]] [[quantity_what 1 1 "DBZH"]]
          [PFloat 0.5] None.

(** Two elevations; ["Z_VD"] is missing at the higher one. *)
Definition two_sweeps : OdimHierarchyPvol :=
  mk_pvol what_root where_root how_root 2 2
          [OdimWhatDset_default (dset 1 "what"); OdimWhatDset_default (dset 2 "what")]
          [sweep_where 1 0.5; sweep_where 2 1.5]
          [OdimHowRadarDset (dset 1 "how"); OdimHowRadarDset (dset 2 "how")]
          [OdimHowPolarDset (dset 1 "how"); OdimHowPolarDset (dset 2 "how")]
          [[plane 0; plane 10]; [plane 5]]
          [[quantity_what 1 1 "DBZH"; quantity_what 1 2 "Z_VD"];
           [quantity_what 2 1 "DBZH"]]
          [PFloat 0.5; PFloat 1.5] (Some [PStr "DBZH"; PStr "Z_VD"]).

End Examples.

(* ===================================================================== *)
(** * Structures: [structure_class.py]                                   *)
(* ===================================================================== *)

Module Struct.

Import Odim.

(** The arguments of [StructBase.addparams]: a name and its value, a list
    of names and the list of their values, or a first argument of another
    type (a tuple, [None], ...), which the method ignores. *)
Inductive addparams_args : Type :=
| OneParam (newparam : string) (value : pyval)
| ListParams (newparam : list string) (value : list pyval)
| OtherParams.

(** [StructBase.addparams]; [zip] stops at the shorter list. *)
Definition addparams (self : obj) (args : addparams_args) : obj :=
  match args with
  | OneParam newparam value => setattr self newparam value
  | ListParams newparam value =>
      fold_left (fun d kv => <[fst kv := snd kv]> d) (zip newparam value) self
  | OtherParams => self
  end.

(** [StructVariable(name, long_name, standard_name, units, min_val,
    max_val, missing, undetect, color_table)]. *)
Definition StructVariable_init (name long_name standard_name units min_val
                                max_val missing undetect color_table : pyval)
  : obj :=
  list_to_map [("name", name); ("long_name", long_name);
               ("standard_name", standard_name); ("units", units);
               ("min_val", min_val); ("max_val", max_val);
               ("missing", missing); ("undetect", undetect);
               ("color_table", color_table)].

(** The loop of [StructVariable.set_cls_by_name]: [subclasses] holds, in
    the order of [cls.__subclasses__()], what [subcls()] builds for each
    subclass. *)
Fixpoint scan_subclasses (subclasses : list obj) (varname : string)
         (outcls : option obj) : result (option obj) :=
  match subclasses with
  | [] => Ok outcls
  | subcls :: rest =>
      let outcls := subcls in
      n ← getattr outcls "name";
      py_eq n (PStr varname) ≫= λ found : bool,
        if found then Ok (Some outcls)
        else scan_subclasses rest varname (Some outcls)
  end.

(** Whether [c.name == varname] holds of an instance [c]. *)
Definition has_name (varname : string) (c : obj) : bool :=
  match c !! "name" with
  | Some n => match py_eq n (PStr varname) with
              | Ok found => found
              | Raise _ => false
              end
  | None => false
  end.

(** An instance whose [name] is compared as a scalar: a string, [None], a
    number, but no array. *)
Definition scalar_name (c : obj) : Prop :=
  exists n, c !! "name" = Some n
            /\ match n with PArray _ => False | _ => True end.

(** [StructVariable.set_cls_by_name]. *)
Definition set_cls_by_name (subclasses : list obj) (varname : option string)
  : result (option obj) :=
  match varname with
  | None => Ok None
  | Some varname => scan_subclasses subclasses varname None
  end.

(** [StructVariable.set_var_by_name]: the attributes of the instance found
    are copied with [addparams]; [clsvar.__dict__] of [None] does not
    exist. *)
Definition set_var_by_name (subclasses : list obj) (self : obj)
           (varname : option string) : result obj :=
  match varname with
  | None => Ok self
  | Some _ =>
      clsvar ← set_cls_by_name subclasses varname;
      match clsvar with
      | None => Raise AttributeError
      | Some c =>
          let items := map_to_list c in
          Ok (addparams self (ListParams (map fst items) (map snd items)))
      end
  end.

(** [RadarProduct]: the name and the long name of a product. *)
Record RadarProduct : Type := mk_product
  { product_name : string; product_long_name : string }.

Definition dict_radprods : list (string * string) :=
  [("SRI", "Surface Radar Rainfall Intensity");
   ("SRT", "Surface Radar Rainfall Accumulation");
   ("CAPPI", "Constant Altitude PPI");
   ("MAX", "Maximum Vertical Projection");
   ("PPI", "Plan Position Indicator");
   ("LBM", "Lowest Beam Map Reflectivity");
   ("BEAM", "Radar Beam");
   ("RHI", "Range-Height Indicator");
   ("XSEC", "Vertical Section");
   ("ETOP", "Echo Top");
   ("HSP", "HVMI horizontal panel");
   ("VSP", "HVIM vertical panel");
   ("VIL", "Vertical Integrated Liquid Water");
   ("CLASS_CONV", "Convective-stratiform classification");
   ("POH_ARPA", "Probability of hail");
   ("VID", "Vil density - hail size");
   ("SURF", "Surface field");
   ("COMP", "Cartesian composite image");
   ("RR", "Accumulation")].

Fixpoint dict_get (d : list (string * string)) (k : string) : option string :=
  match d with
  | [] => None
  | (k', v) :: d' => if String.eqb k' k then Some v else dict_get d' k
  end.

(** [RadarProduct(name, long_name)]; both default to the string ["None"]. *)
Definition RadarProduct_init (name long_name : string) : RadarProduct :=
  if negb (String.eqb name "None") && String.eqb long_name "None"
     && bool_decide (is_Some (dict_get dict_radprods name))
  then mk_product name (default long_name (dict_get dict_radprods name))
  else mk_product name long_name.

End Struct.

(* ===================================================================== *)
(** * BUFR: source, product, projection and grid                         *)
(* ===================================================================== *)

Module BufrMeta.

Import Bufr Struct.

(** A line of white space only. *)
Fixpoint all_space (s : string) : bool :=
  match s with
  | EmptyString => true
  | String c s' => is_space c && all_space s'
  end.

(** [s.strip(chars)]. *)
Definition in_chars (c : ascii) (chars : string) : bool :=
  existsb (Ascii.eqb c) (list_ascii_of_string chars).

Fixpoint lstrip_chars (chars s : string) : string :=
  match s with
  | String c s' => if in_chars c chars then lstrip_chars chars s' else s
  | EmptyString => EmptyString
  end.

Fixpoint rstrip_chars (chars s : string) : string :=
  match s with
  | String c s' =>
      match rstrip_chars chars s' with
      | EmptyString => if in_chars c chars then EmptyString
                       else String c EmptyString
      | r => String c r
      end
  | EmptyString => EmptyString
  end.

Definition strip_chars (chars s : string) : string :=
  rstrip_chars chars (lstrip_chars chars s).

(** ** [Bufr.get_source_product_from_meta] *)

(** [self.meta.loc[self.meta.descriptor == "namefile"].index.values]. *)
Definition namefile_rows (meta : list row) : list nat :=
  loc_index (fun r => bool_decide (descriptor r = Some "namefile")) meta.

(** The locals: [prod] is bound in three of the four branches only. *)
Record sp_locals : Type := mk_sp_locals
  { source_struct : StructSource;
    prod : option string;
    prod_struct : RadarProduct }.

Definition set_name_source (v : string) (l : sp_locals) : sp_locals :=
  mk_sp_locals (mk_source (Some v) (name_file (source_struct l))
                          (emission_center (source_struct l)))
               (prod l) (prod_struct l).
Definition set_name_file (v : string) (l : sp_locals) : sp_locals :=
  mk_sp_locals (mk_source (name_source (source_struct l)) (Some v)
                          (emission_center (source_struct l)))
               (prod l) (prod_struct l).
Definition set_emission_center (v : string) (l : sp_locals) : sp_locals :=
  mk_sp_locals (mk_source (name_source (source_struct l))
                          (name_file (source_struct l)) (Some v))
               (prod l) (prod_struct l).
Definition set_prod (v : string) (l : sp_locals) : sp_locals :=
  mk_sp_locals (source_struct l) (Some v) (prod_struct l).
Definition set_prod_struct (v : RadarProduct) (l : sp_locals) : sp_locals :=
  mk_sp_locals (source_struct l) (prod l) v.

(** [namefile.split("_")[k].strip("@")]. *)
Definition name_field (namefile : string) (k : nat) : result string :=
  f ← getitem (split_on "_" namefile) k; Ok (strip_chars "@" f).

(** The first [try] block. *)
Definition try_source (meta : list row) : M sp_locals unit :=
  try_except
    (index_ ← lift (getitem (namefile_rows meta) 0);
     r ← lift (iloc meta index_);
     v ← lift (match value r with
               | Some v => Ok v
               | None => Raise AttributeError
               end);
     namefile ← lift (getitem (split_on "." v) 0);
     (if is_infix "EMRO" namefile then
        radar ← lift (name_field namefile 3);
        modify (set_name_source radar);;
        modify (set_emission_center "Arpae Emilia-Romagna");;
        p ← lift (name_field namefile 4);
        modify (set_prod p);;
        modify (set_prod (if String.eqb p "CZ" then "LBM" else p))
      else if is_infix "PIEM" namefile then
        modify (set_name_source "Bric della Croce,Monte Settepani");;
        modify (set_emission_center "Arpa Piemonte");;
        p ← lift (name_field namefile 4);
        modify (set_prod p)
      else if is_infix "ROMA" namefile then
        modify (set_name_source "Mosaico radar nazionale");;
        modify (set_emission_center "DPC");;
        p ← lift (name_field namefile 2);
        modify (set_prod p)
      else ret tt);;
     modify (set_name_file (namefile ++ ".BUFR")))
    (fun _ => true) (ret tt).

(** The second [try] block. *)
Definition try_product : M sp_locals unit :=
  try_except
    (p ← read_var prod UnboundLocalError;
     let p := if String.eqb p "SR" then "SRI" else p in
     modify (set_prod p);;
     modify (set_prod_struct (RadarProduct_init p "None")))
    (fun _ => true) (ret tt).

Definition get_source_product_from_meta (meta : list row)
  : StructSource * RadarProduct :=
  let l := fst ((try_source meta;; try_product)
                  (mk_sp_locals (mk_source (Some "Unknown") None None) None
                                (RadarProduct_init "None" "None"))) in
  (source_struct l, prod_struct l).

(** ** [Bufr.get_projection_from_meta] *)

(** Decimal literals denote the nearest binary64 value, as in Python. *)
#[local] Set Warnings "-inexact-float".

(** The attributes of the [StructProjection] instance that the method
    reads or assigns; [None] is Python's [None], or an attribute that
    [addparams] has not added yet.  The class attribute [stand_par1] is
    never assigned: it is the constant below. *)
Record StructProjection : Type := mk_projection
  { center_longitude : option float;
    center_latitude : option float;
    proj_name : option string;
    earth_radius : option float;
    projection_index : option Z;
    semimajor_axis : option float;
    semiminor_axis : option float;
    x_offset : option float;
    y_offset : option float;
    standard_par1 : option float;
    standard_par2 : option float;
    pyprojstring : option string;
    zone : option Z }.

Definition stand_par1 : float := 0.

(** [StructProjection()]. *)
Definition StructProjection_init : StructProjection :=
  mk_projection None None None None None None None None None None None None None.

Definition set_center_longitude v (p : StructProjection) :=
  mk_projection v (center_latitude p) (proj_name p) (earth_radius p)
    (projection_index p) (semimajor_axis p) (semiminor_axis p) (x_offset p)
    (y_offset p) (standard_par1 p) (standard_par2 p) (pyprojstring p) (zone p).
Definition set_center_latitude v (p : StructProjection) :=
  mk_projection (center_longitude p) v (proj_name p) (earth_radius p)
    (projection_index p) (semimajor_axis p) (semiminor_axis p) (x_offset p)
    (y_offset p) (standard_par1 p) (standard_par2 p) (pyprojstring p) (zone p).
Definition set_proj_name v (p : StructProjection) :=
  mk_projection (center_longitude p) (center_latitude p) v (earth_radius p)
    (projection_index p) (semimajor_axis p) (semiminor_axis p) (x_offset p)
    (y_offset p) (standard_par1 p) (standard_par2 p) (pyprojstring p) (zone p).
Definition set_earth_radius v (p : StructProjection) :=
  mk_projection (center_longitude p) (center_latitude p) (proj_name p) v
    (projection_index p) (semimajor_axis p) (semiminor_axis p) (x_offset p)
    (y_offset p) (standard_par1 p) (standard_par2 p) (pyprojstring p) (zone p).
Definition set_projection_index v (p : StructProjection) :=
  mk_projection (center_longitude p) (center_latitude p) (proj_name p)
    (earth_radius p) v (semimajor_axis p) (semiminor_axis p) (x_offset p)
    (y_offset p) (standard_par1 p) (standard_par2 p) (pyprojstring p) (zone p).
Definition set_semimajor_axis v (p : StructProjection) :=
  mk_projection (center_longitude p) (center_latitude p) (proj_name p)
    (earth_radius p) (projection_index p) v (semiminor_axis p) (x_offset p)
    (y_offset p) (standard_par1 p) (standard_par2 p) (pyprojstring p) (zone p).
Definition set_semiminor_axis v (p : StructProjection) :=
  mk_projection (center_longitude p) (center_latitude p) (proj_name p)
    (earth_radius p) (projection_index p) (semimajor_axis p) v (x_offset p)
    (y_offset p) (standard_par1 p) (standard_par2 p) (pyprojstring p) (zone p).
Definition set_x_offset v (p : StructProjection) :=
  mk_projection (center_longitude p) (center_latitude p) (proj_name p)
    (earth_radius p) (projection_index p) (semimajor_axis p) (semiminor_axis p)
    v (y_offset p) (standard_par1 p) (standard_par2 p) (pyprojstring p) (zone p).
Definition set_y_offset v (p : StructProjection) :=
  mk_projection (center_longitude p) (center_latitude p) (proj_name p)
    (earth_radius p) (projection_index p) (semimajor_axis p) (semiminor_axis p)
    (x_offset p) v (standard_par1 p) (standard_par2 p) (pyprojstring p) (zone p).
Definition set_standard_par1 v (p : StructProjection) :=
  mk_projection (center_longitude p) (center_latitude p) (proj_name p)
    (earth_radius p) (projection_index p) (semimajor_axis p) (semiminor_axis p)
    (x_offset p) (y_offset p) v (standard_par2 p) (pyprojstring p) (zone p).
Definition set_standard_par2 v (p : StructProjection) :=
  mk_projection (center_longitude p) (center_latitude p) (proj_name p)
    (earth_radius p) (projection_index p) (semimajor_axis p) (semiminor_axis p)
    (x_offset p) (y_offset p) (standard_par1 p) v (pyprojstring p) (zone p).
Definition set_pyprojstring v (p : StructProjection) :=
  mk_projection (center_longitude p) (center_latitude p) (proj_name p)
    (earth_radius p) (projection_index p) (semimajor_axis p) (semiminor_axis p)
    (x_offset p) (y_offset p) (standard_par1 p) (standard_par2 p) v (zone p).
Definition set_zone v (p : StructProjection) :=
  mk_projection (center_longitude p) (center_latitude p) (proj_name p)
    (earth_radius p) (projection_index p) (semimajor_axis p) (semiminor_axis p)
    (x_offset p) (y_offset p) (standard_par1 p) (standard_par2 p)
    (pyprojstring p) v.

Section Projection.

(** [float] on strings, as in the decoder; and the three library calls of
    the method: the format [f"{x:.<n>f}"] of a float, [pyproj.Proj(s)] with
    its [name] and its call on a longitude and a latitude, and
    [round(x, 1)]. *)
Variable float_of_str : string -> option float.
Variable format_f : nat -> float -> string.
Variable Proj_name : string -> string.
Variable Proj_call : string -> float -> float -> float * float.
Variable round1 : float -> float.

(** [float(self.meta.iloc[index_].value)] with
    [index_ = self.meta.loc[(F == f) & (X == x) & (Y == y)].index.values[0]]. *)
Definition float_at (meta : list row) (f x y : string) : result float :=
  index_ ← getitem (loc_index (fxy f x y) meta) 0;
  r ← iloc meta index_;
  py_float float_of_str (value r).

(** [f"{v:.<n>f}"]: [None] has no such format. *)
Definition format_opt (n : nat) (v : option float) : result string :=
  match v with
  | Some x => Ok (format_f n x)
  | None => Raise TypeError
  end.

(** [v == x] for an attribute [v] that is a float or [None]. *)
Definition opt_float_eqb (v : option float) (x : float) : bool :=
  match v with
  | Some a => (a =? x)%float
  | None => false
  end.

(** One [try] block that reads a float or, failing to find its row,
    applies [fallback]. *)
Definition try_float (meta : list row) (y : string)
           (assign : float -> StructProjection -> StructProjection)
           (fallback : M StructProjection unit) : M StructProjection unit :=
  try_except
    (v ← lift (float_at meta "0" "29" y); modify (assign v))
    (catches [IndexError]) fallback.

(** The branch of projection type 0. *)
Definition azimuthal_equidistant (source : StructSource) : M StructProjection unit :=
  if bool_decide (emission_center source = Some "Arpae Emilia-Romagna") then
    modify (set_projection_index (Some 0));;
    (if bool_decide (name_source source = Some "GAT") then
       modify (set_center_longitude (Some 10.4992%float));;
       modify (set_center_latitude (Some 44.7914%float))
     else if bool_decide (name_source source = Some "SPC") then
       modify (set_center_longitude (Some 11.6236%float));;
       modify (set_center_latitude (Some 44.6547%float))
     else ret tt);;
    modify (set_proj_name (Some "Cartesian lat-lon"));;
    modify (set_earth_radius (Some 6370.997%float));;
    p ← get;
    lat ← lift (format_opt 4 (center_latitude p));
    lon ← lift (format_opt 4 (center_longitude p));
    r ← lift (format_opt 4 (earth_radius p));
    modify (set_pyprojstring
              (Some ("+proj=eqc +lat_0=" ++ lat ++ "     +lon_0=" ++ lon
                     ++ " +ellps=WGS84 +R=" ++ r)))
  else ret tt.

(** The branch of projection type 3. *)
Definition mercator (meta : list row) (source : StructSource)
  : M StructProjection unit :=
  if bool_decide (emission_center source = Some "DPC") then
    p ← get;
    (if opt_float_eqb (semimajor_axis p) 0 && opt_float_eqb (semiminor_axis p) 0
     then
       modify (set_semimajor_axis (Some 6370997%float));;
       modify (set_semiminor_axis (Some 6370997%float));;
       modify (set_earth_radius (Some 6370997%float))
     else
       modify (set_earth_radius (semimajor_axis p)));;
    p ← get;
    lat ← lift (format_opt 1 (center_latitude p));
    lon ← lift (format_opt 1 (center_longitude p));
    modify (set_pyprojstring
              (Some ("+proj=tmerc +lat_0=" ++ lat ++ "     +lon_0=" ++ lon
                     ++ " +ellps=WGS84")));;
    modify (set_proj_name (Some "tmerc"))
  else if bool_decide (emission_center source = Some "Arpa Piemonte") then
    modify (set_earth_radius (Some 6378388%float));;
    modify (set_proj_name (Some "UTM"));;
    modify (set_semimajor_axis (Some 6378388%float));;
    modify (set_semiminor_axis (Some 6356911.94613%float));;
    modify (set_zone (Some 32));;
    let pyprojstring := "+proj=utm +zone=32 +k_0=0.9996 +ellps=intl" in
    modify (set_pyprojstring (Some pyprojstring));;
    modify (set_proj_name (Some (Proj_name pyprojstring)));;
    index_ ← lift (getitem (loc_index (fxy "3" "1" "23") meta) 0);
    r ← lift (iloc meta index_);
    lat_nw ← lift (py_float float_of_str (value r));
    r ← lift (iloc meta (index_ + 1));
    lon ← lift (py_float float_of_str (value r));
    let lon_nw := round1 lon in
    let xy := Proj_call pyprojstring lon_nw lat_nw in
    modify (set_x_offset (Some (fst xy)));;
    modify (set_y_offset (Some (snd xy)))
  else modify (set_proj_name (Some "Mercator")).

(** [proj_type_int]: the value of the row (0, 29, 201) or, without one,
    of the row (0, 29, 1). *)
Definition proj_type_int (meta : list row) : result Z :=
  index_ ← match loc_index (fxy "0" "29" "201") meta with
           | i :: _ => Ok i
           | [] => getitem (loc_index (fxy "0" "29" "1") meta) 0
           end;
  r ← iloc meta index_;
  int_float float_of_str (value r).

(** The last [try] block: the projection type. *)
Definition try_projection_type (meta : list row) (source : StructSource)
  : M StructProjection unit :=
  try_except
    (proj_type_int ← lift (proj_type_int meta);
     if proj_type_int =? 0 then azimuthal_equidistant source
     else if proj_type_int =? 1 then
       p ← get;
       if opt_float_eqb (center_latitude p) 90 then
         modify (set_proj_name (Some "Polar stereographic"));;
         modify (set_center_latitude (Some stand_par1))
       else modify (set_proj_name (Some "Stereographic"))
     else if proj_type_int =? 2 then
       modify (set_proj_name (Some "Lambert Conformal Conic"))
     else if proj_type_int =? 3 then mercator meta source
     else if proj_type_int =? 4 then
       modify (set_proj_name (Some "Azimuthal Equidistant"))
     else if proj_type_int =? 5 then
       modify (set_proj_name (Some "Lambert Azimuthal"))
     else ret tt)
    (catches [IndexError; AttributeError]) (ret tt).

Definition get_projection_from_meta (meta : list row) (source : StructSource)
  : result StructProjection :=
  let run :=
    try_float meta "193" (fun v => set_center_longitude (Some v)) (ret tt);;
    try_float meta "194" (fun v => set_center_latitude (Some v)) (ret tt);;
    try_float meta "199" (fun v => set_semimajor_axis (Some v))
              (modify (set_semimajor_axis (Some 0%float)));;
    try_float meta "200" (fun v => set_semiminor_axis (Some v))
              (modify (set_semiminor_axis (Some 0%float)));;
    try_float meta "195"
              (fun xoffset =>
                 set_x_offset
                   (Some (if bool_decide (emission_center source = Some "DPC")
                             && (0 <? xoffset)%float
                          then (- xoffset)%float else xoffset)))
              (modify (set_x_offset (Some 0%float)));;
    try_float meta "196" (fun v => set_y_offset (Some v))
              (modify (set_y_offset (Some 0%float)));;
    try_float meta "197" (fun v => set_standard_par1 (Some v))
              (modify (set_standard_par1 (Some 0%float)));;
    try_float meta "198" (fun v => set_standard_par2 (Some v))
              (modify (set_standard_par2 (Some 0%float)));;
    try_projection_type meta source in
  match run StructProjection_init with
  | (p, Ok _) => Ok p
  | (_, Raise e) => Raise e
  end.

End Projection.

(** The six numeric parameters that every block either reads or defaults. *)
Definition parameters_set (p : StructProjection) : Prop :=
  is_Some (semimajor_axis p) /\ is_Some (semiminor_axis p)
  /\ is_Some (x_offset p) /\ is_Some (y_offset p)
  /\ is_Some (standard_par1 p) /\ is_Some (standard_par2 p).

(** ** [Bufr.get_grid_from_meta] *)

(** The attributes of the [StructGrid] instance.  [grid_nx] and [grid_ny]
    are [None] until [addparams] adds them; [limiti] starts as four
    [None]. *)
Record grid_attrs : Type := mk_grid_attrs
  { grid_nx : option Z;
    grid_ny : option Z;
    dx : option float;
    dy : option float;
    units_dx : option string;
    units_dy : option string;
    limiti : list (option float) }.

(** [StructGrid()]. *)
Definition StructGrid_init : grid_attrs :=
  mk_grid_attrs None None None None None None [None; None; None; None].

Definition set_grid_nx v (g : grid_attrs) :=
  mk_grid_attrs v (grid_ny g) (dx g) (dy g) (units_dx g) (units_dy g) (limiti g).
Definition set_grid_ny v (g : grid_attrs) :=
  mk_grid_attrs (grid_nx g) v (dx g) (dy g) (units_dx g) (units_dy g) (limiti g).
Definition set_dx v (g : grid_attrs) :=
  mk_grid_attrs (grid_nx g) (grid_ny g) v (dy g) (units_dx g) (units_dy g) (limiti g).
Definition set_dy v (g : grid_attrs) :=
  mk_grid_attrs (grid_nx g) (grid_ny g) (dx g) v (units_dx g) (units_dy g) (limiti g).
Definition set_units_dx v (g : grid_attrs) :=
  mk_grid_attrs (grid_nx g) (grid_ny g) (dx g) (dy g) v (units_dy g) (limiti g).
Definition set_units_dy v (g : grid_attrs) :=
  mk_grid_attrs (grid_nx g) (grid_ny g) (dx g) (dy g) (units_dx g) v (limiti g).
Definition set_limiti v (g : grid_attrs) :=
  mk_grid_attrs (grid_nx g) (grid_ny g) (dx g) (dy g) (units_dx g) (units_dy g) v.

(** What [read_bufr] reads of the grid. *)
Definition as_StructGrid (g : grid_attrs) : StructGrid :=
  mk_grid (grid_nx g) (grid_ny g).

(** An [int] as the operand of a float operation: the nearest float, or
    [OverflowError] beyond the range. *)
Definition float_of_int (z : Z) : result float :=
  match SpecFloat.binary_normalize 53 1024 z 0 false with
  | S754_infinity _ => Raise OverflowError
  | sf => Ok (SF2Prim sf)
  end.

(** [n * x] for an [int] attribute and an attribute that is a float or
    [None]. *)
Definition int_times (n : Z) (x : option float) : result float :=
  match x with
  | None => Raise TypeError
  | Some x => f ← float_of_int n; Ok (f * x)%float
  end.

Section Grid.

Variable float_of_str : string -> option float.

(** [float(self.meta.loc[(F == f) & (X == x) & (Y == y)].value.values[0])]. *)
Definition float_of_first (meta : list row) (f x y : string) : result float :=
  v ← getitem (map value (List.filter (fxy f x y) meta)) 0;
  py_float float_of_str v.

(** [x_offset] and [y_offset] are the attributes of [self.projection]. *)
Definition get_grid_from_meta (meta : list row) (x_offset y_offset : option float)
  : result grid_attrs :=
  let run : M grid_attrs unit :=
    try_except
      (v ← lift (float_of_first meta "0" "30" "22");
       n ← lift (py_int v);
       modify (set_grid_ny (Some n));;
       v ← lift (float_of_first meta "0" "30" "21");
       n ← lift (py_int v);
       modify (set_grid_nx (Some n)))
      (catches [IndexError]) (ret tt);;
    try_except
      (v ← lift (float_of_first meta "0" "6" "33");
       modify (set_dy (Some v));;
       v ← lift (float_of_first meta "0" "5" "33");
       modify (set_dx (Some v)))
      (catches [IndexError]) (ret tt);;
    modify (set_units_dx (Some "meters"));;
    modify (set_units_dy (Some "meters"));;
    g ← get;
    n ← lift (match grid_ny g with Some n => Ok n | None => Raise AttributeError end);
    h ← lift (int_times n (dy g));
    south ← lift (match y_offset with
                  | Some y => Ok (y - h)%float
                  | None => Raise TypeError
                  end);
    n ← lift (match grid_nx g with Some n => Ok n | None => Raise AttributeError end);
    w ← lift (int_times n (dx g));
    east ← lift (match x_offset with
                 | Some x => Ok (x + w)%float
                 | None => Raise TypeError
                 end);
    modify (set_limiti [Some south; x_offset; y_offset; Some east]) in
  match run StructGrid_init with
  | (g, Ok _) => Ok g
  | (_, Raise e) => Raise e
  end.

End Grid.

(** ** [Bufr.read_bufr] with its three extractors *)

Section Reader.

Variable float_of_str : string -> option float.
Variable format_f : nat -> float -> string.
Variable Proj_name : string -> string.
Variable Proj_call : string -> float -> float -> float * float.
Variable round1 : float -> float.

(** [self.get_grid_from_meta()] with [self.projection] set to [p]. *)
Definition grid_from_meta (meta : list row) (p : StructProjection)
  : result StructGrid :=
  g ← get_grid_from_meta float_of_str meta (x_offset p) (y_offset p);
  Ok (as_StructGrid g).

Definition Bufr_read_bufr (data_file : option (list Z))
           (meta_file : option (list string)) (fill_method : string)
  : M (rb_state RadarProduct StructProjection)
      (macro RadarProduct StructProjection * list (list float)) :=
  read_bufr float_of_str RadarProduct StructProjection
            get_source_product_from_meta
            (get_projection_from_meta float_of_str format_f Proj_name
                                      Proj_call round1)
            grid_from_meta data_file meta_file fill_method.

End Reader.

(** The value of a pixel of [out_field] whose byte is [c], once
    [read_bufr] has assigned the levels of index below [k]. *)
Definition pixel_value (levels : list float) (missing : float) (k : nat)
           (c : Z) : float :=
  match (if (0 <=? c) && (c <? Z.of_nat k) then levels !! Z.to_nat c else None) with
  | Some lev => lev
  | None => (1 * missing)%float
  end.

End BufrMeta.

(* ===================================================================== *)
(** * State invariants of a computation                                  *)
(* ===================================================================== *)

(** [preserves I m]: whatever its outcome, [m] leaves a state that
    satisfies [I] when it starts in one. *)
Definition preserves {S A} (I : S -> Prop) (m : M S A) : Prop :=
  forall s, I s -> I (fst (m s)).

(** [establishes P m Q]: from a state that satisfies [P], a run of [m]
    that does not raise ends in a state that satisfies [Q]. *)
Definition establishes {S A} (P : S -> Prop) (m : M S A) (Q : S -> Prop) : Prop :=
  forall s, P s -> forall s' a, m s = (s', Ok a) -> Q s'.

(* ===================================================================== *)
(** * ODIM: a group of the volume by elevation angle                     *)
(* ===================================================================== *)

Module OdimQuery.

Import Odim.

(** The members of [self.__dict__] of a populated volume. *)
Inductive member : Type :=
| MGroup (o : obj)
| MInt (z : Z)
| MGroups (l : list obj)
| MGroupLists (l : list (list obj))
| MDatasets (l : list (list ndarray))
| MValues (l : list pyval).

(** [self.__dict__[name]]; [varsnames] is there after [read_odim] only. *)
Definition dict_getitem (self : OdimHierarchyPvol) (name : string)
  : result member :=
  if String.eqb name "root_what" then Ok (MGroup (root_what self))
  else if String.eqb name "root_where" then Ok (MGroup (root_where self))
  else if String.eqb name "root_how" then Ok (MGroup (root_how self))
  else if String.eqb name "n_group_dataset" then Ok (MInt (n_group_dataset self))
  else if String.eqb name "n_datasets" then Ok (MInt (n_datasets self))
  else if String.eqb name "datasets" then Ok (MDatasets (datasets self))
  else if String.eqb name "group_datasets_what"
  then Ok (MGroups (group_datasets_what self))
  else if String.eqb name "group_datasets_where"
  then Ok (MGroups (group_datasets_where self))
  else if String.eqb name "group_datasets_how_radar"
  then Ok (MGroups (group_datasets_how_radar self))
  else if String.eqb name "group_datasets_how_polar"
  then Ok (MGroups (group_datasets_how_polar self))
  else if String.eqb name "group_datasets_data_what"
  then Ok (MGroupLists (group_datasets_data_what self))
  else if String.eqb name "elangles" then Ok (MValues (elangles self))
  else if String.eqb name "varsnames" then
    match varsnames self with
    | Some v => Ok (MValues v)
    | None => Raise KeyError
    end
  else Raise KeyError.

(** What a subscript of a member gives. *)
Inductive element : Type :=
| EGroup (o : obj)
| EGroups (l : list obj)
| EPlanes (l : list ndarray)
| EValue (v : pyval).

(** [m[i]]: a group instance and an [int] have no subscript. *)
Definition subscript (m : member) (i : nat) : result element :=
  match m with
  | MGroup _ | MInt _ => Raise TypeError
  | MGroups l => o ← getitem l i; Ok (EGroup o)
  | MGroupLists l => os ← getitem l i; Ok (EGroups os)
  | MDatasets l => d ← getitem l i; Ok (EPlanes d)
  | MValues l => v ← getitem l i; Ok (EValue v)
  end.

(** Names that [==] tells apart two by two. *)
Definition pairwise_distinct (l : list pyval) : Prop :=
  forall i j x y, (i < j)%nat -> l !! i = Some x -> l !! j = Some y ->
                  py_eq x y = Ok false.

(** What the loop of [read_odim] keeps true of its accumulators: every
    elevation has as many data planes as [what] groups, and no more than
    [nmax_datasets]. *)
Definition aligned (acc : read_acc) : Prop :=
  Forall2 (fun (d : list ndarray) (ws : list obj) => length d = length ws)
          (gd_datadset_list_total acc) (gd_data_what_list_total acc)
  /\ Forall (fun d : list ndarray => Z.of_nat (length d) <= nmax_datasets acc)
            (gd_datadset_list_total acc).

(** [OdimHierarchyPvol.get_group_by_elangle]. *)
Definition get_group_by_elangle (self : OdimHierarchyPvol) (elangle : float)
           (namegroup : string) : result element :=
  m ← dict_getitem self namegroup;
  i ← py_index (elangles self) (PFloat elangle);
  subscript m i.

End OdimQuery.

(* ===================================================================== *)
(** * More concrete inputs                                               *)
(* ===================================================================== *)

Module Cases.

Import Bufr Odim Struct BufrMeta OdimQuery Examples.

(** A reflectivity table whose levels are not increasing: lower bound 5,
    then the levels 3 and 9. *)
Definition unsorted_levels_table : list row :=
  [cell (Some "3") (Some "13") (Some "9") (Some "5");
   cell (Some "0") (Some "31") (Some "1") (Some "2");
   cell None None None (Some "3");
   cell None None None (Some "9")].

(** An accumulation over one day and six hours, and an instantaneous
    field. *)
Definition acc_table : list row :=
  [cell (Some "0") (Some "8") (Some "21") (Some "3");
   cell (Some "0") (Some "4") (Some "23") (Some "1");
   cell (Some "0") (Some "4") (Some "24") (Some "6")].
Definition instantaneous_table : list row :=
  [cell (Some "0") (Some "8") (Some "21") (Some "1")].

(** The date 2020-09-22 10:35, and a table cut after the year. *)
Definition date_table : list row :=
  [cell (Some "3") (Some "1") (Some "11") (Some "2020");
   cell None None None (Some "9");
   cell None None None (Some "22");
   cell (Some "3") (Some "1") (Some "12") (Some "10");
   cell None None None (Some "35")].
Definition year_table : list row :=
  [cell (Some "3") (Some "1") (Some "11") (Some "2020")].

(** The row of the file name, as [get_octect] builds it. *)
Definition namefile_table : list row :=
  [mk_row (Some "3") (Some "21") (Some "193")
          (Some "2020-09-22-10-35_00_EMRO_GAT_CZ@.BUFR")
          None None None (Some "namefile")].

Definition dpc : StructSource :=
  mk_source (Some "Mosaico radar nazionale") None (Some "DPC").

(** A polar stereographic projection, and the offsets of a national
    mosaic. *)
Definition polar_table : list row :=
  [cell (Some "0") (Some "29") (Some "194") (Some "90");
   cell (Some "0") (Some "29") (Some "197") (Some "60");
   cell (Some "0") (Some "29") (Some "1") (Some "1")].
Definition mosaic_table : list row :=
  [cell (Some "0") (Some "29") (Some "195") (Some "600000");
   cell (Some "0") (Some "29") (Some "196") (Some "650000")].

(** Stand-ins for the formatter and for [pyproj]: the tables above reach
    none of them. *)
Definition no_format (n : nat) (x : float) : string := "".
Definition no_Proj_name (s : string) : string := "".
Definition no_Proj_call (s : string) (lon lat : float) : float * float :=
  (lon, lat).
Definition no_round (x : float) : float := x.

(** A grid of two rows and three columns of one kilometre. *)
Definition size_table : list row :=
  [cell (Some "0") (Some "30") (Some "22") (Some "2");
   cell (Some "0") (Some "30") (Some "21") (Some "3");
   cell (Some "0") (Some "6") (Some "33") (Some "1000");
   cell (Some "0") (Some "5") (Some "33") (Some "1000")].

(** A metadata file with the number of columns only. *)
Definition columns_only : list string :=
  [" 0 30  21           256"].

(** An instance ready for the decoding of four bytes. *)
Definition loaded_self : bufr_self RadarProduct StructProjection :=
  mk_self RadarProduct StructProjection None None None None None
          (Some (mk_grid (Some 2) (Some 2))) (Some VarZ)
          (Some (Some [10; 20; 30]%float)).

(** Three variable instances: two share the name ["Z"]. *)
Definition var_z : obj :=
  StructVariable_init (PStr "Z") (PStr "Radar reflectivity factor") PNone
                      (PStr "dBZ") (PFloat (-64)) (PFloat 80) (PFloat (-70))
                      (PFloat (-64)) (PStr "RGB_Z.txt").
Definition var_th : obj :=
  StructVariable_init (PStr "Z") (PStr "Uncorrected Radar reflectivity factor")
                      PNone (PStr "dBZ") (PFloat (-64)) (PFloat 80)
                      (PFloat (-70)) (PFloat (-64)) (PStr "RGB_Z.txt").
Definition var_vrad : obj :=
  StructVariable_init (PStr "VRAD") (PStr "Doppler Radar Velocity") PNone
                      (PStr "m s-1") (PFloat (-50)) (PFloat 50) (PFloat (-70))
                      (PFloat (-64)) (PStr "RGB_V.txt").
Definition three_variables : list obj := [var_z; var_th; var_vrad].

(** A group with a text that ends in a NUL character and an integer
    beyond [int64]. *)
Definition padded_what : obj :=
  list_to_map [("hierarchy", PStr "what");
               ("source", PStr (String "R" (String "A" (String "D"
                                  (String Ascii.zero EmptyString)))));
               ("count", PInt (2 ^ 63))].

(** A file whose [what/object] is a variable-length string. *)
Definition str_file : h5file :=
  [SetAttr ["what"] "object" (HStr "PVOL"); MkGroup ["what"]].

(** Three elevations of three quantities each. *)
Definition three_sweeps : OdimHierarchyPvol :=
  mk_pvol what_root where_root how_root 3 3
          (map (fun n => OdimWhatDset_default (dset n "what")) [1; 2; 3])
          [sweep_where 1 0.5; sweep_where 2 1.5; sweep_where 3 2.5]
          (map (fun n => OdimHowRadarDset (dset n "how")) [1; 2; 3])
          (map (fun n => OdimHowPolarDset (dset n "how")) [1; 2; 3])
          [[plane 0; plane 10; plane 20]; [plane 5; plane 15; plane 25];
           [plane 7; plane 17; plane 27]]
          (map (fun n => [quantity_what n 1 "DBZH"; quantity_what n 2 "VRAD";
                          quantity_what n 3 "TH"]) [1; 2; 3])
          [PFloat 0.5; PFloat 1.5; PFloat 2.5]
          (Some [PStr "DBZH"; PStr "VRAD"; PStr "TH"]).

(** The file that [export_odim] writes for it. *)
Definition exported_file : h5file := fst (export_odim three_sweeps).

(** Four elevations that do not hold the same quantities: the second has
    no "VRAD", the third no "Z_VD". *)
Definition irregular_sweeps : OdimHierarchyPvol :=
  mk_pvol what_root where_root how_root 4 4
          (map (fun n => OdimWhatDset_default (dset n "what")) [1; 2; 3; 4])
          [sweep_where 1 0.5; sweep_where 2 1.5; sweep_where 3 2.5;
           sweep_where 4 3.5]
          (map (fun n => OdimHowRadarDset (dset n "how")) [1; 2; 3; 4])
          (map (fun n => OdimHowPolarDset (dset n "how")) [1; 2; 3; 4])
          [[plane 0; plane 10; plane 20]; [plane 5; plane 25];
           [plane 7; plane 17]; [plane 9]]
          [[quantity_what 1 1 "DBZH"; quantity_what 1 2 "VRAD";
            quantity_what 1 3 "Z_VD"];
           [quantity_what 2 1 "DBZH"; quantity_what 2 2 "Z_VD"];
           [quantity_what 3 1 "DBZH"; quantity_what 3 2 "VRAD"];
           [quantity_what 4 1 "DBZH"]]
          [PFloat 0.5; PFloat 1.5; PFloat 2.5; PFloat 3.5] None.

Definition irregular_file : h5file := fst (export_odim irregular_sweeps).

(** Three elevations of three quantities, with a value, one tenth, that
    binary32 does not hold. *)
Definition fine_plane (x : float) : ndarray :=
  D2 [[x; 0x1.999999999999ap-4]; [0.25; 0.5]]%float.

Definition fine_sweeps : OdimHierarchyPvol :=
  mk_pvol what_root where_root how_root 3 3
          (map (fun n => OdimWhatDset_default (dset n "what")) [1; 2; 3])
          [sweep_where 1 0.5; sweep_where 2 1.5; sweep_where 3 2.5]
          (map (fun n => OdimHowRadarDset (dset n "how")) [1; 2; 3])
          (map (fun n => OdimHowPolarDset (dset n "how")) [1; 2; 3])
          [[fine_plane 0; fine_plane 10; fine_plane 20];
           [fine_plane 5; fine_plane 15; fine_plane 25];
           [fine_plane 7; fine_plane 17; fine_plane 27]]
          (map (fun n => [quantity_what n 1 "DBZH"; quantity_what n 2 "VRAD";
                          quantity_what n 3 "TH"]) [1; 2; 3])
          [PFloat 0.5; PFloat 1.5; PFloat 2.5]
          (Some [PStr "DBZH"; PStr "VRAD"; PStr "TH"]).

Definition fine_file : h5file := fst (export_odim fine_sweeps).

End Cases.

(* ===================================================================== *)
(** * Properties of the BUFR decoder                                     *)
(* ===================================================================== *)

Import Bufr.

(** Inversion of one bind of the [result] monad. *)
Lemma rbind_Ok {A B} (m : result A) (k : A -> result B) (b : B) :
  (m ≫= k) = Ok b -> exists a, m = Ok a /\ k a = Ok b.
Proof. destruct m as [a|e]; [eauto | discriminate]. Qed.

Ltac inv_bind H :=
  repeat match type of H with
         | (_ ≫= _) = Ok _ =>
             let a := fresh "a" in
             let E := fresh "E" in
             apply rbind_Ok in H as (a & E & H)
         end.

(** ** One line *)

Lemma check_emptyfield_not_empty (s : string) : _check_emptyfield s <> Some "".
Proof.
  unfold _check_emptyfield. destruct (String.eqb_spec s ""); congruence.
Qed.

Lemma get_str_drop (a i : nat) (s : string) :
  String.get i (str_drop a s) = String.get (a + i) s.
Proof.
  revert s. induction a as [|a IH]; intros s; [reflexivity|].
  destruct s as [|c s]; cbn [str_drop Nat.add].
  - destruct i; reflexivity.
  - cbn [String.get]. apply IH.
Qed.

Lemma get_str_take (n i : nat) (s : string) :
  String.get i (str_take n s) = if (i <? n)%nat then String.get i s else None.
Proof.
  revert i s. induction n as [|n IH]; intros i s.
  - destruct s; destruct i; reflexivity.
  - destruct s as [|c s]; [destruct i; destruct (_ <? _)%nat; reflexivity|].
    destruct i as [|i]; [reflexivity|]. cbn [str_take String.get].
    rewrite IH. reflexivity.
Qed.

Lemma columns_slice (line : string) (a b : nat) : columns line a b (slice line a b).
Proof.
  intros i. unfold slice. rewrite get_str_take, get_str_drop. reflexivity.
Qed.

Lemma columns_slice_from (line : string) (a : nat) :
  columns_from line a (slice_from line a).
Proof. intros i. apply get_str_drop. Qed.

Lemma columns_unique line a b c c' :
  columns line a b c -> columns line a b c' -> c = c'.
Proof. intros H H'. apply get_correct. intros i. rewrite H, H'. reflexivity. Qed.

Lemma columns_from_unique line a c c' :
  columns_from line a c -> columns_from line a c' -> c = c'.
Proof. intros H H'. apply get_correct. intros i. rewrite H, H'. reflexivity. Qed.

Lemma blank_nil : blank "".
Proof. intros i ch H. destruct i; discriminate. Qed.

Lemma blank_cons c s : blank (String c s) <-> is_space c = true /\ blank s.
Proof.
  split.
  - intros H. split; [apply (H 0%nat); reflexivity|].
    intros i ch Hi. apply (H (S i)). exact Hi.
  - intros [Hc Hs] [|i] ch Hi; [injection Hi as <-; exact Hc|].
    apply (Hs i). exact Hi.
Qed.

(** [lstrip] removes a blank prefix, and stops at a character that is no
    white space. *)
Lemma lstrip_spec (s : string) :
  exists pre, s = pre ++ lstrip s /\ blank pre
    /\ forall ch, String.get 0 (lstrip s) = Some ch -> is_space ch = false.
Proof.
  induction s as [|c s (pre & Hs & Hpre & Hedge)].
  - exists "". split; [reflexivity|]. split; [apply blank_nil|]. discriminate.
  - cbn [lstrip]. destruct (is_space c) eqn:Hc.
    + exists (String c pre).
      split; [change (String c s = String c (pre ++ lstrip s)); congruence|].
      split; [apply blank_cons; auto|exact Hedge].
    + exists "". split; [reflexivity|]. split; [apply blank_nil|].
      intros ch [= <-]. exact Hc.
Qed.

Lemma rstrip_spec (s : string) :
  exists post, s = rstrip s ++ post /\ blank post
    /\ (forall ch, String.get (String.length (rstrip s) - 1) (rstrip s) = Some ch ->
                   is_space ch = false)
    /\ (forall ch, String.get 0 (rstrip s) = Some ch -> String.get 0 s = Some ch).
Proof.
  induction s as [|c s (post & Hs & Hpost & Hedge & Hfirst)].
  - exists "". split; [reflexivity|]. split; [apply blank_nil|].
    split; discriminate.
  - cbn [rstrip]. destruct (rstrip s) as [|c' r] eqn:Hr.
    + change (s = post) in Hs. destruct (is_space c) eqn:Hc.
      * exists (String c post).
        split; [change (String c s = String c post); congruence|].
        split; [apply blank_cons; auto|]. split; discriminate.
      * exists post.
        split; [change (String c s = String c post); congruence|].
        split; [exact Hpost|]. split; [|auto].
        intros ch [= <-]. exact Hc.
    + exists post.
      split; [change (String c s = String c (String c' r ++ post)); congruence|].
      split; [exact Hpost|]. split; [|auto].
      intros ch Hch. apply Hedge. cbn [String.length] in Hch |- *.
      replace (S (S (String.length r)) - 1)%nat with (S (String.length r))
        in Hch by lia.
      replace (S (String.length r) - 1)%nat with (String.length r) by lia.
      exact Hch.
Qed.

Lemma trimmed_strip (c : string) : trimmed (strip c) c.
Proof.
  unfold strip.
  destruct (lstrip_spec c) as (pre & Hc & Hpre & Hfirst).
  destruct (rstrip_spec (lstrip c)) as (post & Hl & Hpost & Hlast & Hsame).
  split; [|split].
  - exists pre, post. split; [|split; assumption].
    rewrite <- Hl. exact Hc.
  - intros ch Hch. apply Hfirst, Hsame, Hch.
  - exact Hlast.
Qed.

Lemma lstrip_blank (s : string) : blank s -> lstrip s = "".
Proof.
  induction s as [|c s IH]; [reflexivity|]. intros H.
  apply blank_cons in H as [Hc Hs]. cbn [lstrip]. rewrite Hc. auto.
Qed.

Lemma rstrip_blank (s : string) : blank s -> rstrip s = "".
Proof.
  induction s as [|c s IH]; [reflexivity|]. intros H.
  apply blank_cons in H as [Hc Hs]. cbn [rstrip]. rewrite (IH Hs), Hc.
  reflexivity.
Qed.

Lemma lstrip_app_blank (pre s : string) : blank pre -> lstrip (pre ++ s) = lstrip s.
Proof.
  induction pre as [|c pre IH]; [reflexivity|]. intros H.
  apply blank_cons in H as [Hc Hpre].
  change (lstrip (String c (pre ++ s)) = lstrip s). cbn [lstrip].
  rewrite Hc. auto.
Qed.

Lemma rstrip_app_blank (s post : string) : blank post -> rstrip (s ++ post) = rstrip s.
Proof.
  intros Hpost. induction s as [|c s IH]; [apply rstrip_blank, Hpost|].
  change (rstrip (String c (s ++ post)) = rstrip (String c s)).
  cbn [rstrip]. rewrite IH. reflexivity.
Qed.

Lemma lstrip_id (s : string) :
  (forall ch, String.get 0 s = Some ch -> is_space ch = false) -> lstrip s = s.
Proof.
  destruct s as [|c s]; [reflexivity|]. intros H. cbn [lstrip].
  rewrite (H c eq_refl). reflexivity.
Qed.

Lemma rstrip_id (s : string) :
  (forall ch, String.get (String.length s - 1) s = Some ch -> is_space ch = false) ->
  rstrip s = s.
Proof.
  induction s as [|c s IH]; [reflexivity|]. intros H. cbn [rstrip].
  destruct s as [|c' s].
  - cbn [rstrip]. rewrite (H c eq_refl). reflexivity.
  - rewrite IH; [reflexivity|].
    intros ch Hch. apply H. cbn [String.length] in Hch |- *.
    replace (S (S (String.length s)) - 1)%nat with (S (String.length s)) by lia.
    replace (S (String.length s) - 1)%nat with (String.length s) in Hch by lia.
    exact Hch.
Qed.

(** The trimmed text is determined: it is what [strip] computes. *)
Lemma trimmed_unique (t c : string) : trimmed t c -> t = strip c.
Proof.
  intros ((pre & post & -> & Hpre & Hpost) & Hfirst & Hlast).
  unfold strip. rewrite (lstrip_app_blank _ _ Hpre).
  destruct t as [|ch t].
  - change (lstrip ("" ++ post)) with (lstrip post).
    rewrite (lstrip_blank _ Hpost). reflexivity.
  - rewrite (lstrip_id (String ch t ++ post)) by exact Hfirst.
    rewrite (rstrip_app_blank _ _ Hpost). symmetry. apply rstrip_id, Hlast.
Qed.

Lemma cut_strip_slice (line : string) (a b : nat) :
  cut line a b (strip (slice line a b)).
Proof. exists (slice line a b). split; [apply columns_slice|apply trimmed_strip]. Qed.

Lemma cut_from_strip_slice (line : string) (a : nat) :
  cut_from line a (strip (slice_from line a)).
Proof.
  exists (slice_from line a). split; [apply columns_slice_from|apply trimmed_strip].
Qed.

Lemma cut_unique (line : string) (a b : nat) (t t' : string) :
  cut line a b t -> cut line a b t' -> t = t'.
Proof.
  intros (c & Hc & Ht) (c' & Hc' & Ht').
  rewrite (columns_unique _ _ _ _ _ Hc Hc') in Ht.
  rewrite (trimmed_unique _ _ Ht), (trimmed_unique _ _ Ht'). reflexivity.
Qed.

Lemma cut_from_unique (line : string) (a : nat) (t t' : string) :
  cut_from line a t -> cut_from line a t' -> t = t'.
Proof.
  intros (c & Hc & Ht) (c' & Hc' & Ht').
  rewrite (columns_from_unique _ _ _ _ Hc Hc') in Ht.
  rewrite (trimmed_unique _ _ Ht), (trimmed_unique _ _ Ht'). reflexivity.
Qed.

Lemma unset_if_empty_not_empty (t : string) : unset_if_empty t <> Some "".
Proof. unfold unset_if_empty. destruct (String.eqb_spec t ""); congruence. Qed.

(** C5. [get_octect] is a fixed-column split.  For every line, F, X and Y
    are the texts of the columns [0,2), [2,5) and [5,9), trimmed of the
    white space around them; when they are "3", "21" and "193" the value
    is the trimmed text from column 9 on, id5, id6 and id7 are unset and
    the descriptor is "namefile"; otherwise the value, id5, id6, id7 and
    the descriptor are the trimmed texts of the columns [9,23), [23,27),
    [27,32), [32,35) and from 35 on.  A text that trims to empty is unset,
    so that no component is ever the empty string.  The trimmed text of a
    column range is unique, and the record depends on nothing but these
    texts: a line with the same trimmed column texts decodes to the same
    record, and so does the same line decoded twice. *)
Theorem get_octect_fixed_columns (line : string) :
  (exists f x y,
      cut line 0 2 f /\ cut line 2 5 x /\ cut line 5 9 y
      /\ ((f = "3" /\ x = "21" /\ y = "193") ->
          exists v,
            cut_from line 9 v
            /\ get_octect line
               = [unset_if_empty f; unset_if_empty x; unset_if_empty y;
                  unset_if_empty v; None; None; None; Some "namefile"])
      /\ (~ (f = "3" /\ x = "21" /\ y = "193") ->
          exists v id5 id6 id7 d,
            cut line 9 23 v /\ cut line 23 27 id5 /\ cut line 27 32 id6
            /\ cut line 32 35 id7 /\ cut_from line 35 d
            /\ get_octect line
               = map unset_if_empty [f; x; y; v; id5; id6; id7; d]))
  /\ (forall a b t t', cut line a b t -> cut line a b t' -> t = t')
  /\ (forall a t t', cut_from line a t -> cut_from line a t' -> t = t')
  /\ (forall fld, In fld (get_octect line) -> fld <> Some "")
  /\ length (get_octect line) = 8%nat
  /\ (forall line',
        (forall a b t, cut line a b t -> cut line' a b t) ->
        (forall a t, cut_from line a t -> cut_from line' a t) ->
        get_octect line' = get_octect line)
  /\ (forall r1 r2, r1 = get_octect line -> r2 = get_octect line -> r1 = r2).
Proof.
  split; [|split; [|split; [|split; [|split; [|split]]]]].
  - exists (strip (slice line 0 2)), (strip (slice line 2 5)),
      (strip (slice line 5 9)).
    split; [apply cut_strip_slice|]. split; [apply cut_strip_slice|].
    split; [apply cut_strip_slice|]. split.
    + intros (Hf & Hx & Hy). exists (strip (slice_from line 9)).
      split; [apply cut_from_strip_slice|].
      unfold get_octect. rewrite Hf, Hx, Hy. reflexivity.
    + intros Hnot. exists (strip (slice line 9 23)), (strip (slice line 23 27)),
        (strip (slice line 27 32)), (strip (slice line 32 35)),
        (strip (slice_from line 35)).
      repeat (split; [first [apply cut_strip_slice|apply cut_from_strip_slice]|]).
      unfold get_octect.
      destruct (String.eqb_spec (strip (slice line 0 2)) "3") as [Hf|Hf];
        [|reflexivity].
      destruct (String.eqb_spec (strip (slice line 2 5)) "21") as [Hx|Hx];
        [|reflexivity].
      destruct (String.eqb_spec (strip (slice line 5 9)) "193") as [Hy|Hy];
        [|reflexivity].
      tauto.
  - intros a b t t'. apply cut_unique.
  - intros a t t'. apply cut_from_unique.
  - intros fld Hin. unfold get_octect in Hin.
    destruct (_ && _); apply in_map_iff in Hin as (s & <- & _);
      apply check_emptyfield_not_empty.
  - unfold get_octect. destruct (_ && _); reflexivity.
  - intros line' Hcut Hfrom.
    assert (Hs : forall a b, strip (slice line' a b) = strip (slice line a b)).
    { intros a b. apply (cut_unique line' a b); [apply cut_strip_slice|].
      apply Hcut, cut_strip_slice. }
    assert (Hs' : forall a, strip (slice_from line' a) = strip (slice_from line a)).
    { intros a. apply (cut_from_unique line' a); [apply cut_from_strip_slice|].
      apply Hfrom, cut_from_strip_slice. }
    unfold get_octect. rewrite !Hs, !Hs'. reflexivity.
  - congruence.
Qed.

Example get_octect_namefile :
  get_octect " 3 21 193EMRO_GAT.BUFR  "
  = [Some "3"; Some "21"; Some "193"; Some "EMRO_GAT.BUFR";
     None; None; None; Some "namefile"].
Proof. reflexivity. Qed.

Example get_octect_element :
  get_octect " 0 30  21           256                Number of pixels per row"
  = [Some "0"; Some "30"; Some "21"; Some "256"; None; None; None;
     Some "Number of pixels per row"].
Proof. reflexivity. Qed.

(** ** Levels *)

Lemma ltb_irrefl (x : float) : (x <? x)%float = false.
Proof.
  rewrite ltb_spec. unfold SFltb.
  destruct (Prim2SF x) as [s|s| |s m e]; simpl; try reflexivity.
  - destruct s; reflexivity.
  - destruct s; rewrite Z.compare_refl, Pos.compare_cont_refl; reflexivity.
Qed.

Lemma filter_above_all (low : float) (ls : list float) :
  Forall (fun l => (low <? l)%float = true) ls ->
  List.filter (fun l => (low <? l)%float) ls = ls.
Proof.
  induction 1 as [|l ls Hl _ IH]; simpl; [reflexivity|].
  rewrite Hl, IH. reflexivity.
Qed.

Lemma assign_tail_same_length (x : float) (t vals : list float) :
  length vals = length t -> assign_tail (x :: t) vals = Ok (x :: vals).
Proof.
  intros H. unfold assign_tail. simpl. rewrite H, Nat.eqb_refl. reflexivity.
Qed.

Lemma length_removelast_cons (x : float) (t : list float) :
  length (removelast (x :: t)) = length t.
Proof.
  revert x. induction t as [|y t IH]; intros x; [reflexivity|].
  change (removelast (x :: y :: t)) with (x :: removelast (y :: t)).
  cbn [length]. f_equal. apply IH.
Qed.

Lemma length_midpoints_cons (x : float) (t : list float) :
  length (midpoints (x :: t)) = length t.
Proof.
  revert x. induction t as [|y t IH]; intros x; [reflexivity|].
  simpl. f_equal. apply IH.
Qed.

Lemma lookup_removelast_shift (x : float) (t : list float) (i : nat) :
  (i < length t)%nat -> (x :: removelast (x :: t)) !! S i = (x :: t) !! i.
Proof.
  revert x i. induction t as [|y t IH]; intros x i Hi; simpl in Hi; [lia|].
  change (removelast (x :: y :: t)) with (x :: removelast (y :: t)).
  destruct i as [|i]; [reflexivity|].
  change ((y :: removelast (y :: t)) !! S i = (y :: t) !! i).
  apply IH. lia.
Qed.

Lemma lookup_midpoints (ls : list float) (i : nat) (a b : float) :
  ls !! i = Some a -> ls !! S i = Some b ->
  midpoints ls !! i = Some ((a + b) / 2)%float.
Proof.
  revert i. induction ls as [|x t IH]; intros i Ha Hb; [discriminate|].
  destruct t as [|y t]; [destruct i; discriminate|].
  destruct i as [|i].
  - simpl in *. congruence.
  - change (midpoints (y :: t) !! i = Some ((a + b) / 2)%float).
    apply IH; assumption.
Qed.

(** The three fill methods on an array whose first level is not above the
    lower bound and whose other levels are: the first level is forced to
    the lower bound before the array is rebuilt. *)
Lemma reconstruct_levels_forced (low r0 : float) (rest : list float) (fm : string) :
  (low <? r0)%float = false ->
  Forall (fun l => (low <? l)%float = true) rest ->
  reconstruct_levels (r0 :: rest) low fm =
    if String.eqb fm "min" then Ok (low :: removelast (low :: rest))
    else if String.eqb fm "ave" then Ok (low :: midpoints (low :: rest))
    else if String.eqb fm "max" then Ok (low :: rest)
    else Raise (PyException "Parametro fill_method passato in modo scorretto. Esco").
Proof.
  intros H0 Hrest. unfold reconstruct_levels.
  cbn [List.filter]. rewrite H0, (filter_above_all _ _ Hrest).
  rewrite assign_tail_same_length by reflexivity.
  cbn [mbind result_bind rbind setitem0].
  destruct (String.eqb fm "min").
  { apply assign_tail_same_length, length_removelast_cons. }
  destruct (String.eqb fm "ave").
  { apply assign_tail_same_length, length_midpoints_cons. }
  reflexivity.
Qed.

Lemma assign_tail_first (ls vals out : list float) :
  assign_tail ls vals = Ok out ->
  out !! 0%nat = ls !! 0%nat \/ (ls = [] /\ out !! 0%nat = vals !! 0%nat).
Proof.
  unfold assign_tail. destruct ls as [|x t]; simpl.
  - destruct (length vals =? 0)%nat.
    + intros [= <-]. right. split; reflexivity.
    + destruct vals as [|v [|]]; try discriminate. intros [= <-]. left. reflexivity.
  - destruct (length vals =? length t)%nat.
    + intros [= <-]. left. reflexivity.
    + destruct vals as [|v [|]]; try discriminate. intros [= <-]. left. reflexivity.
Qed.

(** Whatever the fill method, a rebuilt array starts with the lower bound. *)
Lemma reconstruct_levels_first (ls : list float) (low : float) (fm : string)
      (final : list float) :
  reconstruct_levels ls low fm = Ok final -> final !! 0%nat = Some low.
Proof.
  unfold reconstruct_levels.
  destruct (assign_tail ls _) as [l1|e]; cbn [mbind result_bind rbind]; [|discriminate].
  destruct l1 as [|x t]; cbn [mbind result_bind rbind setitem0]; [discriminate|].
  destruct (String.eqb fm "min").
  { intros H. apply assign_tail_first in H as [H|[H _]]; [exact H|discriminate]. }
  destruct (String.eqb fm "ave").
  { intros H. apply assign_tail_first in H as [H|[H _]]; [exact H|discriminate]. }
  destruct (String.eqb fm "max"); [|discriminate].
  intros [= <-]. reflexivity.
Qed.

Lemma assign_tail_length (ls vals out : list float) :
  assign_tail ls vals = Ok out -> ls <> [] -> length out = length ls.
Proof.
  unfold assign_tail. destruct ls as [|x t]; [congruence|]. intros H _. simpl in H.
  destruct (length vals =? length t)%nat eqn:E.
  - apply Nat.eqb_eq in E. injection H as <-. simpl. congruence.
  - destruct vals as [|w [|]]; try discriminate. injection H as <-.
    simpl. rewrite repeat_length. reflexivity.
Qed.

(** A rebuilt array has as many levels as were read. *)
Lemma reconstruct_levels_length (ls : list float) (low : float) (fm : string)
      (final : list float) :
  reconstruct_levels ls low fm = Ok final -> length final = length ls.
Proof.
  unfold reconstruct_levels.
  destruct (assign_tail ls _) as [l1|e] eqn:E1; cbn [mbind result_bind rbind];
    [|discriminate].
  destruct ls as [|x0 t0].
  { injection E1 as <-. discriminate. }
  apply assign_tail_length in E1; [|discriminate].
  destruct l1 as [|x t]; cbn [mbind result_bind rbind setitem0]; [discriminate|].
  assert (Hl : length (low :: t) = length (x0 :: t0)) by (simpl in *; lia).
  destruct (String.eqb fm "min").
  { intros H. apply assign_tail_length in H; [lia|discriminate]. }
  destruct (String.eqb fm "ave").
  { intros H. apply assign_tail_length in H; [lia|discriminate]. }
  destruct (String.eqb fm "max"); [|discriminate].
  intros [= <-]. exact Hl.
Qed.

(** The levels above the lower bound replace [levels[1:]]: unless they are
    as many, or there is exactly one, numpy refuses the assignment. *)
Lemma reconstruct_levels_shape (ls : list float) (low : float) (fm : string) :
  let kept := List.filter (fun l => (low <? l)%float) ls in
  length kept <> length (tail ls) -> length kept <> 1%nat ->
  reconstruct_levels ls low fm = Raise ValueError.
Proof.
  intros kept Hn H1. unfold reconstruct_levels, assign_tail. fold kept.
  apply Nat.eqb_neq in Hn. rewrite Hn.
  destruct kept as [|w [|]]; try reflexivity. exfalso. apply H1. reflexivity.
Qed.

Lemma reconstruct_levels_unknown_fill (ls : list float) (low : float) (fm : string) :
  Spec.unknown_fill_method fm -> is_raise (reconstruct_levels ls low fm).
Proof.
  intros (Hmin & Have & Hmax). unfold reconstruct_levels.
  destruct (assign_tail ls _) as [l1|e]; cbn [mbind result_bind rbind]; [|exact I].
  destruct (setitem0 l1 low) as [l2|e]; cbn [mbind result_bind rbind]; [|exact I].
  apply String.eqb_neq in Hmin, Have, Hmax. rewrite Hmin, Have, Hmax. exact I.
Qed.

Lemma select_variable_no_marker (meta : list row) :
  Spec.no_field_kind_marker meta ->
  select_variable meta = Raise (PyException "Non ho capito cosa contiene il bufr. Esco").
Proof.
  intros (Hz & Hrr & Hc & Hc2). unfold select_variable.
  rewrite Hz, Hrr, Hc, Hc2. reflexivity.
Qed.

Section DecoderFacts.

Variable float_of_str : string -> option float.

Lemma get_var_levs_unfold (meta : list row) (src : option StructSource)
      (fm : string) (v : variable) (i : nat) (low : float) (ls : list float) :
  select_variable meta = Ok (v, i) ->
  read_levels float_of_str meta src v i = Ok (low, ls) ->
  get_var_levs_from_meta float_of_str (Some meta) src fm =
  match reconstruct_levels ls low fm with
  | Ok final => Ok (v, final)
  | Raise e => Raise e
  end.
Proof.
  intros Hs Hr. unfold get_var_levs_from_meta.
  cbn [mbind result_bind rbind]. rewrite Hs. cbn [mbind result_bind rbind].
  rewrite Hr. reflexivity.
Qed.

(** C4, as amended.  Level reconstruction in [get_var_levs_from_meta],
    for a table whose marker selects the variable [v] and from which the
    levels [read] are read with lower bound [l0].  When the first level
    read is the lower bound and the other levels lie above it, ["min"]
    shifts the values down one slot ([final[k+1] = read[k]]), ["max"]
    leaves them as read, ["ave"] puts the midpoint of each adjacent pair
    at the upper slot, and in the three cases the first element is the
    lower bound.  For every level list, a returned array has as many
    levels as were read and starts with the lower bound; the levels that
    are not above the lower bound are dropped before the array is rebuilt,
    and unless all the others or exactly one remain the call raises
    [ValueError].  For the levels [0,1,2,3] with lower bound 0 the final
    arrays are [0,0,1,2], [0,1,2,3] and [0,0.5,1.5,2.5]. *)
Theorem get_var_levs_level_reconstruction
        (meta : list row) (src : option StructSource) (v : variable) (i : nat)
        (l0 : float) (read : list float) :
  select_variable meta = Ok (v, i) ->
  read_levels float_of_str meta src v i = Ok (l0, read) ->
  let final := get_var_levs_from_meta float_of_str (Some meta) src in
  (forall rest, read = l0 :: rest ->
     Forall (fun l => (l0 <? l)%float = true) rest ->
     Spec.reconstructed final v l0 read)
  /\ (forall fm v' ls, final fm = Ok (v', ls) ->
        v' = v /\ ls !! 0%nat = Some l0 /\ length ls = length read)
  /\ (let kept := List.filter (fun l => (l0 <? l)%float) read in
      length kept <> length (tail read) -> length kept <> 1%nat ->
      forall fm, final fm = Raise ValueError)
  /\ reconstruct_levels [0; 1; 2; 3]%float 0%float "min" = Ok [0; 0; 1; 2]%float
  /\ reconstruct_levels [0; 1; 2; 3]%float 0%float "max" = Ok [0; 1; 2; 3]%float
  /\ reconstruct_levels [0; 1; 2; 3]%float 0%float "ave" = Ok [0; 0.5; 1.5; 2.5]%float.
Proof.
  intros Hs Hr final. subst final.
  pose proof (fun fm => get_var_levs_unfold meta src fm v i l0 read Hs Hr) as Hu.
  split; [|split; [|split; [|split; [|split]]]].
  - intros rest -> Hrest.
    pose proof (ltb_irrefl l0) as H0.
    pose proof (fun fm => reconstruct_levels_forced l0 l0 rest fm H0 Hrest) as Hf.
    split; [|split].
    + eexists. rewrite Hu, Hf. cbn [String.eqb Ascii.eqb Bool.eqb].
      split; [reflexivity|]. split; [reflexivity|].
      intros k Hk. apply lookup_removelast_shift. simpl in Hk. lia.
    + rewrite Hu, Hf. split; reflexivity.
    + eexists. rewrite Hu, Hf. cbn [String.eqb Ascii.eqb Bool.eqb].
      split; [reflexivity|]. split; [reflexivity|].
      intros k a b Ha Hb. apply (lookup_midpoints (l0 :: rest)); assumption.
  - intros fm v' ls. rewrite Hu.
    destruct (reconstruct_levels read l0 fm) as [out|e] eqn:E; [|discriminate].
    intros [= <- <-]. split; [reflexivity|]. split.
    + apply (reconstruct_levels_first _ _ _ _ E).
    + apply (reconstruct_levels_length _ _ _ _ E).
  - intros kept Hn H1 fm. rewrite Hu.
    rewrite (reconstruct_levels_shape read l0 fm Hn H1). reflexivity.
  - rewrite (reconstruct_levels_forced 0 0 [1; 2; 3]%float "min");
      [reflexivity | reflexivity | repeat constructor].
  - rewrite (reconstruct_levels_forced 0 0 [1; 2; 3]%float "max");
      [reflexivity | reflexivity | repeat constructor].
  - rewrite (reconstruct_levels_forced 0 0 [1; 2; 3]%float "ave");
      [reflexivity | reflexivity | repeat constructor].
Qed.

(** C8, as amended.  A violated contract makes [get_var_levs_from_meta]
    raise, and nothing is defaulted: without any of the field-kind markers
    it raises the exception of line 817, and with a [fill_method] other
    than "min", "ave" and "max" it raises and returns nothing. *)
Theorem get_var_levs_contract_violation_raises
        (meta : list row) (src : option StructSource) (fm : string) :
  Spec.contract_violated meta fm ->
  is_raise (get_var_levs_from_meta float_of_str (Some meta) src fm)
  /\ (Spec.no_field_kind_marker meta ->
      get_var_levs_from_meta float_of_str (Some meta) src fm
      = Raise (PyException "Non ho capito cosa contiene il bufr. Esco"))
  /\ (forall v ls, get_var_levs_from_meta float_of_str (Some meta) src fm <> Ok (v, ls)).
Proof.
  intros Hviol.
  assert (Hnm : Spec.no_field_kind_marker meta ->
      get_var_levs_from_meta float_of_str (Some meta) src fm
      = Raise (PyException "Non ho capito cosa contiene il bufr. Esco")).
  { intros Hno. unfold get_var_levs_from_meta. cbn [mbind result_bind rbind].
    rewrite (select_variable_no_marker _ Hno). reflexivity. }
  assert (Hraise : is_raise (get_var_levs_from_meta float_of_str (Some meta) src fm)).
  { destruct Hviol as [Hno|Hfm]; [rewrite (Hnm Hno); exact I|].
    unfold get_var_levs_from_meta. cbn [mbind result_bind rbind].
    destruct (select_variable meta) as [[v i]|e]; cbn [mbind result_bind rbind]; [|exact I].
    destruct (read_levels _ _ _ _ _) as [[low ls]|e]; cbn [mbind result_bind rbind]; [|exact I].
    pose proof (reconstruct_levels_unknown_fill ls low fm Hfm) as Hr.
    destruct (reconstruct_levels ls low fm); [destruct Hr|exact I]. }
  split; [exact Hraise|]. split; [exact Hnm|].
  intros v ls Heq. rewrite Heq in Hraise. exact Hraise.
Qed.

(** When the date marker (F=3, X=1, Y=11) is absent, [index_year] is never
    assigned: the second [try] block reads it and the [UnboundLocalError]
    passes through [except IndexError]. *)
Lemma year_marker_absent_unbound (meta : list row) :
  loc_index (fxy "3" "1" "11") meta = [] ->
  get_datetime_from_meta float_of_str meta = Raise UnboundLocalError.
Proof.
  intros H. unfold get_datetime_from_meta, try_year.
  rewrite H. reflexivity.
Qed.

Variable RadarProduct : Type.
Variable StructProjection : Type.
Variable get_source_product_from_meta : list row -> StructSource * RadarProduct.
Variable get_projection_from_meta :
  list row -> StructSource -> result StructProjection.
Variable get_grid_from_meta :
  list row -> StructProjection -> result StructGrid.

(** C10. When the decoded metadata table is empty (the file cannot be
    read, or has no line), [read_bufr] sets [levels] to [None], leaves
    the locals of the data block unassigned, and raises while it builds
    its return value: [AttributeError] on an attribute of the instance
    that was never assigned (always so on a fresh instance), else
    [UnboundLocalError] on [out_field]. *)
Theorem read_bufr_empty_metadata
        (self : bufr_self RadarProduct StructProjection)
        (data_file : option (list Z)) (meta_file : option (list string))
        (fill_method : string) :
  read_meta meta_file = Ok [] \/ is_raise (read_meta meta_file) ->
  let out := read_bufr float_of_str RadarProduct StructProjection
                       get_source_product_from_meta get_projection_from_meta
                       get_grid_from_meta data_file meta_file fill_method
                       (self, mk_rb_locals None None None) in
  levels _ _ (fst (fst out)) = Some None
  /\ snd (fst out) = mk_rb_locals None None None
  /\ (snd out = Raise AttributeError \/ snd out = Raise UnboundLocalError)
  /\ (self = fresh_self _ _ -> snd out = Raise AttributeError).
Proof.
  intros Hmeta out. subst out. unfold read_bufr.
  assert (Hdf : match read_meta meta_file with Ok df => df | Raise _ => [] end = []).
  { destruct Hmeta as [-> | Hr]; [reflexivity|].
    destruct (read_meta meta_file); [destruct Hr | reflexivity]. }
  rewrite Hdf. clear Hdf Hmeta.
  destruct self as [m t s p pr g v l].
  destruct g, s, p, v, pr; cbn; repeat split; auto; try discriminate.
Qed.

End DecoderFacts.

Lemma get_var_levs_level_reconstruction_witness :
  select_variable Examples.z_table = Ok (VarZ, 0%nat)
  /\ read_levels parse_decimal Examples.z_table (Some Examples.arpae) VarZ 0
     = Ok (0%float, [0; 1; 2; 3]%float)
  /\ Forall (fun l => (0 <? l)%float = true) [1; 2; 3]%float
  /\ Spec.reconstructed
       (get_var_levs_from_meta parse_decimal (Some Examples.z_table)
                               (Some Examples.arpae))
       VarZ 0%float [0; 1; 2; 3]%float.
Proof.
  assert (Hs : select_variable Examples.z_table = Ok (VarZ, 0%nat)) by reflexivity.
  assert (Hr : read_levels parse_decimal Examples.z_table (Some Examples.arpae) VarZ 0
               = Ok (0%float, [0; 1; 2; 3]%float)) by reflexivity.
  assert (Hf : Forall (fun l => (0 <? l)%float = true) [1; 2; 3]%float)
    by (repeat constructor).
  split; [exact Hs|]. split; [exact Hr|]. split; [exact Hf|].
  exact (proj1 (get_var_levs_level_reconstruction
                  parse_decimal Examples.z_table (Some Examples.arpae)
                  VarZ 0 0%float [0; 1; 2; 3]%float Hs Hr)
               [1; 2; 3]%float eq_refl Hf).
Defined.

(** C4 as stated fails: from a table that holds the lower bound 5 and then
    the levels 3 and 9, the levels [5,3,9] are read; the level 3 is not
    above the lower bound and is dropped, the remaining level 9 fills the
    array, and "max" returns [5,9,9], not the values as read. *)
Lemma get_var_levs_drops_low_levels :
  read_levels parse_decimal Cases.unsorted_levels_table (Some Examples.arpae) VarZ 0
  = Ok (5%float, [5; 3; 9]%float)
  /\ get_var_levs_from_meta parse_decimal (Some Cases.unsorted_levels_table)
                            (Some Examples.arpae) "max"
     = Ok (VarZ, [5; 9; 9]%float)
  /\ ~ Spec.level_reconstruction_claim parse_decimal Cases.unsorted_levels_table
                                       (Some Examples.arpae).
Proof.
  split; [reflexivity|]. split; [reflexivity|].
  intros H.
  destruct (H VarZ 0%nat 5%float [5; 3; 9]%float eq_refl eq_refl)
    as (_ & (Hmax & _) & _).
  assert (E : get_var_levs_from_meta parse_decimal (Some Cases.unsorted_levels_table)
                (Some Examples.arpae) "max" = Ok (VarZ, [5; 9; 9]%float))
    by reflexivity.
  rewrite E in Hmax.
  apply (f_equal (fun r => match r with
                           | Ok (_, [_; x; _]) => Prim2SF x
                           | _ => S754_zero false
                           end)) in Hmax.
  vm_compute in Hmax. discriminate Hmax.
Qed.

(** C8 as stated fails: the table cut after its marker row satisfies the
    contract with "min", and [get_var_levs_from_meta] raises on it
    ([IndexError] at the row after the marker). *)
Lemma get_var_levs_raises_within_contract :
  ~ (is_raise (get_var_levs_from_meta parse_decimal (Some Examples.cut_table)
                                      (Some Examples.arpae) "min")
     <-> Spec.contract_violated Examples.cut_table "min").
Proof.
  intros [Hraise _].
  destruct (Hraise I) as [(Hz & _) | (Hmin & _)].
  - discriminate Hz.
  - apply Hmin. reflexivity.
Qed.

Lemma get_var_levs_contract_violation_witness :
  Spec.contract_violated Examples.z_table "mean"
  /\ is_raise (get_var_levs_from_meta parse_decimal (Some Examples.z_table)
                                      (Some Examples.arpae) "mean").
Proof.
  assert (H : Spec.contract_violated Examples.z_table "mean").
  { right. repeat split; discriminate. }
  split; [exact H|].
  exact (proj1 (get_var_levs_contract_violation_raises
                  parse_decimal Examples.z_table (Some Examples.arpae) "mean" H)).
Defined.

(** C7 fails on a table without the date marker: the call raises
    [UnboundLocalError] instead of defaulting the fields and returning
    [None]. *)
Theorem get_datetime_from_meta_marker_absent :
  get_datetime_from_meta parse_decimal Examples.grid_table = Raise UnboundLocalError.
Proof.
  apply year_marker_absent_unbound. reflexivity.
Qed.

Lemma read_bufr_empty_metadata_witness :
  (read_meta None = Ok [] \/ is_raise (read_meta None))
  /\ snd (read_bufr parse_decimal unit unit
                    (fun _ => (Examples.arpae, tt)) (fun _ _ => Ok tt)
                    (fun _ _ => Ok (mk_grid None None))
                    (Some [0; 1; 1; 0]) None "min"
                    (fresh_self unit unit, mk_rb_locals None None None))
     = Raise AttributeError.
Proof.
  assert (H : read_meta None = Ok [] \/ is_raise (read_meta None))
    by (right; exact I).
  split; [exact H|].
  exact (proj2 (proj2 (proj2 (read_bufr_empty_metadata
           parse_decimal unit unit
           (fun _ => (Examples.arpae, tt)) (fun _ _ => Ok tt)
           (fun _ _ => Ok (mk_grid None None))
           (fresh_self unit unit) (Some [0; 1; 1; 0]) None "min" H))) eq_refl).
Defined.

(* ===================================================================== *)
(** * Properties of the polar-volume hierarchy                           *)
(* ===================================================================== *)

Import Odim.

(** ** The elevation index *)

Lemma mapM_Ok {A B} (f : A -> result B) (xs : list A) (ys : list B) :
  mapM f xs = Ok ys ->
  length ys = length xs
  /\ forall i x, xs !! i = Some x -> exists y, ys !! i = Some y /\ f x = Ok y.
Proof.
  revert ys. induction xs as [|x xs IH]; intros ys H; simpl in H.
  - injection H as <-. split; [reflexivity|]. intros i x Hx. discriminate.
  - inv_bind H. injection H as <-.
    destruct (IH _ E0) as [Hlen Hnth]. split; [simpl; congruence|].
    intros [|i] x' Hx'; simpl in *.
    + injection Hx' as <-. eauto.
    + apply Hnth, Hx'.
Qed.

Lemma setistance_index old rw rwh rh n m ws whs hrs hps ds dws self :
  setistance old rw rwh rh n m ws whs hrs hps ds dws = Ok self ->
  Spec.elevation_index_ok self.
Proof.
  unfold setistance.
  destruct (Z.of_nat (length ds) =? n) eqn:Hds; [|discriminate].
  destruct (Z.of_nat (length dws) =? n) eqn:Hdws; [|discriminate].
  cbn [negb]. intros H. inv_bind H. injection H as <-.
  apply Z.eqb_eq in Hds, Hdws.
  apply mapM_Ok in E as [Hlen Hnth].
  unfold range in *. rewrite length_seq in Hlen.
  unfold Spec.elevation_index_ok; cbn.
  split; [lia|]. split; [|split; assumption].
  intros i Hi.
  destruct (Hnth i i) as (y & Hy & Hf).
  { apply lookup_seq. lia. }
  inv_bind Hf. unfold getitem in E. unfold getattr in Hf.
  destruct (whs !! i) as [w|] eqn:Hw; [|discriminate]. injection E as <-.
  exists w. split; [reflexivity|].
  destruct (w !! "elangle") as [v|]; [|discriminate]. congruence.
Qed.

(** [read_odim] ends in a call of [setistance] and an assignment of
    [varsnames]. *)
Lemma read_odim_setistance (hr : h5file) (self : OdimHierarchyPvol) :
  read_odim hr = Ok self ->
  exists rw rwh rh n m ws whs hrs hps ds dws self0 v,
    setistance None rw rwh rh n m ws whs hrs hps ds dws = Ok self0
    /\ self = set_varsnames v self0.
Proof.
  unfold read_odim. intros H. inv_bind H. injection H as <-.
  repeat eexists. eassumption.
Qed.

(** C9. After a successful population, by [setistance] or by [read_odim],
    the list of elevation angles has [n_group_dataset] elements, its i-th
    element is the [elangle] of the i-th where-group (the order of the
    groups, unsorted), and the lists of datasets and of data what-groups
    have [n_group_dataset] elements each. *)
Theorem elevation_index_after_population (self : OdimHierarchyPvol) :
  Spec.populated self -> Spec.elevation_index_ok self.
Proof.
  intros [(old & rw & rwh & rh & n & m & ws & whs & hrs & hps & ds & dws & H)
         | (hr & H)].
  - eapply setistance_index, H.
  - apply read_odim_setistance in H
      as (rw & rwh & rh & n & m & ws & whs & hrs & hps & ds & dws & self0 & v & H & ->).
    apply (setistance_index _ _ _ _ _ _ _ _ _ _ _ _ _ H).
Qed.

Lemma elevation_index_after_population_witness :
  Spec.populated Examples.one_sweep /\ Spec.elevation_index_ok Examples.one_sweep.
Proof.
  assert (H : Spec.populated Examples.one_sweep).
  { left.
    exists None, Examples.what_root, Examples.where_root, Examples.how_root, 1, 1,
      (group_datasets_what Examples.one_sweep),
      (group_datasets_where Examples.one_sweep),
      (group_datasets_how_radar Examples.one_sweep),
      (group_datasets_how_polar Examples.one_sweep),
      (datasets Examples.one_sweep),
      (group_datasets_data_what Examples.one_sweep).
    reflexivity. }
  split; [exact H|].
  exact (elevation_index_after_population Examples.one_sweep H).
Defined.

(** ** Lookup by elevation and quantity *)

Lemma max_from_floats (m : float) (xs : list float) :
  max_from (PFloat m) (map PFloat xs) = Ok (PFloat (Spec.max_angle m xs)).
Proof.
  revert m. induction xs as [|x xs IH]; intros m; [reflexivity|].
  cbn. destruct (m <? x)%float; apply IH.
Qed.

Lemma py_in_strings (q : string) (names : list string) :
  py_in (PStr q) (map PStr names) = Ok (bool_decide (q ∈ names)).
Proof.
  induction names as [|n t IH]; [reflexivity|].
  cbn. destruct (String.eqb_spec n q) as [->|Hne].
  - rewrite bool_decide_eq_true_2 by apply list_elem_of_here. reflexivity.
  - rewrite IH. f_equal. apply bool_decide_ext.
    rewrite elem_of_cons. split; [auto|]. intros [Heq|Hin]; [congruence|exact Hin].
Qed.

Lemma py_remove_strings (q : string) (names : list string) :
  q ∈ names ->
  py_remove (map PStr names) (PStr q) = Ok (map PStr (Spec.minus q names)).
Proof.
  induction names as [|n t IH]; intros Hin; [apply elem_of_nil in Hin; destruct Hin|].
  cbn. destruct (String.eqb_spec n q) as [->|Hne]; [reflexivity|].
  rewrite IH; [reflexivity|].
  apply elem_of_cons in Hin as [->|Hin]; [contradiction|exact Hin].
Qed.

Lemma py_index_strings (q : string) (names : list string) :
  py_index (map PStr names) (PStr q) =
  match Spec.index_of q names with Some i => Ok i | None => Raise ValueError end.
Proof.
  induction names as [|n t IH]; [reflexivity|].
  cbn. destruct (String.eqb n q); [reflexivity|].
  rewrite IH. destruct (Spec.index_of q t); reflexivity.
Qed.

Lemma py_index_floats (a : float) (xs : list float) :
  py_index (map PFloat xs) (PFloat a) =
  match Spec.index_of_angle a xs with Some i => Ok i | None => Raise ValueError end.
Proof.
  induction xs as [|x t IH]; [reflexivity|].
  cbn. destruct (x =? a)%float; [reflexivity|].
  rewrite IH. destruct (Spec.index_of_angle a t); reflexivity.
Qed.

Lemma index_of_None (q : string) (names : list string) :
  q ∉ names -> Spec.index_of q names = None.
Proof.
  induction names as [|n t IH]; intros Hnin; [reflexivity|].
  cbn. apply not_elem_of_cons in Hnin as [Hne Hnin].
  destruct (String.eqb_spec n q) as [->|_]; [contradiction|].
  rewrite IH by assumption. reflexivity.
Qed.

Lemma minus_not_elem (q : string) (names : list string) :
  NoDup names -> q ∉ Spec.minus q names.
Proof.
  induction 1 as [|n t Hn Hnd IH]; cbn; [apply not_elem_of_nil|].
  destruct (String.eqb_spec n q) as [->|Hne]; [exact Hn|].
  apply not_elem_of_cons. split; [congruence|exact IH].
Qed.

Lemma length_minus (q : string) (names : list string) :
  q ∈ names -> S (length (Spec.minus q names)) = length names.
Proof.
  induction names as [|n t IH]; intros Hin; [apply elem_of_nil in Hin; destruct Hin|].
  cbn. destruct (String.eqb_spec n q) as [->|Hne]; [reflexivity|].
  cbn. f_equal. apply IH.
  apply elem_of_cons in Hin as [->|Hin]; [contradiction|exact Hin].
Qed.

Lemma getitem_Ok {A} (xs : list A) (i : nat) (x : A) :
  getitem xs i = Ok x <-> xs !! i = Some x.
Proof.
  unfold getitem. destruct (xs !! i); split; intros H; try discriminate; congruence.
Qed.

Lemma getattr_Ok (o : obj) (name : string) (v : pyval) :
  getattr o name = Ok v <-> o !! name = Some v.
Proof.
  unfold getattr. destruct (o !! name); split; intros H; try discriminate; congruence.
Qed.

Lemma varsnames_elangle_candidates
      (self : OdimHierarchyPvol) (names : list string)
      (a0 : float) (angles : list float) (elangle : float) :
  varsnames self = Some (map PStr names) ->
  elangles self = map PFloat (a0 :: angles) ->
  varsnames_elangle self elangle =
  Ok (map PStr (Spec.candidate_names
                  ((elangle =? Spec.max_angle a0 angles)%float
                   && bool_decide ("Z_VD" ∈ names)) names)).
Proof.
  intros Hvars Hangles.
  unfold varsnames_elangle. rewrite Hvars, Hangles.
  cbn [mbind result_bind rbind map py_max]. rewrite max_from_floats.
  cbn [mbind result_bind rbind py_eq].
  destruct (elangle =? Spec.max_angle a0 angles)%float; cbn [mbind result_bind rbind andb].
  - rewrite py_in_strings. cbn [mbind result_bind rbind].
    destruct (bool_decide ("Z_VD" ∈ names)) eqn:Hin; [|reflexivity].
    apply bool_decide_eq_true in Hin. apply (py_remove_strings _ _ Hin).
  - reflexivity.
Qed.

(** A lookup that succeeds returns [raw * gain + offset], with the array
    and the coefficients found at one and the same (elevation, position). *)
Lemma get_data_by_elangle_Ok
      (self : OdimHierarchyPvol) (elangle : float) (quantity : string)
      (data : ndarray) :
  get_data_by_elangle self elangle quantity = Ok data ->
  exists cands ie k d raw ws w gain offset g o,
    varsnames_elangle self elangle = Ok cands
    /\ py_index cands (PStr quantity) = Ok k
    /\ py_index (elangles self) (PFloat elangle) = Ok ie
    /\ datasets self !! ie = Some d /\ d !! k = Some raw
    /\ group_datasets_data_what self !! ie = Some ws /\ ws !! k = Some w
    /\ w !! "gain" = Some gain /\ w !! "offset" = Some offset
    /\ as_scalar gain = Ok g /\ as_scalar offset = Ok o
    /\ data = nd_map (fun x => x * g + o)%float raw.
Proof.
  unfold get_data_by_elangle. intros H. inv_bind H. injection H as <-.
  rewrite E1 in E4, E8. injection E4 as ->. injection E8 as ->.
  rewrite E5 in E9. injection E9 as ->. rewrite E6 in E10. injection E10 as ->.
  apply getitem_Ok in E2, E3, E5, E6. apply getattr_Ok in E7, E11.
  eexists _, _, _, _, _, _, _, _, _, _, _. repeat (split; [eassumption|]). reflexivity.
Qed.

Lemma index_of_elem (q : string) (names : list string) :
  q ∈ names -> exists k, Spec.index_of q names = Some k.
Proof.
  induction names as [|n t IH]; intros Hin; [apply elem_of_nil in Hin; destruct Hin|].
  cbn. destruct (String.eqb_spec n q) as [->|Hne]; [eauto|].
  apply elem_of_cons in Hin as [->|Hin]; [congruence|].
  destruct (IH Hin) as (k & ->). eauto.
Qed.

(** The lookup once the candidate list and the two positions are known. *)
Lemma get_data_by_elangle_at
      (self : OdimHierarchyPvol) (elangle : float) (quantity : string)
      (cands : list string) (angles : list float) (ie k : nat) :
  varsnames_elangle self elangle = Ok (map PStr cands) ->
  elangles self = map PFloat angles ->
  Spec.index_of quantity cands = Some k ->
  Spec.index_of_angle elangle angles = Some ie ->
  get_data_by_elangle self elangle quantity
  = (d ← getitem (datasets self) ie;
     raw ← getitem d k;
     ws ← getitem (group_datasets_data_what self) ie;
     w ← getitem ws k;
     offset ← getattr w "offset";
     ws ← getitem (group_datasets_data_what self) ie;
     w ← getitem ws k;
     gain ← getattr w "gain";
     g ← as_scalar gain;
     o ← as_scalar offset;
     Ok (nd_map (fun x => x * g + o)%float raw)).
Proof.
  intros Hc Ha Hk Hie. unfold get_data_by_elangle. rewrite Hc.
  cbn [mbind result_bind rbind]. rewrite py_index_strings, Hk.
  cbn [mbind result_bind rbind]. rewrite Ha, py_index_floats, Hie.
  reflexivity.
Qed.




(** ** What [export_odim] writes *)

Import Spec.

Lemma count_datasets_app (xs ys : list h5op) :
  count_datasets (xs ++ ys) = (count_datasets xs + count_datasets ys)%nat.
Proof. unfold count_datasets. rewrite List.filter_app, length_app. reflexivity. Qed.

Lemma writes_ret {A} P (n : nat) (R : A -> Prop) (a : A) :
  R a -> writes P n R (mret a).
Proof.
  intros Ha f. exists []. split; [reflexivity|]. split; [constructor|].
  split; [apply Nat.le_0_l|]. intros ? [= <-]. exact Ha.
Qed.

Lemma writes_lift {A} P (r : result A) : writes P 0 (fun x => r = Ok x) (lift r).
Proof.
  intros f. exists []. split; [reflexivity|]. split; [constructor|].
  split; [apply Nat.le_refl|]. intros a H. exact H.
Qed.

Lemma writes_weaken {A} (P Q : h5op -> Prop) (n n' : nat) (R R' : A -> Prop) m :
  writes P n R m -> (forall op, P op -> Q op) -> (n <= n')%nat ->
  (forall a, R a -> R' a) -> writes Q n' R' m.
Proof.
  intros Hm HPQ Hn HR f. destruct (Hm f) as (new & Hf & HP & Hc & Hr).
  exists new. split; [exact Hf|]. split; [eapply Forall_impl; eauto|].
  split; [lia|]. intros a Ha. apply HR, Hr, Ha.
Qed.

Lemma writes_bind {A B} P (n1 n2 : nat) (R : A -> Prop) (R' : B -> Prop)
      (m : M h5file A) (k : A -> M h5file B) :
  writes P n1 R m -> (forall a, R a -> writes P n2 R' (k a)) ->
  writes P (n1 + n2) R' (m ≫= k).
Proof.
  intros Hm Hk f. destruct (Hm f) as (new & Hf & HP & Hc & Hr).
  unfold mbind, M_bind, bind. destruct (m f) as [f1 [a|e]]; cbn in *.
  - destruct (Hk a (Hr a eq_refl) f1) as (new2 & Hf2 & HP2 & Hc2 & Hr2).
    subst f1. exists (new2 ++ new)%list. rewrite Hf2, app_assoc.
    split; [reflexivity|]. split; [apply Forall_app; auto|].
    split; [rewrite count_datasets_app; lia | exact Hr2].
  - exists new. split; [exact Hf|]. split; [exact HP|].
    split; [lia|discriminate].
Qed.

Lemma writes_try_except {A} P (n1 n2 : nat) (R : A -> Prop)
      (body handler : M h5file A) (handles : exn -> bool) :
  writes P n1 R body -> writes P n2 R handler ->
  writes P (n1 + n2) R (try_except body handles handler).
Proof.
  intros Hb Hh f. destruct (Hb f) as (new & Hf & HP & Hc & Hr).
  unfold try_except. destruct (body f) as [f1 [a|e]]; cbn in *.
  - exists new. split; [exact Hf|]. split; [exact HP|].
    split; [lia|exact Hr].
  - destruct (handles e).
    + destruct (Hh f1) as (new2 & Hf2 & HP2 & Hc2 & Hr2).
      subst f1. exists (new2 ++ new)%list. rewrite Hf2, app_assoc.
      split; [reflexivity|]. split; [apply Forall_app; auto|].
      split; [rewrite count_datasets_app; lia | exact Hr2].
    + exists new. split; [exact Hf|]. split; [exact HP|].
      split; [lia|discriminate].
Qed.

Lemma writes_for_each {A} P (n : nat) (xs : list A) (body : A -> M h5file unit) :
  (forall x, x ∈ xs -> writes P n (fun _ => True) (body x)) ->
  writes P (length xs * n) (fun _ => True) (for_each xs body).
Proof.
  induction xs as [|x xs IH]; intros Hbody.
  - apply writes_ret. exact I.
  - change (for_each (x :: xs) body) with (body x ≫= fun _ => for_each xs body).
    cbn [length Nat.mul].
    eapply writes_bind; [apply Hbody; left|].
    intros _ _. apply IH. intros y Hy. apply Hbody. right. exact Hy.
Qed.

Lemma writes_create_group (name : string) :
  writes (fun op => op = MkGroup (split_path name)) 0
         (fun p => p = split_path name) (create_group name).
Proof.
  intros f. unfold create_group.
  destruct (_ || _); cbn.
  - exists []. split; [reflexivity|]. split; [constructor|].
    split; [apply Nat.le_refl|discriminate].
  - exists [MkGroup (split_path name)]. split; [reflexivity|].
    split; [repeat constructor|]. split; [apply Nat.le_refl|].
    intros a [= <-]. reflexivity.
Qed.

Lemma writes_require_group (name : string) :
  writes (fun op => op = MkGroup (split_path name)) 0
         (fun p => p = split_path name) (require_group name).
Proof.
  intros f. unfold require_group.
  destruct (_ || _); [apply writes_create_group|].
  destruct (is_group _ _); cbn; exists [];
    (split; [reflexivity|]; split; [constructor|]; split; [apply Nat.le_refl|]).
  - intros a [= <-]. reflexivity.
  - discriminate.
Qed.

Lemma writes_create_dataset (name : string) (data : ndarray) :
  writes (fun op => op = MkDataset (split_path name) (nd_map to_f32 data)) 1
         (fun _ => True) (create_dataset name data).
Proof.
  intros f. unfold create_dataset.
  destruct (_ || _); cbn.
  - exists []. split; [reflexivity|]. split; [constructor|].
    split; [cbn; lia|auto].
  - exists [MkDataset (split_path name) (nd_map to_f32 data)].
    split; [reflexivity|]. split; [repeat constructor|].
    split; [cbn; lia|auto].
Qed.

Lemma writes_attrs_setitem (p : path) (name : string) (v : pyval) :
  writes (fun op => exists a, h5_of_pyval v = Ok a /\ op = SetAttr p name a) 0
         (fun _ => True) (attrs_setitem p name v).
Proof.
  intros f. unfold attrs_setitem. destruct (h5_of_pyval v) as [a|e]; cbn.
  - exists [SetAttr p name a]. split; [reflexivity|].
    split; [repeat constructor; eauto|]. split; [cbn; lia|auto].
  - exists []. split; [reflexivity|]. split; [constructor|].
    split; [cbn; lia|auto].
Qed.

Lemma writes_odim_create (o : obj) :
  writes (from_obj o) 0 (fun _ => True) (odim_create o).
Proof.
  unfold odim_create.
  eapply (writes_bind _ 0 0); [apply writes_lift|]. intros h Hh.
  eapply (writes_bind _ 0 0).
  - eapply writes_weaken;
      [apply writes_create_group| |apply Nat.le_refl|intros a Ha; exact Ha].
    intros op ->. exists h. split; [exact Hh|left; reflexivity].
  - intros p _. apply writes_ret. exact I.
Qed.

(** Every write of [odim_setattrs] is made for its object: the group at
    its [hierarchy], or an attribute of the instance that is not [None],
    stored as [stored_value] says. *)
Lemma writes_odim_setattrs (o : obj) (attrslist : list string) :
  writes (from_obj o) 0 (fun _ => True) (odim_setattrs o attrslist).
Proof.
  unfold odim_setattrs.
  eapply (writes_bind _ 0 0 (fun g => forall p, g = Some p ->
                               exists h, hierarchy o = Ok h /\ p = split_path h)).
  - eapply (writes_try_except _ 0 0).
    + eapply (writes_bind _ 0 0); [apply writes_lift|]. intros h Hh.
      eapply (writes_bind _ 0 0).
      * eapply writes_weaken;
          [apply writes_require_group| |apply Nat.le_refl|intros a Ha; exact Ha].
        intros op ->. exists h. split; [exact Hh|left; reflexivity].
      * intros p ->. apply writes_ret. intros p [= <-].
        exists h. split; [exact Hh|reflexivity].
    + eapply (writes_bind _ 0 0); [apply writes_odim_create|]. intros _ _.
      apply writes_ret. intros p [=].
  - intros g Hg.
    eapply writes_weaken;
      [apply (writes_for_each _ 0)|intros op Hop; exact Hop|lia|auto].
    intros attr _.
    unfold struct_hasitem, struct_getitem.
    destruct (o !! attr) as [v|] eqn:Hv.
    2: { rewrite bool_decide_eq_false_2 by (intros [? ?]; discriminate).
         apply writes_ret. exact I. }
    rewrite bool_decide_eq_true_2 by eauto.
    assert (Hwr : forall pv, v = pv -> pv <> PNone ->
              forall b, (match pv with PStr s => np_bytes s | _ => Ok pv end) = Ok b ->
              forall p, g = Some p ->
              writes (from_obj o) 0 (fun _ : unit => True) (attrs_setitem p attr b)).
    { intros pv -> Hne b Hb p Hp. destruct (Hg p Hp) as (h & Hh & ->).
      eapply writes_weaken; [apply writes_attrs_setitem| |apply Nat.le_refl|auto].
      intros op (a & Ha & ->). exists h. split; [exact Hh|]. right.
      exists attr, pv, a. split; [exact Hv|]. split; [exact Hne|]. split; [|reflexivity].
      unfold stored_value. destruct pv; try (injection Hb as <-; exact Ha).
      rewrite Hb. exact Ha. }
    destruct v as [|s|w s|z|x|a].
    + apply writes_ret. exact I.
    + eapply (writes_bind _ 0 0); [apply writes_lift|]. intros p Hp.
      eapply (writes_bind _ 0 0); [apply writes_lift|]. intros b Hb.
      destruct g as [p'|]; [|discriminate]. injection Hp as ->.
      eapply (Hwr (PStr s)); eauto; discriminate.
    + eapply (writes_bind _ 0 0); [apply writes_lift|]. intros p Hp.
      destruct g as [p'|]; [|discriminate]. injection Hp as ->.
      eapply (Hwr (PBytes w s)); eauto; discriminate.
    + eapply (writes_bind _ 0 0); [apply writes_lift|]. intros p Hp.
      destruct g as [p'|]; [|discriminate]. injection Hp as ->.
      eapply (Hwr (PInt z)); eauto; discriminate.
    + eapply (writes_bind _ 0 0); [apply writes_lift|]. intros p Hp.
      destruct g as [p'|]; [|discriminate]. injection Hp as ->.
      eapply (Hwr (PFloat x)); eauto; discriminate.
    + eapply (writes_bind _ 0 0); [apply writes_lift|]. intros p Hp.
      destruct g as [p'|]; [|discriminate]. injection Hp as ->.
      eapply (Hwr (PArray a)); eauto; discriminate.
Qed.

Lemma elem_of_combine_seq {A} (xs : list A) (s i : nat) (x : A) :
  (i, x) ∈ combine (seq s (length xs)) xs ->
  (s <= i)%nat /\ xs !! (i - s)%nat = Some x.
Proof.
  revert s. induction xs as [|y xs IH]; intros s Hin; cbn in Hin.
  - apply elem_of_nil in Hin. destruct Hin.
  - apply elem_of_cons in Hin as [[= -> ->]|Hin].
    + split; [lia|]. rewrite Nat.sub_diag. reflexivity.
    + apply IH in Hin as [Hle Hx]. split; [lia|].
      replace (i - s)%nat with (S (i - S s)) by lia. exact Hx.
Qed.

Lemma elem_of_enumerate {A} (xs : list A) (p : nat * A) :
  p ∈ enumerate xs -> xs !! p.1 = Some p.2.
Proof.
  destruct p as [i x]. unfold enumerate. intros Hin.
  apply elem_of_combine_seq in Hin as [_ Hx].
  rewrite Nat.sub_0_r in Hx. exact Hx.
Qed.

Lemma length_enumerate {A} (xs : list A) : length (enumerate xs) = length xs.
Proof. unfold enumerate. rewrite length_combine, length_seq. lia. Qed.

(** [np.arange(1, n, 1)] stops one short of [n]. *)
Lemma lookup_arange1 (n : Z) (i : nat) (x : Z) :
  arange1 n !! i = Some x -> x = Z.of_nat i + 1 /\ Z.of_nat i + 1 <= n - 1.
Proof.
  unfold arange1. intros H.
  change (map (fun i : nat => Z.of_nat i + 1) (seq 0 (Z.to_nat (n - 1))) !! i = Some x) in H.
  rewrite list_lookup_fmap in H.
  destruct (seq 0 (Z.to_nat (n - 1)) !! i) as [k|] eqn:Hk; [|discriminate].
  apply lookup_seq in Hk as [-> Hlt]. injection H as <-. lia.
Qed.

Lemma length_arange1 (n : Z) : length (arange1 n) = Z.to_nat (n - 1).
Proof. unfold arange1. rewrite length_map, length_seq. reflexivity. Qed.

Section ExportFacts.

Variable self : OdimHierarchyPvol.
Let W := written_by_export self.

Lemma writes_export_quantity (i j : nat) :
  Z.of_nat i + 1 <= n_group_dataset self - 1 ->
  Z.of_nat j + 1 <= n_datasets self - 1 ->
  writes W 1 (fun _ => True)
         (export_quantity self i (Z.of_nat i + 1) j (Z.of_nat j + 1)).
Proof.
  intros Hi Hj. unfold export_quantity.
  eapply (writes_bind _ 0 1); [apply writes_lift|]. intros d Hd.
  destruct (j <? length d)%nat eqn:Hlt; [|apply writes_ret; exact I].
  apply Nat.ltb_lt in Hlt.
  eapply (writes_bind _ 0 1); [apply writes_lift|]. intros d' Hd'.
  rewrite Hd in Hd'. injection Hd' as <-.
  eapply (writes_bind _ 0 1); [apply writes_lift|]. intros a Ha.
  unfold getitem in Hd, Ha.
  destruct (datasets self !! i) as [planes|] eqn:Hplanes; [|discriminate].
  injection Hd as <-.
  destruct (planes !! j) as [a'|] eqn:Ha'; [|discriminate]. injection Ha as <-.
  eapply (writes_bind _ 1 0 (fun _ => True)).
  { unfold OdimDset_odim_create.
    eapply (writes_bind _ 1 0 (fun _ => True));
      [|intros ? _; apply writes_ret; exact I].
    eapply writes_weaken;
      [apply writes_create_dataset| |apply Nat.le_refl|intros ? Hx; exact Hx].
    intros op ->. right. right. left. exists i, j, planes, a'. auto. }
  intros _ _.
  eapply (writes_bind _ 0 0); [apply writes_lift|]. intros w Hw.
  destruct (j <? length w)%nat; [|apply writes_ret; exact I].
  eapply (writes_bind _ 0 0); [apply writes_lift|]. intros w' Hw'.
  rewrite Hw in Hw'. injection Hw' as <-.
  eapply (writes_bind _ 0 0); [apply writes_lift|]. intros o Ho.
  unfold getitem in Hw, Ho.
  destruct (group_datasets_data_what self !! i) as [ws|] eqn:Hws; [|discriminate].
  injection Hw as <-.
  destruct (ws !! j) as [o'|] eqn:Ho'; [|discriminate]. injection Ho as <-.
  assert (HW : forall op, from_obj o' op -> W op).
  { intros op Hop. right. right. right. exists i, j, planes, ws, o'. auto 10. }
  eapply (writes_bind _ 0 0 (fun _ => True)).
  - eapply writes_weaken; [apply writes_odim_create|exact HW|apply Nat.le_refl|auto].
  - intros _ _.
    eapply writes_weaken; [apply writes_odim_setattrs|exact HW|apply Nat.le_refl|auto].
Qed.

Lemma writes_export_elevation (i : nat) :
  Z.of_nat i + 1 <= n_group_dataset self - 1 ->
  writes W (Z.to_nat (n_datasets self - 1)) (fun _ => True)
         (export_elevation self i (Z.of_nat i + 1)).
Proof.
  intros Hi. unfold export_elevation.
  remember (Z.to_nat (n_datasets self - 1)) as m eqn:Hm.
  assert (HW : forall (l : list obj) o,
             (l = group_datasets_what self \/ l = group_datasets_where self
              \/ l = group_datasets_how_polar self \/ l = group_datasets_how_radar self) ->
             getitem l i = Ok o -> forall op, from_obj o op -> W op).
  { intros l o Hl Ho op Hop. unfold getitem in Ho.
    destruct (l !! i) as [o'|] eqn:Hlo; [|discriminate]. injection Ho as <-.
    right. left. exists i, o'. split; [exact Hi|]. split; [|exact Hop].
    destruct Hl as [Hl|[Hl|[Hl|Hl]]]; subst l; auto. }
  assert (Hgroup : forall (l : list obj) o attrs,
             (l = group_datasets_what self \/ l = group_datasets_where self
              \/ l = group_datasets_how_polar self \/ l = group_datasets_how_radar self) ->
             getitem l i = Ok o ->
             writes W 0 (fun _ => True) (odim_create o)
             /\ writes W 0 (fun _ => True) (odim_setattrs o attrs)).
  { intros l o attrs Hl Ho. split.
    - eapply writes_weaken;
        [apply writes_odim_create|exact (HW l o Hl Ho)|apply Nat.le_refl|auto].
    - eapply writes_weaken;
        [apply writes_odim_setattrs|exact (HW l o Hl Ho)|apply Nat.le_refl|auto]. }
  eapply (writes_bind _ 0 _); [apply writes_lift|]. intros o1 Ho1.
  eapply (writes_bind _ 0 _ (fun _ => True));
    [exact (proj1 (Hgroup _ o1 [] (or_introl eq_refl) Ho1))|]. intros _ _.
  eapply (writes_bind _ 0 _ (fun _ => True));
    [exact (proj2 (Hgroup _ o1 _ (or_introl eq_refl) Ho1))|]. intros _ _.
  eapply (writes_bind _ 0 _); [apply writes_lift|]. intros o2 Ho2.
  eapply (writes_bind _ 0 _ (fun _ => True));
    [exact (proj1 (Hgroup _ o2 [] (or_intror (or_introl eq_refl)) Ho2))|]. intros _ _.
  eapply (writes_bind _ 0 _ (fun _ => True));
    [exact (proj2 (Hgroup _ o2 _ (or_intror (or_introl eq_refl)) Ho2))|]. intros _ _.
  eapply (writes_bind _ 0 _); [apply writes_lift|]. intros o3 Ho3.
  eapply (writes_bind _ 0 _ (fun _ => True));
    [exact (proj1 (Hgroup _ o3 [] (or_intror (or_intror (or_introl eq_refl))) Ho3))|].
  intros _ _.
  eapply (writes_bind _ 0 _ (fun _ => True));
    [exact (proj2 (Hgroup _ o3 _ (or_intror (or_intror (or_introl eq_refl))) Ho3))|].
  intros _ _.
  eapply (writes_bind _ 0 _); [apply writes_lift|]. intros o4 Ho4.
  eapply (writes_bind _ 0 _ (fun _ => True));
    [exact (proj2 (Hgroup _ o4 _ (or_intror (or_intror (or_intror eq_refl))) Ho4))|].
  intros _ _.
  eapply writes_weaken;
    [apply (writes_for_each _ 1)|intros op Hop; exact Hop| |auto].
  - intros p Hp. apply elem_of_enumerate in Hp. apply lookup_arange1 in Hp as [-> Hj].
    apply writes_export_quantity; assumption.
  - rewrite length_enumerate, length_arange1. lia.
Qed.

Lemma writes_export_elevations :
  writes W (Z.to_nat (n_group_dataset self - 1) * Z.to_nat (n_datasets self - 1))
         (fun _ => True) (export_elevations self).
Proof.
  unfold export_elevations.
  eapply writes_weaken;
    [apply (writes_for_each _ (Z.to_nat (n_datasets self - 1)))
    |intros op Hop; exact Hop| |auto].
  - intros p Hp. apply elem_of_enumerate in Hp. apply lookup_arange1 in Hp as [-> Hi].
    apply writes_export_elevation; assumption.
  - rewrite length_enumerate, length_arange1. lia.
Qed.

Lemma writes_export_root :
  writes W 0 (fun _ => True) (export_root self).
Proof.
  unfold export_root.
  assert (Hroot : forall o attrs,
             o ∈ [root_what self; root_where self; root_how self] ->
             writes W 0 (fun _ => True) (odim_create o)
             /\ writes W 0 (fun _ => True) (odim_setattrs o attrs)).
  { intros o attrs Ho.
    assert (HW : forall op, from_obj o op -> W op) by (intros op Hop; left; eauto).
    split.
    - eapply writes_weaken; [apply writes_odim_create|exact HW|apply Nat.le_refl|auto].
    - eapply writes_weaken; [apply writes_odim_setattrs|exact HW|apply Nat.le_refl|auto]. }
  assert (H1 : root_what self ∈ [root_what self; root_where self; root_how self])
    by repeat constructor.
  assert (H2 : root_where self ∈ [root_what self; root_where self; root_how self])
    by repeat constructor.
  assert (H3 : root_how self ∈ [root_what self; root_where self; root_how self])
    by repeat constructor.
  eapply (writes_bind _ 0 0 (fun _ => True)); [exact (proj1 (Hroot _ [] H1))|]. intros _ _.
  eapply (writes_bind _ 0 0 (fun _ => True)); [exact (proj2 (Hroot _ _ H1))|]. intros _ _.
  eapply (writes_bind _ 0 0 (fun _ => True)); [exact (proj1 (Hroot _ [] H2))|]. intros _ _.
  eapply (writes_bind _ 0 0 (fun _ => True)); [exact (proj2 (Hroot _ _ H2))|]. intros _ _.
  eapply (writes_bind _ 0 0 (fun _ => True)); [exact (proj1 (Hroot _ [] H3))|]. intros _ _.
  exact (proj2 (Hroot _ _ H3)).
Qed.

Lemma writes_export_odim :
  writes W (Z.to_nat (n_group_dataset self - 1) * Z.to_nat (n_datasets self - 1))
         (fun _ => True) (export_root self;; export_elevations self).
Proof.
  pose proof writes_export_elevations as He.
  remember (Z.to_nat (n_group_dataset self - 1) * Z.to_nat (n_datasets self - 1))%nat
    as m eqn:Hm.
  eapply (writes_bind _ 0 _ (fun _ => True)); [apply writes_export_root|].
  intros _ _. exact He.
Qed.

End ExportFacts.

(** The arrays that the export of two elevations of two quantities
    writes: one. *)
Example export_odim_two_sweeps :
  map (fun op => match op with MkDataset p _ => p | _ => [] end)
      (List.filter is_MkDataset (export_odim Examples.two_sweeps).1)
  = [["dataset1"; "data1"; "data"]].
Proof. reflexivity. Qed.

(* ===================================================================== *)
(** * String attributes                                                  *)
(* ===================================================================== *)

Lemma is_ascii_np_bytes (s : string) (a : h5attr) :
  stored_value (PStr s) = Ok a ->
  is_ascii s = true /\ a = HBytes (Nat.max 1 (String.length s)) s.
Proof.
  unfold stored_value, np_bytes. destruct (is_ascii s); [|discriminate].
  cbn. intros [= <-]. split; reflexivity.
Qed.

(** C6 fails for [OdimGroup.odim_setattrs]: the attribute [object] of the
    root group [what], of value ["PVOL"], is stored with width 4, the
    length of its content, not 5. *)
Lemma odim_setattrs_width_is_content_length :
  odim_setattrs Examples.what_root ["object"] []
  = ([SetAttr ["what"] "object" (HBytes 4 "PVOL"); MkGroup ["what"]], Ok tt)
  /\ ~ sized_len_plus_one "PVOL" (HBytes 4 "PVOL").
Proof.
  split; [vm_compute; reflexivity|].
  unfold sized_len_plus_one. cbn. discriminate.
Qed.

(** C6, as amended.  [formatstr] sizes a string to its length plus one,
    and an attribute set to its result is stored with that width.
    [OdimGroup.odim_setattrs] stores an attribute of the instance whose
    value is a [str] as the ASCII bytes of [np.bytes_]: the width is the
    length of the content (one for the empty string), which is never the
    length plus one for a string that is not empty. *)
Theorem string_attribute_width :
  (forall p name s f,
      attrs_setitem p name (formatstr s) f
      = (SetAttr p name (HBytes (String.length s + 1) s) :: f, Ok tt)
      /\ sized_len_plus_one s (HBytes (String.length s + 1) s))
  /\ (forall o attrslist f, exists new,
         (odim_setattrs o attrslist f).1 = (new ++ f)%list
         /\ forall p name a s,
             SetAttr p name a ∈ new -> o !! name = Some (PStr s) ->
             is_ascii s = true
             /\ a = HBytes (Nat.max 1 (String.length s)) s
             /\ (s <> "" -> ~ sized_len_plus_one s a)).
Proof.
  split.
  - intros p name s f. split; [|reflexivity].
    unfold attrs_setitem, formatstr. cbn.
    replace (String.length s + 1)%nat with (S (String.length s)) by lia.
    reflexivity.
  - intros o attrslist f.
    destruct (writes_odim_setattrs o attrslist f) as (new & Hf & HP & _).
    exists new. split; [exact Hf|].
    intros p name a s Hin Hs.
    rewrite Forall_forall in HP.
    destruct (HP _ Hin) as (h & _ & [Hop|(name' & pv & a' & Hpv & _ & Hst & Hop)]);
      [discriminate|].
    injection Hop as _ <- <-. rewrite Hs in Hpv. injection Hpv as <-.
    apply is_ascii_np_bytes in Hst as [Hascii ->].
    split; [exact Hascii|]. split; [reflexivity|].
    intros Hne. unfold sized_len_plus_one. intros [= Hw].
    destruct s; [congruence|]. cbn in Hw. lia.
Qed.

(* ===================================================================== *)
(** * Export, then read                                                  *)
(* ===================================================================== *)

(** One elevation and one quantity.  The instance is what [setistance]
    builds; the loops of [export_odim] run over no number, the file holds
    the root groups only, and the volume read from it has no elevation. *)
Example export_odim_one_sweep :
  setistance None (root_what Examples.one_sweep) (root_where Examples.one_sweep)
             (root_how Examples.one_sweep) 1 1
             (group_datasets_what Examples.one_sweep)
             (group_datasets_where Examples.one_sweep)
             (group_datasets_how_radar Examples.one_sweep)
             (group_datasets_how_polar Examples.one_sweep)
             (datasets Examples.one_sweep)
             (group_datasets_data_what Examples.one_sweep)
  = Ok Examples.one_sweep
  /\ elangles Examples.one_sweep = [PFloat 0.5]
  /\ datasets Examples.one_sweep = [[Examples.plane 0]]
  /\ exists f vol,
      export_odim Examples.one_sweep = (f, Ok tt)
      /\ count_datasets f = 0%nat
      /\ read_odim f = Ok vol
      /\ n_group_dataset vol = 0
      /\ elangles vol = []
      /\ varsnames vol = Some []
      /\ datasets vol = [].
Proof.
  split; [vm_compute; reflexivity|].
  split; [reflexivity|]. split; [reflexivity|].
  assert (Hsum : read_odim (export_odim Examples.one_sweep).1
                 ≫= (fun vol => Ok (n_group_dataset vol, elangles vol,
                                    varsnames vol, datasets vol))
                 = Ok (0, [], Some [], []))
    by (vm_compute; reflexivity).
  apply rbind_Ok in Hsum as (vol & Hread & Hsum).
  injection Hsum as Hn He Hv Hd.
  exists (export_odim Examples.one_sweep).1, vol.
  split; [vm_compute; reflexivity|].
  split; [vm_compute; reflexivity|].
  split; [exact Hread|]. auto.
Qed.

(* ===================================================================== *)
(** * Properties of the BUFR metadata reader                           *)
(* ===================================================================== *)

Import Struct BufrMeta OdimQuery.

(** The steps of the state monad, unfolded. *)
Ltac run_M :=
  cbv beta iota delta [mbind M_bind bind lift ret mret M_ret modify
                       try_except read_var result_bind rbind get put].

Lemma bind_run {S A B} (m : M S A) (k : A -> M S B) (s : S) :
  (m ≫= k) s = match m s with
               | (s', Ok a) => k a s'
               | (s', Raise e) => (s', Raise e)
               end.
Proof. reflexivity. Qed.

Ltac by_computation :=
  first [ reflexivity
        | vm_compute; first [reflexivity | exact I | discriminate] ].

(** ** The table and its lines *)

Lemma DataFrame_octects (lines : list string) :
  exists rows, DataFrame (map get_octect lines) = Ok rows
    /\ Forall2 (fun line r => get_octect line
                  = [F r; X r; Y r; value r; id5 r; id6 r; id7 r; descriptor r])
               lines rows.
Proof.
  induction lines as [|line lines (rows & Hrows & Hall)].
  - exists []. split; [reflexivity|constructor].
  - assert (Hlen : exists f x y v a b c d, get_octect line = [f; x; y; v; a; b; c; d]).
    { unfold get_octect. destruct (_ && _); cbn; eauto 10. }
    destruct Hlen as (f & x & y & v & a & b & c & d & Hline).
    exists (mk_row f x y v a b c d :: rows). split.
    + cbn [map DataFrame]. rewrite Hline. cbn. 
      change (DataFrame (map get_octect lines) ≫= (fun rows0 => Ok (mk_row f x y v a b c d :: rows0)) = Ok (mk_row f x y v a b c d :: rows)).
      rewrite Hrows. reflexivity.
    + constructor; [exact Hline|exact Hall].
Qed.

(** X1. [read_meta] does not raise on the lines of a metadata file: it
    returns one row per line, blank lines included, in the order of the
    file, and the eight columns of each row are the eight components that
    [get_octect] cuts out of its line. *)
Theorem read_meta_one_row_per_line (lines : list string) :
  exists rows, read_meta (Some lines) = Ok rows
    /\ length rows = length lines
    /\ Forall2 (fun line r => get_octect line
                  = [F r; X r; Y r; value r; id5 r; id6 r; id7 r; descriptor r])
               lines rows.
Proof.
  destruct (DataFrame_octects lines) as (rows & Hrows & Hall).
  exists rows. split; [exact Hrows|]. split; [|exact Hall].
  symmetry. eapply Forall2_length, Hall.
Qed.

Lemma lstrip_all_space s : all_space s = true -> lstrip s = "".
Proof.
  induction s as [|c s IH]; [reflexivity|]. cbn. intros H.
  apply andb_true_iff in H as [-> H]. auto.
Qed.

Lemma str_drop_all_space n s : all_space s = true -> all_space (str_drop n s) = true.
Proof.
  revert s. induction n as [|n IH]; intros s H; [exact H|].
  destruct s as [|c s]; [reflexivity|]. cbn in *.
  apply andb_true_iff in H as [_ H]. auto.
Qed.

Lemma str_take_all_space n s : all_space s = true -> all_space (str_take n s) = true.
Proof.
  revert s. induction n as [|n IH]; intros s H; [reflexivity|].
  destruct s as [|c s]; [reflexivity|]. cbn in *.
  apply andb_true_iff in H as [-> H]. cbn. auto.
Qed.

Lemma strip_all_space s : all_space s = true -> strip s = "".
Proof. intros H. unfold strip. rewrite lstrip_all_space by exact H. reflexivity. Qed.

(** X2. A line of white space only (the empty line too) is decoded by
    [get_octect] as eight unset components: no column of it is kept as an
    empty string. *)
Theorem get_octect_blank_line (line : string) :
  all_space line = true -> get_octect line = repeat None 8.
Proof.
  intros H. unfold get_octect.
  assert (Hs : forall a b, strip (slice line a b) = "").
  { intros a b. apply strip_all_space. unfold slice.
    apply str_take_all_space, str_drop_all_space, H. }
  assert (Hf : forall a, strip (slice_from line a) = "").
  { intros a. apply strip_all_space. unfold slice_from.
    apply str_drop_all_space, H. }
  rewrite !Hs, !Hf. reflexivity.
Qed.

Lemma get_octect_blank_line_witness :
  all_space "   " = true /\ get_octect "   " = repeat None 8.
Proof.
  split; [reflexivity|]. apply (get_octect_blank_line "   "). reflexivity.
Defined.

Section AccTimeFacts.
Variable float_of_str : string -> option float.

(** X3. [get_acc_time_from_meta] returns 0 when the table has no row
    (0, 8, 21), and when the value of the first such row is a number other
    than 3: the rows of the days and of the hours are then not read. *)
Theorem get_acc_time_from_meta_instantaneous (meta : list row) :
  match loc_index (fxy "0" "8" "21") meta with
  | [] => True
  | i :: _ => exists r x, meta !! i = Some r
                /\ py_float float_of_str (value r) = Ok x
                /\ (x =? 3)%float = false
  end ->
  get_acc_time_from_meta float_of_str meta = Ok 0.
Proof.
  intros H. unfold get_acc_time_from_meta.
  destruct (loc_index (fxy "0" "8" "21") meta) as [|i rest]; [reflexivity|].
  destruct H as (r & x & Hr & Hx & Hne).
  unfold iloc, getitem. cbn [lookup list_lookup]. run_M. rewrite Hr. run_M.
  rewrite Hx. run_M. rewrite Hne. reflexivity.
Qed.

(** X4. When the value of the first row (0, 8, 21) is 3, the accumulation
    time is negative: it is [0 - int(24 * days) - int(hours)], with [days]
    and [hours] the values of the first rows (0, 4, 23) and (0, 4, 24). *)
Theorem get_acc_time_from_meta_accumulated
        (meta : list row) (i jd jh : nat) (rest restd resth : list nat)
        (r rd rh : row) (x xd xh : float) (nd nh : Z) :
  loc_index (fxy "0" "8" "21") meta = i :: rest ->
  meta !! i = Some r ->
  py_float float_of_str (value r) = Ok x ->
  (x =? 3)%float = true ->
  loc_index (fxy "0" "4" "23") meta = jd :: restd ->
  meta !! jd = Some rd ->
  py_float float_of_str (value rd) = Ok xd ->
  py_int (24 * xd) = Ok nd ->
  loc_index (fxy "0" "4" "24") meta = jh :: resth ->
  meta !! jh = Some rh ->
  py_float float_of_str (value rh) = Ok xh ->
  py_int xh = Ok nh ->
  get_acc_time_from_meta float_of_str meta = Ok (0 - nd - nh).
Proof.
  intros Hi Hr Hx H3 Hjd Hrd Hxd Hnd Hjh Hrh Hxh Hnh.
  unfold get_acc_time_from_meta. rewrite Hi, Hjd, Hjh.
  unfold iloc, getitem. cbn [lookup list_lookup]. run_M. rewrite Hr. run_M.
  rewrite Hx. run_M. rewrite H3. run_M.
  rewrite Hrd. run_M. rewrite Hxd. run_M. rewrite Hnd. run_M.
  rewrite Hrh. run_M. rewrite Hxh. run_M. rewrite Hnh. run_M. reflexivity.
Qed.
End AccTimeFacts.

Lemma get_acc_time_from_meta_instantaneous_witness :
  get_acc_time_from_meta parse_decimal Cases.instantaneous_table = Ok 0.
Proof.
  apply (get_acc_time_from_meta_instantaneous parse_decimal Cases.instantaneous_table).
  assert (Hloc : loc_index (fxy "0" "8" "21") Cases.instantaneous_table = [0%nat])
    by (vm_compute; reflexivity).
  rewrite Hloc.
  exists (Examples.cell (Some "0") (Some "8") (Some "21") (Some "1")), 1%float.
  repeat split; vm_compute; reflexivity.
Defined.

Lemma get_acc_time_from_meta_accumulated_witness :
  get_acc_time_from_meta parse_decimal Cases.acc_table = Ok (-30).
Proof.
  eapply (get_acc_time_from_meta_accumulated
            parse_decimal Cases.acc_table 0 1 2 [] [] [] _ _ _ 3 1 6 24 6);
    by_computation.
Defined.

(** ** The date *)

Section DateFacts.
Variable float_of_str : string -> option float.

(** X5. On a table with the date marker (3, 1, 11) followed by two rows
    without F, X, Y, and the hour marker (3, 1, 12) followed by one, the
    five values read (a value -99 counts as 0) are passed to [datetime]:
    the result is that date, [None] when [datetime] rejects them with a
    [ValueError], and any other exception of [datetime] propagates. *)
Theorem get_datetime_from_meta_complete
        (meta : list row) (iy ih : nat) (resty resth : list nat)
        (ry r1 r2 rh r3 : row) (y mo d h mi : Z) :
  loc_index (fxy "3" "1" "11") meta = iy :: resty ->
  meta !! iy = Some ry ->
  int_float float_of_str (value ry) = Ok y ->
  meta !! (iy + 1)%nat = Some r1 -> no_fxy r1 = true ->
  int_float float_of_str (value r1) = Ok mo ->
  meta !! (iy + 2)%nat = Some r2 -> no_fxy r2 = true ->
  int_float float_of_str (value r2) = Ok d ->
  loc_index (fxy "3" "1" "12") meta = ih :: resth ->
  meta !! ih = Some rh ->
  int_float float_of_str (value rh) = Ok h ->
  meta !! (ih + 1)%nat = Some r3 -> no_fxy r3 = true ->
  int_float float_of_str (value r3) = Ok mi ->
  get_datetime_from_meta float_of_str meta
  = match datetime_new (unless_99 y) (unless_99 mo) (unless_99 d)
                       (unless_99 h) (unless_99 mi) with
    | Ok dt => Ok (Some dt)
    | Raise e => if catches [ValueError] e then Ok None else Raise e
    end.
Proof.
  intros Hiy Hry Hy H1 Hc1 Hmo H2 Hc2 Hd Hih Hrh Hh H3 Hc3 Hmi.
  unfold get_datetime_from_meta, try_year, try_month_day, try_hour_minutes,
    try_build.
  rewrite Hiy, Hih. unfold iloc, getitem. cbn [lookup list_lookup].
  run_M. rewrite Hry. run_M. rewrite Hy. run_M.
  cbn [l_index_year set_year set_index_year dt_locals0].
  rewrite H1. run_M. rewrite Hc1. run_M. rewrite Hmo. run_M.
  cbn [l_index_year set_year set_index_year set_month dt_locals0].
  rewrite H2. run_M. rewrite Hc2. run_M. rewrite Hd. run_M.
  rewrite Hrh. run_M. rewrite Hh. run_M.
  rewrite H3. run_M. rewrite Hc3. run_M. rewrite Hmi. run_M.
  cbn [l_year l_month l_day l_hour l_minutes set_year set_month set_day
       set_hour set_minutes set_index_year set_index_hour dt_locals0
       l_index_year l_index_hour l_dt].
  destruct (datetime_new _ _ _ _ _) as [dt|e]; run_M.
  - reflexivity.
  - destruct (catches [ValueError] e); reflexivity.
Qed.

Lemma datetime_new_month_zero (y d h mi : Z) :
  forallb fits_c_int [y; 0; d; h; mi] = true ->
  datetime_new y 0 d h mi = Raise ValueError.
Proof.
  intros Hfits. unfold datetime_new. rewrite Hfits. cbn [negb].
  replace ((1 <=? y) && (y <=? 9999) && (1 <=? 0)) with false
    by (rewrite andb_false_r; reflexivity).
  reflexivity.
Qed.

(** X6. A table that ends with its date marker (the year a number within
    the range of a C int) and has no hour marker gives [None]: the month
    and the day default to 0, the hour and the minutes too, and [datetime]
    rejects the month 0. *)
Theorem get_datetime_from_meta_year_only
        (meta : list row) (iy : nat) (resty : list nat) (ry : row) (y : Z) :
  loc_index (fxy "3" "1" "11") meta = iy :: resty ->
  meta !! iy = Some ry ->
  int_float float_of_str (value ry) = Ok y ->
  meta !! (iy + 1)%nat = None ->
  loc_index (fxy "3" "1" "12") meta = [] ->
  fits_c_int y = true ->
  get_datetime_from_meta float_of_str meta = Ok None.
Proof.
  intros Hiy Hry Hy H1 Hih Hfits.
  unfold get_datetime_from_meta, try_year, try_month_day, try_hour_minutes,
    try_build.
  rewrite Hiy, Hih. unfold iloc, getitem. cbn [lookup list_lookup].
  run_M. rewrite Hry. run_M. rewrite Hy. run_M.
  cbn [l_index_year set_year set_index_year dt_locals0].
  rewrite H1. run_M. cbn [catches existsb isinstance exn_eqb orb]. run_M.
  cbn [l_year l_month l_day l_hour l_minutes set_year set_month set_day
       set_hour set_minutes set_index_year set_index_hour dt_locals0
       l_index_year l_index_hour l_dt].
  change (unless_99 (-99)) with 0.
  rewrite datetime_new_month_zero.
  - reflexivity.
  - cbn [forallb]. rewrite andb_true_r.
    unfold unless_99. destruct (y =? -99); [reflexivity|].
    rewrite Hfits. reflexivity.
Qed.
End DateFacts.

Lemma get_datetime_from_meta_complete_witness :
  get_datetime_from_meta parse_decimal Cases.date_table
  = Ok (Some (mk_datetime 2020 9 22 10 35)).
Proof.
  eapply (get_datetime_from_meta_complete
            parse_decimal Cases.date_table 0 3 [] [] _ _ _ _ _ 2020 9 22 10 35);
    by_computation.
Defined.

Lemma get_datetime_from_meta_year_only_witness :
  get_datetime_from_meta parse_decimal Cases.year_table = Ok None.
Proof.
  eapply (get_datetime_from_meta_year_only
            parse_decimal Cases.year_table 0 [] _ 2020);
    by_computation.
Defined.

(** ** The levels *)

Section LevelFacts.
Variable float_of_str : string -> option float.

(** X7. When [get_var_levs_from_meta] returns, the variable is the one of
    the field marker and the first level is the value of the marker row,
    replaced by -31 for a reflectivity of the emission centre ["DPC"]
    whose value is 0. *)
Theorem get_var_levs_from_meta_lower_bound
        (meta : list row) (src : StructSource) (fill_method : string)
        (v v' : variable) (i : nat) (r : row) (x : float) (ls : list float) :
  select_variable meta = Ok (v, i) ->
  meta !! i = Some r ->
  py_float float_of_str (value r) = Ok x ->
  get_var_levs_from_meta float_of_str (Some meta) (Some src) fill_method
  = Ok (v', ls) ->
  v' = v
  /\ ls !! 0%nat
     = Some (if bool_decide (emission_center src = Some "DPC")
                && bool_decide (var_name v = Some "Z")
                && (x =? 0)%float
             then (-31)%float else x).
Proof.
  intros Hs Hr Hx H. unfold get_var_levs_from_meta in H.
  cbn [mbind result_bind rbind] in H. rewrite Hs in H.
  cbn [mbind result_bind rbind] in H.
  destruct (read_levels float_of_str meta (Some src) v i) as [[low levels]|e] eqn:Hread;
    [|discriminate].
  cbn [mbind result_bind rbind] in H.
  destruct (reconstruct_levels levels low fill_method) as [final|e] eqn:Hrec;
    [|discriminate].
  injection H as <- <-. split; [reflexivity|].
  rewrite (reconstruct_levels_first _ _ _ _ Hrec). f_equal.
  unfold read_levels, iloc, getitem in Hread. rewrite Hr in Hread.
  cbn [mbind result_bind rbind] in Hread. rewrite Hx in Hread.
  cbn [mbind result_bind rbind] in Hread.
  inv_bind Hread. injection Hread as <- _. reflexivity.
Qed.

Lemma reconstruct_levels_bound_below_first
      (low r0 : float) (rest : list float) (fm : string) :
  (low <? r0)%float = true ->
  Forall (fun l => (low <? l)%float = true) rest ->
  rest <> [] ->
  reconstruct_levels (r0 :: rest) low fm = Raise ValueError.
Proof.
  intros H0 Hrest Hne. unfold reconstruct_levels.
  cbn [List.filter]. rewrite H0, (filter_above_all _ _ Hrest).
  unfold assign_tail. cbn [tail length].
  replace (S (length rest) =? length rest)%nat with false
    by (symmetry; apply Nat.eqb_neq; lia).
  destruct rest; [contradiction|reflexivity].
Qed.

(** X8. The -31 patch makes the call fail: for a reflectivity of ["DPC"]
    whose marker value is 0, when the first level read and the levels after
    it (at least one) are all above -31, the filter [l > low_bounds] keeps
    every level, the first one included, so the assignment to
    [levels[1:]] has one value too many and raises [ValueError]. *)
Theorem get_var_levs_from_meta_dpc_patch_raises
        (meta : list row) (src : StructSource) (fill_method : string)
        (i : nat) (r : row) (x low r0 : float) (rest : list float) :
  emission_center src = Some "DPC" ->
  select_variable meta = Ok (VarZ, i) ->
  meta !! i = Some r ->
  py_float float_of_str (value r) = Ok x ->
  (x =? 0)%float = true ->
  read_levels float_of_str meta (Some src) VarZ i = Ok (low, r0 :: rest) ->
  (-31 <? r0)%float = true ->
  Forall (fun l => (-31 <? l)%float = true) rest ->
  rest <> [] ->
  get_var_levs_from_meta float_of_str (Some meta) (Some src) fill_method
  = Raise ValueError.
Proof.
  intros Hdpc Hs Hr Hx H0 Hread Hr0 Hrest Hne.
  rewrite (get_var_levs_unfold float_of_str meta (Some src) fill_method
             VarZ i low (r0 :: rest) Hs Hread).
  assert (Hlow : low = (-31)%float).
  { unfold read_levels, iloc, getitem in Hread. rewrite Hr in Hread.
    cbn [mbind result_bind rbind] in Hread. rewrite Hx in Hread.
    cbn [mbind result_bind rbind] in Hread.
    inv_bind Hread. injection Hread as <- _.
    rewrite (bool_decide_eq_true_2 _ Hdpc), H0. reflexivity. }
  subst low.
  rewrite (reconstruct_levels_bound_below_first _ _ _ _ Hr0 Hrest Hne).
  reflexivity.
Qed.
End LevelFacts.

Lemma get_var_levs_from_meta_lower_bound_witness :
  get_var_levs_from_meta parse_decimal (Some Examples.z_table)
                         (Some Examples.arpae) "max"
  = Ok (VarZ, [0; 1; 2; 3]%float)
  /\ VarZ = VarZ /\ [0; 1; 2; 3]%float !! 0%nat = Some 0%float.
Proof.
  assert (H : get_var_levs_from_meta parse_decimal (Some Examples.z_table)
                                     (Some Examples.arpae) "max"
              = Ok (VarZ, [0; 1; 2; 3]%float)) by (vm_compute; reflexivity).
  split; [exact H|].
  eapply (get_var_levs_from_meta_lower_bound
            parse_decimal Examples.z_table Examples.arpae "max" VarZ VarZ 0 _
            0%float [0; 1; 2; 3]%float);
    first [exact H | by_computation].
Defined.

Lemma get_var_levs_from_meta_dpc_patch_raises_witness :
  get_var_levs_from_meta parse_decimal (Some Examples.z_table) (Some Cases.dpc)
                         "max"
  = Raise ValueError.
Proof.
  eapply (get_var_levs_from_meta_dpc_patch_raises
            parse_decimal Examples.z_table Cases.dpc "max" 0 _ 0%float
            (-31)%float 0%float [1; 2; 3]%float);
    first [ by_computation | repeat constructor ].
Defined.

(** ** The data *)

Lemma zip_with_map_r {A B C} (f : A -> B -> C) (g : A -> B) (l : list A) :
  zip_with f l (map g l) = map (fun a => f a (g a)) l.
Proof. induction l as [|a l IH]; [reflexivity|]. cbn. f_equal. exact IH. Qed.

Lemma chunks_const {A} (m : A) (r w : nat) (xs : list Z) :
  length xs = (r * w)%nat ->
  map (map (fun _ => m)) (chunks r w xs) = repeat (repeat m w) r.
Proof.
  revert xs. induction r as [|r IH]; intros xs Hlen; [reflexivity|].
  cbn [chunks map repeat]. f_equal.
  - assert (Hw : length (firstn w xs) = w) by (rewrite length_firstn; lia).
    clear -Hw. revert Hw. generalize (firstn w xs). intros l <-.
    induction l as [|a l IH]; [reflexivity|]. cbn. f_equal. exact IH.
  - apply IH. rewrite length_skipn. lia.
Qed.

Section DataFacts.
Variables RP SP : Type.

Lemma fill_level_pixel_value (levs : list float) (miss : float) (k : nat) (lev : float)
      (cont : list (list Z)) :
  levs !! k = Some lev ->
  fill_level cont k lev (map (map (pixel_value levs miss k)) cont)
  = map (map (pixel_value levs miss (S k))) cont.
Proof.
  intros Hlev. unfold fill_level.
  rewrite zip_with_map_r. apply map_ext. intros row.
  rewrite zip_with_map_r. apply map_ext. intros c.
  unfold pixel_value. destruct (Z.eqb_spec c (Z.of_nat k)) as [->|Hne].
  - replace ((0 <=? Z.of_nat k) && (Z.of_nat k <? Z.of_nat (S k))) with true
      by (symmetry; apply andb_true_iff; split; [apply Z.leb_le|apply Z.ltb_lt]; lia).
    rewrite Nat2Z.id, Hlev. reflexivity.
  - replace (c <? Z.of_nat (S k)) with (c <? Z.of_nat k); [reflexivity|].
    destruct (Z.ltb_spec c (Z.of_nat k)), (Z.ltb_spec c (Z.of_nat (S k))); lia || reflexivity.
Qed.

Lemma fill_loop (self : bufr_self RP SP) (bytes : option (list Z))
      (cont : list (list Z)) (levs : list float) (miss : float)
      (body : nat -> M (rb_state RP SP) unit) (n k : nat) :
  (forall idl lev out, levs !! idl = Some lev ->
     body idl (self, mk_rb_locals bytes (Some cont) (Some out))
     = ((self, mk_rb_locals bytes (Some cont) (Some (fill_level cont idl lev out))),
        Ok tt)) ->
  (k + n = length levs)%nat ->
  for_each (seq k n) body
    (self, mk_rb_locals bytes (Some cont) (Some (map (map (pixel_value levs miss k)) cont)))
  = ((self, mk_rb_locals bytes (Some cont)
              (Some (map (map (pixel_value levs miss (k + n))) cont))), Ok tt).
Proof.
  intros Hbody. revert k. induction n as [|n IH]; intros k Hk.
  - cbn. rewrite Nat.add_0_r. reflexivity.
  - cbn [seq for_each]. unfold bind.
    destruct (levs !! k) as [lev|] eqn:Hlev.
    2: { apply lookup_ge_None in Hlev. lia. }
    rewrite (Hbody k lev _ Hlev), (fill_level_pixel_value levs miss k lev cont Hlev).
    replace (k + S n)%nat with (S k + n)%nat by lia.
    apply IH. lia.
Qed.

(** X9. The decoding step of [read_bufr]: when the bytes fill the grid
    ([ny * nx] of them), they are cut into [ny] rows of [nx] bytes, and
    the pixel of byte [c] is the level of index [c] when there is one and
    [1 * missing] otherwise (a byte beyond the last level is a missing
    value); nothing else of the instance changes. *)
Theorem read_data_decodes_levels
        (self : bufr_self RP SP) (locals : rb_locals) (bytes : list Z)
        (levs : list float) (g : StructGrid) (gy gx : Z) (v : variable)
        (miss : float) :
  grid _ _ self = Some g -> ny g = Some gy -> nx g = Some gx ->
  0 <= gy -> 0 <= gx -> gy * gx = Z.of_nat (length bytes) ->
  variabile _ _ self = Some v -> var_missing v = Some miss ->
  levels _ _ self = Some (Some levs) ->
  let cont := chunks (Z.to_nat gy) (Z.to_nat gx) bytes in
  read_data RP SP (Some bytes) levs (self, locals)
  = ((self, mk_rb_locals (Some bytes) (Some cont)
              (Some (map (map (pixel_value levs miss (length levs))) cont))),
     Ok tt).
Proof.
  intros Hg Hny Hnx Hgy Hgx Hlen Hv Hmiss Hlevs cont.
  assert (Hpos : (0 <=? gy) && (0 <=? gx) = true)
    by (apply andb_true_iff; split; apply Z.leb_le; assumption).
  assert (Hre : reshape bytes gy gx = Ok cont).
  { unfold reshape. rewrite Hpos.
    replace (gy * gx =? Z.of_nat (length bytes)) with true
      by (symmetry; apply Z.eqb_eq; assumption).
    reflexivity. }
  assert (Hones : ones_times gy gx miss = Ok (map (map (pixel_value levs miss 0)) cont)).
  { unfold ones_times. rewrite Hpos. f_equal. subst cont.
    rewrite <- (chunks_const (1 * miss)%float (Z.to_nat gy) (Z.to_nat gx) bytes) by lia.
    apply map_ext. intros row. apply map_ext. intros c. unfold pixel_value.
    destruct (Z.leb_spec 0 c), (Z.ltb_spec c (Z.of_nat 0)); reflexivity || lia. }
  unfold read_data, local, attr, upd_locals. run_M.
  repeat (cbn [fst snd lines_rb Bufr.cont out_field];
          first [rewrite Hg | rewrite Hny | rewrite Hnx | rewrite Hre
                | rewrite Hv | rewrite Hmiss | rewrite Hones];
          run_M).
  cbn [fst snd lines_rb Bufr.cont out_field].
  apply (fill_loop self (Some bytes) cont levs miss _ (length levs) 0); [|lia].
  intros idl lev out Hlev. cbn [fst snd Bufr.cont lines_rb out_field].
  rewrite Hlevs. unfold getitem. rewrite Hlev. reflexivity.
Qed.

End DataFacts.

Lemma read_data_decodes_levels_witness :
  read_data RadarProduct StructProjection (Some [0; 1; 2; 255])
            [10; 20; 30]%float
            (Cases.loaded_self, mk_rb_locals None None None)
  = ((Cases.loaded_self,
      mk_rb_locals (Some [0; 1; 2; 255]) (Some [[0; 1]; [2; 255]])
                   (Some [[10; 20]; [30; -70]]%float)),
     Ok tt).
Proof.
  apply (read_data_decodes_levels
           RadarProduct StructProjection Cases.loaded_self
           (mk_rb_locals None None None) [0; 1; 2; 255] [10; 20; 30]%float
           (mk_grid (Some 2) (Some 2)) 2 2 VarZ (-70)%float);
    first [reflexivity | lia].
Defined.

(* ===================================================================== *)
(** * Properties of the structures                                     *)
(* ===================================================================== *)

Lemma find_app_first {A} (f : A -> bool) (l1 l2 : list A) :
  find f (l1 ++ l2) = match find f l1 with Some x => Some x | None => find f l2 end.
Proof.
  induction l1 as [|a l1 IH]; [reflexivity|]. cbn. destruct (f a); [reflexivity|exact IH].
Qed.

(** The last pair of [kvs] with key [k]. *)
Lemma lookup_fold_insert (kvs : list (string * pyval)) (d : obj) (k : string) :
  fold_left (fun d kv => <[fst kv := snd kv]> d) kvs d !! k
  = match find (fun kv => String.eqb (fst kv) k) (rev kvs) with
    | Some kv => Some (snd kv)
    | None => d !! k
    end.
Proof.
  revert d. induction kvs as [|[k' v] kvs IH]; intros d; [reflexivity|].
  cbn [fold_left rev fst snd]. rewrite IH.
  rewrite find_app_first.
  destruct (find (fun kv => String.eqb (fst kv) k) (rev kvs)) as [kv|]; [reflexivity|].
  cbn [find fst snd]. destruct (String.eqb_spec k' k) as [->|Hne].
  - apply lookup_insert_eq.
  - apply lookup_insert_ne. exact Hne.
Qed.

(** X17. What an attribute is after [addparams]: with a name and a
    value, that value for that name; with two lists, the value paired with
    the last occurrence of the name among the pairs that [zip] forms (names
    or values beyond the shorter list are ignored); every other attribute
    is unchanged, and a first argument of another type changes
    nothing. *)
Theorem addparams_lookup (self : obj) (args : addparams_args) (k : string) :
  addparams self args !! k
  = match args with
    | OneParam newparam value =>
        if String.eqb newparam k then Some value else self !! k
    | ListParams newparam value =>
        match find (fun kv => String.eqb (fst kv) k) (rev (zip newparam value)) with
        | Some kv => Some (snd kv)
        | None => self !! k
        end
    | OtherParams => self !! k
    end.
Proof.
  destruct args as [n v|ks vs|]; cbn [addparams].
  - unfold setattr. destruct (String.eqb_spec n k) as [->|Hne].
    + apply lookup_insert_eq.
    + apply lookup_insert_ne. exact Hne.
  - apply lookup_fold_insert.
  - reflexivity.
Qed.

Lemma scan_subclasses_spec (subclasses : list obj) (varname : string)
      (outcls : option obj) :
  Forall scalar_name subclasses ->
  scan_subclasses subclasses varname outcls
  = Ok (match find (has_name varname) subclasses with
        | Some c => Some c
        | None => match last subclasses with
                  | Some c => Some c
                  | None => outcls
                  end
        end).
Proof.
  intros Hall. revert outcls. induction Hall as [|c l Hc Hall IH]; intros outcls.
  - reflexivity.
  - cbn [scan_subclasses find]. unfold getattr, has_name at 1.
    assert (Hlast : forall o, match find (has_name varname) l with
                              | Some c0 => Some c0
                              | None => match last l with
                                        | Some c0 => Some c0
                                        | None => Some c
                                        end
                              end
                              = match find (has_name varname) l with
                                | Some c0 => Some c0
                                | None => match last (c :: l) with
                                          | Some c0 => Some c0
                                          | None => o
                                          end
                                end).
    { intros o. destruct (find _ l); [reflexivity|].
      destruct l as [|c' l']; [reflexivity|].
      change (last (c :: c' :: l')) with (last (c' :: l')).
      destruct (last (c' :: l')) eqn:E; [reflexivity|].
      apply last_None in E. discriminate. }
    destruct Hc as (n & Hc & Hn). rewrite Hc. cbn [mbind result_bind rbind].
    assert (Heq : exists b, py_eq n (PStr varname) = Ok b)
      by (destruct n; try contradiction; cbn; eauto).
    destruct Heq as (b & ->). cbn [mbind result_bind rbind].
    destruct b; [reflexivity|].
    rewrite IH. f_equal. apply Hlast.
Qed.

(** X18. [set_cls_by_name] returns the instance of the first subclass
    whose [name] equals [varname]; when no subclass has that name it
    returns the instance of the last subclass, not [None] ([None] only
    without subclasses). *)
Theorem set_cls_by_name_first_match_or_last
        (subclasses : list obj) (varname : string) :
  Forall scalar_name subclasses ->
  set_cls_by_name subclasses (Some varname)
  = Ok (match find (has_name varname) subclasses with
        | Some c => Some c
        | None => last subclasses
        end).
Proof.
  intros Hall. unfold set_cls_by_name.
  rewrite (scan_subclasses_spec _ _ _ Hall). f_equal.
  destruct (find _ subclasses); [reflexivity|].
  destruct (last subclasses); reflexivity.
Qed.

(** X19. [set_var_by_name] copies every attribute of the instance found
    by [set_cls_by_name] onto [self], overriding the attributes of the same
    name and keeping the others. *)
Theorem set_var_by_name_copies_attributes
        (subclasses : list obj) (self : obj) (varname : string) (c : obj) :
  set_cls_by_name subclasses (Some varname) = Ok (Some c) ->
  set_var_by_name subclasses self (Some varname) = Ok (c ∪ self).
Proof.
  intros Hc. unfold set_var_by_name. rewrite Hc. cbn. f_equal.
  apply map_eq. intros k. rewrite lookup_fold_insert.
  change (zip (map fst (map_to_list c)) (map snd (map_to_list c)))
    with (zip ((map_to_list c).*1) ((map_to_list c).*2)).
  rewrite zip_fst_snd.
  destruct (find _ (rev (map_to_list c))) as [[k' v]|] eqn:Hfind.
  - apply find_some in Hfind as [Hin Hk]. cbn in Hk.
    apply String.eqb_eq in Hk. subst k'.
    apply in_rev, list_elem_of_In, elem_of_map_to_list in Hin.
    symmetry. apply lookup_union_Some_l. exact Hin.
  - destruct (c !! k) as [v|] eqn:Hv.
    + apply elem_of_map_to_list, list_elem_of_In, in_rev in Hv.
      apply (find_none _ _ Hfind) in Hv. cbn in Hv.
      rewrite String.eqb_refl in Hv. discriminate.
    + symmetry. apply lookup_union_r. exact Hv.
Qed.

Lemma set_cls_by_name_first_match_or_last_witness :
  set_cls_by_name Cases.three_variables (Some "Z") = Ok (Some Cases.var_z)
  /\ set_cls_by_name Cases.three_variables (Some "Z_60")
     = Ok (Some Cases.var_vrad).
Proof.
  assert (H : Forall scalar_name Cases.three_variables).
  { repeat constructor; eexists; (split; [reflexivity|exact I]). }
  split.
  - exact (set_cls_by_name_first_match_or_last Cases.three_variables "Z" H).
  - exact (set_cls_by_name_first_match_or_last Cases.three_variables "Z_60" H).
Defined.

Lemma set_var_by_name_copies_attributes_witness :
  set_var_by_name Cases.three_variables
                  (StructVariable_init PNone PNone PNone PNone PNone PNone
                                       PNone PNone PNone)
                  (Some "Z")
  = Ok (Cases.var_z ∪ StructVariable_init PNone PNone PNone PNone PNone PNone
                                          PNone PNone PNone).
Proof.
  apply (set_var_by_name_copies_attributes Cases.three_variables _ "Z"
           Cases.var_z).
  by_computation.
Defined.

(* ===================================================================== *)
(** * Properties of the source, the projection and the grid            *)
(* ===================================================================== *)

(** ** The source and the product *)

(** X10. For a file name that contains ["EMRO"] and has at least five
    fields between ["_"], the source name is the fourth field and the
    product the fifth, both stripped of ["@"]; the emission centre is
    ["Arpae Emilia-Romagna"], the file name is stored with the extension
    [".BUFR"], and the products ["CZ"] and ["SR"] are renamed ["LBM"] and
    ["SRI"]. *)
Theorem get_source_product_from_meta_emro
        (meta : list row) (i : nat) (rest : list nat) (r : row)
        (v namefile radar p : string) (fields : list string) :
  namefile_rows meta = i :: rest ->
  meta !! i = Some r ->
  value r = Some v ->
  split_on "." v = namefile :: fields ->
  is_infix "EMRO" namefile = true ->
  split_on "_" namefile !! 3%nat = Some radar ->
  split_on "_" namefile !! 4%nat = Some p ->
  get_source_product_from_meta meta
  = (mk_source (Some (strip_chars "@" radar)) (Some (namefile ++ ".BUFR"))
               (Some "Arpae Emilia-Romagna"),
     RadarProduct_init
       (let p := strip_chars "@" p in
        let p := if String.eqb p "CZ" then "LBM" else p in
        if String.eqb p "SR" then "SRI" else p) "None").
Proof.
  intros Hi Hr Hv Hn Hemro Hradar Hp.
  unfold get_source_product_from_meta, try_source, try_product, name_field.
  rewrite Hi. unfold iloc, getitem. cbn [lookup list_lookup]. run_M.
  rewrite Hr. run_M. rewrite Hv, Hn. cbn [lookup list_lookup]. run_M.
  rewrite Hemro. run_M. rewrite Hradar, Hp. run_M.
  cbn [prod set_prod set_name_file set_emission_center set_name_source
       source_struct prod_struct set_prod_struct fst snd name_source name_file
       emission_center].
  reflexivity.
Qed.

Lemma product_name_init (name long_name : string) :
  product_name (RadarProduct_init name long_name) = name.
Proof. unfold RadarProduct_init. destruct (_ && _); reflexivity. Qed.

Lemma not_SR (p : string) : (if String.eqb p "SR" then "SRI" else p) <> "SR".
Proof. destruct (String.eqb_spec p "SR"); congruence. Qed.

(** X11. Whatever the table, [get_source_product_from_meta] returns (it
    raises nothing) a source whose emission centre is unset or one of the
    three known centres; with the centre unset the source name is still
    ["Unknown"] and the product is the default one; a stored file name ends
    with [".BUFR"]; and the product is never named ["SR"]. *)
Theorem get_source_product_from_meta_invariants (meta : list row) :
  let s := fst (get_source_product_from_meta meta) in
  let p := snd (get_source_product_from_meta meta) in
  In (emission_center s)
     [None; Some "Arpae Emilia-Romagna"; Some "Arpa Piemonte"; Some "DPC"]
  /\ (emission_center s = None ->
      name_source s = Some "Unknown" /\ p = RadarProduct_init "None" "None")
  /\ (name_file s = None \/ exists n, name_file s = Some (n ++ ".BUFR"))
  /\ product_name p <> "SR".
Proof.
  unfold get_source_product_from_meta, try_source, try_product, name_field.
  unfold iloc, getitem. run_M.
  destruct (namefile_rows meta !! 0%nat) as [i|]; run_M.
  2: { cbn. repeat split; auto; discriminate. }
  destruct (meta !! i) as [r|]; run_M.
  2: { cbn. repeat split; auto; discriminate. }
  destruct (value r) as [v|]; run_M.
  2: { cbn. repeat split; auto; discriminate. }
  destruct (split_on "." v !! 0%nat) as [namefile|]; run_M.
  2: { cbn. repeat split; auto; discriminate. }
  destruct (is_infix "EMRO" namefile); run_M.
  { destruct (split_on "_" namefile !! 3%nat) as [radar|]; run_M.
    2: { cbn. repeat split; auto; discriminate. }
    destruct (split_on "_" namefile !! 4%nat) as [p|]; run_M;
      cbn [prod set_prod set_name_file set_emission_center set_name_source
           source_struct prod_struct set_prod_struct fst snd name_source
           name_file emission_center];
      (split; [cbn; auto|]); (split; [discriminate|]).
    - split; [right; eauto|]. rewrite product_name_init. apply not_SR.
    - split; [left; reflexivity|]. cbn. discriminate. }
  destruct (is_infix "PIEM" namefile); run_M.
  { destruct (split_on "_" namefile !! 4%nat) as [p|]; run_M;
      cbn [prod set_prod set_name_file set_emission_center set_name_source
           source_struct prod_struct set_prod_struct fst snd name_source
           name_file emission_center];
      (split; [cbn; auto|]); (split; [discriminate|]).
    - split; [right; eauto|]. rewrite product_name_init. apply not_SR.
    - split; [left; reflexivity|]. cbn. discriminate. }
  destruct (is_infix "ROMA" namefile); run_M.
  { destruct (split_on "_" namefile !! 2%nat) as [p|]; run_M;
      cbn [prod set_prod set_name_file set_emission_center set_name_source
           source_struct prod_struct set_prod_struct fst snd name_source
           name_file emission_center];
      (split; [cbn; auto 6|]); (split; [discriminate|]).
    - split; [right; eauto|]. rewrite product_name_init. apply not_SR.
    - split; [left; reflexivity|]. cbn. discriminate. }
  cbn [prod set_prod set_name_file set_emission_center set_name_source
       source_struct prod_struct set_prod_struct fst snd name_source
       name_file emission_center].
  split; [cbn; auto|]. split; [auto|]. split; [right; eauto|].
  cbn. discriminate.
Qed.

Lemma get_source_product_from_meta_emro_witness :
  get_source_product_from_meta Cases.namefile_table
  = (mk_source (Some "GAT") (Some "2020-09-22-10-35_00_EMRO_GAT_CZ@.BUFR")
               (Some "Arpae Emilia-Romagna"),
     mk_product "LBM" "Lowest Beam Map Reflectivity").
Proof.
  eapply (get_source_product_from_meta_emro
            Cases.namefile_table 0 [] _ _ "2020-09-22-10-35_00_EMRO_GAT_CZ@"
            "GAT" "CZ@" ["BUFR"]);
    by_computation.
Defined.

(** ** Invariants of a computation *)

Section Invariants.
Context {S : Type}.

Lemma preserves_ret {A} (I : S -> Prop) (a : A) : preserves I (ret a).
Proof. intros s Hs. exact Hs. Qed.

Lemma preserves_lift {A} (I : S -> Prop) (r : result A) : preserves I (lift r).
Proof. intros s Hs. exact Hs. Qed.

Lemma preserves_get (I : S -> Prop) : preserves I get.
Proof. intros s Hs. exact Hs. Qed.

Lemma preserves_modify (I : S -> Prop) (f : S -> S) :
  (forall s, I s -> I (f s)) -> preserves I (modify f).
Proof. intros Hf s Hs. apply Hf, Hs. Qed.

Lemma preserves_bind {A B} (I : S -> Prop) (m : M S A) (k : A -> M S B) :
  preserves I m -> (forall a, preserves I (k a)) -> preserves I (m ≫= k).
Proof.
  intros Hm Hk s Hs. specialize (Hm s Hs). 
  change ((m ≫= k) s) with (bind m k s). unfold bind.
  destruct (m s) as [s' [a|e]]; [apply Hk, Hm|exact Hm].
Qed.

Lemma preserves_try_except {A} (I : S -> Prop) (body handler : M S A) handles :
  preserves I body -> preserves I handler ->
  preserves I (try_except body handles handler).
Proof.
  intros Hb Hh s Hs. specialize (Hb s Hs). unfold try_except.
  destruct (body s) as [s' [a|e]]; [exact Hb|].
  destruct (handles e); [apply Hh, Hb|exact Hb].
Qed.

Lemma establishes_preserves {A} (I : S -> Prop) (m : M S A) :
  preserves I m -> establishes I m I.
Proof. intros Hm s Hs s' a Hrun. specialize (Hm s Hs). rewrite Hrun in Hm. exact Hm. Qed.

Lemma establishes_bind {A B} (P Q R : S -> Prop) (m : M S A) (k : A -> M S B) :
  establishes P m Q -> (forall a, establishes Q (k a) R) ->
  establishes P (m ≫= k) R.
Proof.
  intros Hm Hk s Hs s' b Hrun.
  change ((m ≫= k) s) with (bind m k s) in Hrun. unfold bind in Hrun.
  destruct (m s) as [s1 [a|e]] eqn:Hms; [|discriminate].
  exact (Hk a s1 (Hm s Hs s1 a Hms) s' b Hrun).
Qed.

Lemma establishes_weaken {A} (P P' Q Q' : S -> Prop) (m : M S A) :
  establishes P m Q -> (forall s, P' s -> P s) -> (forall s, Q s -> Q' s) ->
  establishes P' m Q'.
Proof. intros Hm HP HQ s Hs s' a Hrun. eapply HQ, Hm; eauto. Qed.

Lemma establishes_True {A} (P : S -> Prop) (m : M S A) :
  establishes P m (fun _ => True).
Proof. intros s _ s' a _. exact I. Qed.

Lemma establishes_modify (P Q : S -> Prop) (f : S -> S) :
  (forall s, P s -> Q (f s)) -> establishes P (modify f) Q.
Proof. intros Hf s Hs s' a [= <- _]. apply Hf, Hs. Qed.

Lemma establishes_ret {A} (P Q : S -> Prop) (a : A) :
  (forall s, P s -> Q s) -> establishes P (ret a) Q.
Proof. intros Hf s Hs s' a' [= <- _]. apply Hf, Hs. Qed.

End Invariants.

Lemma ltb_opp_positive (x : float) :
  (0 <? x)%float = true -> (0 <? - x)%float = false.
Proof.
  rewrite !ltb_spec, opp_spec.
  change (Prim2SF 0) with (S754_zero false).
  destruct (Prim2SF x) as [s|s| |s m e]; cbn; try discriminate.
  - destruct s; [discriminate|reflexivity].
  - destruct s; [discriminate|reflexivity].
Qed.

Section ProjectionFacts.

Variable float_of_str : string -> option float.
Variable format_f : nat -> float -> string.
Variable Proj_name : string -> string.
Variable Proj_call : string -> float -> float -> float * float.
Variable round1 : float -> float.

Abbreviation try_float := (try_float float_of_str).
Abbreviation get_projection_from_meta :=
  (get_projection_from_meta float_of_str format_f Proj_name Proj_call round1).
Abbreviation try_projection_type :=
  (try_projection_type float_of_str format_f Proj_name Proj_call round1).

(** A block that reads a float establishes what its assignment and its
    fallback both establish. *)
Lemma establishes_try_float (P Q : StructProjection -> Prop) (meta : list row)
      (y : string) assign fallback :
  (forall v s, float_at float_of_str meta "0" "29" y = Ok v -> P s -> Q (assign v s)) ->
  establishes P fallback Q ->
  establishes P (try_float meta y assign fallback) Q.
Proof.
  intros Ha Hf s Hs s' a. unfold BufrMeta.try_float. run_M.
  destruct (float_at float_of_str meta "0" "29" y) as [v|e] eqn:Hv.
  - intros [= <- <-]. apply Ha; [reflexivity|exact Hs].
  - destruct (catches [IndexError] e); [apply Hf, Hs|discriminate].
Qed.

Lemma establishes_try_float_known (P Q : StructProjection -> Prop)
      (meta : list row) (y : string) assign fallback (v : float) :
  float_at float_of_str meta "0" "29" y = Ok v ->
  (forall s, P s -> Q (assign v s)) ->
  establishes P (try_float meta y assign fallback) Q.
Proof.
  intros Hv Ha s Hs s' a. unfold BufrMeta.try_float. run_M. rewrite Hv.
  intros [= <- <-]. apply Ha, Hs.
Qed.

Lemma preserves_try_float (I : StructProjection -> Prop) (meta : list row)
      (y : string) assign fallback :
  (forall v s, I s -> I (assign v s)) ->
  preserves I fallback ->
  preserves I (try_float meta y assign fallback).
Proof.
  intros Ha Hf. unfold BufrMeta.try_float.
  apply preserves_try_except; [|exact Hf].
  apply preserves_bind; [apply preserves_lift|].
  intros v. apply preserves_modify. intros s. apply Ha.
Qed.

Ltac preserve :=
  repeat match goal with
    | |- preserves _ (ret _) => apply preserves_ret
    | |- preserves _ (lift _) => apply preserves_lift
    | |- preserves _ get => apply preserves_get
    | |- preserves _ (try_except _ _ _) => apply preserves_try_except
    | |- preserves _ (_ ≫= _) => apply preserves_bind; [|intros ?]
    | |- preserves _ (modify _) => apply preserves_modify; intros ? ?
    | |- preserves _ (if ?b then _ else _) => destruct b
    end.

Lemma preserves_projection_type_set (meta : list row) (source : StructSource) :
  preserves parameters_set (try_projection_type meta source).
Proof.
  unfold BufrMeta.try_projection_type, azimuthal_equidistant, mercator.
  preserve; try assumption;
    match goal with
    | H : parameters_set _ |- _ =>
        destruct H as (H1 & H2 & H3 & H4 & H5 & H6);
        repeat split; cbn; eauto
    end.
Qed.

(** X12. A projection returned by [get_projection_from_meta] has its two
    axes, its two offsets and its two standard parallels set: each block
    reads its value or defaults it to 0, and no later block removes
    it. *)
Theorem get_projection_from_meta_parameters_set (meta : list row) (source : StructSource)
      (p : StructProjection) :
  get_projection_from_meta meta source = Ok p -> parameters_set p.
Proof.
  unfold BufrMeta.get_projection_from_meta.
  set (run := (_ ≫= _) : M StructProjection unit).
  destruct (run StructProjection_init) as [p' [[]|e]] eqn:Hrun; [|discriminate].
  intros [= <-].
  assert (Hlast := preserves_projection_type_set meta source).
  assert (Hest : establishes (fun _ => True) run parameters_set).
  { subst run.
    eapply (establishes_bind _ (fun _ => True)); [apply establishes_True|intros _].
    eapply (establishes_bind _ (fun _ => True)); [apply establishes_True|intros _].
    eapply (establishes_bind _ (fun p => is_Some (semimajor_axis p))).
    { apply establishes_try_float; [intros; cbn; eauto|].
      apply establishes_modify. intros; cbn; eauto. }
    intros _.
    eapply (establishes_bind _ (fun p => is_Some (semimajor_axis p)
                                         /\ is_Some (semiminor_axis p))).
    { apply establishes_try_float; [intros; cbn; eauto|].
      apply establishes_modify. intros; cbn; eauto. }
    intros _.
    eapply (establishes_bind _ (fun p => is_Some (semimajor_axis p)
                                         /\ is_Some (semiminor_axis p)
                                         /\ is_Some (x_offset p))).
    { apply establishes_try_float; [intros ? ? _ (? & ?); cbn; eauto|].
      apply establishes_modify. intros ? (? & ?); cbn; eauto. }
    intros _.
    eapply (establishes_bind _ (fun p => is_Some (semimajor_axis p)
                                         /\ is_Some (semiminor_axis p)
                                         /\ is_Some (x_offset p)
                                         /\ is_Some (y_offset p))).
    { apply establishes_try_float; [intros ? ? _ (? & ? & ?); cbn; eauto|].
      apply establishes_modify. intros ? (? & ? & ?); cbn; eauto. }
    intros _.
    eapply (establishes_bind _ (fun p => is_Some (semimajor_axis p)
                                         /\ is_Some (semiminor_axis p)
                                         /\ is_Some (x_offset p)
                                         /\ is_Some (y_offset p)
                                         /\ is_Some (standard_par1 p))).
    { apply establishes_try_float; [intros ? ? _ (? & ? & ? & ?); cbn; eauto 7|].
      apply establishes_modify. intros ? (? & ? & ? & ?); cbn; eauto 7. }
    intros _.
    eapply (establishes_bind _ parameters_set).
    { apply establishes_try_float;
        [intros ? ? _ (? & ? & ? & ? & ?); repeat split; cbn; eauto|].
      apply establishes_modify.
      intros ? (? & ? & ? & ? & ?); repeat split; cbn; eauto. }
    intros _. apply establishes_preserves, Hlast. }
  exact (Hest _ I _ _ Hrun).
Qed.

(** X13. For the emission centre ["DPC"] the returned [x_offset] is never
    positive: a positive value read from the table is negated, and the
    default is 0. *)
Theorem get_projection_from_meta_dpc_x_offset
        (meta : list row) (source : StructSource) (p : StructProjection) :
  emission_center source = Some "DPC" ->
  get_projection_from_meta meta source = Ok p ->
  exists x, x_offset p = Some x /\ (0 <? x)%float = false.
Proof.
  intros Hdpc. unfold BufrMeta.get_projection_from_meta.
  set (run := (_ ≫= _) : M StructProjection unit).
  destruct (run StructProjection_init) as [p' [[]|e]] eqn:Hrun; [|discriminate].
  intros [= <-].
  set (Inv := fun p : StructProjection =>
                exists x, x_offset p = Some x /\ (0 <? x)%float = false).
  assert (Hest : establishes (fun _ => True) run Inv).
  { subst run.
    do 4 (eapply (establishes_bind _ (fun _ => True));
          [apply establishes_True|intros _]).
    eapply (establishes_bind _ Inv).
    { apply establishes_try_float.
      - intros v s _ _. unfold Inv. cbn.
        rewrite (bool_decide_eq_true_2 _ Hdpc). cbn.
        destruct (0 <? v)%float eqn:Hv; eexists; split; try reflexivity.
        + apply ltb_opp_positive, Hv.
        + exact Hv.
      - apply establishes_modify. intros s _. exists 0%float. split; reflexivity. }
    intros _.
    do 3 (eapply (establishes_bind _ Inv);
          [apply establishes_preserves, preserves_try_float;
           [intros v s Hs; exact Hs
           |apply preserves_modify; intros s Hs; exact Hs]
          |intros _]).
    apply establishes_preserves.
    unfold BufrMeta.try_projection_type, azimuthal_equidistant, mercator.
    rewrite (bool_decide_eq_true_2 _ Hdpc).
    preserve; assumption. }
  exact (Hest _ I _ _ Hrun).
Qed.

(** X14. With projection type 1 and a centre latitude of 90 in the
    table, the projection is named ["Polar stereographic"] and its centre
    latitude is replaced by the class constant [stand_par1] (0.0), not by
    the standard parallel read from the table, which stays in
    [standard_par1]. *)
Theorem get_projection_from_meta_polar_stereographic
        (meta : list row) (source : StructSource) (p : StructProjection)
        (lat sp : float) :
  float_at float_of_str meta "0" "29" "194" = Ok lat ->
  (lat =? 90)%float = true ->
  float_at float_of_str meta "0" "29" "197" = Ok sp ->
  proj_type_int float_of_str meta = Ok 1 ->
  get_projection_from_meta meta source = Ok p ->
  proj_name p = Some "Polar stereographic"
  /\ center_latitude p = Some stand_par1
  /\ standard_par1 p = Some sp.
Proof.
  intros Hlat H90 Hsp Htype. unfold BufrMeta.get_projection_from_meta.
  set (run := (_ ≫= _) : M StructProjection unit).
  destruct (run StructProjection_init) as [p' [[]|e]] eqn:Hrun; [|discriminate].
  intros [= <-].
  set (Lat := fun p : StructProjection => center_latitude p = Some lat).
  set (Par := fun p : StructProjection =>
                center_latitude p = Some lat /\ standard_par1 p = Some sp).
  assert (Hest : establishes (fun _ => True) run
                   (fun p => proj_name p = Some "Polar stereographic"
                             /\ center_latitude p = Some stand_par1
                             /\ standard_par1 p = Some sp)).
  { subst run.
    eapply (establishes_bind _ (fun _ => True)); [apply establishes_True|intros _].
    eapply (establishes_bind _ Lat).
    { apply (establishes_try_float_known _ _ _ _ _ _ lat Hlat).
      intros s _. reflexivity. }
    intros _.
    do 4 (eapply (establishes_bind _ Lat);
          [apply establishes_preserves, preserves_try_float;
           [intros v s Hs; exact Hs
           |apply preserves_modify; intros s Hs; exact Hs]
          |intros _]).
    eapply (establishes_bind _ Par).
    { apply (establishes_try_float_known _ _ _ _ _ _ sp Hsp).
      intros s Hs. split; [exact Hs|reflexivity]. }
    intros _.
    eapply (establishes_bind _ Par).
    { apply establishes_preserves, preserves_try_float;
        [intros v s Hs; exact Hs|apply preserves_modify; intros s Hs; exact Hs]. }
    intros _.
    intros s [Hs1 Hs2] s' a. unfold BufrMeta.try_projection_type. run_M.
    rewrite Htype. run_M. cbn [Z.eqb Pos.eqb]. run_M.
    unfold opt_float_eqb. rewrite Hs1, H90. run_M.
    intros [= <- _]. cbn. auto. }
  exact (Hest _ I _ _ Hrun).
Qed.

End ProjectionFacts.

Lemma get_projection_from_meta_parameters_set_witness :
  exists p,
    get_projection_from_meta parse_decimal Cases.no_format Cases.no_Proj_name
                             Cases.no_Proj_call Cases.no_round
                             Cases.polar_table Examples.arpae = Ok p
    /\ parameters_set p.
Proof.
  assert (Hok : is_ok (get_projection_from_meta
              parse_decimal Cases.no_format Cases.no_Proj_name
              Cases.no_Proj_call Cases.no_round Cases.polar_table
              Examples.arpae))
    by (vm_compute; exact I).
  destruct (get_projection_from_meta
              parse_decimal Cases.no_format Cases.no_Proj_name
              Cases.no_Proj_call Cases.no_round Cases.polar_table
              Examples.arpae) as [p|e] eqn:H; [|destruct Hok].
  exists p. split; [reflexivity|].
    exact (get_projection_from_meta_parameters_set
             parse_decimal Cases.no_format Cases.no_Proj_name
             Cases.no_Proj_call Cases.no_round Cases.polar_table
             Examples.arpae p H).
Defined.

Lemma get_projection_from_meta_dpc_x_offset_witness :
  exists p,
    get_projection_from_meta parse_decimal Cases.no_format Cases.no_Proj_name
                             Cases.no_Proj_call Cases.no_round
                             Cases.mosaic_table Cases.dpc = Ok p
    /\ exists x, x_offset p = Some x /\ (0 <? x)%float = false.
Proof.
  assert (Hok : is_ok (get_projection_from_meta
              parse_decimal Cases.no_format Cases.no_Proj_name
              Cases.no_Proj_call Cases.no_round Cases.mosaic_table
              Cases.dpc))
    by (vm_compute; exact I).
  destruct (get_projection_from_meta
              parse_decimal Cases.no_format Cases.no_Proj_name
              Cases.no_Proj_call Cases.no_round Cases.mosaic_table
              Cases.dpc) as [p|e] eqn:H; [|destruct Hok].
  exists p. split; [reflexivity|].
    exact (get_projection_from_meta_dpc_x_offset
             parse_decimal Cases.no_format Cases.no_Proj_name
             Cases.no_Proj_call Cases.no_round Cases.mosaic_table
             Cases.dpc p eq_refl H).
Defined.

Lemma get_projection_from_meta_polar_stereographic_witness :
  exists p,
    get_projection_from_meta parse_decimal Cases.no_format Cases.no_Proj_name
                             Cases.no_Proj_call Cases.no_round
                             Cases.polar_table Examples.arpae = Ok p
    /\ proj_name p = Some "Polar stereographic"
    /\ center_latitude p = Some stand_par1
    /\ standard_par1 p = Some 60%float.
Proof.
  assert (Hok : is_ok (get_projection_from_meta
              parse_decimal Cases.no_format Cases.no_Proj_name
              Cases.no_Proj_call Cases.no_round Cases.polar_table
              Examples.arpae))
    by (vm_compute; exact I).
  destruct (get_projection_from_meta
              parse_decimal Cases.no_format Cases.no_Proj_name
              Cases.no_Proj_call Cases.no_round Cases.polar_table
              Examples.arpae) as [p|e] eqn:H; [|destruct Hok].
  exists p. split; [reflexivity|].
    apply (get_projection_from_meta_polar_stereographic
             parse_decimal Cases.no_format Cases.no_Proj_name
             Cases.no_Proj_call Cases.no_round Cases.polar_table
             Examples.arpae p 90%float 60%float);
      first [exact H | by_computation].
Defined.

(** ** The grid *)

Ltac grid :=
  run_M;
  cbn [grid_ny grid_nx dx dy set_grid_ny set_grid_nx set_dx set_dy set_units_dx
       set_units_dy StructGrid_init units_dx units_dy limiti set_limiti int_times];
  run_M.

Ltac case_head :=
  match goal with
  | |- context [match ?x with _ => _ end] =>
      lazymatch x with
      | context [match _ with _ => _ end] => fail
      | _ => destruct x
      end
  end.

Ltac dead := repeat (grid; try discriminate; case_head); grid; try discriminate.

Section GridFacts.
Variable float_of_str : string -> option float.

Abbreviation float_of_first := (float_of_first float_of_str).
Abbreviation get_grid_from_meta := (get_grid_from_meta float_of_str).

(** X15. [get_grid_from_meta] returns only when the table has the four
    rows of the grid size and of the pixel size and the projection has
    both offsets; the grid then has [ny], [nx], [dy], [dx] from the table,
    units ["meters"], and the limits
    [[y_offset - ny * dy, x_offset, y_offset, x_offset + nx * dx]]. *)
Theorem get_grid_from_meta_success
        (meta : list row) (x_offset y_offset : option float) (g : grid_attrs) :
  get_grid_from_meta meta x_offset y_offset = Ok g ->
  exists (n m : Z) (vy vx x y h w : float),
    (float_of_first meta "0" "30" "22" ≫= py_int) = Ok n
    /\ (float_of_first meta "0" "30" "21" ≫= py_int) = Ok m
    /\ float_of_first meta "0" "6" "33" = Ok vy
    /\ float_of_first meta "0" "5" "33" = Ok vx
    /\ x_offset = Some x /\ y_offset = Some y
    /\ int_times n (Some vy) = Ok h /\ int_times m (Some vx) = Ok w
    /\ g = mk_grid_attrs (Some m) (Some n) (Some vx) (Some vy)
                         (Some "meters") (Some "meters")
                         [Some (y - h)%float; Some x; Some y; Some (x + w)%float].
Proof.
  unfold BufrMeta.get_grid_from_meta. grid.
  destruct (float_of_first meta "0" "30" "22") as [v22|e22] eqn:H22; grid.
  2: { dead. }
  destruct (py_int v22) as [n|en] eqn:Hn; grid.
  2: { dead. }
  destruct (float_of_first meta "0" "30" "21") as [v21|e21] eqn:H21; grid.
  2: { dead. }
  destruct (py_int v21) as [m|em] eqn:Hm; grid.
  2: { dead. }
  destruct (float_of_first meta "0" "6" "33") as [vy|ey] eqn:Hvy; grid.
  2: { dead. }
  destruct (float_of_first meta "0" "5" "33") as [vx|ex] eqn:Hvx; grid.
  2: { dead. }
  destruct (float_of_int n) as [fn|] eqn:Hh; grid; [|discriminate].
  destruct y_offset as [y|]; grid; [|discriminate].
  destruct (float_of_int m) as [fm|] eqn:Hw; grid; [|discriminate].
  destruct x_offset as [x|]; grid; [|discriminate].
  intros [= <-]. exists n, m, vy, vx, x, y, (fn * vy)%float, (fm * vx)%float.
  unfold int_times. rewrite Hh, Hw.
  repeat (split; [reflexivity|]). reflexivity.
Qed.

End GridFacts.

Lemma get_grid_from_meta_success_witness :
  exists (n m : Z) (vy vx x y h w : float),
    (float_of_first parse_decimal Cases.size_table "0" "30" "22" ≫= py_int) = Ok n
    /\ (float_of_first parse_decimal Cases.size_table "0" "30" "21" ≫= py_int) = Ok m
    /\ float_of_first parse_decimal Cases.size_table "0" "6" "33" = Ok vy
    /\ float_of_first parse_decimal Cases.size_table "0" "5" "33" = Ok vx
    /\ Some 0%float = Some x /\ Some 0%float = Some y
    /\ int_times n (Some vy) = Ok h /\ int_times m (Some vx) = Ok w
    /\ mk_grid_attrs (Some 3) (Some 2) (Some 1000%float) (Some 1000%float)
                     (Some "meters") (Some "meters")
                     [Some (-2000)%float; Some 0%float; Some 0%float;
                      Some 3000%float]
       = mk_grid_attrs (Some m) (Some n) (Some vx) (Some vy)
                       (Some "meters") (Some "meters")
                       [Some (y - h)%float; Some x; Some y; Some (x + w)%float].
Proof.
  apply (get_grid_from_meta_success
           parse_decimal Cases.size_table (Some 0%float) (Some 0%float)).
  by_computation.
Defined.

(** ** The reader *)

Lemma preserves_read_var {S A} (I : S -> Prop) (proj : S -> option A) e :
  preserves I (read_var proj e).
Proof. intros s Hs. unfold read_var. destruct (proj s); exact Hs. Qed.

Lemma try_all_Ok {S} (body : M S unit) (s : S) :
  snd (try_except body (fun _ => true) (ret tt) s) = Ok tt.
Proof. unfold try_except. destruct (body s) as [s' [[]|e]]; reflexivity. Qed.

Ltac rb :=
  cbv beta iota delta [mbind M_bind bind lift ret mret M_ret modify
                       try_except read_var result_bind rbind get put fst snd
                       Bufr.meta Bufr.time source product projection grid
                       variabile levels set_meta set_time set_source
                       set_product set_projection set_grid set_variabile
                       set_levels].

Section ReaderFacts.

Variable float_of_str : string -> option float.
Variable format_f : nat -> float -> string.
Variable Proj_name : string -> string.
Variable Proj_call : string -> float -> float -> float * float.
Variable round1 : float -> float.

Lemma get_grid_from_meta_no_ny (meta : list row) (xo yo : option float) :
  List.filter (fxy "0" "30" "22") meta = [] ->
  is_raise (get_grid_from_meta float_of_str meta xo yo).
Proof.
  intros Hno.
  assert (H22 : float_of_first float_of_str meta "0" "30" "22" = Raise IndexError)
    by (unfold float_of_first; rewrite Hno; reflexivity).
  unfold get_grid_from_meta. rewrite H22.
  repeat (grid; cbn [catches existsb isinstance exn_eqb orb]; try exact I;
          case_head).
  all: grid; exact I.
Qed.

Lemma read_metadata_without_grid_size
      (fill_method : string) (meta : list row)
      (st : rb_state RadarProduct StructProjection) :
  Bufr.meta _ _ (fst st) = Some meta ->
  List.filter (fxy "0" "30" "22") meta = [] ->
  is_raise (snd (read_metadata float_of_str RadarProduct StructProjection
                   get_source_product_from_meta
                   (get_projection_from_meta float_of_str format_f Proj_name
                                             Proj_call round1)
                   (grid_from_meta float_of_str) fill_method st)).
Proof.
  intros Hmeta Hno. unfold read_metadata. rewrite bind_run.
  match goal with
  | |- context [try_except ?b ?h ?k st] =>
      pose proof (try_all_Ok b st) as Hok;
      assert (Hpre : preserves (fun s : rb_state RadarProduct StructProjection =>
                                  Bufr.meta _ _ (fst s) = Some meta)
                               (try_except b h k));
      [|specialize (Hpre st Hmeta); destruct (try_except b h k st) as [s1 r1]]
  end.
  { unfold attr, upd_self.
    repeat match goal with
      | |- preserves _ (ret _) => apply preserves_ret
      | |- preserves _ (lift _) => apply preserves_lift
      | |- preserves _ (read_var _ _) => apply preserves_read_var
      | |- preserves _ (try_except _ _ _) => apply preserves_try_except
      | |- preserves _ (_ ≫= _) => apply preserves_bind; [|intros ?]
      | |- preserves _ (modify _) => apply preserves_modify; intros ? ?
      end; assumption. }
  cbn [fst snd] in Hok, Hpre. subst r1.
  destruct s1 as [[m1 t1 s1 p1 pr1 g1 v1 l1] locals1].
  cbn in Hpre. subst m1.
  unfold attr, upd_self. rb.
  match goal with
  | |- context [get_projection_from_meta ?a ?b ?c ?d ?e meta ?src] =>
      destruct (get_projection_from_meta a b c d e meta src) as [p|e']
  end; rb; [|exact I].
  unfold grid_from_meta.
  pose proof (get_grid_from_meta_no_ny meta (x_offset p) (y_offset p) Hno) as Hg.
  destruct (get_grid_from_meta float_of_str meta (x_offset p) (y_offset p));
    [destruct Hg|]. exact I.
Qed.

(** X16. [read_bufr] raises on a non-empty metadata file without the row
    (0, 30, 22) of the number of grid rows, whatever the data file and
    the instance: [get_grid_from_meta] only logs the missing row and then
    reads the attribute [ny] that it did not set. *)
Theorem read_bufr_without_grid_size
        (self : bufr_self RadarProduct StructProjection) (locals : rb_locals)
        (data_file : option (list Z)) (lines : list string)
        (fill_method : string) (meta : list row) :
  read_meta (Some lines) = Ok meta ->
  meta <> [] ->
  List.filter (fxy "0" "30" "22") meta = [] ->
  is_raise (snd (Bufr_read_bufr float_of_str format_f Proj_name Proj_call round1
                                data_file (Some lines) fill_method
                                (self, locals))).
Proof.
  intros Hmeta Hne Hno.
  unfold Bufr_read_bufr, read_bufr. rewrite Hmeta.
  assert (Hlen : (0 <? length meta)%nat = true)
    by (destruct meta; [contradiction|reflexivity]).
  unfold upd_self, attr.
  rewrite !bind_run. run_M. cbn [fst snd Bufr.meta set_time set_meta].
  rewrite Hlen.
  match goal with
  | |- context [read_metadata ?a ?b ?c ?d ?e ?f ?g ?s] =>
      pose proof (read_metadata_without_grid_size g meta s eq_refl Hno) as Hr;
      destruct (read_metadata a b c d e f g s) as [s' [x|e']]
  end; [destruct Hr|exact I].
Qed.

End ReaderFacts.

Lemma read_bufr_without_grid_size_witness :
  is_raise (snd (Bufr_read_bufr parse_decimal Cases.no_format
                                Cases.no_Proj_name Cases.no_Proj_call
                                Cases.no_round None (Some Cases.columns_only)
                                "max"
                                (fresh_self RadarProduct StructProjection,
                                 mk_rb_locals None None None))).
Proof.
  eapply (read_bufr_without_grid_size
            parse_decimal Cases.no_format Cases.no_Proj_name
            Cases.no_Proj_call Cases.no_round
            (fresh_self RadarProduct StructProjection)
            (mk_rb_locals None None None) None Cases.columns_only "max");
    first [by_computation | discriminate].
Defined.

(* ===================================================================== *)
(** * Properties of the volume and of its file                         *)
(* ===================================================================== *)

(** ** Population and lookup *)

Lemma mapM_is_ok {A B} (f : A -> result B) (xs : list A) :
  is_ok (mapM f xs) <-> Forall (fun x => is_ok (f x)) xs.
Proof.
  induction xs as [|x xs IH]; cbn.
  - split; [constructor|exact (fun _ => I)].
  - destruct (f x) as [y|e] eqn:Hx; cbn.
    + destruct (mapM f xs) as [ys|e]; cbn in *.
      * split; [|exact (fun _ => I)]. intros _. constructor; [rewrite Hx; exact I|].
        apply IH. exact I.
      * split; [intros []|]. intros H. inversion H; subst. apply IH. assumption.
    + split; [intros []|]. intros H. inversion H; subst.
      rewrite Hx in *. assumption.
Qed.

(** X20. [setistance] raises [AssertionError] when [datasets] or
    [group_datasets_data_what] does not have [n_group_dataset] elements;
    it succeeds exactly when both do and each of the first
    [n_group_dataset] groups of [group_datasets_where] exists and has an
    [elangle]. *)
Theorem setistance_succeeds_iff
        (old : option (list pyval)) (rw rwh rh : obj) (n m : Z)
        (ws whs hrs hps : list obj) (ds : list (list ndarray))
        (dws : list (list obj)) :
  (Z.of_nat (length ds) <> n \/ Z.of_nat (length dws) <> n ->
   setistance old rw rwh rh n m ws whs hrs hps ds dws = Raise AssertionError)
  /\ (is_ok (setistance old rw rwh rh n m ws whs hrs hps ds dws)
      <-> Z.of_nat (length ds) = n /\ Z.of_nat (length dws) = n
          /\ forall i, (i < length ds)%nat ->
               exists w, whs !! i = Some w /\ is_Some (w !! "elangle")).
Proof.
  unfold setistance.
  destruct (Z.eqb_spec (Z.of_nat (length ds)) n) as [Hds|Hds]; cbn [negb].
  2: { split; [reflexivity|]. split; [intros []|]. intros (H & _). contradiction. }
  destruct (Z.eqb_spec (Z.of_nat (length dws)) n) as [Hdws|Hdws]; cbn [negb].
  2: { split; [reflexivity|]. split; [intros []|]. intros (_ & H & _). contradiction. }
  split; [intros [H|H]; contradiction|].
  set (f := fun i : nat => _).
  assert (Hok : is_ok (mapM f (range n)) <->
                forall i, (i < length ds)%nat ->
                  exists w, whs !! i = Some w /\ is_Some (w !! "elangle")).
  { rewrite mapM_is_ok, Forall_forall. unfold range. subst n. rewrite Nat2Z.id.
    split.
    - intros H i Hi. specialize (H i). 
      assert (Hin : i ∈ seq 0 (length ds)) by (apply elem_of_seq; lia).
      specialize (H Hin). subst f. cbn in H. unfold getitem, getattr in H.
      destruct (whs !! i) as [w|]; [|destruct H]. cbn in H.
      exists w. split; [reflexivity|]. destruct (w !! "elangle"); [eauto|destruct H].
    - intros H i Hin. apply elem_of_seq in Hin.
      destruct (H i ltac:(lia)) as (w & Hw & v & Hv).
      subst f. cbn. unfold getitem, getattr. rewrite Hw. cbn. rewrite Hv. exact I. }
  destruct (mapM f (range n)) as [els|e]; cbn in *.
  - split; [intros _|exact (fun _ => I)]. split; [exact Hds|]. split; [exact Hdws|].
    apply Hok. exact I.
  - split; [intros []|]. intros (_ & _ & H). apply Hok, H.
Qed.

(** X21. On a volume populated by [setistance] that was never read from a
    file, [get_data_by_elangle] raises [AttributeError] for every angle and
    quantity: [varsnames] is set by [read_odim] only. *)
Theorem get_data_by_elangle_needs_read_odim
        (rw rwh rh : obj) (n m : Z)
        (ws whs hrs hps : list obj) (ds : list (list ndarray))
        (dws : list (list obj)) (self : OdimHierarchyPvol)
        (elangle : float) (quantity : string) :
  setistance None rw rwh rh n m ws whs hrs hps ds dws = Ok self ->
  get_data_by_elangle self elangle quantity = Raise AttributeError.
Proof.
  unfold setistance. intros H.
  destruct (negb _); [discriminate|]. destruct (negb _); [discriminate|].
  apply rbind_Ok in H as (els & _ & [= <-]). reflexivity.
Qed.

Lemma py_index_Ok (xs : list pyval) (x : pyval) (i : nat) :
  py_index xs x = Ok i ->
  exists y, xs !! i = Some y /\ py_eq y x = Ok true.
Proof.
  revert i. induction xs as [|y xs IH]; intros i H; [discriminate|].
  cbn in H. destruct (py_eq y x) as [[]|] eqn:Hy; cbn in H; try discriminate.
  - injection H as <-. exists y. split; [reflexivity|exact Hy].
  - destruct (py_index xs x) as [j|]; [|discriminate]. injection H as <-.
    destruct (IH j eq_refl) as (z & Hz & Hzx). exists z. split; assumption.
Qed.

(** X22. On a volume populated by [setistance], [get_group_by_elangle] at
    an angle of [elangles] returns the [where] group, the data planes and
    the [what] groups at the position of the first occurrence of that
    angle, and the [elangle] of that [where] group equals the angle asked
    for. *)
Theorem get_group_by_elangle_finds_elevation
        (old : option (list pyval)) (rw rwh rh : obj) (ngroups ndsets : Z)
        (whats wheres hows_radar hows_polar : list obj)
        (dsets : list (list ndarray)) (dwhats : list (list obj))
        (self : OdimHierarchyPvol) (elangle : float) (i : nat) :
  setistance old rw rwh rh ngroups ndsets whats wheres hows_radar hows_polar
             dsets dwhats
  = Ok self ->
  py_index (elangles self) (PFloat elangle) = Ok i ->
  exists w v d ws,
    get_group_by_elangle self elangle "group_datasets_where" = Ok (EGroup w)
    /\ group_datasets_where self !! i = Some w
    /\ w !! "elangle" = Some v /\ py_eq v (PFloat elangle) = Ok true
    /\ get_group_by_elangle self elangle "datasets" = Ok (EPlanes d)
    /\ datasets self !! i = Some d
    /\ get_group_by_elangle self elangle "group_datasets_data_what" = Ok (EGroups ws)
    /\ group_datasets_data_what self !! i = Some ws.
Proof.
  intros Hself Hi.
  apply setistance_index in Hself as (Hlen & Hwhere & Hds & Hdws).
  destruct (py_index_Ok _ _ _ Hi) as (v & Hv & Heq).
  assert (Hlt : (i < length (elangles self))%nat) by (eapply lookup_lt_Some, Hv).
  destruct (Hwhere i Hlt) as (w & Hw & Hwv). rewrite Hv in Hwv.
  destruct (lookup_lt_is_Some_2 (datasets self) i ltac:(lia)) as [d Hd].
  destruct (lookup_lt_is_Some_2 (group_datasets_data_what self) i ltac:(lia)) as [ws Hws].
  exists w, v, d, ws.
  assert (Hget : forall name m, dict_getitem self name = Ok m ->
                   get_group_by_elangle self elangle name = subscript m i).
  { intros name m Hm. unfold get_group_by_elangle. rewrite Hm. cbn.
    rewrite Hi. reflexivity. }
  split; [rewrite (Hget "group_datasets_where" _ eq_refl);
          cbn; unfold getitem; rewrite Hw; reflexivity|].
  split; [exact Hw|]. split; [exact Hwv|]. split; [exact Heq|].
  split; [rewrite (Hget "datasets" _ eq_refl);
          cbn; unfold getitem; rewrite Hd; reflexivity|].
  split; [exact Hd|].
  split; [rewrite (Hget "group_datasets_data_what" _ eq_refl);
          cbn; unfold getitem; rewrite Hws; reflexivity|].
  exact Hws.
Qed.

(** X23. The failures of [get_group_by_elangle]: a name that is no
    attribute of the volume raises [KeyError], before the angle is looked
    up; an angle that is not in [elangles] raises [ValueError]; and the
    name of a root group or of a counter raises [TypeError], because such
    an attribute has no subscript. *)
Theorem get_group_by_elangle_errors
        (self : OdimHierarchyPvol) (elangle : float) (namegroup : string) :
  (~ In namegroup ["root_what"; "root_where"; "root_how"; "n_group_dataset";
                    "n_datasets"; "datasets"; "group_datasets_what";
                    "group_datasets_where"; "group_datasets_how_radar";
                    "group_datasets_how_polar"; "group_datasets_data_what";
                    "elangles"; "varsnames"] ->
   get_group_by_elangle self elangle namegroup = Raise KeyError)
  /\ (forall angles, elangles self = map PFloat angles ->
        index_of_angle elangle angles = None ->
        is_ok (dict_getitem self namegroup) ->
        get_group_by_elangle self elangle namegroup = Raise ValueError)
  /\ (is_ok (py_index (elangles self) (PFloat elangle)) ->
      In namegroup ["root_what"; "root_where"; "root_how"; "n_group_dataset";
                    "n_datasets"] ->
      get_group_by_elangle self elangle namegroup = Raise TypeError).
Proof.
  unfold get_group_by_elangle. split; [|split].
  - intros Hnot. unfold dict_getitem.
    repeat match goal with
           | |- context [String.eqb namegroup ?s] =>
               destruct (String.eqb_spec namegroup s) as [->|_];
               [exfalso; apply Hnot; cbn; tauto|]
           end.
    reflexivity.
  - intros angles Hel Hnone Hok.
    destruct (dict_getitem self namegroup); [|destruct Hok]. cbn.
    rewrite Hel, py_index_floats, Hnone. reflexivity.
  - intros Hok Hin. destruct (py_index _ _) as [i|]; [|destruct Hok].
    cbn in Hin. destruct Hin as [<-|[<-|[<-|[<-|[<-|[]]]]]]; reflexivity.
Qed.

Lemma get_data_by_elangle_needs_read_odim_witness :
  get_data_by_elangle Examples.one_sweep 0.5 "DBZH" = Raise AttributeError.
Proof.
  eapply (get_data_by_elangle_needs_read_odim
            Examples.what_root Examples.where_root Examples.how_root 1 1
            (group_datasets_what Examples.one_sweep)
            (group_datasets_where Examples.one_sweep)
            (group_datasets_how_radar Examples.one_sweep)
            (group_datasets_how_polar Examples.one_sweep)
            (datasets Examples.one_sweep)
            (group_datasets_data_what Examples.one_sweep)
            Examples.one_sweep).
  by_computation.
Defined.

Lemma get_group_by_elangle_finds_elevation_witness :
  exists w v d ws,
    get_group_by_elangle Examples.two_sweeps 1.5 "group_datasets_where"
    = Ok (EGroup w)
    /\ group_datasets_where Examples.two_sweeps !! 1%nat = Some w
    /\ w !! "elangle" = Some v /\ py_eq v (PFloat 1.5) = Ok true
    /\ get_group_by_elangle Examples.two_sweeps 1.5 "datasets" = Ok (EPlanes d)
    /\ datasets Examples.two_sweeps !! 1%nat = Some d
    /\ get_group_by_elangle Examples.two_sweeps 1.5 "group_datasets_data_what"
       = Ok (EGroups ws)
    /\ group_datasets_data_what Examples.two_sweeps !! 1%nat = Some ws.
Proof.
  apply (get_group_by_elangle_finds_elevation
           (Some [PStr "DBZH"; PStr "Z_VD"])
           Examples.what_root Examples.where_root Examples.how_root 2 2
           (group_datasets_what Examples.two_sweeps)
           (group_datasets_where Examples.two_sweeps)
           (group_datasets_how_radar Examples.two_sweeps)
           (group_datasets_how_polar Examples.two_sweeps)
           (datasets Examples.two_sweeps)
           (group_datasets_data_what Examples.two_sweeps)
           Examples.two_sweeps 1.5%float 1%nat);
    by_computation.
Defined.

(** ** Attributes *)

(** What one attribute read from the file becomes on the instance. *)
Lemma decode_Ok (s s' : string) : decode s = Ok s' -> s' = s.
Proof. unfold decode. destruct (is_ascii s); [congruence|discriminate]. Qed.

Lemma foldM_Ok_cons {A B} (f : B -> A -> result B) x xs acc out :
  foldM f (x :: xs) acc = Ok out ->
  exists acc', f acc x = Ok acc' /\ foldM f xs acc' = Ok out.
Proof. cbn. intros H. apply rbind_Ok in H. exact H. Qed.

(** X24. What [get_attrs_from_odimgroup] returns for each attribute name:
    a name of the list that the file group has takes the value of the
    file, a byte string decoded to text without the NUL bytes that pad
    it; every other name, one of the list that the group lacks included,
    keeps the value it had in the container. *)
Theorem get_attrs_from_odimgroup_reads
        (attrs_list : list string) (hr : h5file) (hgroup : h5obj)
        (out_cont out : obj) (name : string) :
  get_attrs_from_odimgroup attrs_list hr hgroup out_cont = Ok out ->
  out !! name
  = match (if bool_decide (name ∈ attrs_list)
           then find_attr hr (obj_path hgroup) name else None) with
    | Some (HBytes _ s) => Some (PStr (rstrip_nul s))
    | Some v => Some (pyval_of_h5 v)
    | None => out_cont !! name
    end.
Proof.
  unfold get_attrs_from_odimgroup.
  revert out_cont. induction attrs_list as [|att rest IH]; intros out_cont H.
  - injection H as <-. reflexivity.
  - apply foldM_Ok_cons in H as (out1 & Hstep & Hrest).
    specialize (IH _ Hrest).
    assert (Hout1 : out1 !! name
                    = if String.eqb att name
                      then match find_attr hr (obj_path hgroup) name with
                           | Some (HBytes _ s) => Some (PStr (rstrip_nul s))
                           | Some v => Some (pyval_of_h5 v)
                           | None => out_cont !! name
                           end
                      else out_cont !! name).
    { unfold attrs_contains, attrs_getitem in Hstep.
      destruct (String.eqb_spec att name) as [->|Hne].
      - destruct (find_attr hr (obj_path hgroup) name) as [v|].
        + rewrite bool_decide_eq_true_2 in Hstep by eauto. cbn in Hstep.
          destruct v; cbn in Hstep;
            try (injection Hstep as <-; unfold setattr; apply lookup_insert_eq).
          apply rbind_Ok in Hstep as (s' & Hs' & [= <-]).
          apply decode_Ok in Hs' as ->. unfold setattr. apply lookup_insert_eq.
        + rewrite bool_decide_eq_false_2 in Hstep by (intros [? ?]; discriminate).
          injection Hstep as <-. reflexivity.
      - destruct (bool_decide _) in Hstep; [|injection Hstep as <-; reflexivity].
        apply rbind_Ok in Hstep as (v & _ & Hv).
        destruct v; try (injection Hv as <-; unfold setattr;
                         apply lookup_insert_ne; exact Hne).
        apply rbind_Ok in Hv as (s' & _ & [= <-]).
        unfold setattr. apply lookup_insert_ne. exact Hne. }
    rewrite IH, Hout1.
    destruct (decide (name ∈ rest)) as [Hin|Hnin].
    + rewrite (bool_decide_eq_true_2 (name ∈ rest)) by exact Hin.
      rewrite (bool_decide_eq_true_2 (name ∈ att :: rest)) by (right; exact Hin).
      destruct (find_attr hr (obj_path hgroup) name) as [[]|]; try reflexivity.
      destruct (String.eqb att name); reflexivity.
    + rewrite (bool_decide_eq_false_2 (name ∈ rest)) by exact Hnin.
      destruct (String.eqb_spec att name) as [->|Hne].
      * rewrite (bool_decide_eq_true_2 (name ∈ name :: rest)) by left.
        reflexivity.
      * rewrite (bool_decide_eq_false_2 (name ∈ att :: rest)); [reflexivity|].
        intros Hin. apply elem_of_cons in Hin as [Heq|Hin]; congruence.
Qed.

Lemma is_prefix_refl (p : path) : is_prefix p p = true.
Proof. induction p as [|a p IH]; [reflexivity|]. cbn. rewrite String.eqb_refl. exact IH. Qed.

Lemma path_eqb_refl (p : path) : path_eqb p p = true.
Proof. unfold path_eqb. rewrite is_prefix_refl, Nat.eqb_refl. reflexivity. Qed.

(** The body of the loop of [odim_setattrs] once [g] is bound to the
    group at [p]. *)
Lemma odim_setattrs_step (o : obj) (p : path) (attr : string) (f : h5file) :
  (if struct_hasitem o attr then
     let attr_val := struct_getitem o attr in
     match attr_val with
     | PNone => mret tt
     | PStr s =>
         p ← lift (Ok p); b ← lift (np_bytes s); attrs_setitem p attr b
     | _ => p ← lift (Ok p); attrs_setitem p attr attr_val
     end
   else mret tt) f
  = match o !! attr with
    | None | Some PNone => (f, Ok tt)
    | Some v => match stored_value v with
                | Ok a => (SetAttr p attr a :: f, Ok tt)
                | Raise e => (f, Raise e)
                end
    end.
Proof.
  unfold struct_hasitem, struct_getitem.
  destruct (o !! attr) as [v|] eqn:Hv.
  2: { rewrite bool_decide_eq_false_2 by (intros [? ?]; discriminate). reflexivity. }
  rewrite bool_decide_eq_true_2 by eauto.
  destruct v; run_M; try reflexivity; unfold stored_value, attrs_setitem;
    try (destruct (np_bytes s) as [b|e]; [|reflexivity];
         cbn [mbind result_bind rbind]);
    try (destruct (h5_of_pyval _)); reflexivity.
Qed.

Lemma for_each_frame (o : obj) (p : path) (l : list string) (body : string -> M h5file unit)
      (att : string) (f f' : h5file) (r : result unit) :
  (forall attr f0, body attr f0
     = match o !! attr with
       | None | Some PNone => (f0, Ok tt)
       | Some v => match stored_value v with
                   | Ok a => (SetAttr p attr a :: f0, Ok tt)
                   | Raise e => (f0, Raise e)
                   end
       end) ->
  att ∉ l ->
  for_each l body f = (f', r) ->
  find_attr f' p att = find_attr f p att.
Proof.
  intros Hbody. revert f. induction l as [|x l IH]; intros f Hnin Hrun.
  - injection Hrun as <- _. reflexivity.
  - cbn [for_each] in Hrun. unfold bind in Hrun.
    apply not_elem_of_cons in Hnin as [Hne Hnin].
    destruct (body x f) as [f1 [[]|e]] eqn:Hx.
    + rewrite (IH _ Hnin Hrun). rewrite Hbody in Hx.
      destruct (o !! x) as [[]|]; try (injection Hx as <-; reflexivity);
        (destruct (stored_value _); [|discriminate]); injection Hx as <-;
        cbn [find_attr]; destruct (String.eqb_spec x att); try congruence;
        rewrite andb_false_r; reflexivity.
    + injection Hrun as <- _. rewrite Hbody in Hx.
      destruct (o !! x) as [[]|]; try discriminate;
        (destruct (stored_value _); [discriminate|]); injection Hx as <- _;
        reflexivity.
Qed.

Lemma for_each_written (o : obj) (p : path) (l : list string) (body : string -> M h5file unit)
      (att : string) (v : pyval) (f f' : h5file) :
  (forall attr f0, body attr f0
     = match o !! attr with
       | None | Some PNone => (f0, Ok tt)
       | Some v => match stored_value v with
                   | Ok a => (SetAttr p attr a :: f0, Ok tt)
                   | Raise e => (f0, Raise e)
                   end
       end) ->
  att ∈ l -> o !! att = Some v -> v <> PNone ->
  for_each l body f = (f', Ok tt) ->
  exists a, stored_value v = Ok a /\ find_attr f' p att = Some a.
Proof.
  intros Hbody Hin Hv Hne. revert f Hin.
  induction l as [|x l IH]; intros f Hin Hrun.
  - apply elem_of_nil in Hin. destruct Hin.
  - cbn [for_each] in Hrun. unfold bind in Hrun.
    destruct (body x f) as [f1 [[]|e]] eqn:Hx; [|discriminate].
    destruct (decide (att ∈ l)) as [Hl|Hl]; [exact (IH _ Hl Hrun)|].
    apply elem_of_cons in Hin as [->|Hin]; [|contradiction].
    rewrite Hbody, Hv in Hx.
    assert (Hst : exists a, stored_value v = Ok a /\ f1 = SetAttr p x a :: f).
    { destruct v; try congruence;
        (destruct (stored_value _) as [a0|]; [|discriminate]);
        injection Hx as <-; eauto. }
    destruct Hst as (a & Ha & ->). exists a. split; [exact Ha|].
    rewrite (for_each_frame o p l body x _ _ _ Hbody Hl Hrun).
    cbn [find_attr]. rewrite path_eqb_refl, String.eqb_refl. reflexivity.
Qed.

Lemma require_group_Ok (h : string) (f f1 : h5file) (p : path) :
  require_group h f = (f1, Ok p) -> p = split_path h.
Proof.
  unfold require_group, create_group.
  destruct (String.eqb h "" || negb _).
  - destruct (_ || _); [discriminate|]. intros [= _ <-]. reflexivity.
  - destruct (is_group _ _); [|discriminate]. intros [= _ <-]. reflexivity.
Qed.

Lemma for_each_reaches {S A} (l : list A) (body : A -> M S unit) (x : A) (s s' : S) :
  x ∈ l -> for_each l body s = (s', Ok tt) ->
  exists s0 s1, body x s0 = (s1, Ok tt).
Proof.
  revert s. induction l as [|y l IH]; intros s Hin Hrun.
  - apply elem_of_nil in Hin. destruct Hin.
  - cbn [for_each] in Hrun. unfold bind in Hrun.
    destruct (body y s) as [s1 [[]|e]] eqn:Hy; [|discriminate].
    apply elem_of_cons in Hin as [->|Hin]; [eauto|]. exact (IH _ Hin Hrun).
Qed.

Lemma is_ascii_rstrip_nul (s : string) :
  is_ascii s = true -> is_ascii (rstrip_nul s) = true.
Proof.
  unfold is_ascii. induction s as [|c s IH]; [reflexivity|].
  cbn [list_ascii_of_string forallb rstrip_nul]. intros H.
  apply andb_true_iff in H as [Hc Hs]. specialize (IH Hs).
  destruct (rstrip_nul s) as [|c' r].
  - destruct (Ascii.eqb c Ascii.zero); [reflexivity|].
    cbn [list_ascii_of_string forallb]. rewrite Hc. reflexivity.
  - cbn [list_ascii_of_string forallb] in *. rewrite Hc. exact IH.
Qed.

(** X25. Round trip of one attribute: after [odim_setattrs] has written
    the listed attributes of a group, [get_attrs_from_odimgroup] on the
    file group of its hierarchy reads back, for every listed attribute
    that is a string, an integer, a float or an array, the value of the
    instance: a string as a string, without the NUL characters at its
    end, which the store takes for padding. *)
Theorem odim_setattrs_reads_back
        (o : obj) (attrslist : list string) (f f' : h5file) (h att : string)
        (v : pyval) (out : obj) :
  hierarchy o = Ok h ->
  odim_setattrs o attrslist f = (f', Ok tt) ->
  att ∈ attrslist ->
  o !! att = Some v ->
  match v with PNone | PBytes _ _ => False | _ => True end ->
  get_attrs_from_odimgroup [att] f' (Group (split_path h)) out
  = Ok (setattr out att (match v with
                         | PStr s => PStr (rstrip_nul s)
                         | _ => v
                         end)).
Proof.
  intros Hh Hrun Hin Hv Hkind.
  assert (Hne : v <> PNone) by (intros ->; exact Hkind).
  unfold odim_setattrs in Hrun.
  rewrite bind_run in Hrun.
  match type of Hrun with
  | (let (_, _) := ?t in _) = _ => destruct t as [f1 [g|e]] eqn:Hg; [|discriminate]
  end.
  assert (Hgp : g = Some (split_path h)).
  { destruct g as [p|].
    - unfold try_except in Hg. rewrite Hh in Hg. run_M.
      revert Hg. run_M.
      destruct (require_group h f) as [f2 [p'|e]] eqn:Hreq.
      + intros [= <- <-]. f_equal. eapply require_group_Ok, Hreq.
      + destruct (catches [ValueError] e); [|discriminate].
        unfold odim_create. rewrite Hh. run_M.
        destruct (create_group h f2) as [f3 [p'|e']]; discriminate.
    - exfalso.
      destruct (for_each_reaches _ _ att _ _ Hin Hrun) as (s0 & s1 & Hbody).
      unfold struct_hasitem, struct_getitem in Hbody. rewrite Hv in Hbody.
      rewrite bool_decide_eq_true_2 in Hbody by eauto.
      destruct v; try contradiction; discriminate. }
  subst g.
  destruct (for_each_written o (split_path h) attrslist _ att v f1 f'
              (odim_setattrs_step o (split_path h)) Hin Hv Hne Hrun)
    as (a & Ha & Hfind).
  unfold get_attrs_from_odimgroup. cbn [foldM obj_path].
  unfold attrs_contains, attrs_getitem. rewrite Hfind.
  rewrite bool_decide_eq_true_2 by eauto. cbn [mbind result_bind rbind].
  destruct v; try contradiction.
  - apply is_ascii_np_bytes in Ha as [Hascii ->]. cbn [pyval_of_h5].
    unfold decode. rewrite (is_ascii_rstrip_nul _ Hascii). reflexivity.
  - cbn in Ha. destruct (_ && _) in Ha; [|discriminate].
    injection Ha as <-. reflexivity.
  - injection Ha as <-. reflexivity.
  - injection Ha as <-. reflexivity.
Qed.

Lemma get_attrs_from_odimgroup_reads_witness :
  exists out,
    get_attrs_from_odimgroup ["object"; "date"] Cases.exported_file
                             (Group ["what"]) Examples.how_root = Ok out
    /\ out !! "object" = Some (PStr "PVOL")
    /\ out !! "hierarchy" = Some (PStr "how").
Proof.
  assert (Hok : is_ok (get_attrs_from_odimgroup ["object"; "date"] Cases.exported_file
                                     (Group ["what"]) Examples.how_root))
    by (vm_compute; exact I).
  destruct (get_attrs_from_odimgroup ["object"; "date"] Cases.exported_file
                                     (Group ["what"]) Examples.how_root) as [out|e] eqn:H; [|destruct Hok].
  exists out. split; [reflexivity|].
    rewrite !(get_attrs_from_odimgroup_reads _ _ _ _ _ _ H).
    split; by_computation.
Defined.

Lemma odim_setattrs_reads_back_witness :
  get_attrs_from_odimgroup
    ["object"] (fst (odim_setattrs Examples.what_root ["object"; "version"] []))
    (Group (split_path "what")) Examples.how_root
  = Ok (setattr Examples.how_root "object" (PStr "PVOL"))
  /\ get_attrs_from_odimgroup
       ["source"] (fst (odim_setattrs Cases.padded_what ["source"; "count"] []))
       (Group (split_path "what")) Examples.how_root
     = Ok (setattr Examples.how_root "source" (PStr "RAD"))
  /\ get_attrs_from_odimgroup
       ["count"] (fst (odim_setattrs Cases.padded_what ["source"; "count"] []))
       (Group (split_path "what")) Examples.how_root
     = Ok (setattr Examples.how_root "count" (PInt (2 ^ 63))).
Proof.
  split; [|split].
  - apply (odim_setattrs_reads_back
             Examples.what_root ["object"; "version"] []
             (fst (odim_setattrs Examples.what_root ["object"; "version"] []))
             "what" "object" (PStr "PVOL") Examples.how_root).
    + by_computation.
    + by_computation.
    + apply list_elem_of_here.
    + by_computation.
    + exact I.
  - apply (odim_setattrs_reads_back
             Cases.padded_what ["source"; "count"] []
             (fst (odim_setattrs Cases.padded_what ["source"; "count"] []))
             "what" "source" (PStr (String "R" (String "A" (String "D" (String Ascii.zero EmptyString)))))
             Examples.how_root).
    + by_computation.
    + by_computation.
    + apply list_elem_of_here.
    + by_computation.
    + exact I.
  - apply (odim_setattrs_reads_back
             Cases.padded_what ["source"; "count"] []
             (fst (odim_setattrs Cases.padded_what ["source"; "count"] []))
             "what" "count" (PInt (2 ^ 63)) Examples.how_root).
    + by_computation.
    + by_computation.
    + apply list_elem_of_further, list_elem_of_here.
    + by_computation.
    + exact I.
Defined.

(** ** Reading a file *)

(** X26. [read_odim] raises [AttributeError] on a file whose
    [what/object] attribute is not a byte string (a variable-length string,
    a number): the value read has no [decode]. *)
Theorem read_odim_needs_byte_strings (hr : h5file) (g : h5obj) (v : h5attr) :
  getitem_h5 hr [] "what" = Ok g ->
  find_attr hr (obj_path g) "object" = Some v ->
  match v with HBytes _ _ => False | _ => True end ->
  read_odim hr = Raise AttributeError.
Proof.
  intros Hg Hv Hkind. unfold read_odim. rewrite Hg.
  cbn [mbind result_bind rbind]. unfold attrs_getitem. rewrite Hv.
  destruct v; [contradiction|reflexivity..].
Qed.

Lemma foldM_invariant {A B} (I : B -> Prop) (f : B -> A -> result B)
      (xs : list A) (acc out : B) :
  (forall acc x acc', I acc -> f acc x = Ok acc' -> I acc') ->
  I acc -> foldM f xs acc = Ok out -> I out.
Proof.
  intros Hf. revert acc. induction xs as [|x xs IH]; intros acc Hacc H.
  - injection H as <-. exact Hacc.
  - cbn in H. apply rbind_Ok in H as (acc' & Hx & H).
    exact (IH _ (Hf _ _ _ Hacc Hx) H).
Qed.

Lemma py_in_false (x : pyval) (xs : list pyval) :
  py_in x xs = Ok false -> forall y, y ∈ xs -> py_eq y x = Ok false.
Proof.
  induction xs as [|z xs IH]; intros H y Hy.
  - apply elem_of_nil in Hy. destruct Hy.
  - cbn in H. destruct (py_eq z x) as [[]|] eqn:Hz; try discriminate.
    apply elem_of_cons in Hy as [->|Hy]; [exact Hz|]. exact (IH H y Hy).
Qed.

Lemma pairwise_distinct_snoc (l : list pyval) (q : pyval) :
  pairwise_distinct l -> py_in q l = Ok false -> pairwise_distinct (l ++ [q]).
Proof.
  intros Hl Hq i j x y Hij Hi Hj.
  assert (Hjlen : (j < length (l ++ [q]))%nat) by (eapply lookup_lt_Some, Hj).
  rewrite length_app in Hjlen. cbn in Hjlen.
  rewrite lookup_app_l in Hi by lia.
  destruct (decide (j < length l)%nat) as [Hlt|Hge].
  - rewrite lookup_app_l in Hj by lia. exact (Hl i j x y Hij Hi Hj).
  - rewrite lookup_app_r in Hj by lia.
    replace (j - length l)%nat with 0%nat in Hj by lia. injection Hj as <-.
    apply (py_in_false _ _ Hq). eapply list_elem_of_lookup_2, Hi.
Qed.

Lemma read_quantity_distinct hr gdname acc d acc' :
  pairwise_distinct (snd acc) -> read_quantity hr gdname acc d = Ok acc' ->
  pairwise_distinct (snd acc').
Proof.
  destruct acc as [[ds ws] allq]. cbn [snd]. intros Hacc H.
  unfold read_quantity in H. inv_bind H. injection H as <-. cbn [snd].
  match goal with
  | Hseen : py_in _ allq = Ok ?seen |- _ =>
      destruct seen; [exact Hacc|]; apply pairwise_distinct_snoc; assumption
  end.
Qed.

(** X27. After a successful [read_odim], [varsnames] is set and holds no
    quantity twice. *)
Theorem read_odim_varsnames_distinct (hr : h5file) (vol : OdimHierarchyPvol) :
  read_odim hr = Ok vol ->
  exists names, varsnames vol = Some names /\ pairwise_distinct names.
Proof.
  intros H. unfold read_odim in H. inv_bind H. injection H as <-.
  eexists. split; [reflexivity|].
  match goal with
  | Hf : foldM (read_elevation hr) _ _ = Ok ?acc |- _ =>
      apply (foldM_invariant (fun a => pairwise_distinct (allquantities a))
               _ _ _ _) in Hf; [exact Hf| |]
  end.
  - intros acc x acc' Hacc Hx. unfold read_elevation in Hx. inv_bind Hx.
    match goal with
    | Hq : foldM (read_quantity hr x) _ _ = Ok ?t |- _ =>
        destruct t as [[ds ws] allq];
        apply (foldM_invariant (fun a => pairwise_distinct (snd a)) _ _ _ _) in Hq;
        [| intros; eapply read_quantity_distinct; eassumption | exact Hacc]
    end.
    inv_bind Hx. injection Hx as <-. assumption.
  - intros i j x y _ Hi. discriminate.
Qed.

Lemma foldM_count {A B} (size : B -> nat) (f : B -> A -> result B)
      (xs : list A) (acc out : B) :
  (forall acc x acc', f acc x = Ok acc' -> size acc' = S (size acc)) ->
  foldM f xs acc = Ok out -> size out = (size acc + length xs)%nat.
Proof.
  intros Hf. revert acc. induction xs as [|x xs IH]; intros acc H.
  - injection H as <-. cbn. lia.
  - cbn in H. apply rbind_Ok in H as (acc' & Hx & H).
    rewrite (IH _ H), (Hf _ _ _ Hx). cbn. lia.
Qed.

Lemma read_quantity_lengths hr gdname acc d acc' :
  read_quantity hr gdname acc d = Ok acc' ->
  length (fst (fst acc')) = S (length (fst (fst acc)))
  /\ length (snd (fst acc')) = S (length (snd (fst acc))).
Proof.
  destruct acc as [[ds ws] allq]. intros H.
  unfold read_quantity in H. inv_bind H. injection H as <-. cbn [fst snd].
  rewrite !length_app. cbn. lia.
Qed.

Lemma vstack_Ok (ds out : list ndarray) : vstack ds = Ok out -> out = ds.
Proof.
  unfold vstack. destruct ds as [|d ds]; [discriminate|].
  destruct (forallb _ _); [congruence|discriminate].
Qed.

Lemma read_elevation_aligned hr acc gdname acc' :
  aligned acc -> read_elevation hr acc gdname = Ok acc' -> aligned acc'.
Proof.
  intros [Hal Hmax] H. unfold read_elevation in H. inv_bind H.
  match goal with
  | Hq : foldM (read_quantity hr gdname) ?names _ = Ok ?t |- _ =>
      pose proof (foldM_count (fun a => length (fst (fst a))) _ _ _ _
                    (fun a x a' Hx => proj1 (read_quantity_lengths hr gdname a x a' Hx)) Hq) as Hn1;
      pose proof (foldM_count (fun a => length (snd (fst a))) _ _ _ _
                    (fun a x a' Hx => proj2 (read_quantity_lengths hr gdname a x a' Hx)) Hq) as Hn2;
      destruct t as [[ds ws] allq]
  end.
  cbn [fst snd length Nat.add] in Hn1, Hn2.
  inv_bind H. injection H as <-.
  match goal with Hv : vstack ds = Ok ?s |- _ => apply vstack_Ok in Hv; subst s end.
  split; cbn [gd_datadset_list_total gd_data_what_list_total nmax_datasets].
  - apply Forall2_app; [exact Hal|]. constructor; [lia|constructor].
  - apply Forall_app. split.
    + eapply Forall_impl; [exact Hmax|]. cbn. intros d Hd. lia.
    + constructor; [|constructor]. rewrite Hn1. lia.
Qed.

(** X28. After a successful [read_odim], every elevation has as many data
    planes as [what] groups of quantities, and no elevation has more than
    [n_datasets] of them. *)
Theorem read_odim_quantities_aligned (hr : h5file) (vol : OdimHierarchyPvol) :
  read_odim hr = Ok vol ->
  Forall2 (fun (d : list ndarray) (ws : list obj) => length d = length ws)
          (datasets vol) (group_datasets_data_what vol)
  /\ Forall (fun d : list ndarray => Z.of_nat (length d) <= n_datasets vol)
            (datasets vol).
Proof.
  intros H. unfold read_odim in H. inv_bind H. injection H as <-.
  match goal with
  | Hf : foldM (read_elevation hr) _ _ = Ok ?acc |- _ =>
      apply (foldM_invariant aligned _ _ _ _) in Hf;
      [| intros; eapply read_elevation_aligned; eassumption
       | split; constructor]
  end.
  match goal with
  | Hs : setistance _ _ _ _ _ _ _ _ _ _ _ _ = Ok ?self |- _ =>
      unfold setistance in Hs;
      destruct (negb _) in Hs; [discriminate|];
      destruct (negb _) in Hs; [discriminate|];
      inv_bind Hs; injection Hs as <-
  end.
  cbn. assumption.
Qed.

Lemma read_odim_needs_byte_strings_witness :
  read_odim Cases.str_file = Raise AttributeError.
Proof.
  apply (read_odim_needs_byte_strings Cases.str_file (Group ["what"])
           (HStr "PVOL"));
    by_computation.
Defined.

Lemma read_odim_varsnames_distinct_witness :
  exists vol names,
    read_odim Cases.exported_file = Ok vol
    /\ varsnames vol = Some names /\ pairwise_distinct names.
Proof.
  assert (Hok : is_ok (read_odim Cases.exported_file))
    by (vm_compute; exact I).
  destruct (read_odim Cases.exported_file) as [vol|e] eqn:H; [|destruct Hok].
  destruct (read_odim_varsnames_distinct Cases.exported_file vol H)
      as (names & Hnames & Hd).
    exists vol, names. split; [reflexivity|]. split; assumption.
Defined.

Lemma read_odim_quantities_aligned_witness :
  exists vol,
    read_odim Cases.exported_file = Ok vol
    /\ Forall2 (fun (d : list ndarray) (ws : list obj) => length d = length ws)
               (datasets vol) (group_datasets_data_what vol)
    /\ Forall (fun d : list ndarray => Z.of_nat (length d) <= n_datasets vol)
              (datasets vol).
Proof.
  assert (Hok : is_ok (read_odim Cases.exported_file))
    by (vm_compute; exact I).
  destruct (read_odim Cases.exported_file) as [vol|e] eqn:H; [|destruct Hok].
  exists vol. split; [reflexivity|].
    exact (read_odim_quantities_aligned Cases.exported_file vol H).
Defined.

(* ===================================================================== *)
(** * What a finished export leaves in the file                          *)
(* ===================================================================== *)

Import Hierarchy.

(** ** Names and paths *)

Lemma no_slash_app (a b : string) :
  no_slash (a ++ b) = no_slash a && no_slash b.
Proof.
  unfold no_slash. induction a as [|c a IH]; [reflexivity|].
  change (String c a ++ b) with (String c (a ++ b)).
  cbn [list_ascii_of_string forallb]. rewrite IH, andb_assoc. reflexivity.
Qed.

Lemma split_on_no_slash (s : string) :
  no_slash s = true -> split_on "/" s = [s].
Proof.
  unfold no_slash. induction s as [|c s IH]; [reflexivity|].
  cbn [list_ascii_of_string forallb split_on]. intros H.
  apply andb_true_iff in H as [Hc Hs]. apply negb_true_iff in Hc.
  rewrite Hc, (IH Hs). reflexivity.
Qed.

Lemma split_on_app (a b : string) :
  no_slash a = true ->
  split_on "/" (a ++ String "/" b) = a :: split_on "/" b.
Proof.
  unfold no_slash. induction a as [|c a IH]; [reflexivity|].
  change (String c a ++ String "/" b) with (String c (a ++ String "/" b)).
  cbn [list_ascii_of_string forallb split_on]. intros H.
  apply andb_true_iff in H as [Hc Hs]. apply negb_true_iff in Hc.
  rewrite Hc, (IH Hs). reflexivity.
Qed.

Lemma split_path_cons (a b : string) :
  no_slash a = true -> a <> "" ->
  split_path (a ++ String "/" b) = a :: split_path b.
Proof.
  intros Ha Hne. unfold split_path. rewrite (split_on_app _ _ Ha).
  cbn [List.filter]. destruct (String.eqb_spec a ""); [contradiction|reflexivity].
Qed.

Lemma split_path_single (a : string) :
  no_slash a = true -> a <> "" -> split_path a = [a].
Proof.
  intros Ha Hne. unfold split_path. rewrite (split_on_no_slash _ Ha).
  cbn [List.filter]. destruct (String.eqb_spec a ""); [contradiction|reflexivity].
Qed.

Lemma pretty_N_go_no_slash (x : N) (s : string) :
  no_slash s = true -> no_slash (pretty_N_go x s) = true.
Proof.
  revert s. induction (N.lt_wf_0 x) as [x _ IH]; intros s Hs.
  destruct (decide (x = 0)%N) as [->|Hx]; [exact Hs|].
  rewrite pretty_N_go_step by lia.
  apply IH; [apply N.div_lt; lia|].
  unfold no_slash. cbn [list_ascii_of_string forallb].
  apply andb_true_iff. split; [|exact Hs].
  unfold pretty_N_char. repeat case_match; reflexivity.
Qed.

Lemma pretty_N_no_slash (x : N) : no_slash (pretty x) = true.
Proof.
  unfold pretty, pretty_N. case_decide; [reflexivity|].
  apply pretty_N_go_no_slash. reflexivity.
Qed.

Lemma pretty_Z_no_slash (z : Z) : no_slash (pretty z) = true.
Proof.
  destruct z as [|p|p]; [reflexivity| |].
  - apply pretty_N_no_slash.
  - change (pretty (Z.neg p)) with ("-" ++ pretty (N.pos p)).
    rewrite no_slash_app. rewrite pretty_N_no_slash. reflexivity.
Qed.

Lemma dataset_name_no_slash K : no_slash (dataset_name K) = true.
Proof. unfold dataset_name. rewrite no_slash_app, pretty_Z_no_slash. reflexivity. Qed.

Lemma quantity_name_no_slash J : no_slash (quantity_name J) = true.
Proof. unfold quantity_name. rewrite no_slash_app, pretty_Z_no_slash. reflexivity. Qed.

Lemma str_app_inv_head (a x y : string) : a ++ x = a ++ y -> x = y.
Proof.
  induction a as [|c a IH]; [exact (fun H => H)|].
  change (String c (a ++ x) = String c (a ++ y) -> x = y).
  intros [= H]. exact (IH H).
Qed.

Lemma dataset_name_inj K K' : dataset_name K = dataset_name K' -> K = K'.
Proof.
  unfold dataset_name. intros H. apply str_app_inv_head in H.
  exact (inj pretty _ _ H).
Qed.

Lemma quantity_name_inj J J' : quantity_name J = quantity_name J' -> J = J'.
Proof.
  unfold quantity_name. intros H. apply str_app_inv_head in H.
  exact (inj pretty _ _ H).
Qed.

Lemma app_assoc_str (a b c : string) : (a ++ b) ++ c = a ++ (b ++ c).
Proof.
  induction a as [|x a IH]; [reflexivity|].
  change (String x ((a ++ b) ++ c) = String x (a ++ (b ++ c))). congruence.
Qed.

Lemma split_path_under_dataset (K : Z) (rest : string) :
  split_path ("dataset" ++ pretty K ++ String "/" rest)
  = dataset_name K :: split_path rest.
Proof.
  rewrite <- (split_path_cons (dataset_name K) rest).
  - unfold dataset_name. rewrite app_assoc_str. reflexivity.
  - apply dataset_name_no_slash.
  - discriminate.
Qed.

Lemma split_path_under_quantity (J : Z) (rest : string) :
  split_path ("data" ++ pretty J ++ String "/" rest)
  = quantity_name J :: split_path rest.
Proof.
  rewrite <- (split_path_cons (quantity_name J) rest).
  - unfold quantity_name. rewrite app_assoc_str. reflexivity.
  - apply quantity_name_no_slash.
  - discriminate.
Qed.

Lemma split_path_data_name (K J : Z) :
  split_path (data_name K J) = [dataset_name K; quantity_name J; "data"].
Proof.
  unfold data_name.
  change ("/data" ++ pretty J ++ "/data")
    with (String "/" ("data" ++ pretty J ++ String "/" "data")).
  rewrite split_path_under_dataset, split_path_under_quantity. reflexivity.
Qed.

Lemma is_prefix_app (p q : path) : is_prefix p (p ++ q)%list = true.
Proof.
  induction p as [|a p IH]; [reflexivity|]. cbn. rewrite String.eqb_refl. exact IH.
Qed.

Lemma is_prefix_spec (p q : path) :
  is_prefix p q = true <-> exists r, q = (p ++ r)%list.
Proof.
  revert q. induction p as [|a p IH]; intros q.
  - split; [eauto|reflexivity].
  - destruct q as [|b q]; cbn.
    + split; [discriminate|]. intros (r & Hr). discriminate.
    + rewrite andb_true_iff, IH. split.
      * intros [Hab (r & ->)]. apply String.eqb_eq in Hab as ->. eauto.
      * intros (r & [= -> ->]). split; [apply String.eqb_refl|eauto].
Qed.

Lemma path_eqb_eq (p q : path) : path_eqb p q = true <-> p = q.
Proof.
  unfold path_eqb. rewrite andb_true_iff, is_prefix_spec, Nat.eqb_eq. split.
  - intros [(r & ->) Hlen]. rewrite length_app in Hlen.
    destruct r; [symmetry; apply app_nil_r|cbn in Hlen; lia].
  - intros ->. split; [exists []; symmetry; apply app_nil_r|reflexivity].
Qed.

(** ** Runs that succeed *)

Lemma M_bind_Ok {S A B} (m : M S A) (k : A -> M S B) (s s' : S) (b : B) :
  (m ≫= k) s = (s', Ok b) ->
  exists s1 a, m s = (s1, Ok a) /\ k a s1 = (s', Ok b).
Proof.
  rewrite bind_run. destruct (m s) as [s1 [a|e]]; [eauto|discriminate].
Qed.

Lemma lift_Ok {S A} (r : result A) (s s' : S) (a : A) :
  lift r s = (s', Ok a) -> r = Ok a /\ s' = s.
Proof. unfold lift. intros [= -> ->]. auto. Qed.

Lemma mret_Ok {S A} (a b : A) (s s' : S) :
  (mret a : M S A) s = (s', Ok b) -> b = a /\ s' = s.
Proof. intros [= -> ->]. auto. Qed.

Lemma ext_refl f : ext f f.
Proof. exists []. reflexivity. Qed.

Lemma ext_trans f g h : ext f g -> ext g h -> ext f h.
Proof. intros (n1 & ->) (n2 & ->). exists (n2 ++ n1)%list. apply app_assoc. Qed.

Lemma ext_cons op f : ext f (op :: f).
Proof. exists [op]. reflexivity. Qed.

Lemma ext_elem (op : h5op) f f' : op ∈ f -> ext f f' -> op ∈ f'.
Proof. intros H (new & ->). apply elem_of_app. right. exact H. Qed.

Lemma writes_ext {A} P n R (m : M h5file A) (f f' : h5file) (r : result A) :
  writes P n R m -> m f = (f', r) -> ext f f'.
Proof.
  intros Hw Hrun. destruct (Hw f) as (new & Hf & _). rewrite Hrun in Hf.
  exists new. exact Hf.
Qed.

Lemma for_each_run {A} (l : list A) (body : A -> M h5file unit) (s s' : h5file) :
  (forall x s0 s1 r, x ∈ l -> body x s0 = (s1, r) -> ext s0 s1) ->
  for_each l body s = (s', Ok tt) ->
  ext s s'
  /\ forall x, x ∈ l -> exists s0 s1, body x s0 = (s1, Ok tt) /\ ext s s0 /\ ext s1 s'.
Proof.
  revert s. induction l as [|y l IH]; intros s Hext Hrun.
  - injection Hrun as <-. split; [apply ext_refl|].
    intros x Hx. apply elem_of_nil in Hx. destruct Hx.
  - cbn [for_each] in Hrun. unfold bind in Hrun.
    destruct (body y s) as [s1 [[]|e]] eqn:Hy; [|discriminate].
    assert (Hs1 : ext s s1) by (eapply Hext; [left|exact Hy]).
    destruct (IH s1) as [Hs' Hall]; [|exact Hrun|].
    { intros x s0 s2 r Hx. apply Hext. right. exact Hx. }
    split; [eapply ext_trans; eassumption|].
    intros x Hx. apply elem_of_cons in Hx as [->|Hx].
    + exists s, s1. split; [exact Hy|]. split; [apply ext_refl|exact Hs'].
    + destruct (Hall x Hx) as (s0 & s2 & Hb & H0 & H2).
      exists s0, s2. split; [exact Hb|]. split; [|exact H2].
      eapply ext_trans; eassumption.
Qed.

Lemma enumerate_arange1 (n : Z) (i : nat) :
  Z.of_nat i + 1 <= n - 1 -> (i, Z.of_nat i + 1) ∈ enumerate (arange1 n).
Proof.
  intros Hi. unfold enumerate.
  apply list_elem_of_lookup. exists i.
  apply lookup_zip_with_Some. exists i, (Z.of_nat i + 1). split; [reflexivity|].
  split.
  - apply lookup_seq. rewrite length_arange1. split; [reflexivity|lia].
  - unfold arange1.
    change ((fun i0 : nat => Z.of_nat i0 + 1) <$> seq 0 (Z.to_nat (n - 1)))
      with (map (fun i0 : nat => Z.of_nat i0 + 1) (seq 0 (Z.to_nat (n - 1)))).
    change (map ?f ?l) with (f <$> l).
    rewrite list_lookup_fmap.
    rewrite (proj2 (lookup_seq 0 (Z.to_nat (n - 1)) i i)); [reflexivity|].
    split; [reflexivity|lia].
Qed.

(** ** What a successful export leaves in the file *)

Lemma attrs_written_ext f f' o L : attrs_written f o L -> ext f f' -> attrs_written f' o L.
Proof.
  intros (h & Hh & Hall) Hext. exists h. split; [exact Hh|].
  intros att v Hin Hv Hne. destruct (Hall att v Hin Hv Hne) as (a & Ha & HIn).
  exists a. split; [exact Ha|]. eapply ext_elem; eassumption.
Qed.

Lemma group_created_ext f f' o : group_created f o -> ext f f' -> group_created f' o.
Proof.
  intros (h & Hh & HIn) Hext. exists h. split; [exact Hh|]. eapply ext_elem; eassumption.
Qed.

Lemma odim_create_Ok (o : obj) (f f' : h5file) :
  odim_create o f = (f', Ok tt) ->
  exists h, hierarchy o = Ok h /\ f' = MkGroup (split_path h) :: f.
Proof.
  unfold odim_create. intros H.
  apply M_bind_Ok in H as (s1 & h & Hh & H). apply lift_Ok in Hh as [Hh ->].
  apply M_bind_Ok in H as (s2 & p & Hc & H). apply mret_Ok in H as [_ ->].
  exists h. split; [exact Hh|].
  unfold create_group in Hc. destruct (_ || _); [discriminate|].
  injection Hc as <- _. reflexivity.
Qed.

Lemma find_attr_elem (f : h5file) (p : path) (name : string) (v : h5attr) :
  find_attr f p name = Some v -> SetAttr p name v ∈ f.
Proof.
  induction f as [|op f IH]; [discriminate|].
  destruct op as [q|q d|q n w]; cbn [find_attr];
    try (intros H; apply list_elem_of_further; exact (IH H)).
  destruct (path_eqb p q && String.eqb n name) eqn:E.
  - apply andb_true_iff in E as [Hp Hn]. apply path_eqb_eq in Hp as ->.
    apply String.eqb_eq in Hn as ->. intros [= ->]. apply list_elem_of_here.
  - intros H. apply list_elem_of_further. exact (IH H).
Qed.

Lemma elem_find_attr (f : h5file) (p : path) (name : string) (v : h5attr) :
  SetAttr p name v ∈ f -> exists v', find_attr f p name = Some v'.
Proof.
  induction f as [|op f IH]; [intros H; apply elem_of_nil in H; destruct H|].
  intros H. apply elem_of_cons in H as [<-|H].
  - cbn [find_attr]. rewrite path_eqb_refl, String.eqb_refl. eauto.
  - destruct op as [q|q d|q n w]; cbn [find_attr]; try exact (IH H).
    destruct (path_eqb p q && String.eqb n name); [eauto|exact (IH H)].
Qed.

Lemma odim_setattrs_Ok (o : obj) (attrslist : list string) (f f' : h5file) :
  odim_setattrs o attrslist f = (f', Ok tt) ->
  ext f f'
  /\ forall att v, att ∈ attrslist -> o !! att = Some v -> v <> PNone ->
       exists h a, hierarchy o = Ok h /\ stored_value v = Ok a
                   /\ SetAttr (split_path h) att a ∈ f'.
Proof.
  intros Hrun.
  split; [eapply writes_ext; [apply writes_odim_setattrs|exact Hrun]|].
  intros att v Hin Hv Hne.
  unfold odim_setattrs in Hrun. rewrite bind_run in Hrun.
  match type of Hrun with
  | (let (_, _) := ?t in _) = _ => destruct t as [f1 [g|e]] eqn:Hg; [|discriminate]
  end.
  assert (Hgp : exists h, hierarchy o = Ok h /\ g = Some (split_path h)).
  { destruct g as [p|].
    - unfold try_except in Hg.
      destruct (hierarchy o) as [h|e] eqn:Hh.
      + exists h. split; [reflexivity|]. revert Hg. run_M.
        destruct (require_group h f) as [f2 [p'|e]] eqn:Hreq.
        * intros [= <- <-]. f_equal. eapply require_group_Ok, Hreq.
        * destruct (catches [ValueError] e); [|discriminate].
          unfold odim_create. rewrite Hh. run_M.
          destruct (create_group h f2) as [f3 [p'|e']]; discriminate.
      + exfalso. revert Hg. run_M.
        destruct (catches [ValueError] e); [|discriminate].
        unfold odim_create. rewrite Hh. run_M. discriminate.
    - exfalso.
      destruct (for_each_reaches _ _ att _ _ Hin Hrun) as (s0 & s1 & Hbody).
      unfold struct_hasitem, struct_getitem in Hbody. rewrite Hv in Hbody.
      rewrite bool_decide_eq_true_2 in Hbody by eauto.
      destruct v; try congruence; discriminate. }
  destruct Hgp as (h & Hh & ->).
  destruct (for_each_written o (split_path h) attrslist _ att v f1 f'
              (odim_setattrs_step o (split_path h)) Hin Hv Hne Hrun)
    as (a & Ha & Hfind).
  exists h, a. split; [exact Hh|]. split; [exact Ha|].
  apply find_attr_elem, Hfind.
Qed.

Lemma odim_setattrs_written (o : obj) (attrslist : list string) (f f' : h5file) (h : string) :
  hierarchy o = Ok h ->
  odim_setattrs o attrslist f = (f', Ok tt) ->
  ext f f' /\ attrs_written f' o attrslist.
Proof.
  intros Hh Hrun. destruct (odim_setattrs_Ok _ _ _ _ Hrun) as [Hext Hall].
  split; [exact Hext|]. exists h. split; [exact Hh|].
  intros att v Hin Hv Hne. destruct (Hall att v Hin Hv Hne) as (h' & a & Hh' & Ha & HIn).
  rewrite Hh in Hh'. injection Hh' as <-. eauto.
Qed.

Lemma create_then_setattrs (o : obj) (L : list string) (f f1 f2 : h5file) :
  odim_create o f = (f1, Ok tt) ->
  odim_setattrs o L f1 = (f2, Ok tt) ->
  ext f f2 /\ group_created f2 o /\ attrs_written f2 o L.
Proof.
  intros Hc Hs. apply odim_create_Ok in Hc as (h & Hh & ->).
  destruct (odim_setattrs_written _ _ _ _ _ Hh Hs) as [Hext Hw].
  split; [eapply ext_trans; [apply ext_cons|exact Hext]|].
  split; [|exact Hw].
  exists h. split; [exact Hh|].
  eapply (ext_elem _ (MkGroup (split_path h) :: f)); [apply list_elem_of_here|exact Hext].
Qed.

Lemma OdimDset_odim_create_Ok (a : ndarray) (name : string) (f f' : h5file) :
  OdimDset_odim_create a name f = (f', Ok tt) ->
  f' = MkDataset (split_path name) (nd_map to_f32 a) :: f.
Proof.
  unfold OdimDset_odim_create. intros H.
  apply M_bind_Ok in H as (s1 & p & Hc & H). apply mret_Ok in H as [_ ->].
  unfold create_dataset in Hc. destruct (_ || _); [discriminate|].
  injection Hc as <- _. reflexivity.
Qed.

Section ExportRuns.

Variable self : OdimHierarchyPvol.

Lemma quantity_written_ext f f' i j :
  quantity_written self f i j -> ext f f' -> quantity_written self f' i j.
Proof.
  intros H Hext planes a Hp Ha. destruct (H planes a Hp Ha) as [HIn Hw].
  split; [eapply ext_elem; eassumption|].
  intros ws o Hws Ho. destruct (Hw ws o Hws Ho) as [Hc Hat].
  split; [eapply group_created_ext|eapply attrs_written_ext]; eassumption.
Qed.

Lemma export_quantity_Ok (i j : nat) (f f' : h5file) :
  export_quantity self i (Z.of_nat i + 1) j (Z.of_nat j + 1) f = (f', Ok tt) ->
  quantity_written self f' i j.
Proof.
  unfold export_quantity. intros H planes a Hp Ha.
  apply M_bind_Ok in H as (s1 & d & Hd & H). apply lift_Ok in Hd as [Hd ->].
  apply getitem_Ok in Hd. rewrite Hp in Hd. injection Hd as <-.
  assert (Hlt : (j <? length planes)%nat = true).
  { apply Nat.ltb_lt. eapply lookup_lt_Some, Ha. }
  rewrite Hlt in H.
  apply M_bind_Ok in H as (s1 & d & Hd & H). apply lift_Ok in Hd as [Hd ->].
  apply getitem_Ok in Hd. rewrite Hp in Hd. injection Hd as <-.
  apply M_bind_Ok in H as (s1 & a' & Ha' & H). apply lift_Ok in Ha' as [Ha' ->].
  apply getitem_Ok in Ha'. rewrite Ha in Ha'. injection Ha' as <-.
  apply M_bind_Ok in H as (s1 & [] & Hc & H).
  apply OdimDset_odim_create_Ok in Hc as ->.
  apply M_bind_Ok in H as (s2 & w & Hw & H). apply lift_Ok in Hw as [Hw ->].
  apply getitem_Ok in Hw.
  destruct (j <? length w)%nat eqn:Hjw.
  - apply M_bind_Ok in H as (s2 & w' & Hw' & H). apply lift_Ok in Hw' as [Hw' ->].
    apply getitem_Ok in Hw'. rewrite Hw in Hw'. injection Hw' as <-.
    apply M_bind_Ok in H as (s2 & o & Ho & H). apply lift_Ok in Ho as [Ho ->].
    apply getitem_Ok in Ho.
    apply M_bind_Ok in H as (s2 & [] & Hc & H).
    destruct (create_then_setattrs _ _ _ _ _ Hc H) as (Hext & Hg & Hat).
    split; [eapply (ext_elem _ (_ :: _)); [apply list_elem_of_here|exact Hext]|].
    intros ws o' Hws Ho'. rewrite Hw in Hws. injection Hws as <-.
    rewrite Ho in Ho'. injection Ho' as <-. auto.
  - apply mret_Ok in H as [_ ->]. split; [apply list_elem_of_here|].
    intros ws o Hws Ho. rewrite Hw in Hws. injection Hws as <-.
    apply lookup_lt_Some in Ho. apply Nat.ltb_ge in Hjw. lia.
Qed.

Lemma elevation_written_ext f f' i :
  elevation_written self f i -> ext f f' -> elevation_written self f' i.
Proof.
  intros ((o1 & H1 & G1 & A1) & (o2 & H2 & G2 & A2) & (o3 & H3 & G3 & A3)
          & (o4 & H4 & A4) & Hq) Hext.
  split; [|split; [|split; [|split]]].
  - exists o1. eauto using group_created_ext, attrs_written_ext.
  - exists o2. eauto using group_created_ext, attrs_written_ext.
  - exists o3. eauto using group_created_ext, attrs_written_ext.
  - exists o4. eauto using attrs_written_ext.
  - intros j Hj. eapply quantity_written_ext; eauto.
Qed.

Lemma export_elevation_Ok (i : nat) (f f' : h5file) :
  Z.of_nat i + 1 <= n_group_dataset self - 1 ->
  export_elevation self i (Z.of_nat i + 1) f = (f', Ok tt) ->
  elevation_written self f' i.
Proof.
  intros Hi H. unfold export_elevation in H.
  apply M_bind_Ok in H as (s & o1 & Ho1 & H). apply lift_Ok in Ho1 as [Ho1 ->].
  apply getitem_Ok in Ho1.
  apply M_bind_Ok in H as (s1 & [] & Hc1 & H).
  apply M_bind_Ok in H as (s2 & [] & Hs1 & H).
  destruct (create_then_setattrs _ _ _ _ _ Hc1 Hs1) as (_ & G1 & A1).
  apply M_bind_Ok in H as (s & o2 & Ho2 & H). apply lift_Ok in Ho2 as [Ho2 ->].
  apply getitem_Ok in Ho2.
  apply M_bind_Ok in H as (s3 & [] & Hc2 & H).
  apply M_bind_Ok in H as (s4 & [] & Hs2 & H).
  destruct (create_then_setattrs _ _ _ _ _ Hc2 Hs2) as (E2 & G2 & A2).
  apply M_bind_Ok in H as (s & o3 & Ho3 & H). apply lift_Ok in Ho3 as [Ho3 ->].
  apply getitem_Ok in Ho3.
  apply M_bind_Ok in H as (s5 & [] & Hc3 & H).
  apply M_bind_Ok in H as (s6 & [] & Hs3 & H).
  destruct (create_then_setattrs _ _ _ _ _ Hc3 Hs3) as (E3 & G3 & A3).
  apply M_bind_Ok in H as (s & o4 & Ho4 & H). apply lift_Ok in Ho4 as [Ho4 ->].
  apply getitem_Ok in Ho4.
  apply M_bind_Ok in H as (s7 & [] & Hs4 & H).
  destruct (odim_setattrs_Ok _ _ _ _ Hs4) as [E4 A4].
  assert (A4' : forall h, hierarchy o4 = Ok h -> attrs_written s7 o4 attrs_how_radar).
  { intros h Hh. eapply odim_setattrs_written; eassumption. }
  assert (Hmono : forall (x : nat * Z) s0 s1 r,
             x ∈ enumerate (arange1 (n_datasets self)) ->
             export_quantity self i (Z.of_nat i + 1) x.1 x.2 s0 = (s1, r) ->
             ext s0 s1).
  { intros x t0 t1 r Hx Hb.
    apply elem_of_enumerate in Hx. apply lookup_arange1 in Hx as [Hx1 Hj].
    destruct x as [jx Jx]. cbn [fst snd] in *. subst Jx.
    eapply writes_ext; [apply (writes_export_quantity self i jx Hi Hj)|exact Hb]. }
  destruct (for_each_run _ _ _ _ Hmono H) as [E5 Hall].
  assert (E46 : ext s4 s6) by exact E3.
  assert (E67 : ext s6 s7) by exact E4.
  assert (E26 : ext s2 s6) by (eapply ext_trans; eassumption).
  assert (E27 : ext s2 s7) by (eapply ext_trans; eassumption).
  assert (E47 : ext s4 s7) by (eapply ext_trans; eassumption).
  split; [|split; [|split; [|split]]].
  - exists o1. split; [exact Ho1|].
    split; [eapply group_created_ext|eapply attrs_written_ext]; try eassumption;
      (eapply ext_trans; [exact E27|exact E5]).
  - exists o2. split; [exact Ho2|].
    split; [eapply group_created_ext|eapply attrs_written_ext]; try eassumption;
      (eapply ext_trans; [exact E47|exact E5]).
  - exists o3. split; [exact Ho3|].
    split; [eapply group_created_ext|eapply attrs_written_ext]; try eassumption;
      (eapply ext_trans; [exact E67|exact E5]).
  - exists o4. split; [exact Ho4|].
    destruct G3 as (h3 & Hh3 & _).
    destruct (hierarchy o4) as [h4|e] eqn:Hh4.
    + eapply attrs_written_ext; [exact (A4' h4 eq_refl)|exact E5].
    + exfalso. unfold odim_setattrs in Hs4. rewrite bind_run in Hs4.
      unfold try_except in Hs4. rewrite Hh4 in Hs4. revert Hs4. run_M.
      destruct (catches [ValueError] e); [|discriminate].
      unfold odim_create. rewrite Hh4. run_M. discriminate.
  - intros j Hj.
    destruct (Hall (j, Z.of_nat j + 1) (enumerate_arange1 _ _ Hj))
      as (s0 & s1' & Hb & _ & E1').
    cbn [fst snd] in Hb.
    eapply quantity_written_ext; [eapply export_quantity_Ok; exact Hb|exact E1'].
Qed.

End ExportRuns.

Lemma find_dataset_elem (f : h5file) (p : path) (d : ndarray) :
  find_dataset f p = Some d -> MkDataset p d ∈ f.
Proof.
  induction f as [|op f IH]; [discriminate|].
  destruct op as [q|q d'|q n w]; cbn [find_dataset];
    try (intros H; apply list_elem_of_further; exact (IH H)).
  destruct (path_eqb p q) eqn:E.
  - apply path_eqb_eq in E as ->. intros [= ->]. apply list_elem_of_here.
  - intros H. apply list_elem_of_further. exact (IH H).
Qed.

Lemma elem_find_dataset (f : h5file) (p : path) (d : ndarray) :
  MkDataset p d ∈ f -> exists d', find_dataset f p = Some d'.
Proof.
  induction f as [|op f IH]; [intros H; apply elem_of_nil in H; destruct H|].
  intros H. apply elem_of_cons in H as [<-|H].
  - cbn [find_dataset]. rewrite path_eqb_refl. eauto.
  - destruct op as [q|q d'|q n w]; cbn [find_dataset]; try exact (IH H).
    destruct (path_eqb p q); [eauto|exact (IH H)].
Qed.

Lemma is_dataset_elem (f : h5file) (p : path) :
  is_dataset f p = true <-> exists d, MkDataset p d ∈ f.
Proof.
  unfold is_dataset. rewrite existsb_exists. split.
  - intros ([q|q d|q n w] & Hin & Hop); try discriminate.
    apply path_eqb_eq in Hop as ->. apply list_elem_of_In in Hin. eauto.
  - intros (d & Hin). exists (MkDataset p d).
    split; [apply list_elem_of_In; exact Hin|apply path_eqb_refl].
Qed.

Lemma path3_inj (a b c a' b' c' : string) :
  [a; b; c] = [a'; b'; c'] -> a = a' /\ b = b' /\ c = c'.
Proof. intros [= -> -> ->]. auto. Qed.

Lemma path2_inj (a b a' b' : string) : [a; b] = [a'; b'] -> a = a' /\ b = b'.
Proof. intros [= -> ->]. auto. Qed.

Section ExportFile.

Variable self : OdimHierarchyPvol.

Lemma export_odim_sound :
  Forall (written_by_export self) (export_odim self).1
  /\ (count_datasets (export_odim self).1
      <= Z.to_nat (n_group_dataset self - 1) * Z.to_nat (n_datasets self - 1))%nat.
Proof.
  destruct (writes_export_odim self []) as (new & Hf & HP & Hc & _).
  unfold export_odim. rewrite Hf, app_nil_r. split; assumption.
Qed.

Lemma written_dataset (p : path) (d : ndarray) :
  written_by_export self (MkDataset p d) ->
  exists i j planes a,
    Z.of_nat i + 1 <= n_group_dataset self - 1
    /\ Z.of_nat j + 1 <= n_datasets self - 1
    /\ datasets self !! i = Some planes /\ planes !! j = Some a
    /\ p = [dataset_name (Z.of_nat i + 1); quantity_name (Z.of_nat j + 1); "data"]
    /\ d = nd_map to_f32 a.
Proof.
  intros [(o & _ & h & _ & [H|(? & ? & ? & _ & _ & _ & H)])
         |[(i & o & _ & _ & h & _ & [H|(? & ? & ? & _ & _ & _ & H)])
          |[(i & j & planes & a & Hi & Hj & Hp & Ha & H)
           |(i & j & planes & ws & o & _ & _ & _ & _ & _ & _ & h & _
             & [H|(? & ? & ? & _ & _ & _ & H)])]]]; try discriminate.
  injection H as -> ->. exists i, j, planes, a.
  rewrite split_path_data_name. auto 10.
Qed.

(** The arrays of the file: where they are, and what they hold. *)
Lemma export_odim_datasets (f : h5file) (r : result unit) (p : path) (d : ndarray) :
  export_odim self = (f, r) ->
  MkDataset p d ∈ f ->
  exists i j planes a,
    Z.of_nat i + 1 <= n_group_dataset self - 1
    /\ Z.of_nat j + 1 <= n_datasets self - 1
    /\ datasets self !! i = Some planes /\ planes !! j = Some a
    /\ p = [dataset_name (Z.of_nat i + 1); quantity_name (Z.of_nat j + 1); "data"]
    /\ d = nd_map to_f32 a.
Proof.
  intros Hrun Hin. pose proof (proj1 export_odim_sound) as Hs.
  rewrite Hrun in Hs. cbn [fst] in Hs.
  rewrite Forall_forall in Hs. apply written_dataset, Hs, Hin.
Qed.

Lemma export_odim_Ok (f : h5file) :
  export_odim self = (f, Ok tt) ->
  (group_created f (root_what self) /\ attrs_written f (root_what self) attrs_root_what)
  /\ (group_created f (root_where self)
      /\ attrs_written f (root_where self) attrs_root_where)
  /\ (group_created f (root_how self) /\ attrs_written f (root_how self) attrs_root_how)
  /\ forall i, Z.of_nat i + 1 <= n_group_dataset self - 1 -> elevation_written self f i.
Proof.
  unfold export_odim. intros H.
  apply M_bind_Ok in H as (s & [] & Hroot & H).
  unfold export_root in Hroot.
  apply M_bind_Ok in Hroot as (s1 & [] & Hc1 & Hroot).
  apply M_bind_Ok in Hroot as (s2 & [] & Hs1 & Hroot).
  destruct (create_then_setattrs _ _ _ _ _ Hc1 Hs1) as (_ & G1 & A1).
  apply M_bind_Ok in Hroot as (s3 & [] & Hc2 & Hroot).
  apply M_bind_Ok in Hroot as (s4 & [] & Hs2 & Hroot).
  destruct (create_then_setattrs _ _ _ _ _ Hc2 Hs2) as (E2 & G2 & A2).
  apply M_bind_Ok in Hroot as (s5 & [] & Hc3 & Hs3).
  destruct (create_then_setattrs _ _ _ _ _ Hc3 Hs3) as (E3 & G3 & A3).
  unfold export_elevations in H.
  assert (Hmono : forall (x : nat * Z) t0 t1 r,
             x ∈ enumerate (arange1 (n_group_dataset self)) ->
             export_elevation self x.1 x.2 t0 = (t1, r) -> ext t0 t1).
  { intros x t0 t1 r Hx Hb.
    apply elem_of_enumerate in Hx. apply lookup_arange1 in Hx as [Hx1 Hi].
    destruct x as [ix Kx]. cbn [fst snd] in *. subst Kx.
    eapply writes_ext; [apply (writes_export_elevation self ix Hi)|exact Hb]. }
  destruct (for_each_run _ _ _ _ Hmono H) as [E4 Hall].
  assert (E24 : ext s2 f) by (eapply ext_trans; [eapply ext_trans|]; eassumption).
  assert (E34 : ext s4 f) by (eapply ext_trans; eassumption).
  split; [split; [eapply group_created_ext|eapply attrs_written_ext]; eassumption|].
  split; [split; [eapply group_created_ext|eapply attrs_written_ext]; eassumption|].
  split; [split; [eapply group_created_ext|eapply attrs_written_ext]; eassumption|].
  intros i Hi.
  destruct (Hall (i, Z.of_nat i + 1) (enumerate_arange1 _ _ Hi))
    as (t0 & t1 & Hb & _ & E1').
  cbn [fst snd] in Hb.
  eapply elevation_written_ext; [eapply export_elevation_Ok; eassumption|exact E1'].
Qed.

(** Every array of the file is found at its name, with the values of
    the instance rounded to binary32. *)
Lemma export_odim_find_dataset (f : h5file) (r : result unit) (i j : nat)
      (planes : list ndarray) (a : ndarray) :
  export_odim self = (f, r) ->
  datasets self !! i = Some planes -> planes !! j = Some a ->
  MkDataset (split_path (data_name (Z.of_nat i + 1) (Z.of_nat j + 1)))
            (nd_map to_f32 a) ∈ f ->
  find_dataset f (split_path (data_name (Z.of_nat i + 1) (Z.of_nat j + 1)))
  = Some (nd_map to_f32 a).
Proof.
  intros Hrun Hp Ha Hin.
  destruct (elem_find_dataset _ _ _ Hin) as (d' & Hd'). rewrite Hd'. f_equal.
  apply find_dataset_elem in Hd'.
  destruct (export_odim_datasets _ _ _ _ Hrun Hd')
    as (i' & j' & planes' & a' & _ & _ & Hp' & Ha' & Hpath & ->).
  rewrite split_path_data_name in Hpath. apply path3_inj in Hpath as (Hi & Hj & _).
  apply dataset_name_inj in Hi. apply quantity_name_inj in Hj.
  assert (i' = i) by lia. assert (j' = j) by lia. subst i' j'.
  congruence.
Qed.

End ExportFile.


(* ===================================================================== *)
(** * Export, then read: the round trip                                  *)
(* ===================================================================== *)

(** ** The order of the keys *)

Lemma str_lt_trans (a b c : string) : str_lt a b -> str_lt b c -> str_lt a c.
Proof.
  unfold str_lt. intros H1 H2.
  apply OrderedTypeEx.String_as_OT.cmp_lt in H1, H2.
  apply OrderedTypeEx.String_as_OT.cmp_lt.
  eapply OrderedTypeEx.String_as_OT.lt_trans; eassumption.
Qed.

Lemma str_lt_irrefl (a : string) : ~ str_lt a a.
Proof.
  unfold str_lt. intros H. apply OrderedTypeEx.String_as_OT.cmp_lt in H.
  exact (OrderedTypeEx.String_as_OT.lt_not_eq _ _ H eq_refl).
Qed.

Lemma str_gt_lt (a b : string) : String.compare a b = Gt -> str_lt b a.
Proof.
  unfold str_lt. intros H. rewrite String.compare_antisym, H. reflexivity.
Qed.

Lemma insert_name_elem (x n : string) (l : list string) :
  x ∈ insert_name n l <-> x = n \/ x ∈ l.
Proof.
  induction l as [|h t IH]; cbn [insert_name].
  - rewrite list_elem_of_singleton, elem_of_nil. tauto.
  - destruct (String.compare n h) eqn:E.
    + apply String.compare_eq_iff in E as ->. rewrite elem_of_cons. tauto.
    + rewrite !elem_of_cons. tauto.
    + rewrite !elem_of_cons, IH. tauto.
Qed.

Lemma insert_name_sorted (n : string) (l : list string) :
  StronglySorted str_lt l -> StronglySorted str_lt (insert_name n l).
Proof.
  induction 1 as [|h t Ht IH Hh]; cbn [insert_name].
  - repeat constructor.
  - destruct (String.compare n h) eqn:E.
    + constructor; assumption.
    + constructor; [constructor; assumption|].
      constructor; [exact E|].
      eapply Forall_impl; [exact Hh|]. intros y Hy. eapply str_lt_trans; eassumption.
    + constructor; [exact IH|].
      apply Forall_forall. intros y Hy. apply insert_name_elem in Hy as [->|Hy].
      * apply str_gt_lt, E.
      * rewrite Forall_forall in Hh. apply Hh, Hy.
Qed.

Lemma sorted_names_elem (l : list string) (x : string) :
  x ∈ fold_right insert_name [] l <-> x ∈ l.
Proof.
  induction l as [|n l IH]; cbn [fold_right]; [reflexivity|].
  rewrite insert_name_elem, IH, elem_of_cons. reflexivity.
Qed.

Lemma sorted_names_sorted (l : list string) :
  StronglySorted str_lt (fold_right insert_name [] l).
Proof.
  induction l as [|n l IH]; cbn [fold_right]; [constructor|].
  apply insert_name_sorted, IH.
Qed.

Lemma filter_sorted (P : string -> bool) (l : list string) :
  StronglySorted str_lt l -> StronglySorted str_lt (List.filter P l).
Proof.
  induction 1 as [|h t Ht IH Hh]; cbn [List.filter]; [constructor|].
  destruct (P h); [|exact IH].
  constructor; [exact IH|].
  apply Forall_forall. intros y Hy. apply list_elem_of_In, filter_In in Hy as [Hy _].
  rewrite Forall_forall in Hh. apply Hh, list_elem_of_In, Hy.
Qed.

Lemma sorted_unique (l1 l2 : list string) :
  StronglySorted str_lt l1 -> StronglySorted str_lt l2 ->
  (forall x, x ∈ l1 <-> x ∈ l2) -> l1 = l2.
Proof.
  intros H1. revert l2. induction H1 as [|a l1 Hl1 IH Ha]; intros l2 H2 Heq.
  - destruct l2 as [|b l2]; [reflexivity|].
    exfalso. apply (elem_of_nil b), Heq. left.
  - destruct H2 as [|b l2 Hl2 Hb].
    { exfalso. apply (elem_of_nil a), Heq. left. }
    rewrite Forall_forall in Ha, Hb.
    assert (a = b) as ->.
    { assert (Hab : a ∈ b :: l2) by (apply Heq; left).
      assert (Hba : b ∈ a :: l1) by (apply Heq; left).
      apply elem_of_cons in Hab as [->|Hab]; [reflexivity|].
      apply elem_of_cons in Hba as [->|Hba]; [reflexivity|].
      exfalso. apply (str_lt_irrefl a).
      eapply str_lt_trans; [apply Ha, Hba|apply Hb, Hab]. }
    f_equal. apply IH; [exact Hl2|].
    intros x. split; intros Hx.
    + assert (Hx' : x ∈ b :: l2) by (apply Heq; right; exact Hx).
      apply elem_of_cons in Hx' as [->|Hx']; [|exact Hx'].
      exfalso. exact (str_lt_irrefl b (Ha b Hx)).
    + assert (Hx' : x ∈ b :: l1) by (apply Heq; right; exact Hx).
      apply elem_of_cons in Hx' as [->|Hx']; [|exact Hx'].
      exfalso. exact (str_lt_irrefl b (Hb b Hx)).
Qed.

Lemma arange1_upto (n : Z) : arange1 n = upto (Z.to_nat (n - 1)).
Proof. reflexivity. Qed.

Lemma elem_of_upto (k : nat) (x : Z) : x ∈ upto k <-> 1 <= x <= Z.of_nat k.
Proof.
  unfold upto. change (map ?f ?l) with (f <$> l). rewrite list_elem_of_fmap. split.
  - intros (i & -> & Hi). apply elem_of_seq in Hi. lia.
  - intros Hx. exists (Z.to_nat (x - 1)). split; [lia|]. apply elem_of_seq. lia.
Qed.

Lemma lookup_upto (k i : nat) : (i < k)%nat -> upto k !! i = Some (Z.of_nat i + 1).
Proof.
  intros Hi. unfold upto. change (map ?f ?l) with (f <$> l).
  rewrite list_lookup_fmap, lookup_seq_lt by exact Hi. reflexivity.
Qed.

Lemma length_upto (k : nat) : length (upto k) = k.
Proof. unfold upto. rewrite length_map, length_seq. reflexivity. Qed.

Lemma sortedb_sorted (l : list string) : sortedb l = true -> StronglySorted str_lt l.
Proof.
  induction l as [|a t IH]; [constructor|].
  cbn [sortedb]. intros H. apply andb_true_iff in H as [Ha Ht].
  constructor; [exact (IH Ht)|].
  apply Forall_forall. intros b Hb. rewrite forallb_forall in Ha.
  apply list_elem_of_In in Hb. apply Ha in Hb. apply bool_decide_eq_true in Hb. exact Hb.
Qed.

(** Up to nine, the names that end in a number are in the order of their
    numbers. *)
Lemma numbered_names_sorted (pre : string) (k : nat) :
  pre = "dataset" \/ pre = "data" -> (k <= 9)%nat ->
  StronglySorted str_lt (map (fun K => pre ++ pretty K) (upto k)).
Proof.
  intros Hpre Hk.
  do 10 (destruct k as [|k];
         [destruct Hpre as [-> | ->]; apply sortedb_sorted; vm_compute; reflexivity|]).
  lia.
Qed.

Lemma is_infix_prefix (pat s : string) : is_infix pat (pat ++ s) = true.
Proof.
  assert (H : String.prefix pat (pat ++ s) = true).
  { induction pat as [|c pat IH]; [destruct s; reflexivity|].
    change (String c pat ++ s) with (String c (pat ++ s)). cbn.
    destruct (ascii_dec c c); [exact IH|contradiction]. }
  destruct (pat ++ s); cbn [is_infix]; rewrite H; reflexivity.
Qed.

Lemma keys_filter (f : h5file) (p : path) (P : string -> bool) (T ks : list string) :
  keys f (Group p) = Ok ks ->
  StronglySorted str_lt T ->
  (forall x, x ∈ T <-> P x = true /\ group_member f p x) ->
  List.filter P ks = T.
Proof.
  intros [= <-] HT Hmem. apply sorted_unique; [|exact HT|].
  - apply filter_sorted, sorted_names_sorted.
  - intros x. rewrite Hmem.
    rewrite list_elem_of_In, filter_In, <- list_elem_of_In, sorted_names_elem.
    rewrite list_elem_of_omap. unfold group_member. split.
    + intros [(op & Hop & Hx) HP]. split; [exact HP|].
      destruct (op_object op) as [q|] eqn:Hq; [|discriminate].
      cbn in Hx. destruct (is_prefix p q) eqn:Hpre; [|discriminate].
      exists op, q. auto.
    + intros [HP (op & q & Hop & Hq & Hpre & Hx)]. split; [|exact HP].
      exists op. split; [exact Hop|]. rewrite Hq. cbn. rewrite Hpre. exact Hx.
Qed.

(** ** The groups of a volume and their names *)

Lemma split_path_dataset_name (K : Z) (rest : string) :
  split_path (dataset_name K ++ String "/" rest) = dataset_name K :: split_path rest.
Proof.
  apply split_path_cons; [apply dataset_name_no_slash|discriminate].
Qed.

Lemma split_path_quantity_name (J : Z) (rest : string) :
  split_path (quantity_name J ++ String "/" rest) = quantity_name J :: split_path rest.
Proof.
  apply split_path_cons; [apply quantity_name_no_slash|discriminate].
Qed.

Lemma split_path_role_name (r : role) : split_path (role_name r) = role_path r.
Proof.
  destruct r; cbn [role_name role_path]; try reflexivity;
    try (rewrite split_path_dataset_name; reflexivity).
  change ("/" ++ quantity_name (Z.of_nat j + 1) ++ "/what")
    with (String "/" (quantity_name (Z.of_nat j + 1) ++ String "/" "what")).
  rewrite split_path_dataset_name, split_path_quantity_name. reflexivity.
Qed.

Lemma quantity_name_not_group (J : Z) (g : string) :
  g = "what" \/ g = "where" \/ g = "how" -> quantity_name J <> g.
Proof.
  intros Hg H. unfold quantity_name in H.
  destruct Hg as [-> | [-> | ->]]; discriminate H.
Qed.

Lemma dataset_name_not_group (K : Z) (g : string) :
  g = "what" \/ g = "where" \/ g = "how" -> dataset_name K <> g.
Proof.
  intros Hg H. unfold dataset_name in H.
  destruct Hg as [-> | [-> | ->]]; discriminate H.
Qed.

Lemma role_path_inj (r r' : role) :
  role_path r = role_path r' -> is_how r = false -> r = r'.
Proof.
  destruct r, r'; cbn [role_path is_how]; intros H Hh;
    try discriminate Hh; try discriminate H; try reflexivity;
    try (apply path2_inj in H as [H1 H2]; try discriminate H2;
         apply dataset_name_inj in H1; f_equal; lia).
  apply path3_inj in H as (H1 & H2 & _).
  apply dataset_name_inj in H1. apply quantity_name_inj in H2. f_equal; lia.
Qed.

Section Exported.

Variable self : OdimHierarchyPvol.
Hypothesis Hcanon : canonical self.
Variable f : h5file.
Hypothesis Hrun : export_odim self = (f, Ok tt).

Lemma written_role (op : h5op) :
  written_by_export self op ->
  (exists r o, role_exported self r /\ role_obj self r = Some o /\ from_obj o op)
  \/ (exists p d, op = MkDataset p d).
Proof.
  intros [(o & Ho & Hop)
         |[(i & o & Hi & Ho & Hop)
          |[(i & j & planes & a & _ & _ & _ & _ & ->)
           |(i & j & planes & ws & o & Hi & Hj & Hp & Hlt & Hws & Ho & Hop)]]].
  - left. apply elem_of_cons in Ho as [->|Ho];
      [exists RootWhat, (root_what self); split; [exact I|split; [reflexivity|exact Hop]]|].
    apply elem_of_cons in Ho as [->|Ho];
      [exists RootWhere, (root_where self); split; [exact I|split; [reflexivity|exact Hop]]|].
    apply list_elem_of_singleton in Ho as ->.
    exists RootHow, (root_how self); split; [exact I|split; [reflexivity|exact Hop]].
  - left. destruct Ho as [Ho|[Ho|[Ho|Ho]]];
      [exists (SweepWhat i), o|exists (SweepWhere i), o
      |exists (SweepHowPolar i), o|exists (SweepHowRadar i), o];
      (split; [exact Hi|split; [exact Ho|exact Hop]]).
  - right. eauto.
  - left. exists (QuantityWhat i j), o. split; [cbn; eauto 10|].
    split; [cbn; rewrite Hws; exact Ho|exact Hop].
Qed.

Lemma exported_op (op : h5op) : op ∈ f -> written_by_export self op.
Proof.
  intros Hin. pose proof (proj1 (export_odim_sound self)) as Hs.
  rewrite Hrun in Hs. cbn [fst] in Hs. rewrite Forall_forall in Hs. exact (Hs op Hin).
Qed.

Lemma group_op_role (q : path) :
  MkGroup q ∈ f -> exists r, role_exported self r /\ q = role_path r.
Proof.
  intros Hin. destruct (written_role _ (exported_op _ Hin))
    as [(r & o & Hr & Ho & h & Hh & Hop)|(p & d & H)]; [|discriminate].
  rewrite (Hcanon r o Hr Ho) in Hh. injection Hh as <-.
  exists r. split; [exact Hr|].
  destruct Hop as [[= ->]|(? & ? & ? & _ & _ & _ & H)]; [|discriminate].
  apply split_path_role_name.
Qed.

Lemma attr_op_role (q : path) (n : string) (v : h5attr) :
  SetAttr q n v ∈ f ->
  exists r o pv, role_exported self r /\ role_obj self r = Some o /\ q = role_path r
                 /\ o !! n = Some pv /\ pv <> PNone /\ stored_value pv = Ok v.
Proof.
  intros Hin. destruct (written_role _ (exported_op _ Hin))
    as [(r & o & Hr & Ho & h & Hh & Hop)|(p & d & H)]; [|discriminate].
  rewrite (Hcanon r o Hr Ho) in Hh. injection Hh as <-.
  destruct Hop as [H|(n' & pv & a & Hpv & Hne & Ha & [= -> -> ->])]; [discriminate|].
  exists r, o, pv. rewrite split_path_role_name. auto 10.
Qed.

(** An attribute found in the file at the place of a group is the stored
    value of the attribute of the instance. *)
Lemma find_attr_exported (r : role) (n : string) (v : h5attr) :
  is_how r = false ->
  find_attr f (role_path r) n = Some v ->
  exists o pv, role_exported self r /\ role_obj self r = Some o
               /\ o !! n = Some pv /\ pv <> PNone /\ stored_value pv = Ok v.
Proof.
  intros Hhow Hfind. apply find_attr_elem in Hfind.
  destruct (attr_op_role _ _ _ Hfind) as (r' & o & pv & Hr & Ho & Hpath & Hpv & Hne & Hv).
  apply role_path_inj in Hpath; [|exact Hhow]. subst r'. eauto 10.
Qed.

(** An attribute of the instance that was written is found. *)
Lemma find_attr_written (r : role) (o : obj) (L : list string) (n : string) (pv : pyval) :
  role_exported self r -> role_obj self r = Some o ->
  attrs_written f o L -> n ∈ L -> o !! n = Some pv -> pv <> PNone ->
  exists v, find_attr f (role_path r) n = Some v.
Proof.
  intros Hr Ho (h & Hh & Hall) Hn Hpv Hne.
  rewrite (Hcanon r o Hr Ho) in Hh. injection Hh as <-.
  destruct (Hall n pv Hn Hpv Hne) as (a & _ & Hin).
  rewrite split_path_role_name in Hin. eapply elem_find_attr, Hin.
Qed.

(** The groups of the root. *)
Lemma root_members (x : string) :
  is_infix "dataset" x = true /\ group_member f [] x
  <-> x ∈ map dataset_name (arange1 (n_group_dataset self)).
Proof.
  change (map ?g ?l) with (g <$> l). rewrite list_elem_of_fmap. split.
  - intros [Hinf (op & q & Hop & Hq & _ & Hx)]. cbn [length] in Hx.
    assert (Hds : forall i, Z.of_nat i + 1 <= n_group_dataset self - 1 ->
              exists y, dataset_name (Z.of_nat i + 1) = dataset_name y
                        /\ y ∈ arange1 (n_group_dataset self)).
    { intros i Hi. exists (Z.of_nat i + 1). split; [reflexivity|].
      rewrite arange1_upto. apply elem_of_upto. lia. }
    destruct op as [q'|q' d|]; try discriminate; injection Hq as ->.
    + destruct (group_op_role _ Hop) as (r & Hr & ->).
      destruct r; cbn [role_path] in Hx; injection Hx as <-;
        try discriminate Hinf; cbn [role_exported] in Hr;
        try (apply Hds; exact Hr).
      apply Hds, Hr.
    + destruct (export_odim_datasets self _ _ _ _ Hrun Hop)
        as (i & j & planes & a & Hi & _ & _ & _ & -> & _).
      injection Hx as <-. apply Hds, Hi.
  - intros (K & -> & HK). rewrite arange1_upto in HK. apply elem_of_upto in HK.
    split; [apply is_infix_prefix|].
    destruct (export_odim_Ok self f Hrun) as (_ & _ & _ & Hall).
    assert (Hi : Z.of_nat (Z.to_nat (K - 1)) + 1 <= n_group_dataset self - 1) by lia.
    destruct (Hall _ Hi) as ((o & Ho & (h & Hh & Hin) & _) & _).
    assert (Hh' : h = role_name (SweepWhat (Z.to_nat (K - 1)))).
    { pose proof (Hcanon (SweepWhat (Z.to_nat (K - 1))) o Hi Ho). congruence. }
    rewrite Hh', split_path_role_name in Hin. cbn [role_path] in Hin.
    replace (Z.of_nat (Z.to_nat (K - 1)) + 1) with K in Hin by lia.
    exists (MkGroup [dataset_name K; "what"]), [dataset_name K; "what"].
    split; [exact Hin|]. split; [reflexivity|]. split; reflexivity.
Qed.

Lemma lookup_written_planes (i j : nat) (a : ndarray) :
  written_planes self i !! j = Some a
  <-> Z.of_nat j + 1 <= n_datasets self - 1
      /\ exists planes, datasets self !! i = Some planes /\ planes !! j = Some a.
Proof.
  unfold written_planes. rewrite lookup_take_Some. split.
  - intros [Ha Hj]. split; [lia|].
    destruct (datasets self !! i) as [planes|]; [eauto|discriminate].
  - intros [Hj (planes & -> & Ha)]. split; [exact Ha|lia].
Qed.

(** The quantity groups of an elevation. *)
Lemma sweep_members (i : nat) (x : string) :
  Z.of_nat i + 1 <= n_group_dataset self - 1 ->
  is_infix "data" x = true /\ group_member f [dataset_name (Z.of_nat i + 1)] x
  <-> x ∈ map quantity_name (upto (length (written_planes self i))).
Proof.
  intros Hi.
  change (map ?g ?l) with (g <$> l). rewrite list_elem_of_fmap. split.
  - intros [Hinf (op & q & Hop & Hq & Hpre & Hx)]. cbn [length] in Hx.
    assert (Hq' : forall j, Z.of_nat j + 1 <= n_datasets self - 1 ->
              (exists planes, datasets self !! i = Some planes /\ (j < length planes)%nat) ->
              exists y, quantity_name (Z.of_nat j + 1) = quantity_name y
                        /\ y ∈ upto (length (written_planes self i))).
    { intros j Hj (planes & Hp & Hlt). exists (Z.of_nat j + 1). split; [reflexivity|].
      apply elem_of_upto. split; [lia|].
      unfold written_planes. rewrite Hp.
      change (default [] (Some planes)) with planes. rewrite length_take. lia. }
    destruct op as [q'|q' d|]; try discriminate; injection Hq as ->.
    + destruct (group_op_role _ Hop) as (r & Hr & ->).
      destruct r; cbn [role_path] in Hx, Hpre; try discriminate Hx;
        injection Hx as <-; try discriminate Hinf.
      cbn [is_prefix] in Hpre. apply andb_true_iff in Hpre as [Hpre _].
      apply String.eqb_eq, dataset_name_inj in Hpre.
      assert (i0 = i) by lia. subst i0.
      destruct Hr as (_ & Hj & Hplanes). apply Hq'; assumption.
    + destruct (export_odim_datasets self _ _ _ _ Hrun Hop)
        as (i' & j & planes & a & _ & Hj & Hp & Ha & -> & _).
      injection Hx as <-.
      cbn [is_prefix] in Hpre. apply andb_true_iff in Hpre as [Hpre _].
      apply String.eqb_eq, dataset_name_inj in Hpre.
      assert (i' = i) by lia. subst i'.
      apply Hq'; [exact Hj|]. exists planes. split; [exact Hp|].
      eapply lookup_lt_Some, Ha.
  - intros (J & -> & HJ). apply elem_of_upto in HJ.
    split; [apply is_infix_prefix|].
    destruct (lookup_lt_is_Some_2 (written_planes self i) (Z.to_nat (J - 1))) as (a & Ha); [lia|].
    apply lookup_written_planes in Ha as (Hj & planes & Hp & Ha).
    destruct (export_odim_Ok self f Hrun) as (_ & _ & _ & Hall).
    destruct (Hall _ Hi) as (_ & _ & _ & _ & Hq).
    destruct (Hq _ Hj planes a Hp Ha) as [Hin _].
    rewrite split_path_data_name in Hin.
    replace (Z.of_nat (Z.to_nat (J - 1)) + 1) with J in Hin by lia.
    eexists _, _. split; [exact Hin|]. split; [reflexivity|].
    split; [|reflexivity]. cbn [is_prefix]. rewrite String.eqb_refl. reflexivity.
Qed.

End Exported.

(** The volumes of the examples carry the ODIM names. *)
Ltac canonical_at Ho :=
  apply (f_equal (fun x => match x with
                           | Some o' => hierarchy o'
                           | None => Raise KeyError
                           end)) in Ho;
  cbn beta iota in Ho; rewrite <- Ho; vm_compute; reflexivity.

Ltac canonical_by_cases :=
  intros [| | |i|i|i|i|i j] o Hr Ho; cbn [role_exported] in Hr;
  [ canonical_at Ho | canonical_at Ho | canonical_at Ho
  | destruct i as [|[|i]]; [canonical_at Ho|canonical_at Ho|cbn in Hr; lia]
  | destruct i as [|[|i]]; [canonical_at Ho|canonical_at Ho|cbn in Hr; lia]
  | destruct i as [|[|i]]; [canonical_at Ho|canonical_at Ho|cbn in Hr; lia]
  | destruct i as [|[|i]]; [canonical_at Ho|canonical_at Ho|cbn in Hr; lia]
  | destruct Hr as (Hi & Hj & _);
    destruct i as [|[|i]]; [| |cbn in Hi; lia];
    (destruct j as [|[|j]]; [canonical_at Ho|canonical_at Ho|cbn in Hj; lia]) ].

Lemma three_sweeps_canonical : canonical Cases.three_sweeps.
Proof. canonical_by_cases. Qed.

Lemma fine_sweeps_canonical : canonical Cases.fine_sweeps.
Proof. canonical_by_cases. Qed.



(** ** What is read back *)

Lemma stored_read_raw (pv : pyval) (v : h5attr) :
  stored_value pv = Ok v -> pyval_of_h5 v = read_raw pv.
Proof.
  destruct pv as [|s|w s|z|x|a]; cbn.
  - discriminate.
  - unfold np_bytes. destruct (is_ascii s); [|discriminate]. cbn. intros [= <-]. reflexivity.
  - intros [= <-]. reflexivity.
  - destruct (_ && _); [|discriminate]. intros [= <-]. reflexivity.
  - intros [= <-]. reflexivity.
  - intros [= <-]. reflexivity.
Qed.

Lemma stored_read_back (pv : pyval) (v : h5attr) :
  stored_value pv = Ok v ->
  match v with HBytes _ s => PStr (rstrip_nul s) | _ => pyval_of_h5 v end = read_back pv.
Proof.
  destruct pv as [|s|w s|z|x|a]; cbn.
  - discriminate.
  - unfold np_bytes. destruct (is_ascii s); [|discriminate]. cbn. intros [= <-]. reflexivity.
  - intros [= <-]. reflexivity.
  - destruct (_ && _); [|discriminate]. intros [= <-]. reflexivity.
  - intros [= <-]. reflexivity.
  - intros [= <-]. reflexivity.
Qed.

(** A byte string stored by the export is ASCII. *)
Lemma stored_ascii (pv : pyval) (w : nat) (s : string) :
  stored_value pv = Ok (HBytes w s) ->
  (exists n, pv = PBytes n s) \/ (pv = PStr s /\ is_ascii s = true).
Proof.
  destruct pv as [|s'|w' s'|z|x|a]; cbn.
  - discriminate.
  - unfold np_bytes. destruct (is_ascii s') eqn:E; [|discriminate]. cbn.
    intros [= _ <-]. right. auto.
  - intros [= _ <-]. left. eauto.
  - destruct (_ && _); discriminate.
  - discriminate.
  - discriminate.
Qed.

Lemma foldM_indexed {A B} (f : B -> A -> result B) (I : nat -> B -> Prop)
      (xs : list A) (acc out : B) :
  I 0%nat acc ->
  (forall k x a a', xs !! k = Some x -> I k a -> f a x = Ok a' -> I (S k) a') ->
  foldM f xs acc = Ok out -> I (length xs) out.
Proof.
  revert I acc. induction xs as [|x xs IH]; intros I acc H0 Hstep H.
  - injection H as <-. exact H0.
  - cbn in H. apply rbind_Ok in H as (acc' & Hx & H).
    apply (IH (fun k => I (S k)) acc').
    + exact (Hstep 0%nat x acc acc' eq_refl H0 Hx).
    + intros k y a a' Hy. exact (Hstep (S k) y a a' Hy).
    + exact H.
Qed.

Lemma mapM_lookup {A B} (f : A -> result B) (xs : list A) (ys : list B) :
  mapM f xs = Ok ys ->
  length ys = length xs
  /\ forall i x, xs !! i = Some x -> exists y, f x = Ok y /\ ys !! i = Some y.
Proof.
  revert ys. induction xs as [|x xs IH]; intros ys H.
  - injection H as <-. split; [reflexivity|]. intros i x Hx. discriminate.
  - cbn in H. apply rbind_Ok in H as (y & Hy & H).
    apply rbind_Ok in H as (ys' & Hys & [= <-]).
    destruct (IH _ Hys) as [Hlen Hall]. split; [cbn; lia|].
    intros [|i] x' Hx'.
    + injection Hx' as <-. eauto.
    + exact (Hall i x' Hx').
Qed.

Lemma indexed_nil {A} (P : nat -> A -> Prop) : indexed P 0 [].
Proof. split; [reflexivity|]. intros i x H. discriminate. Qed.

Lemma indexed_snoc {A} (P : nat -> A -> Prop) (k : nat) (l : list A) (x : A) :
  indexed P k l -> P k x -> indexed P (S k) (l ++ [x]).
Proof.
  intros [Hlen Hall] Hx. split; [rewrite length_app; cbn; lia|].
  intros i y Hy. destruct (decide (i < length l)%nat) as [Hlt|Hge].
  - rewrite lookup_app_l in Hy by exact Hlt. exact (Hall i y Hy).
  - rewrite lookup_app_r in Hy by lia.
    destruct (i - length l)%nat as [|d] eqn:E; [|destruct d; discriminate].
    injection Hy as <-. replace i with k by lia. exact Hx.
Qed.

Lemma getitem_h5_path (f : h5file) (base : path) (name : string) (g : h5obj) :
  getitem_h5 f base name = Ok g -> obj_path g = (base ++ split_path name)%list.
Proof.
  unfold getitem_h5. destruct (find_dataset f _); [intros [= <-]; reflexivity|].
  destruct (is_group f _); [intros [= <-]; reflexivity|discriminate].
Qed.

Lemma getitem_h5_read_all (f : h5file) (base : path) (name : string) (g : h5obj)
      (a : ndarray) :
  getitem_h5 f base name = Ok g -> read_all g = Ok a ->
  find_dataset f (base ++ split_path name)%list = Some a.
Proof.
  unfold getitem_h5. destruct (find_dataset f _) as [d|].
  - intros [= <-] [= <-]. reflexivity.
  - destruct (is_group f _); [intros [= <-]; discriminate|discriminate].
Qed.

Lemma attrs_getitem_Ok (f : h5file) (p : path) (name : string) (pv : pyval) :
  attrs_getitem f p name = Ok pv ->
  exists v, find_attr f p name = Some v /\ pv = pyval_of_h5 v.
Proof.
  unfold attrs_getitem. destruct (find_attr f p name) as [v|]; [|discriminate].
  intros [= <-]. eauto.
Qed.

(** What [get_attrs_from_odimgroup] leaves for one name. *)
Lemma get_attrs_from_odimgroup_lookup
      (attrs_list : list string) (hr : h5file) (hgroup : h5obj)
      (out_cont out : obj) (name : string) :
  get_attrs_from_odimgroup attrs_list hr hgroup out_cont = Ok out ->
  out !! name
  = match (if bool_decide (name ∈ attrs_list)
           then find_attr hr (obj_path hgroup) name else None) with
    | Some (HBytes _ s) => Some (PStr (rstrip_nul s))
    | Some v => Some (pyval_of_h5 v)
    | None => out_cont !! name
    end.
Proof.
  unfold get_attrs_from_odimgroup.
  revert out_cont. induction attrs_list as [|att rest IH]; intros out_cont H.
  - injection H as <-. reflexivity.
  - apply foldM_Ok_cons in H as (out1 & Hstep & Hrest).
    specialize (IH _ Hrest).
    assert (Hout1 : out1 !! name
                    = if String.eqb att name
                      then match find_attr hr (obj_path hgroup) name with
                           | Some (HBytes _ s) => Some (PStr (rstrip_nul s))
                           | Some v => Some (pyval_of_h5 v)
                           | None => out_cont !! name
                           end
                      else out_cont !! name).
    { unfold attrs_contains, attrs_getitem in Hstep.
      destruct (String.eqb_spec att name) as [->|Hne].
      - destruct (find_attr hr (obj_path hgroup) name) as [v|].
        + rewrite bool_decide_eq_true_2 in Hstep by eauto. cbn in Hstep.
          destruct v; cbn in Hstep;
            try (injection Hstep as <-; unfold setattr; apply lookup_insert_eq).
          apply rbind_Ok in Hstep as (s' & Hs' & [= <-]).
          apply decode_Ok in Hs' as ->. unfold setattr. apply lookup_insert_eq.
        + rewrite bool_decide_eq_false_2 in Hstep by (intros [? ?]; discriminate).
          injection Hstep as <-. reflexivity.
      - destruct (bool_decide _) in Hstep; [|injection Hstep as <-; reflexivity].
        apply rbind_Ok in Hstep as (v & _ & Hv).
        destruct v; try (injection Hv as <-; unfold setattr;
                         apply lookup_insert_ne; exact Hne).
        apply rbind_Ok in Hv as (s' & _ & [= <-]).
        unfold setattr. apply lookup_insert_ne. exact Hne. }
    rewrite IH, Hout1.
    destruct (decide (name ∈ rest)) as [Hin|Hnin].
    + rewrite (bool_decide_eq_true_2 (name ∈ rest)) by exact Hin.
      rewrite (bool_decide_eq_true_2 (name ∈ att :: rest)) by (right; exact Hin).
      destruct (find_attr hr (obj_path hgroup) name) as [[]|]; try reflexivity.
      destruct (String.eqb att name); reflexivity.
    + rewrite (bool_decide_eq_false_2 (name ∈ rest)) by exact Hnin.
      destruct (String.eqb_spec att name) as [->|Hne].
      * rewrite (bool_decide_eq_true_2 (name ∈ name :: rest)) by left.
        reflexivity.
      * rewrite (bool_decide_eq_false_2 (name ∈ att :: rest)); [reflexivity|].
        intros Hin. apply elem_of_cons in Hin as [Heq|Hin]; congruence.
Qed.

Lemma py_in_true (x : pyval) (xs : list pyval) :
  py_in x xs = Ok true -> exists y, y ∈ xs /\ py_eq y x = Ok true.
Proof.
  induction xs as [|z xs IH]; [discriminate|].
  cbn. destruct (py_eq z x) as [[]|] eqn:Hz; try discriminate.
  - intros _. exists z. split; [left|exact Hz].
  - intros H. destruct (IH H) as (y & Hy & Hyx). exists y. split; [right; exact Hy|exact Hyx].
Qed.

Section ReadBack.

Variable self : OdimHierarchyPvol.
Hypothesis Hcanon : canonical self.
Variable f : h5file.
Hypothesis Hrun : export_odim self = (f, Ok tt).

Let N := n_group_dataset self.
Let M := n_datasets self.

(** One attribute of a quantity group, read with [attrs[...]]. *)
Lemma attrs_getitem_quantity (i j : nat) (n : string) (pv : pyval) :
  attrs_getitem f (role_path (QuantityWhat i j)) n = Ok pv ->
  exists o, role_obj self (QuantityWhat i j) = Some o
            /\ pv = read_raw (struct_getitem o n).
Proof.
  intros H. apply attrs_getitem_Ok in H as (v & Hfind & ->).
  destruct (find_attr_exported self Hcanon f Hrun (QuantityWhat i j) n v eq_refl Hfind)
    as (o & pv & _ & Ho & Hpv & _ & Hv).
  exists o. split; [exact Ho|].
  unfold struct_getitem. rewrite Hpv. apply stored_read_raw, Hv.
Qed.

Lemma read_quantity_exported (i j : nat) (a : ndarray)
      (l1 : list ndarray) (l2 : list obj) (allq : list pyval)
      (acc' : list ndarray * list obj * list pyval) :
  Z.of_nat i + 1 <= N - 1 ->
  written_planes self i !! j = Some a ->
  read_quantity f (dataset_name (Z.of_nat i + 1)) (l1, l2, allq)
                (quantity_name (Z.of_nat j + 1)) = Ok acc' ->
  exists o seen,
    role_obj self (QuantityWhat i j) = Some o
    /\ py_in (read_back (struct_getitem o "quantity")) allq = Ok seen
    /\ acc' = ((l1 ++ [nd_map to_f32 a])%list, (l2 ++ [what_read_back i j o])%list,
               if seen then allq
               else (allq ++ [read_back (struct_getitem o "quantity")])%list).
Proof.
  intros Hi Ha H. unfold read_quantity in H.
  apply lookup_written_planes in Ha as (Hj & planes & Hp & Ha).
  apply rbind_Ok in H as (o1 & Ho1 & H).
  apply rbind_Ok in H as (arr & Harr & H).
  pose proof (getitem_h5_read_all _ _ _ _ _ Ho1 Harr) as Hfd.
  change (dataset_name (Z.of_nat i + 1) ++ "/" ++ quantity_name (Z.of_nat j + 1) ++ "/data")
    with (dataset_name (Z.of_nat i + 1)
          ++ String "/" (quantity_name (Z.of_nat j + 1) ++ String "/" "data")) in Hfd.
  rewrite split_path_dataset_name, split_path_quantity_name in Hfd.
  change (split_path "data") with ["data"] in Hfd. cbn [app] in Hfd.
  assert (Harr' : arr = nd_map to_f32 a).
  { destruct (export_odim_Ok self f Hrun) as (_ & _ & _ & Hall).
    destruct (Hall i Hi) as (_ & _ & _ & _ & Hq).
    destruct (Hq j Hj planes a Hp Ha) as [Hin _].
    pose proof (export_odim_find_dataset self f _ i j planes a Hrun Hp Ha Hin) as Hfd'.
    rewrite split_path_data_name in Hfd'. congruence. }
  subst arr.
  apply rbind_Ok in H as (whatd & Hwhatd & H).
  apply getitem_h5_path in Hwhatd.
  change ([] ++ ?l)%list with l in Hwhatd.
  change (dataset_name (Z.of_nat i + 1) ++ "/" ++ quantity_name (Z.of_nat j + 1) ++ "/what")
    with (role_name (QuantityWhat i j)) in Hwhatd, H.
  rewrite split_path_role_name in Hwhatd. rewrite Hwhatd in H.
  apply rbind_Ok in H as (q0 & Hq0 & H).
  apply rbind_Ok in H as (q1 & Hq1 & H).
  apply rbind_Ok in H as (g0 & Hg0 & H).
  apply rbind_Ok in H as (of0 & Hof0 & H).
  apply rbind_Ok in H as (nd0 & Hnd0 & H).
  apply rbind_Ok in H as (ud0 & Hud0 & H).
  apply rbind_Ok in H as (seen & Hseen & [= <-]).
  destruct (attrs_getitem_quantity _ _ _ _ Hq0) as (o & Ho & ->).
  destruct (attrs_getitem_quantity _ _ _ _ Hg0) as (o' & Ho' & ->).
  rewrite Ho in Ho'. injection Ho' as <-.
  destruct (attrs_getitem_quantity _ _ _ _ Hof0) as (o' & Ho' & ->).
  rewrite Ho in Ho'. injection Ho' as <-.
  destruct (attrs_getitem_quantity _ _ _ _ Hnd0) as (o' & Ho' & ->).
  rewrite Ho in Ho'. injection Ho' as <-.
  destruct (attrs_getitem_quantity _ _ _ _ Hud0) as (o' & Ho' & ->).
  rewrite Ho in Ho'. injection Ho' as <-.
  assert (Hq : q1 = read_back (struct_getitem o "quantity")).
  { destruct (struct_getitem o "quantity") as [|s|w s|z|x|arr]; cbn in Hq1;
      try (injection Hq1 as <-; reflexivity);
      apply rbind_Ok in Hq1 as (s' & Hs' & [= <-]);
      apply decode_Ok in Hs' as ->; reflexivity. }
  subst q1. exists o, seen. split; [exact Ho|]. split; [exact Hseen|]. reflexivity.
Qed.


Lemma read_quantities_exported (i : nat) (allq0 : list pyval)
      (out : list ndarray * list obj * list pyval) :
  Z.of_nat i + 1 <= N - 1 ->
  foldM (read_quantity f (dataset_name (Z.of_nat i + 1)))
        (map quantity_name (upto (length (written_planes self i))))
        ([], [], allq0) = Ok out ->
  out.1.1 = map (nd_map to_f32) (written_planes self i)
  /\ indexed (what_group_read self i) (length (written_planes self i)) out.1.2
  /\ names_added self i (length (written_planes self i)) allq0 out.2.
Proof.
  intros Hi H.
  set (wp := written_planes self i) in *.
  pose proof (foldM_indexed (read_quantity f (dataset_name (Z.of_nat i + 1)))
    (fun k (acc : list ndarray * list obj * list pyval) =>
       acc.1.1 = map (nd_map to_f32) (take k wp)
       /\ indexed (what_group_read self i) k acc.1.2
       /\ names_added self i k allq0 acc.2)
    (map quantity_name (upto (length wp))) ([], [], allq0) out) as Hfold.
  rewrite length_map, length_upto, firstn_all in Hfold.
  apply Hfold; [| |exact H]; clear Hfold H.
  - cbn [fst snd]. split; [reflexivity|]. split; [apply indexed_nil|].
    split; [auto|]. split; [auto|]. intros j Hj. lia.
  - intros k x [[l1 l2] allq] acc' Hx (Hl1 & Hl2 & Hq) Hstep. cbn [fst snd] in *.
    change (map ?g ?l) with (g <$> l) in Hx. rewrite list_lookup_fmap in Hx.
    destruct (upto (length wp) !! k) as [J|] eqn:HJ; [|discriminate].
    injection Hx as <-.
    assert (Hk : (k < length wp)%nat).
    { apply lookup_lt_Some in HJ. rewrite length_upto in HJ. exact HJ. }
    rewrite (lookup_upto _ _ Hk) in HJ. injection HJ as <-.
    destruct (lookup_lt_is_Some_2 wp k Hk) as (a & Ha).
    destruct (read_quantity_exported i k a l1 l2 allq acc' Hi Ha Hstep)
      as (o & seen & Ho & Hseen & ->). cbn [fst snd].
    assert (Hqrb : quantity_read_back self i k = read_back (struct_getitem o "quantity")).
    { unfold quantity_read_back. rewrite Ho. reflexivity. }
    split; [|split].
    + rewrite (take_S_r _ _ _ Ha), map_app, Hl1. reflexivity.
    + apply indexed_snoc; [exact Hl2|]. exists o. auto.
    + destruct Hq as (Hq1 & Hq2 & Hq3). rewrite <- Hqrb in *.
      split; [|split].
      * intros q Hin. destruct seen; [auto|]. apply elem_of_app. left. auto.
      * intros q Hin.
        assert (Hcase : q ∈ allq \/ (seen = false /\ q = quantity_read_back self i k)).
        { destruct seen; [left; exact Hin|].
          apply elem_of_app in Hin as [Hin|Hin]; [left; exact Hin|].
          apply list_elem_of_singleton in Hin. right. auto. }
        destruct Hcase as [Hin'|[_ ->]].
        -- destruct (Hq2 q Hin') as [H0|(j & Hj & ->)]; [left; exact H0|].
           right. exists j. split; [lia|reflexivity].
        -- right. exists k. split; [lia|reflexivity].
      * intros j Hj. destruct (decide (j = k)) as [->|Hne].
        -- destruct seen.
           ++ apply py_in_true in Hseen as (y & Hy & Heq). exists y. auto.
           ++ exists (quantity_read_back self i k). split; [|left; reflexivity].
              apply elem_of_app. right. apply list_elem_of_singleton. reflexivity.
        -- destruct (Hq3 j) as (q' & Hin & Hq'); [lia|].
           exists q'. split; [|exact Hq'].
           destruct seen; [exact Hin|]. apply elem_of_app. left. exact Hin.
Qed.


Lemma length_written_planes (i : nat) :
  (length (written_planes self i) <= Z.to_nat (M - 1))%nat.
Proof. unfold written_planes. rewrite length_take. apply Nat.le_min_l. Qed.

Lemma read_where_exported (i : nat) (g : h5obj) (cont out : obj) :
  Z.of_nat i + 1 <= N - 1 ->
  obj_path g = role_path (SweepWhere i) ->
  cont !! "elangle" = Some PNone ->
  get_attrs_from_odimgroup attrs_dset_where f g cont = Ok out ->
  where_group_read self i out.
Proof.
  intros Hi Hg Hcont H.
  destruct (export_odim_Ok self f Hrun) as (_ & _ & _ & Hall).
  destruct (Hall i Hi) as (_ & (o & Ho & _ & Hw) & _).
  exists o. split; [exact Ho|].
  rewrite (get_attrs_from_odimgroup_lookup _ _ _ _ _ "elangle" H).
  rewrite bool_decide_eq_true_2
    by (apply list_elem_of_In; vm_compute; tauto).
  rewrite Hg.
  destruct (find_attr f (role_path (SweepWhere i)) "elangle") as [v|] eqn:Hfind.
  - destruct (find_attr_exported self Hcanon f Hrun (SweepWhere i) _ v eq_refl Hfind)
      as (o' & pv & _ & Ho' & Hpv & _ & Hv).
    cbn [role_obj] in Ho'. rewrite Ho in Ho'. injection Ho' as <-.
    unfold struct_getitem. rewrite Hpv.
    rewrite <- (stored_read_back pv v Hv). destruct v; reflexivity.
  - rewrite Hcont. unfold struct_getitem.
    destruct (o !! "elangle") as [pv|] eqn:Hpv; [|reflexivity].
    assert (Hcase : pv = PNone \/ pv <> PNone)
      by (destruct pv; (left; reflexivity) || (right; discriminate)).
    destruct Hcase as [->|Hne]; [reflexivity|].
    destruct (find_attr_written self Hcanon f (SweepWhere i) o attrs_dset_where
                "elangle" pv Hi Ho Hw) as (v & Hv); [|exact Hpv|exact Hne|congruence].
    apply list_elem_of_In. vm_compute. tauto.
Qed.

Lemma OdimWherePolarDset_elangle (h : string) (e a b c d g : pyval) :
  OdimWherePolarDset h e a b c d g !! "elangle" = Some e.
Proof. vm_compute. reflexivity. Qed.

Lemma read_elevation_exported (i : nat) (acc acc' : read_acc) :
  Z.of_nat i + 1 <= N - 1 -> M <= 10 ->
  read_elevation f acc (dataset_name (Z.of_nat i + 1)) = Ok acc' ->
  exists w' ws',
    where_group_read self i w'
    /\ gd_where_list acc' = (gd_where_list acc ++ [w'])%list
    /\ gd_datadset_list_total acc'
       = (gd_datadset_list_total acc
          ++ [map (nd_map to_f32) (written_planes self i)])%list
    /\ gd_data_what_list_total acc' = (gd_data_what_list_total acc ++ [ws'])%list
    /\ indexed (what_group_read self i) (length (written_planes self i)) ws'
    /\ names_added self i (length (written_planes self i))
                   (allquantities acc) (allquantities acc').
Proof.
  intros Hi HM H. unfold read_elevation in H.
  apply rbind_Ok in H as (g1 & Hg1 & H).
  apply rbind_Ok in H as (dg_what & Hdg_what & H).
  apply rbind_Ok in H as (g2 & Hg2 & H).
  apply rbind_Ok in H as (dg_where & Hdg_where & H).
  apply rbind_Ok in H as (g3 & Hg3 & H).
  apply rbind_Ok in H as (dg_how_radar & Hdg_how_radar & H).
  apply rbind_Ok in H as (dg_how_polar & Hdg_how_polar & H).
  apply rbind_Ok in H as (g & Hg & H).
  apply rbind_Ok in H as (ks & Hks & H).
  apply rbind_Ok in H as ([[l1 l2] allq] & Hfold & H).
  apply rbind_Ok in H as (stacked & Hstack & [= <-]).
  cbn [gd_where_list gd_datadset_list_total gd_data_what_list_total allquantities].
  apply vstack_Ok in Hstack as ->.
  (* the where group *)
  apply getitem_h5_path in Hg2. change ([] ++ ?l)%list with l in Hg2.
  change (dataset_name (Z.of_nat i + 1) ++ "/where")
    with (role_name (SweepWhere i)) in Hg2.
  rewrite split_path_role_name in Hg2.
  pose proof (read_where_exported i g2 _ dg_where Hi Hg2
                (OdimWherePolarDset_elangle _ _ _ _ _ _ _) Hdg_where) as Hwhere.
  (* the quantity groups *)
  assert (Hgp : g = Group [dataset_name (Z.of_nat i + 1)]).
  { apply getitem_h5_path in Hg. change ([] ++ ?l)%list with l in Hg.
    rewrite split_path_single in Hg
      by (apply dataset_name_no_slash || discriminate).
    destruct g as [p|p d]; [cbn in Hg; congruence|discriminate]. }
  subst g.
  assert (Hnames : List.filter (is_infix "data") ks
                   = map quantity_name (upto (length (written_planes self i)))).
  { eapply keys_filter; [exact Hks| |].
    - apply (numbered_names_sorted "data"); [right; reflexivity|].
      pose proof (length_written_planes i). lia.
    - intros x. symmetry. apply (sweep_members self Hcanon f Hrun i x Hi). }
  rewrite Hnames in Hfold.
  destruct (read_quantities_exported i _ _ Hi Hfold) as (Hl1 & Hl2 & Hq).
  cbn [fst snd] in Hl1, Hl2, Hq. subst l1.
  exists dg_where, l2. auto 10.
Qed.


Lemma all_names_step (k : nat) (allq allq' : list pyval) :
  all_names self k allq ->
  names_added self k (length (written_planes self k)) allq allq' ->
  all_names self (S k) allq'.
Proof.
  intros [Ha1 Ha2] (Hn1 & Hn2 & Hn3). split.
  - intros q Hq. destruct (Hn2 q Hq) as [Hq0|(j & Hj & ->)].
    + destruct (Ha1 q Hq0) as (i & j & Hi & Hj & ->). exists i, j. split; [lia|auto].
    + exists k, j. split; [lia|auto].
  - intros i j Hi Hj. destruct (decide (i = k)) as [->|Hne].
    + exact (Hn3 j Hj).
    + destruct (Ha2 i j) as (q' & Hq' & Heq); [lia|exact Hj|].
      exists q'. split; [apply Hn1, Hq'|exact Heq].
Qed.

Lemma read_elevations_exported (acc : read_acc) :
  M <= 10 ->
  foldM (read_elevation f) (map dataset_name (arange1 N))
        (mk_read_acc [] [] [] [] [] [] 0 []) = Ok acc ->
  indexed (where_group_read self) (Z.to_nat (N - 1)) (gd_where_list acc)
  /\ indexed (planes_read self) (Z.to_nat (N - 1)) (gd_datadset_list_total acc)
  /\ indexed (what_groups_read self) (Z.to_nat (N - 1)) (gd_data_what_list_total acc)
  /\ all_names self (Z.to_nat (N - 1)) (allquantities acc).
Proof.
  intros HM H.
  pose proof (foldM_indexed (read_elevation f)
    (fun k (a : read_acc) =>
       indexed (where_group_read self) k (gd_where_list a)
       /\ indexed (planes_read self) k (gd_datadset_list_total a)
       /\ indexed (what_groups_read self) k (gd_data_what_list_total a)
       /\ all_names self k (allquantities a))
    (map dataset_name (arange1 N)) (mk_read_acc [] [] [] [] [] [] 0 []) acc) as Hfold.
  rewrite length_map, length_arange1 in Hfold.
  apply Hfold; [| |exact H]; clear Hfold H.
  - cbn [gd_where_list gd_datadset_list_total gd_data_what_list_total allquantities].
    split; [apply indexed_nil|]. split; [apply indexed_nil|].
    split; [apply indexed_nil|]. split.
    + intros q Hq. apply elem_of_nil in Hq. destruct Hq.
    + intros i j Hi. lia.
  - intros k x a a' Hx (Hw & Hd & Hws & Hq) Hstep.
    change (map ?g ?l) with (g <$> l) in Hx. rewrite list_lookup_fmap in Hx.
    destruct (arange1 N !! k) as [K|] eqn:HK; [|discriminate].
    injection Hx as <-. apply lookup_arange1 in HK as [-> Hk].
    destruct (read_elevation_exported k a a' Hk HM Hstep)
      as (w' & ws' & Hw' & -> & -> & -> & Hws' & Hq').
    split; [apply indexed_snoc; assumption|].
    split; [apply indexed_snoc; [assumption|reflexivity]|].
    split; [apply indexed_snoc; assumption|].
    eapply all_names_step; eassumption.
Qed.

End ReadBack.

Lemma setistance_Ok old rw rwh rh n m ws whs hrs hps ds dws (self : OdimHierarchyPvol) :
  setistance old rw rwh rh n m ws whs hrs hps ds dws = Ok self ->
  n_group_dataset self = n
  /\ datasets self = ds
  /\ group_datasets_data_what self = dws
  /\ varsnames self = old
  /\ mapM (fun i => w ← getitem whs i; getattr w "elangle") (range n)
     = Ok (elangles self).
Proof.
  unfold setistance.
  destruct (negb _); [discriminate|]. destruct (negb _); [discriminate|].
  intros H. apply rbind_Ok in H as (es & Hes & [= <-]). cbn. auto.
Qed.

Section RoundTrip.

Variable self : OdimHierarchyPvol.
Hypothesis Hcanon : canonical self.
Variable f : h5file.
Hypothesis Hrun : export_odim self = (f, Ok tt).
Hypothesis HN : n_group_dataset self <= 10.
Hypothesis HM : n_datasets self <= 10.

Let n := Z.to_nat (n_group_dataset self - 1).

Lemma read_odim_exported (back : OdimHierarchyPvol) :
  read_odim f = Ok back ->
  n_group_dataset back = Z.of_nat n
  /\ indexed (fun i e => exists w, group_datasets_where self !! i = Some w
                          /\ e = read_back (struct_getitem w "elangle"))
             n (elangles back)
  /\ indexed (planes_read self) n (datasets back)
  /\ indexed (what_groups_read self) n (group_datasets_data_what back)
  /\ exists vs, varsnames back = Some vs /\ all_names self n vs.
Proof.
  intros H. unfold read_odim in H.
  do 18 (apply rbind_Ok in H as (? & _ & H)).
  apply rbind_Ok in H as (ks & Hks & H).
  apply rbind_Ok in H as (acc & Hfold & H).
  apply rbind_Ok in H as (self' & Hset & [= <-]).
  assert (Hnames : List.filter (is_infix "dataset") ks
                   = map dataset_name (arange1 (n_group_dataset self))).
  { eapply keys_filter; [exact Hks| |].
    - rewrite arange1_upto. apply (numbered_names_sorted "dataset"); [left; reflexivity|].
      lia.
    - intros y. symmetry. apply (root_members self Hcanon f Hrun y). }
  rewrite Hnames in Hfold, Hset.
  rewrite length_map, length_arange1 in Hset. fold n in Hset.
  destruct (read_elevations_exported self Hcanon f Hrun acc HM Hfold)
    as (Hw & Hd & Hws & Hq).
  fold n in Hw, Hd, Hws, Hq.
  apply setistance_Ok in Hset as (Hn & Hds & Hdws & _ & Hes).
  cbn [set_varsnames n_group_dataset elangles datasets group_datasets_data_what varsnames].
  rewrite Hn, Hds, Hdws.
  split; [reflexivity|]. split; [|split; [exact Hd|split; [exact Hws|eauto]]].
  apply mapM_lookup in Hes as [Hlen Hall].
  unfold range in Hlen, Hall. rewrite length_seq, Nat2Z.id in Hlen.
  split; [exact Hlen|].
  intros i e He.
  assert (Hi : (i < n)%nat) by (rewrite <- Hlen; eapply lookup_lt_Some, He).
  destruct (Hall i i) as (e' & He' & Hlook).
  { rewrite Nat2Z.id. apply lookup_seq. split; [reflexivity|exact Hi]. }
  rewrite He in Hlook. injection Hlook as <-.
  apply rbind_Ok in He' as (w' & Hw' & He').
  apply getitem_Ok in Hw'. apply getattr_Ok in He'.
  destruct Hw as [_ Hw]. destruct (Hw i w' Hw') as (o & Ho & Hel).
  exists o. split; [exact Ho|]. congruence.
Qed.

End RoundTrip.

Lemma as_scalar_read_raw (pv : pyval) (x : float) :
  as_scalar (read_raw pv) = Ok x -> as_scalar pv = Ok x.
Proof. destruct pv; cbn [read_raw]; try discriminate; exact (fun H => H). Qed.

Lemma what_read_back_gain (i j : nat) (o : obj) :
  what_read_back i j o !! "gain" = Some (read_raw (struct_getitem o "gain")).
Proof. vm_compute. reflexivity. Qed.

Lemma what_read_back_offset (i j : nat) (o : obj) :
  what_read_back i j o !! "offset" = Some (read_raw (struct_getitem o "offset")).
Proof. vm_compute. reflexivity. Qed.

Lemma what_read_back_quantity (i j : nat) (o : obj) :
  what_read_back i j o !! "quantity" = Some (read_back (struct_getitem o "quantity")).
Proof. vm_compute. reflexivity. Qed.

(** ** Reading the exported file does not raise *)

Lemma foldM_total {A B} (f : B -> A -> result B) (I : nat -> B -> Prop)
      (xs : list A) (acc : B) :
  I 0%nat acc ->
  (forall k x a, xs !! k = Some x -> I k a -> exists a', f a x = Ok a' /\ I (S k) a') ->
  exists out, foldM f xs acc = Ok out /\ I (length xs) out.
Proof.
  revert I acc. induction xs as [|x xs IH]; intros I acc H0 Hstep.
  - exists acc. split; [reflexivity|exact H0].
  - destruct (Hstep 0%nat x acc eq_refl H0) as (a' & Ha' & HI).
    destruct (IH (fun k => I (S k)) a' HI) as (out & Hout & HIout).
    { intros k y a Hy. exact (Hstep (S k) y a Hy). }
    exists out. split; [|exact HIout].
    cbn [foldM]. rewrite Ha'. exact Hout.
Qed.

Lemma mapM_total {A B} (f : A -> result B) (xs : list A) :
  (forall x, x ∈ xs -> is_ok (f x)) -> is_ok (mapM f xs).
Proof.
  induction xs as [|x xs IH]; intros H; [exact I|].
  cbn [mapM]. pose proof (H x ltac:(left)) as Hx.
  destruct (f x) as [y|]; [|destruct Hx]. cbn [mbind result_bind rbind].
  assert (Hxs : is_ok (mapM f xs)) by (apply IH; intros z Hz; apply H; right; exact Hz).
  destruct (mapM f xs); [exact I|destruct Hxs].
Qed.

Lemma shape_nd_map (g : float -> float) (a : ndarray) : shape (nd_map g a) = shape a.
Proof.
  destruct a as [xs|xss]; cbn; [rewrite length_map; reflexivity|].
  rewrite length_map. destruct xss as [|r rs]; [reflexivity|].
  cbn. rewrite length_map. reflexivity.
Qed.

Lemma get_attrs_from_odimgroup_total
      (L : list string) (hr : h5file) (g : h5obj) (cont : obj) :
  (forall a w s, find_attr hr (obj_path g) a = Some (HBytes w s) ->
                 is_ascii (rstrip_nul s) = true) ->
  exists out, get_attrs_from_odimgroup L hr g cont = Ok out.
Proof.
  intros Hascii. unfold get_attrs_from_odimgroup.
  revert cont. induction L as [|att L IH]; intros cont; [eauto|].
  cbn [foldM]. unfold attrs_contains, attrs_getitem.
  destruct (find_attr hr (obj_path g) att) as [v|] eqn:Hv.
  - rewrite bool_decide_eq_true_2 by eauto. cbn [mbind result_bind rbind].
    destruct v as [w s| | | |]; cbn [pyval_of_h5 mbind result_bind rbind]; try apply IH.
    unfold decode. rewrite (Hascii att w s Hv). cbn [mbind result_bind rbind]. apply IH.
  - rewrite bool_decide_eq_false_2 by (intros [? ?]; discriminate).
    cbn [mbind result_bind rbind]. apply IH.
Qed.

Lemma py_in_strings_total (q : string) (allq : list pyval) :
  Forall (fun v => exists s, v = PStr s) allq ->
  exists b, py_in (PStr q) allq = Ok b.
Proof.
  induction 1 as [|v allq (s & ->) _ IH]; [cbn; eauto|].
  cbn. destruct (String.eqb s q); [eauto|exact IH].
Qed.

Section Readable.

Variable self : OdimHierarchyPvol.
Hypothesis Hcanon : canonical self.
Variable f : h5file.
Hypothesis Hrun : export_odim self = (f, Ok tt).
Hypothesis Hreadable : readable self.

Let N := n_group_dataset self.
Let M := n_datasets self.

Lemma no_dataset_short (p : path) :
  (length p < 3)%nat \/ p !! 2%nat = Some "what" -> find_dataset f p = None.
Proof.
  intros Hp. destruct (find_dataset f p) as [d|] eqn:Hd; [|reflexivity].
  apply find_dataset_elem in Hd.
  destruct (export_odim_datasets self f _ p d Hrun Hd)
    as (i & j & planes & a & _ & _ & _ & _ & -> & _).
  destruct Hp as [Hp|Hp]; [cbn in Hp; lia|discriminate Hp].
Qed.

Lemma is_group_elem (p q : path) :
  p <> [] -> MkGroup q ∈ f -> is_prefix p q = true -> is_group f p = true.
Proof.
  intros Hne Hin Hpre. unfold is_group. destruct p as [|x p]; [congruence|].
  apply existsb_exists. exists (MkGroup q). split; [apply list_elem_of_In, Hin|exact Hpre].
Qed.

(** The group of a place is found at its name. *)
Lemma getitem_h5_role (r : role) (o : obj) :
  role_exported self r -> role_obj self r = Some o -> group_created f o ->
  getitem_h5 f [] (role_name r) = Ok (Group (role_path r)).
Proof.
  intros Hr Ho (h & Hh & Hin).
  rewrite (Hcanon r o Hr Ho) in Hh. injection Hh as <-.
  rewrite split_path_role_name in Hin.
  unfold getitem_h5. change ([] ++ ?l)%list with l. rewrite split_path_role_name.
  rewrite no_dataset_short by (destruct r; cbn; auto).
  rewrite (is_group_elem (role_path r) (role_path r)); [reflexivity| |exact Hin|].
  - destruct r; discriminate.
  - apply is_prefix_refl.
Qed.

(** A byte string of the file decodes. *)
Lemma exported_bytes_ascii (p : path) (a : string) (w : nat) (s : string) :
  find_attr f p a = Some (HBytes w s) -> is_ascii (rstrip_nul s) = true.
Proof.
  intros Hfind. apply find_attr_elem in Hfind.
  destruct (attr_op_role self Hcanon f Hrun _ _ _ Hfind)
    as (r & o & pv & Hr & Ho & _ & Hpv & _ & Hst).
  apply is_ascii_rstrip_nul.
  destruct (stored_ascii _ _ _ Hst) as [(n & ->)|[-> Hs]]; [|exact Hs].
  destruct Hreadable as (_ & _ & Hbytes & _). exact (Hbytes r o a n s Hr Ho Hpv).
Qed.

Lemma get_attrs_exported_total (L : list string) (g : h5obj) (cont : obj) :
  exists out, get_attrs_from_odimgroup L f g cont = Ok out.
Proof.
  apply get_attrs_from_odimgroup_total. intros a w s. apply exported_bytes_ascii.
Qed.

(** An attribute of a group that is set on the instance is read. *)
Lemma attrs_getitem_role (r : role) (o : obj) (L : list string) (a : string) :
  role_exported self r -> role_obj self r = Some o ->
  attrs_written f o L -> a ∈ L ->
  struct_getitem o a <> PNone ->
  exists v, find_attr f (role_path r) a = Some v
            /\ attrs_getitem f (role_path r) a = Ok (pyval_of_h5 v).
Proof.
  intros Hr Ho Hw Ha Hne. unfold struct_getitem in Hne.
  destruct (o !! a) as [pv|] eqn:Hpv; [|congruence].
  destruct (find_attr_written self Hcanon f r o _ a pv Hr Ho Hw Ha Hpv Hne) as (v & Hv).
  exists v. split; [exact Hv|]. unfold attrs_getitem. rewrite Hv. reflexivity.
Qed.


Lemma read_quantity_total (i j : nat) (a : ndarray)
      (l1 : list ndarray) (l2 : list obj) (allq : list pyval) :
  Z.of_nat i + 1 <= N - 1 ->
  written_planes self i !! j = Some a ->
  Forall is_text allq ->
  exists acc', read_quantity f (dataset_name (Z.of_nat i + 1)) (l1, l2, allq)
                             (quantity_name (Z.of_nat j + 1)) = Ok acc'
               /\ Forall is_text acc'.2.
Proof.
  intros Hi Ha Hallq.
  destruct Hreadable as (_ & _ & _ & Hwhat & _).
  destruct (Hwhat i j a Hi Ha) as (o & Ho & (sq & Hsq) & Hset).
  pose proof Ha as Ha'.
  apply lookup_written_planes in Ha' as (Hj & planes & Hp & Hpa).
  destruct (export_odim_Ok self f Hrun) as (_ & _ & _ & Hall).
  destruct (Hall i Hi) as (_ & _ & _ & _ & Hq).
  destruct (Hq j Hj planes a Hp Hpa) as [Hin Hws].
  assert (Hr : role_exported self (QuantityWhat i j)).
  { split; [exact Hi|]. split; [exact Hj|]. exists planes. split; [exact Hp|].
    eapply lookup_lt_Some, Hpa. }
  cbn [role_obj] in Ho.
  destruct (group_datasets_data_what self !! i) as [ws|] eqn:Hwsi; [|discriminate].
  cbn in Ho.
  destruct (Hws ws o eq_refl Ho) as [Hg Hw].
  assert (Ho' : role_obj self (QuantityWhat i j) = Some o)
    by (cbn [role_obj]; rewrite Hwsi; exact Ho).
  unfold read_quantity.
  (* the array *)
  assert (Hdata : getitem_h5 f [] (dataset_name (Z.of_nat i + 1) ++ "/"
                                   ++ quantity_name (Z.of_nat j + 1) ++ "/data")
                  = Ok (Dataset [dataset_name (Z.of_nat i + 1);
                                 quantity_name (Z.of_nat j + 1); "data"]
                                (nd_map to_f32 a))).
  { unfold getitem_h5. change ([] ++ ?l)%list with l.
    change (dataset_name (Z.of_nat i + 1) ++ "/" ++ quantity_name (Z.of_nat j + 1) ++ "/data")
      with (dataset_name (Z.of_nat i + 1)
            ++ String "/" (quantity_name (Z.of_nat j + 1) ++ String "/" "data")).
    rewrite split_path_dataset_name, split_path_quantity_name.
    change (split_path "data") with ["data"].
    pose proof (export_odim_find_dataset self f _ i j planes a Hrun Hp Hpa Hin) as Hfd.
    rewrite split_path_data_name in Hfd. rewrite Hfd. reflexivity. }
  rewrite Hdata. cbn [mbind result_bind rbind read_all].
  (* the what-group *)
  change (dataset_name (Z.of_nat i + 1) ++ "/" ++ quantity_name (Z.of_nat j + 1) ++ "/what")
    with (role_name (QuantityWhat i j)).
  rewrite (getitem_h5_role _ o Hr Ho' Hg). cbn [mbind result_bind rbind obj_path].
  assert (Hattr : forall att, att ∈ attrs_data_what -> struct_getitem o att <> PNone ->
            exists v, find_attr f (role_path (QuantityWhat i j)) att = Some v
                      /\ attrs_getitem f (role_path (QuantityWhat i j)) att
                         = Ok (pyval_of_h5 v)).
  { intros att Hatt Hne. eapply attrs_getitem_role; eassumption. }
  assert (Hin_attrs : forall att, att ∈ ["quantity"; "gain"; "offset"; "nodata"; "undetect"] ->
            att ∈ attrs_data_what).
  { intros att Hatt. apply list_elem_of_In. apply list_elem_of_In in Hatt.
    cbn in *. tauto. }
  destruct (Hattr "quantity") as (vq & Hvq & ->).
  { apply Hin_attrs. left. }
  { unfold struct_getitem. rewrite Hsq. discriminate. }
  cbn [mbind result_bind rbind].
  destruct (find_attr_exported self Hcanon f Hrun (QuantityWhat i j) _ vq eq_refl Hvq)
    as (o2 & pv & _ & Ho2 & Hpv & _ & Hst).
  rewrite Ho' in Ho2. injection Ho2 as <-. rewrite Hsq in Hpv. injection Hpv as <-.
  apply is_ascii_np_bytes in Hst as [Hascii ->]. cbn [pyval_of_h5].
  unfold decode. rewrite (is_ascii_rstrip_nul _ Hascii). cbn [mbind result_bind rbind].
  destruct (Hattr "gain") as (vg & _ & ->).
  { apply Hin_attrs. right. left. }
  { apply Hset. left. }
  cbn [mbind result_bind rbind].
  destruct (Hattr "offset") as (vo & _ & ->).
  { apply Hin_attrs. right. right. left. }
  { apply Hset. right. left. }
  cbn [mbind result_bind rbind].
  destruct (Hattr "nodata") as (vn & _ & ->).
  { apply Hin_attrs. right. right. right. left. }
  { apply Hset. right. right. left. }
  cbn [mbind result_bind rbind].
  destruct (Hattr "undetect") as (vu & _ & ->).
  { apply Hin_attrs. right. right. right. right. left. }
  { apply Hset. right. right. right. left. }
  cbn [mbind result_bind rbind].
  destruct (py_in_strings_total (rstrip_nul sq) allq Hallq) as (b & ->).
  cbn [mbind result_bind rbind].
  eexists. split; [reflexivity|]. cbn [snd].
  destruct b; [exact Hallq|].
  apply Forall_app. split; [exact Hallq|]. constructor; [|constructor].
  eexists. reflexivity.
Qed.


(** The how-group of an elevation has no member. *)
Lemma how_keys_empty (i : nat) :
  keys f (Group [dataset_name (Z.of_nat i + 1); "how"]) = Ok [].
Proof.
  cbn [keys]. f_equal.
  match goal with |- fold_right _ _ ?l = _ => assert (Hnil : l = []) end.
  { apply elem_of_nil_inv. intros x Hx. apply list_elem_of_omap in Hx as (op & Hop & Hx).
    destruct (op_object op) as [q|] eqn:Hq; [|discriminate].
    assert (Hx' : (if is_prefix [dataset_name (Z.of_nat i + 1); "how"] q
                   then q !! 2%nat else None) = Some x) by exact Hx.
    clear Hx. rename Hx' into Hx.
    destruct (is_prefix [dataset_name (Z.of_nat i + 1); "how"] q) eqn:Hpre;
      [|discriminate].
    assert (Hq2 : exists J, q !! 1%nat = Some (quantity_name J)).
    { destruct op as [q'|q' d|]; try discriminate; injection Hq as ->.
      - destruct (group_op_role self Hcanon f Hrun _ Hop) as (r & _ & ->).
        destruct r; try discriminate Hx. eexists. reflexivity.
      - destruct (export_odim_datasets self f _ _ _ Hrun Hop)
          as (i' & j & ? & ? & _ & _ & _ & _ & -> & _). eexists. reflexivity. }
    destruct Hq2 as (J & HJ).
    destruct q as [|q0 [|q1 q]]; try discriminate.
    cbn in HJ. injection HJ as ->.
    cbn [is_prefix] in Hpre. apply andb_true_iff in Hpre as [_ Hpre].
    apply andb_true_iff in Hpre as [Hpre _]. apply String.eqb_eq in Hpre.
    symmetry in Hpre. revert Hpre. apply quantity_name_not_group. auto. }
  rewrite Hnil. reflexivity.
Qed.

Lemma read_how_polar_total (i : nat) (o : obj) (out : obj) (att : string) :
  Z.of_nat i + 1 <= N - 1 ->
  group_datasets_how_polar self !! i = Some o -> group_created f o ->
  exists out', read_how_polar f (dataset_name (Z.of_nat i + 1)) out att = Ok out'.
Proof.
  intros Hi Ho Hg. unfold read_how_polar.
  change (dataset_name (Z.of_nat i + 1) ++ "/how") with (role_name (SweepHowPolar i)).
  rewrite (getitem_h5_role (SweepHowPolar i) o Hi Ho Hg).
  cbn [mbind result_bind rbind obj_path]. unfold attrs_getitem.
  destruct (find_attr f (role_path (SweepHowPolar i)) att) as [v|];
    cbn [mbind result_bind rbind]; [eauto|].
  change (catches [KeyError] KeyError) with true. cbn iota.
  cbn [role_path]. rewrite how_keys_empty. cbn [mbind result_bind rbind existsb].
  eauto.
Qed.

Lemma getitem_h5_dataset_group (i : nat) :
  Z.of_nat i + 1 <= N - 1 ->
  getitem_h5 f [] (dataset_name (Z.of_nat i + 1))
  = Ok (Group [dataset_name (Z.of_nat i + 1)]).
Proof.
  intros Hi. unfold getitem_h5. change ([] ++ ?l)%list with l.
  rewrite split_path_single by (apply dataset_name_no_slash || discriminate).
  rewrite no_dataset_short by (left; cbn; lia).
  destruct (export_odim_Ok self f Hrun) as (_ & _ & _ & Hall).
  destruct (Hall i Hi) as ((o & Ho & (h & Hh & Hin) & _) & _).
  assert (Hh' : h = role_name (SweepWhat i)).
  { pose proof (Hcanon (SweepWhat i) o Hi Ho). congruence. }
  rewrite Hh', split_path_role_name in Hin.
  rewrite (is_group_elem [dataset_name (Z.of_nat i + 1)] _ ltac:(discriminate) Hin);
    [reflexivity|].
  cbn [role_path is_prefix]. rewrite String.eqb_refl. reflexivity.
Qed.

Lemma read_elevation_total (i : nat) (acc : read_acc) :
  Z.of_nat i + 1 <= N - 1 -> M <= 10 ->
  Forall is_text (allquantities acc) ->
  exists acc', read_elevation f acc (dataset_name (Z.of_nat i + 1)) = Ok acc'
               /\ Forall is_text (allquantities acc').
Proof.
  intros Hi HM Hallq.
  destruct (export_odim_Ok self f Hrun) as (_ & _ & _ & Hall).
  destruct (Hall i Hi) as ((o1 & Ho1 & G1 & _) & (o2 & Ho2 & G2 & _)
                           & (o3 & Ho3 & G3 & _) & _).
  unfold read_elevation.
  change (dataset_name (Z.of_nat i + 1) ++ "/what") with (role_name (SweepWhat i)).
  change (dataset_name (Z.of_nat i + 1) ++ "/where") with (role_name (SweepWhere i)).
  change (dataset_name (Z.of_nat i + 1) ++ "/how") with (role_name (SweepHowPolar i)).
  rewrite (getitem_h5_role (SweepWhat i) o1 Hi Ho1 G1). cbn [mbind result_bind rbind].
  destruct (get_attrs_exported_total attrs_dset_what (Group (role_path (SweepWhat i)))
              (OdimWhatDset_default (role_name (SweepWhat i)))) as (dg_what & ->).
  cbn [mbind result_bind rbind].
  rewrite (getitem_h5_role (SweepWhere i) o2 Hi Ho2 G2). cbn [mbind result_bind rbind].
  destruct (get_attrs_exported_total attrs_dset_where (Group (role_path (SweepWhere i)))
              (OdimWherePolarDset (role_name (SweepWhere i))
                                  PNone PNone PNone PNone PNone PNone))
    as (dg_where & ->).
  cbn [mbind result_bind rbind].
  rewrite (getitem_h5_role (SweepHowPolar i) o3 Hi Ho3 G3). cbn [mbind result_bind rbind].
  destruct (get_attrs_exported_total attrs_how_radar (Group (role_path (SweepHowPolar i)))
              (OdimHowRadarDset (role_name (SweepHowPolar i)))) as (dg_how_radar & ->).
  cbn [mbind result_bind rbind].
  destruct (foldM_total (read_how_polar f (dataset_name (Z.of_nat i + 1)))
              (fun _ _ => True) attrs_how_polar
              (OdimHowPolarDset (role_name (SweepHowPolar i))) I)
    as (dg_how_polar & -> & _).
  { intros k att a _ _.
    destruct (read_how_polar_total i o3 a att Hi Ho3 G3) as (out' & ->). eauto. }
  cbn [mbind result_bind rbind].
  rewrite (getitem_h5_dataset_group i Hi). cbn [mbind result_bind rbind].
  destruct (keys f (Group [dataset_name (Z.of_nat i + 1)])) as [ks|] eqn:Hks;
    [|discriminate Hks].
  cbn [mbind result_bind rbind].
  assert (Hnames : List.filter (is_infix "data") ks
                   = map quantity_name (upto (length (written_planes self i)))).
  { eapply keys_filter; [exact Hks| |].
    - apply (numbered_names_sorted "data"); [right; reflexivity|].
      pose proof (length_written_planes self i). fold M in H. lia.
    - intros x. symmetry. apply (sweep_members self Hcanon f Hrun i x Hi). }
  rewrite Hnames.
  destruct (foldM_total (read_quantity f (dataset_name (Z.of_nat i + 1)))
              (fun _ (a : list ndarray * list obj * list pyval) => Forall is_text a.2)
              (map quantity_name (upto (length (written_planes self i))))
              ([], [], allquantities acc) Hallq)
    as ([[l1 l2] allq] & Hfold & Htext).
  { intros k x [[l1 l2] allq] Hx Ha. cbn [snd] in Ha.
    change (map ?g ?l) with (g <$> l) in Hx. rewrite list_lookup_fmap in Hx.
    destruct (upto (length (written_planes self i)) !! k) as [J|] eqn:HJ; [|discriminate].
    injection Hx as <-.
    assert (Hk : (k < length (written_planes self i))%nat).
    { apply lookup_lt_Some in HJ. rewrite length_upto in HJ. exact HJ. }
    rewrite (lookup_upto _ _ Hk) in HJ. injection HJ as <-.
    destruct (lookup_lt_is_Some_2 (written_planes self i) k Hk) as (a & Ha').
    exact (read_quantity_total i k a l1 l2 allq Hi Ha' Ha). }
  rewrite Hfold. cbn [mbind result_bind rbind].
  destruct (read_quantities_exported self Hcanon f Hrun i _ _ Hi Hfold) as (Hl1 & _ & _).
  cbn [fst] in Hl1. subst l1.
  assert (Hstack : vstack (map (nd_map to_f32) (written_planes self i))
                   = Ok (map (nd_map to_f32) (written_planes self i))).
  { destruct Hreadable as (_ & _ & _ & _ & Hshape).
    destruct (Hshape i Hi) as [Hne Hsame].
    unfold vstack. destruct (written_planes self i) as [|d ds] eqn:Hwp; [congruence|].
    cbn [map].
    match goal with |- (if ?b then _ else _) = _ => assert (Hb : b = true) end.
    { apply forallb_forall. intros d' Hd'. apply bool_decide_eq_true.
      change (In d' (map (nd_map to_f32) (d :: ds))) in Hd'.
      apply in_map_iff in Hd' as (d0 & <- & Hd0).
      rewrite !shape_nd_map. apply Hsame; [apply list_elem_of_In, Hd0|left]. }
    rewrite Hb. reflexivity. }
  rewrite Hstack. cbn [mbind result_bind rbind].
  eexists. split; [reflexivity|]. cbn [allquantities snd] in *. exact Htext.
Qed.


Lemma root_what_attr_total (a : string) :
  a ∈ attrs_root_what ->
  exists s, (attrs_getitem f ["what"] a ≫= decode_attr) = Ok (PStr s).
Proof.
  intros Ha.
  destruct Hreadable as (Hwhat & _).
  destruct (Hwhat a Ha) as (s & Hs).
  destruct (export_odim_Ok self f Hrun) as ((_ & Hw) & _).
  destruct (attrs_getitem_role RootWhat (root_what self) attrs_root_what a
              I eq_refl Hw Ha) as (v & Hv & Hget).
  { unfold struct_getitem. rewrite Hs. discriminate. }
  cbn [role_path] in Hv, Hget. rewrite Hget. cbn [mbind result_bind rbind].
  destruct (find_attr_exported self Hcanon f Hrun RootWhat a v eq_refl Hv)
    as (o & pv & _ & Ho & Hpv & _ & Hst).
  injection Ho as <-. rewrite Hs in Hpv. injection Hpv as <-.
  apply is_ascii_np_bytes in Hst as [Hascii ->]. cbn [pyval_of_h5 decode_attr].
  unfold decode. rewrite (is_ascii_rstrip_nul _ Hascii). cbn [mbind result_bind rbind].
  eauto.
Qed.

Lemma root_where_attr_total (a : string) :
  a ∈ attrs_root_where -> exists v, attrs_getitem f ["where"] a = Ok v.
Proof.
  intros Ha.
  destruct Hreadable as (_ & Hwhere & _).
  destruct (export_odim_Ok self f Hrun) as (_ & (_ & Hw) & _).
  destruct (attrs_getitem_role RootWhere (root_where self) attrs_root_where a
              I eq_refl Hw Ha (Hwhere a Ha)) as (v & _ & Hget).
  eauto.
Qed.

(** When the volume is readable, [read_odim] reads the file of its
    export. *)
Lemma read_odim_total : N <= 10 -> M <= 10 -> is_ok (read_odim f).
Proof.
  intros HN HM.
  destruct (export_odim_Ok self f Hrun) as ((G1 & _) & (G2 & _) & (G3 & _) & _).
  pose proof (getitem_h5_role RootWhat (root_what self) I eq_refl G1) as Hwhat.
  pose proof (getitem_h5_role RootWhere (root_where self) I eq_refl G2) as Hwhere.
  pose proof (getitem_h5_role RootHow (root_how self) I eq_refl G3) as Hhow.
  cbn [role_name role_path] in Hwhat, Hwhere, Hhow.
  assert (Hin : forall (a : string) (L : list string), In a L -> a ∈ L)
    by (intros a L; apply list_elem_of_In).
  unfold read_odim.
  rewrite Hwhat. cbn [mbind result_bind rbind obj_path].
  destruct (root_what_attr_total "object") as (s1 & H1);
    [apply Hin; cbn; tauto|].
  destruct (root_what_attr_total "version") as (s2 & H2);
    [apply Hin; cbn; tauto|].
  destruct (root_what_attr_total "date") as (s3 & H3);
    [apply Hin; cbn; tauto|].
  destruct (root_what_attr_total "time") as (s4 & H4);
    [apply Hin; cbn; tauto|].
  destruct (root_what_attr_total "source") as (s5 & H5);
    [apply Hin; cbn; tauto|].
  rewrite H1. cbn [mbind result_bind rbind]. rewrite H2. cbn [mbind result_bind rbind]. rewrite H3. cbn [mbind result_bind rbind].
  rewrite H4. cbn [mbind result_bind rbind]. rewrite H5. cbn [mbind result_bind rbind].
  rewrite Hwhere. cbn [mbind result_bind rbind obj_path].
  destruct (root_where_attr_total "lon") as (v1 & ->); [apply Hin; cbn; tauto|].
  cbn [mbind result_bind rbind].
  destruct (root_where_attr_total "lat") as (v2 & ->); [apply Hin; cbn; tauto|].
  cbn [mbind result_bind rbind].
  destruct (root_where_attr_total "height") as (v3 & ->); [apply Hin; cbn; tauto|].
  cbn [mbind result_bind rbind].
  rewrite Hhow. cbn [mbind result_bind rbind].
  destruct (get_attrs_exported_total attrs_root_how (Group ["how"]) (OdimHow "how"))
    as (how_root & ->).
  cbn [mbind result_bind rbind].
  destruct (keys f (Group [])) as [ks|] eqn:Hks; [|discriminate Hks].
  cbn [mbind result_bind rbind].
  assert (Hnames : List.filter (is_infix "dataset") ks
                   = map dataset_name (arange1 N)).
  { eapply keys_filter; [exact Hks| |].
    - rewrite arange1_upto. apply (numbered_names_sorted "dataset"); [left; reflexivity|].
      lia.
    - intros y. symmetry. apply (root_members self Hcanon f Hrun y). }
  rewrite Hnames.
  destruct (foldM_total (read_elevation f)
              (fun _ (a : read_acc) => Forall is_text (allquantities a))
              (map dataset_name (arange1 N))
              (mk_read_acc [] [] [] [] [] [] 0 []) (List.Forall_nil _))
    as (acc & Hfold & _).
  { intros k x a Hx Ha.
    change (map ?g ?l) with (g <$> l) in Hx. rewrite list_lookup_fmap in Hx.
    destruct (arange1 N !! k) as [K|] eqn:HK; [|discriminate].
    injection Hx as <-. apply lookup_arange1 in HK as [-> Hk].
    exact (read_elevation_total k a Hk HM Ha). }
  rewrite Hfold. cbn [mbind result_bind rbind].
  destruct (read_elevations_exported self Hcanon f Hrun acc HM Hfold)
    as ([Hwl Hw] & [Hdl _] & [Hwsl _] & _).
  rewrite length_map, length_arange1.
  unfold setistance.
  rewrite Hdl, Hwsl, Z.eqb_refl. cbn [negb mbind result_bind rbind].
  match goal with
  | |- context [mapM ?g ?l] => assert (Hes : is_ok (mapM g l))
  end.
  { apply mapM_total. intros i Hi. unfold range in Hi.
    rewrite Nat2Z.id in Hi. apply elem_of_seq in Hi.
    destruct (lookup_lt_is_Some_2 (gd_where_list acc) i) as (w' & Hw'); [lia|].
    rewrite (proj2 (getitem_Ok _ _ _) Hw'). cbn [mbind result_bind rbind].
    destruct (Hw i w' Hw') as (o & _ & He).
    rewrite (proj2 (getattr_Ok _ _ _) He). exact I. }
  match goal with
  | |- context [mapM ?g ?l] => destruct (mapM g l); [exact I|destruct Hes]
  end.
Qed.

End Readable.

(** The volume of the example is readable. *)
Lemma no_bytes_lookup (o : obj) (a : string) (n : nat) (s : string) :
  no_bytes o = true -> o !! a <> Some (PBytes n s).
Proof.
  unfold no_bytes. rewrite forallb_forall. intros H Ha.
  apply elem_of_map_to_list, list_elem_of_In in Ha. apply H in Ha. discriminate Ha.
Qed.

Ltac role_cases r Hr :=
  destruct r as [| | |i|i|i|i|i j]; cbn [role_exported] in Hr;
  [ | |
  | destruct i as [|[|i]]; [| |cbn in Hr; lia]
  | destruct i as [|[|i]]; [| |cbn in Hr; lia]
  | destruct i as [|[|i]]; [| |cbn in Hr; lia]
  | destruct i as [|[|i]]; [| |cbn in Hr; lia]
  | let Hi := fresh "Hi" in
    let Hj := fresh "Hj" in
    destruct Hr as (Hi & Hj & _);
    destruct i as [|[|i]]; [| |cbn in Hi; lia];
    (destruct j as [|[|j]]; [| |cbn in Hj; lia]) ].

Ltac no_bytes_at Ho Ha :=
  apply (f_equal (fun x => match x with
                           | Some o' => no_bytes o'
                           | None => false
                           end)) in Ho;
  cbn beta iota in Ho;
  exfalso; refine (no_bytes_lookup _ _ _ _ _ Ha);
  rewrite <- Ho; vm_compute; reflexivity.

Ltac elem_cases H :=
  repeat (apply elem_of_cons in H as [->|H]);
  try (apply elem_of_nil in H; destruct H).

Ltac readable_three :=
  split; [|split; [|split; [|split]]];
  [ intros a Ha; elem_cases Ha; eexists; vm_compute; reflexivity
  | intros a Ha; elem_cases Ha; vm_compute; discriminate
  | intros r o a n s Hr Ho Ha; role_cases r Hr; no_bytes_at Ho Ha
  | intros i j a Hi Ha;
    destruct i as [|[|i]]; [| |cbn in Hi; lia];
    (destruct j as [|[|j]]; [| |vm_compute in Ha; discriminate Ha]);
    (eexists; split; [reflexivity|];
     split; [eexists; vm_compute; reflexivity|];
     intros att Hatt; elem_cases Hatt; vm_compute; discriminate)
  | intros i Hi;
    destruct i as [|[|i]]; [| |cbn in Hi; lia];
    (split; [vm_compute; discriminate|];
     intros a b Ha Hb; vm_compute in Ha, Hb; elem_cases Ha; elem_cases Hb; reflexivity) ].

Lemma three_sweeps_readable : readable Cases.three_sweeps.
Proof. readable_three. Qed.



